(* ===== verification/_CoqProject ===== *)
-Q . S2P
Prelude.v
Numerics.v
Mapper.v
Sampler.v
Bump.v
Compositor.v
Surface.v
RayMesh.v
Zones.v
Dicts.v
Placement.v
Machine.v
Soles.v
Metrics.v
Pipeline.v
Accuracy.v
RayTest.v
WebApp.v
Server.v
Cli.v
Startup.v
System.v
Concurrent.v
