(* ===== verification/Prelude.v ===== *)
(** * Verification of the reflexology-sole bump generator

    The program has three source files.  [src/generate_slippers.py] reads
    a triangulated shoe sole and a COCO annotation file of 2D zone
    polygons, samples every selected zone on a regular pixel grid, maps
    each grid point into the 3D frame of the sole, casts a vertical ray to
    find the top surface, puts a dome shaped bump there, and reports
    metrics.  [src/app.py] is a web front end that validates a request
    and starts the generator as a process; the two share the directory of
    the application, in which the generator finds the sole and the
    annotations and leaves the files that the front end then sends.
    [src/test.py] is a stand-alone check of the ray casting.

    ** Numbers

    The program computes with IEEE doubles.  The development computes with
    exact rationals ([Q], equality [==]): every arithmetic expression of the
    source is translated operator by operator, and what is proved is proved
    of the exact value.  Rounding is not modelled.  Division by zero gives
    [0] in [Q] where numpy gives [inf] or [nan]; theorems that divide carry
    the hypothesis that the divisor is not zero ([frame_ok]).  Square roots
    and the trigonometric functions are not rational; they enter through
    the interfaces [SqrtOp] (file [Numerics]) and [TrigOps] (file [Bump]),
    whose laws hold of the mathematical functions, and each interface has
    an executable rational instance used by the concrete runs.  Python
    integers (counters, lengths) are [nat]; category identifiers are [Z];
    strings are [string] with ASCII case conversion.

    ** Library calls

    The program calls numpy, matplotlib and trimesh.  Their functions are
    modelled from their documented behaviour at the place of the call:
    [np.arange] ([np_arange], [ceil ((stop - start) / step)] points),
    [np.linspace], [np.min], [np.max], [np.argmax] (first greatest
    entry), [np.mean], [np.std], [Path.contains_point] ([contains_point],
    the even-odd crossing test, with the boundary rule that the test
    gives), and the ray query of the mesh.  The placement loop takes the
    query through an interface: the class [SoleMesh] holds the bounds and
    the intersection function, the class [SoleMeshOk] the two laws the
    clients need (an intersection of a vertical ray lies on the ray and
    within the bounds).  The interface has two instances: [tri_mesh]
    (file [RayMesh]), a triangle mesh with the bounding box of its
    vertices and the intersections of a vertical ray computed triangle by
    triangle, and [slab_mesh] (file [Surface]), an axis-parallel box that
    answers from its bounds, the sole of the scenarios of the
    specification.  Flask is modelled by what the four route decorators
    of [app.py] declare ([url_map] in file [Server]: paths, methods, the
    path parameter) and by the error responses the framework makes
    itself.  The parser of the command line is argparse, modelled in
    file [Cli] from the rules of [Lib/argparse.py] for the four
    arguments the script declares and the help option every parser has.
    File formats are the class [Codec] (file [System]):
    [trimesh.load_mesh], [json.load] and [Trimesh.export] as functions on
    the contents of files, with the law [CodecOk] that the two programs
    read the same categories in one annotation file.

    ** Files, in dependency order

    - [Prelude] (this file): boolean comparisons on [Q] in scope [pyq],
      the tactic [qcases], points with their component-wise equality, sums
      and counts on lists, the hint databases [pyq] and [pylen].
    - [Numerics]: [SqrtOp] and its fixed point instance, [norm2], [norm3],
      [np_mean], [np_std], percentages.
    - [Mapper]: the coordinate mapper, lines 70-80 ([origin_x],
      [origin_y], [x_scale], [y_scale], [map_2d_to_3d]), and the inverse
      of lines 238-239 ([unmap_3d_to_2d]).
    - [Sampler]: lines 172-181: [reshape_pairs], the bounding box
      [seg_bbox], the grid [grid_points] of two [np_arange], and the
      containment filter [valid_grid_points].
    - [Bump]: [create_ellipsoid_bump] (lines 82-99) as [dome_vertices] and
      [dome_faces], and the bump of lines 198-200 ([make_bump]).
    - [Compositor]: the concatenation of the pieces of line 250
      ([concatenate]), modelled from the description of the mesh
      compositor in the specification.
    - [Surface]: the ray of lines 184-187 ([cast_ray]) and the selection
      of lines 188-192 ([top_hit]).
    - [RayMesh]: the sole as a triangle mesh: [bounds_of] for
      [mesh.bounds] and [ray_hits] for [mesh.ray.intersects_location] on
      the vertical ray of line 187, with [triangle_hit] for one triangle.
    - [Zones]: the annotation data, the table [zone_name_to_ids] of lines
      53-59, the selection of lines 60-68 ([resolve]) with its fatal
      error, the name of a category ([zone_name_of], lines 160-167), and
      the colour table of lines 107-139.
    - [Dicts]: dictionaries of counters and the induction principles for
      loops written as [foldl].
    - [Placement]: the module level variables of lines 143-150 as the
      record [run_state]; the loop of lines 156-211 as [place_point],
      [scan_step], [scan_zone], [process_zone], [process_annotation] and
      [place_all]; its [try ... except] as early returns that keep what
      was written; the step relation [reachable] on run states.
    - [Machine]: the same loop one iteration at a time: a configuration
      is the run state with the loop variables ([control]), [next]
      computes an iteration, [loop_step] is the step relation with the
      branch taken as its label, [run_for] runs with fuel.
    - [Soles]: runs of the loop on two soles.
    - [Metrics]: lines 213-247: [success_rate], the positional error
      statistics, [bump_spacing], [placement_accuracy],
      [report_zone_bumps].
    - [Pipeline]: the whole run ([run_generator]): resolution, loop,
      metrics, concatenation and export, with its two fatal ends.
    - [Accuracy]: the mapping accuracy of lines 234-244 related to the
      run that recorded the locations.
    - [RayTest]: [test.py]: [load_coco_annotations], [ray_casting],
      [main].
    - [WebApp]: [app.py]: [load_valid_zone_keys], the handler
      [generate_slippers] with [map_areas], [command_line] and
      [run_script], and [get_available_zones].
    - [Server]: the rest of [app.py]: the configuration, the keys
      loaded when the module starts ([load_keys]), the start of the
      script ([app_main]), the routes ([url_map]), the three other view
      functions ([index], [get_stl], [available_zones]) and the
      application as a function from a request to a reply ([handle]).
    - [Cli]: lines 12-17: the parser.  [parse_optional] sorts one
      argument, [classify] the command line up to [--], [consume] reads
      it from the left into a [namespace], [conclude] checks what is
      required and what is left over; [parse_args] gives the arguments
      or the way the process ends instead ([Usage], [HelpPrinted]).
      [args_given] is the specification for command lines written in
      full.
    - [Startup]: lines 19-51 and 249-259: the values taken from the
      arguments, the names of the files ([output_file],
      [annotation_path], [stl_output]), the
      checks that end the run early and the two exports, composed with
      [run_generator] into the whole script [generator_main]; the file
      system is the record [files].
    - [System]: the two programs on one disk, a finite map from file
      names to contents.  [files_of] and [world_of] make the parameters
      of [Startup] and [WebApp] from the disk, [run_on] is a run of the
      generator with the files it writes, [run_command] the process of
      line 119 of [app.py] on the command line as [parse_args] reads
      it, [serve] one request with the disk it leaves
      and [serve_all] a sequence of requests.  [requested] is the
      specification of the route of the generator: the run of [Pipeline]
      a request asks for.
    - [Concurrent]: the same server with requests in threads, as
      [app.run] of line 173 serves them.  A request for the generator is
      split where others can come between: the handler up to the
      command ([WebApp.prepare]), the process with its two exports
      ([writes_of]) and the handler after the process ([answer]).
      [cstep] is one step of the server, [run_schedule] the server
      under a schedule.

    ** What the theorems show

    - [Mapper]: the inverse of the metrics code undoes [map_2d_to_3d] on a
      frame with non-zero scales; the image of the picture is the bounding
      box shifted by the margin, so its last 10 units leave the box.
    - [Sampler]: [np_arange] is half-open and stops at the last multiple
      of the step below the stop; a contained point lies in the bounding
      box and strictly above its lowest vertex; containment on rectangles
      in both orientations.
    - [Surface]: the selected hit is an intersection of greatest height,
      the first such, below the origin of the ray and within the bounds.
    - [RayMesh]: the triangle mesh keeps [SoleMeshOk]; every reported
      intersection is a point of a triangle, and every point of a
      triangle under the ray is reported, so the locator returns the
      highest surface point; a ray outside the footprint of the bounding
      box misses; for every box with an extent on each axis the
      triangulated box and the box that answers from its bounds locate
      the same surface.
    - [Bump]: a bump is a mesh of 200 vertices and 342 faces whose faces
      index existing vertices; it lies strictly above the hit.
    - [Zones]: the table holds exactly the ids of each lower-cased name;
      the fatal error is raised exactly when names were given and none
      matches; resolution does not depend on letter case.
    - [Placement]: by rule induction on [reachable], every run ends in a
      state that satisfies [run_inv]; the counters of a run are the sums
      of the pure per-annotation counts [ann_attempts] and [ann_bumps]
      (the loop refines the pure count); runs over disjoint selections
      add up; the error paths; positional errors are all zero on a mesh
      that keeps [SoleMeshOk].
    - [Machine]: by rule induction on [loop_step], the loop terminates
      ([steps_left] counts the iterations in advance and every step
      lowers it by one), the run from the start is the run of
      [place_all] and the only one, every step keeps the invariant and
      the counters are the counts of the events so far, and no grid
      point of a selected zone is left without its ray.
    - [Soles]: two soles with the same bounding box that are hit at the
      same positions give the same counters, so the runs on a box are
      runs on the triangulated box.
    - [Metrics]: the rates are percentages; the nearest-neighbour loop
      returns the least positive distance; the defaults for fewer than two
      bumps.
    - [Accuracy]: a run in which no zone has two annotations reports a
      mapping accuracy of 100 as soon as a bump is placed.
    - [Compositor] and [Pipeline]: the concatenation loop agrees with its
      reference and moves no triangle; the exported mesh is well formed
      and has 200 vertices and 342 faces per bump beside the sole; letter
      case does not change a run.
    - [RayTest]: [main] always reports that the zone is missing; the
      rays of the check start where the generator would, less the margin.
    - [WebApp]: when the handler starts the generator, with which command,
      and which status it answers with; the zones it sends all resolve in
      the generator.
    - [Server]: the status codes of the application; a 405 is always
      the framework's, so the handler's own is never given; a script
      that serves has read both configurations.
    - [Cli]: on command lines written in full the parser gives the last
      value of every option and the one run of zones, whatever the
      order, and refuses those without [--foot] or [--input]
      ([parse_args] implements [args_given]); a command line written for
      given arguments is read back as these arguments; whatever the
      command line, the foot of a parsed one is a choice and its zones
      are arguments; zones on both sides of the options are refused.
    - [Startup]: the outcome of the script on every branch, in the order
      of its checks; which files a run leaves; the generator reads the
      command line of the handler as the handler means it, and writes
      the file the handler then looks for.
    - [System]: when no zone key starts with a dash ([plain_keys]) the
      route of the generator implements [requested]: a request that
      asks for a run is answered with 200 and leaves the
      mesh of that run in the two files of its foot, every other one
      leaves the disk as it was; the address in the reply leads to that
      mesh; requests write the four generated files and nothing else
      ([same_inputs], an equivalence of disks that [boot], [requested]
      and [installed] respect), so an installation stays one and grants
      every request of the page in every sequence; serving a request twice changes nothing more; a
      later request for a foot replaces the mesh of an earlier one.
    - [Concurrent]: under the same assumption and by rule induction on
      [cstep], in every execution a request for the generator gets the reply of the sequential server,
      every file is an input as it was or a mesh some request asked for,
      and the requests in progress can always be brought to their
      replies; the sequential server is one of the schedules; under
      another schedule the two files of a foot come from different
      requests.
    - The scenarios of the specification are closed computations on the
      slab ([scenario_heart_counts], [scenario_unknown_zone],
      [place_all_additive_witness], [scenario_outside_run]).

    ** Bounds and fuel

    [np_arange] is a map over [seq 0 n] with [n] computed by
    [Qceiling], loops over lists are structural recursion or folds, so
    every operation is total and evaluates by [vm_compute].  The one
    definition with fuel is [Machine.run_for]; [machine_terminates] shows
    that the fuel [steps_left c] is exact: the run from [c] takes that
    many steps and then has none left.  [serve_all] is by recursion on
    the list of requests, [Concurrent.run_schedule] by recursion on the
    schedule; a choice of the schedule that cannot be taken is passed
    over, and [every_request_answered] gives the schedule that answers
    every request in progress.  [Cli.consume] is structural on the
    arguments still to be read.
    The concrete runs evaluate the pure counts, not the state with its
    meshes, after rewriting with the refinement lemmas.

    ** Not modelled

    Of argparse: the texts it prints ([early_output] stands for
    them), options of other parsers (other prefix characters, files of
    arguments, subcommands), and the corners in which versions of the
    library differ, which are listed at the top of [Cli]; the theorems
    on requests are stated for zone keys that do not start with a dash,
    where the generator reads the zones the handler means, and
    [System.dash_key_refused] and [Cli.demo_lone_dash] show two keys
    for which it does not.  The bytes of files (os, json, trimesh: the
    class [Codec] holds the readers and the exporter), what the
    generator prints (the handler only copies it into the reply of a
    failed run; [printed] stands for it), timing and the formatting of
    printed numbers, rounding of floating point numbers and the
    tolerances of the ray query, rays that are not vertical, which the
    program never casts.  Of Flask: the HTML of the template, which is
    not under [src/], the redirects and converters of its router beyond
    the four rules, the check of [send_from_directory] that a name stays
    inside the directory, and the debug reloader.  In [Concurrent] an
    export is one step: what a reader or a second writer sees of a file
    that is being written is not modelled. *)

From Stdlib Require Import QArith Qround Qminmax Qabs Lqa Lia List ZArith Bool.
From Stdlib Require Import Morphisms Setoid.
Import ListNotations.

Declare Scope pyq_scope.
Delimit Scope pyq_scope with pyq.

(** ** Boolean comparisons on rationals

    Python's [<], [<=] and [==] on numbers return booleans that the program
    branches on; these are their executable counterparts. *)

Definition Qltb (x y : Q) : bool := negb (Qle_bool y x).

Notation "x <? y" := (Qltb x y) (at level 70, no associativity) : pyq_scope.
Notation "x <=? y" := (Qle_bool x y) (at level 70, no associativity) : pyq_scope.
Notation "x =? y" := (Qeq_bool x y) (at level 70, no associativity) : pyq_scope.

(** [Qnat n] is the count [n] read as a number, as Python does when an
    [int] meets a [float]. *)
Definition Qnat (n : nat) : Q := inject_Z (Z.of_nat n).

(** ** Points and their equality *)

Definition point2 : Type := Q * Q.
Definition point3 : Type := Q * Q * Q.

Definition px3 (p : point3) : Q := fst (fst p).
Definition py3 (p : point3) : Q := snd (fst p).
Definition pz3 (p : point3) : Q := snd p.

Definition p2eq (p q : point2) : Prop := fst p == fst q /\ snd p == snd q.
Definition p3eq (p q : point3) : Prop :=
  px3 p == px3 q /\ py3 p == py3 q /\ pz3 p == pz3 q.

(** ** Sums and counts *)

Fixpoint Qsum (l : list Q) : Q :=
  match l with
  | [] => 0
  | x :: r => x + Qsum r
  end.

Definition sum_nat (l : list nat) : nat := fold_right Nat.add 0%nat l.

(** [Forall2] of [Qeq]: two sample sequences equal entry by entry. *)
Definition Qlist_eq (l1 l2 : list Q) : Prop := Forall2 Qeq l1 l2.

(** ** Lemmas on the boolean comparisons *)

Lemma Qltb_lt (x y : Q) : Qltb x y = true <-> x < y.
Proof.
  unfold Qltb. rewrite negb_true_iff, <- not_true_iff_false, Qle_bool_iff.
  split; [apply Qnot_le_lt | apply Qlt_not_le].
Qed.

Lemma Qltb_ge (x y : Q) : Qltb x y = false <-> y <= x.
Proof. unfold Qltb. rewrite negb_false_iff. apply Qle_bool_iff. Qed.

Lemma Qltb_spec (x y : Q) : BoolSpec (x < y) (y <= x) (Qltb x y).
Proof.
  destruct (Qltb x y) eqn:E; constructor;
    [apply Qltb_lt | apply Qltb_ge]; exact E.
Qed.

Lemma Qleb_spec (x y : Q) : BoolSpec (x <= y) (y < x) (Qle_bool x y).
Proof.
  destruct (Qle_bool x y) eqn:E; constructor.
  - now apply Qle_bool_iff.
  - apply Qnot_le_lt. intro H. apply Qle_bool_iff in H. congruence.
Qed.

Lemma Qeqb_spec (x y : Q) : BoolSpec (x == y) (~ x == y) (Qeq_bool x y).
Proof.
  destruct (Qeq_bool x y) eqn:E; constructor.
  - now apply Qeq_bool_iff.
  - now apply Qeq_bool_neq.
Qed.

#[export] Instance Qltb_proper : Proper (Qeq ==> Qeq ==> eq) Qltb.
Proof. intros x x' Hx y y' Hy. unfold Qltb. now rewrite Hx, Hy. Qed.

(** [qcases] replaces every boolean comparison on [Q] in the goal by the
    proposition it decides, one case per outcome. *)
Ltac qcases :=
  repeat match goal with
  | |- context [Qltb ?x ?y] => destruct (Qltb_spec x y)
  | |- context [Qle_bool ?x ?y] => destruct (Qleb_spec x y)
  | |- context [Qeq_bool ?x ?y] => destruct (Qeqb_spec x y)
  end.

(** ** Lemmas on [Qnat] *)

Lemma Qnat_0 : Qnat 0 == 0.
Proof. reflexivity. Qed.

Lemma Qnat_S (n : nat) : Qnat (S n) == Qnat n + 1.
Proof.
  unfold Qnat. rewrite Nat2Z.inj_succ. unfold Z.succ.
  rewrite inject_Z_plus. reflexivity.
Qed.

Lemma Qnat_nonneg (n : nat) : 0 <= Qnat n.
Proof. unfold Qnat. rewrite <- (Zle_Qle 0). lia. Qed.

Lemma Qnat_le (n m : nat) : (n <= m)%nat <-> Qnat n <= Qnat m.
Proof. unfold Qnat. rewrite <- Zle_Qle. lia. Qed.

Lemma Qnat_lt (n m : nat) : (n < m)%nat <-> Qnat n < Qnat m.
Proof. unfold Qnat. rewrite <- Zlt_Qlt. lia. Qed.

Lemma Qnat_eq (n m : nat) : n = m <-> Qnat n == Qnat m.
Proof. unfold Qnat. rewrite inject_Z_injective. lia. Qed.

Lemma Qnat_pos (n : nat) : (0 < n)%nat <-> 0 < Qnat n.
Proof. apply (Qnat_lt 0 n). Qed.

Lemma Qnat_add (n m : nat) : Qnat (n + m) == Qnat n + Qnat m.
Proof. unfold Qnat. rewrite Nat2Z.inj_add, inject_Z_plus. reflexivity. Qed.

Lemma Qnat_mul (n m : nat) : Qnat (n * m) == Qnat n * Qnat m.
Proof. unfold Qnat. rewrite Nat2Z.inj_mul, inject_Z_mult. reflexivity. Qed.

(** ** Point equality is an equivalence *)

#[export] Instance p2eq_equiv : Equivalence p2eq.
Proof.
  split.
  - intros p. split; reflexivity.
  - intros p q [H1 H2]. split; symmetry; assumption.
  - intros p q r [H1 H2] [H3 H4]. split; etransitivity; eassumption.
Qed.

#[export] Instance p3eq_equiv : Equivalence p3eq.
Proof.
  split.
  - intros p. repeat split; reflexivity.
  - intros p q (H1 & H2 & H3). repeat split; symmetry; assumption.
  - intros p q r (H1 & H2 & H3) (H4 & H5 & H6).
    repeat split; etransitivity; eassumption.
Qed.

#[export] Instance px3_proper : Proper (p3eq ==> Qeq) px3.
Proof. intros p q (H & _ & _). exact H. Qed.

#[export] Instance py3_proper : Proper (p3eq ==> Qeq) py3.
Proof. intros p q (_ & H & _). exact H. Qed.

#[export] Instance pz3_proper : Proper (p3eq ==> Qeq) pz3.
Proof. intros p q (_ & _ & H). exact H. Qed.

(** ** Lemmas on sums *)

Lemma Qsum_app (l1 l2 : list Q) : Qsum (l1 ++ l2) == Qsum l1 + Qsum l2.
Proof. induction l1 as [|x l1 IH]; simpl; [|rewrite IH]; lra. Qed.

Lemma Qsum_nonneg (l : list Q) : Forall (fun x => 0 <= x) l -> 0 <= Qsum l.
Proof. induction 1 as [|x l Hx _ IH]; simpl; lra. Qed.

Lemma Qsum_zeros (l : list Q) : Forall (fun x => x == 0) l -> Qsum l == 0.
Proof. induction 1 as [|x l Hx _ IH]; simpl; lra. Qed.

Lemma Qsum_nonneg_zero (l : list Q) :
  Forall (fun x => 0 <= x) l -> Qsum l == 0 -> Forall (fun x => x == 0) l.
Proof.
  induction 1 as [|x l Hx Hl IH]; simpl; intros Hs; constructor.
  - pose proof (Qsum_nonneg l Hl). lra.
  - apply IH. pose proof (Qsum_nonneg l Hl). lra.
Qed.

#[export] Instance Qsum_proper : Proper (Qlist_eq ==> Qeq) Qsum.
Proof. intros l1 l2 H. induction H as [|x y l1 l2 Hxy _ IH]; simpl; lra. Qed.

Lemma sum_nat_app (l1 l2 : list nat) :
  sum_nat (l1 ++ l2) = (sum_nat l1 + sum_nat l2)%nat.
Proof. induction l1 as [|x l1 IH]; simpl; lia. Qed.

(** ** Lemmas on lists shared by the components *)

Lemma length_flat_map_const {A B : Type} (f : A -> list B) (n : nat) (l : list A) :
  (forall a, In a l -> length (f a) = n) ->
  length (flat_map f l) = (length l * n)%nat.
Proof.
  induction l as [|a l IH]; simpl; intros H; [reflexivity|].
  rewrite length_app, IH, (H a); auto.
Qed.

Lemma filter_length_le {A : Type} (f : A -> bool) (l : list A) :
  (length (filter f l) <= length l)%nat.
Proof. induction l as [|a l IH]; simpl; [|destruct (f a); simpl]; lia. Qed.

Lemma filter_all {A : Type} (f : A -> bool) (l : list A) :
  (forall a, In a l -> f a = true) -> filter f l = l.
Proof.
  induction l as [|a l IH]; simpl; intros H; [reflexivity|].
  rewrite (H a), IH; auto.
Qed.

Lemma filter_length_all {A : Type} (f : A -> bool) (l : list A) :
  length (filter f l) = length l -> forall a, In a l -> f a = true.
Proof.
  induction l as [|b l IH]; simpl; intros E a Ha; [destruct Ha|].
  pose proof (filter_length_le f l) as Hle.
  destruct (f b) eqn:Eb; simpl in E; [|lia].
  destruct Ha as [->|Ha]; [exact Eb | apply IH; [lia | exact Ha]].
Qed.

Lemma filter_none {A : Type} (f : A -> bool) (l : list A) :
  (forall a, In a l -> f a = false) -> filter f l = [].
Proof.
  induction l as [|a l IH]; simpl; intros H; [reflexivity|].
  rewrite (H a), IH; auto.
Qed.

(** ** Hint databases *)

Create HintDb pyq.
#[export] Hint Resolve Qnat_nonneg Qle_refl Qsum_nonneg : pyq.
#[export] Hint Resolve -> Qnat_le Qnat_lt Qnat_pos : pyq.

Create Rewrite HintDb pylen.
#[export] Hint Rewrite @length_map @length_app @length_seq @length_rev : pylen.
