(* ===== verification/Numerics.v ===== *)
(** * Numeric operations of numpy used by the generator

    [np.linalg.norm], [np.mean] and [np.std] (lines 196, 215-216, 225,
    230-231 of [generate_slippers.py]).  The square root is not a rational
    function, so it enters through the interface [SqrtOp]: the laws are
    those the clients' theorems need, and they hold of the correctly
    rounded double precision square root.  [sqrt_fixed] is an executable
    instance: the upper integer square root at a resolution of 10^-6,
    exact on squares of multiples of 10^-6. *)

From Stdlib Require Import QArith Qround Qfield Lqa Lia List ZArith Morphisms Setoid.
From S2P Require Import Prelude.
Import ListNotations.
Local Open Scope Q_scope.

(** ** The square root interface *)

Class SqrtOp : Type := {
  qsqrt : Q -> Q;
  qsqrt_compat : forall x y, x == y -> qsqrt x == qsqrt y;
  qsqrt_0 : qsqrt 0 == 0;
  qsqrt_nonneg : forall x, 0 <= qsqrt x;
  qsqrt_pos : forall x, 0 < x -> 0 < qsqrt x;
  qsqrt_mono : forall x y, x <= y -> qsqrt x <= qsqrt y
}.

(** ** An executable instance *)

Definition sqrt_resolution : Z := 1000000.

Definition sqrt_fixed (x : Q) : Q :=
  inject_Z (Z.sqrt_up (Qceiling (x * inject_Z (sqrt_resolution * sqrt_resolution))))
  / inject_Z sqrt_resolution.

(** ** Means and deviations *)

(** [np.mean]: the sum over the length.  The program guards every call
    against the empty list. *)
Definition np_mean (l : list Q) : Q := Qsum l / Qnat (length l).

(** The population variance under [np.std]. *)
Definition np_var (l : list Q) : Q :=
  let m := np_mean l in np_mean (map (fun x => (x - m) * (x - m)) l).

Definition psub3 (p q : point3) : point3 :=
  (px3 p - px3 q, py3 p - py3 q, pz3 p - pz3 q).

Definition sqnorm3 (v : point3) : Q :=
  px3 v * px3 v + py3 v * py3 v + pz3 v * pz3 v.

Section WithSqrt.
Context {sq : SqrtOp}.

(** [np.linalg.norm] of a vector of two components (line 196). *)
Definition norm2 (a b : Q) : Q := qsqrt (a * a + b * b).

(** [np.linalg.norm] of a 3D vector (line 225). *)
Definition norm3 (v : point3) : Q := qsqrt (sqnorm3 v).

(** [np.std]. *)
Definition np_std (l : list Q) : Q := qsqrt (np_var l).

End WithSqrt.

(** ** Lemmas on division and means *)

Lemma Qdiv_le_compat_r (a b c : Q) : 0 < c -> a <= b -> a / c <= b / c.
Proof.
  intros Hc Hab. apply Qle_shift_div_l; [exact Hc|].
  setoid_replace (a / c * c) with a by (field; lra). exact Hab.
Qed.

Lemma Qdiv_nonneg (a c : Q) : 0 <= a -> 0 < c -> 0 <= a / c.
Proof. intros Ha Hc. apply Qle_shift_div_l; [exact Hc | lra]. Qed.

Lemma np_mean_cons (x : Q) (l : list Q) :
  np_mean (x :: l) == (x + Qsum l) / (Qnat (length l) + 1).
Proof. unfold np_mean. simpl length. simpl Qsum. now rewrite Qnat_S. Qed.

Lemma Qsum_bounds (lo hi : Q) (l : list Q) :
  Forall (fun x => lo <= x <= hi) l ->
  Qnat (length l) * lo <= Qsum l <= Qnat (length l) * hi.
Proof.
  induction 1 as [|x l Hx _ IH]; simpl length; simpl Qsum.
  - rewrite Qnat_0. lra.
  - rewrite Qnat_S. lra.
Qed.

Lemma np_mean_bounds (lo hi : Q) (l : list Q) :
  l <> [] -> Forall (fun x => lo <= x <= hi) l -> lo <= np_mean l <= hi.
Proof.
  intros Hne Hl. pose proof (Qsum_bounds lo hi l Hl) as [H1 H2].
  assert (Hn : 0 < Qnat (length l)).
  { apply Qnat_pos. destruct l; [congruence | simpl; lia]. }
  unfold np_mean. split.
  - apply Qle_shift_div_l; lra.
  - apply Qle_shift_div_r; lra.
Qed.

Lemma np_mean_nonneg (l : list Q) : Forall (fun x => 0 <= x) l -> 0 <= np_mean l.
Proof.
  intros Hl. unfold np_mean. destruct l as [|x l].
  - vm_compute. discriminate.
  - apply Qdiv_nonneg; [now apply Qsum_nonneg|]. apply Qnat_pos. simpl. lia.
Qed.

Lemma np_mean_zeros (l : list Q) : Forall (fun x => x == 0) l -> np_mean l == 0.
Proof.
  intros Hl. unfold np_mean. rewrite (Qsum_zeros l Hl). unfold Qdiv. lra.
Qed.

Lemma np_mean_zero_inv (l : list Q) :
  l <> [] -> Forall (fun x => 0 <= x) l -> np_mean l == 0 ->
  Forall (fun x => x == 0) l.
Proof.
  intros Hne Hl Hm. apply Qsum_nonneg_zero; [exact Hl|].
  assert (Hn : 0 < Qnat (length l)).
  { apply Qnat_pos. destruct l; [congruence | simpl; lia]. }
  unfold np_mean in Hm.
  setoid_replace (Qsum l) with (Qsum l / Qnat (length l) * Qnat (length l))
    by (field; lra).
  rewrite Hm. lra.
Qed.

Lemma np_var_nonneg (l : list Q) : 0 <= np_var l.
Proof.
  unfold np_var. apply np_mean_nonneg. apply Forall_forall.
  intros y Hy. apply in_map_iff in Hy as (x & <- & _).
  generalize (x - np_mean l). intros d. nra.
Qed.

Lemma np_var_zeros (l : list Q) : Forall (fun x => x == 0) l -> np_var l == 0.
Proof.
  intros Hl. unfold np_var. apply np_mean_zeros.
  pose proof (np_mean_zeros l Hl) as Hm. apply Forall_forall.
  intros y Hy. apply in_map_iff in Hy as (x & <- & Hx).
  rewrite Forall_forall in Hl. rewrite (Hl x Hx), Hm. lra.
Qed.

(** The mean of positive samples is positive. *)
Lemma np_mean_pos (l : list Q) : l <> [] -> Forall (fun x => 0 < x) l -> 0 < np_mean l.
Proof.
  intros Hne Hl. unfold np_mean. destruct l as [|x l]; [congruence|].
  apply Qlt_shift_div_l; [apply Qnat_pos; simpl; lia|].
  inversion Hl as [|? ? Hx Hl']; subst. simpl.
  assert (0 <= Qsum l) by (apply Qsum_nonneg; eapply Forall_impl; [|exact Hl'];
                            intros; now apply Qlt_le_weak).
  lra.
Qed.

(** A percentage of a part of a whole lies in [[0, 100]] and is 100
    exactly for the whole. *)
Lemma percentage_range (k n : nat) :
  (k <= n)%nat -> (0 < n)%nat -> 0 <= Qnat k / Qnat n * 100 <= 100.
Proof.
  intros Hk Hn. apply Qnat_le in Hk. apply Qnat_pos in Hn.
  pose proof (Qnat_nonneg k) as H0.
  assert (Hq : Qnat k / Qnat n * Qnat n == Qnat k) by (field; lra).
  assert (Hq0 : 0 <= Qnat k / Qnat n) by (apply Qle_shift_div_l; lra).
  revert Hq Hq0. generalize (Qnat k / Qnat n). intros q Hq Hq0. split; nra.
Qed.

Lemma percentage_full (k n : nat) :
  (0 < n)%nat -> Qnat k / Qnat n * 100 == 100 <-> k = n.
Proof.
  intros Hn. apply Qnat_pos in Hn. rewrite Qnat_eq.
  assert (Hq : Qnat k / Qnat n * Qnat n == Qnat k) by (field; lra).
  revert Hq. generalize (Qnat k / Qnat n). intros q Hq. split; intros H; nra.
Qed.

(** ** The fixed point root satisfies the interface *)

Lemma sqrt_fixed_compat (x y : Q) : x == y -> sqrt_fixed x == sqrt_fixed y.
Proof. intros H. unfold sqrt_fixed. now rewrite H. Qed.

Lemma sqrt_fixed_nonneg (x : Q) : 0 <= sqrt_fixed x.
Proof.
  unfold sqrt_fixed. apply Qdiv_nonneg; [|reflexivity].
  rewrite <- (Zle_Qle 0). apply Z.sqrt_up_nonneg.
Qed.

Lemma Qceiling_pos (y : Q) : 0 < y -> (0 < Qceiling y)%Z.
Proof.
  intros Hy. rewrite Zlt_Qlt. eapply Qlt_le_trans; [exact Hy | apply Qle_ceiling].
Qed.

Lemma sqrt_fixed_pos (x : Q) : 0 < x -> 0 < sqrt_fixed x.
Proof.
  intros Hx. unfold sqrt_fixed. apply Qlt_shift_div_l; [reflexivity|].
  rewrite Qmult_0_l, <- (Zlt_Qlt 0). apply Z.sqrt_up_pos, Qceiling_pos.
  apply Qmult_lt_0_compat; [exact Hx | reflexivity].
Qed.

Lemma sqrt_fixed_mono (x y : Q) : x <= y -> sqrt_fixed x <= sqrt_fixed y.
Proof.
  intros Hxy. unfold sqrt_fixed. apply Qdiv_le_compat_r; [reflexivity|].
  rewrite <- Zle_Qle. apply Z.sqrt_up_le_mono, Qceiling_resp_le.
  apply Qmult_le_compat_r; [exact Hxy | discriminate].
Qed.

#[export] Instance sqrt_fixed_op : SqrtOp := {|
  qsqrt := sqrt_fixed;
  qsqrt_compat := sqrt_fixed_compat;
  qsqrt_0 := eq_refl;
  qsqrt_nonneg := sqrt_fixed_nonneg;
  qsqrt_pos := sqrt_fixed_pos;
  qsqrt_mono := sqrt_fixed_mono
|}.

(** The instance is exact on the squares of multiples of the resolution. *)
Lemma sqrt_fixed_square (k : Z) :
  (0 <= k)%Z ->
  sqrt_fixed ((inject_Z k / inject_Z sqrt_resolution)
              * (inject_Z k / inject_Z sqrt_resolution))
  == inject_Z k / inject_Z sqrt_resolution.
Proof.
  intros Hk. unfold sqrt_fixed.
  setoid_replace (inject_Z k / inject_Z sqrt_resolution
                  * (inject_Z k / inject_Z sqrt_resolution)
                  * inject_Z (sqrt_resolution * sqrt_resolution))
    with (inject_Z (k * k))
    by (rewrite !inject_Z_mult; field; discriminate).
  rewrite Qceiling_Z, Z.sqrt_up_square by exact Hk. reflexivity.
Qed.

(** ** Laws of the norms, for every square root *)

Section NormFacts.
Context {sq : SqrtOp}.

#[export] Instance qsqrt_proper : Proper (Qeq ==> Qeq) qsqrt.
Proof. intros x y H. now apply qsqrt_compat. Qed.

#[export] Instance norm2_proper : Proper (Qeq ==> Qeq ==> Qeq) norm2.
Proof. intros a a' Ha b b' Hb. unfold norm2. now rewrite Ha, Hb. Qed.

Lemma qsqrt_zero_inv (x : Q) : 0 <= x -> qsqrt x == 0 -> x == 0.
Proof.
  intros Hx Hs. destruct (Qlt_le_dec 0 x) as [Hpos|Hle]; [|lra].
  pose proof (qsqrt_pos x Hpos). lra.
Qed.

Lemma norm2_nonneg (a b : Q) : 0 <= norm2 a b.
Proof. apply qsqrt_nonneg. Qed.

Lemma norm2_zero (a b : Q) : a == 0 -> b == 0 -> norm2 a b == 0.
Proof.
  intros Ha Hb. unfold norm2. rewrite Ha, Hb.
  setoid_replace (0 * 0 + 0 * 0) with 0 by ring. apply qsqrt_0.
Qed.

Lemma norm2_zero_inv (a b : Q) : norm2 a b == 0 -> a == 0 /\ b == 0.
Proof.
  intros H. apply qsqrt_zero_inv in H; [|nra]. split; nra.
Qed.

Lemma norm3_nonneg (v : point3) : 0 <= norm3 v.
Proof. apply qsqrt_nonneg. Qed.

Lemma sqnorm3_nonneg (v : point3) : 0 <= sqnorm3 v.
Proof. unfold sqnorm3. nra. Qed.

Lemma sq3_zero (a b c : Q) : a * a + b * b + c * c == 0 -> a == 0 /\ b == 0 /\ c == 0.
Proof.
  intros H. assert (0 <= a * a) by nra. assert (0 <= b * b) by nra.
  assert (0 <= c * c) by nra. repeat split; nra.
Qed.

Lemma norm3_zero_inv (p q : point3) : norm3 (psub3 p q) == 0 -> p3eq p q.
Proof.
  intros H. apply qsqrt_zero_inv in H; [|apply sqnorm3_nonneg].
  destruct p as [[a b] c], q as [[a' b'] c'].
  apply sq3_zero in H as (Ha & Hb & Hc). cbn in Ha, Hb, Hc.
  unfold p3eq, px3, py3, pz3. cbn. repeat split; lra.
Qed.

Lemma norm3_self (p q : point3) : p3eq p q -> norm3 (psub3 p q) == 0.
Proof.
  intros (Hx & Hy & Hz). unfold norm3.
  setoid_replace (sqnorm3 (psub3 p q)) with 0; [apply qsqrt_0|].
  unfold sqnorm3, psub3, px3, py3, pz3 in *. simpl. rewrite Hx, Hy, Hz. ring.
Qed.

Lemma norm3_sym (p q : point3) : norm3 (psub3 p q) == norm3 (psub3 q p).
Proof.
  unfold norm3. apply qsqrt_compat.
  unfold sqnorm3, psub3, px3, py3, pz3. simpl. ring.
Qed.

Lemma np_std_nonneg (l : list Q) : 0 <= np_std l.
Proof. apply qsqrt_nonneg. Qed.

End NormFacts.

#[export] Hint Resolve norm2_nonneg norm3_nonneg np_std_nonneg np_var_nonneg : pyq.
