(* ===== verification/Mapper.v ===== *)
(** * Coordinate mapper

    [generate_slippers.py] lines 49-51 and 70-80 compute, once per run, the
    origin and the scale factors that carry a pixel of the annotation image
    to the x-y plane of the sole; lines 238-239 invert the transform when
    the mapping accuracy is measured.  The module level globals of the
    source become functions of a [frame]: the sole's bounding box and the
    image size. *)

From Stdlib Require Import QArith Qfield Lqa Lia List Morphisms Setoid.
From S2P Require Import Prelude.
Import ListNotations.
Local Open Scope Q_scope.

(** [sole_model.bounds]: the two corners of the axis aligned bounding box. *)
Record bounds : Type := mkBounds { bmin : point3; bmax : point3 }.

(** The data the mapper is computed from: [bounds], [img_width] and
    [img_height] of the source. *)
Record frame : Type := mkFrame {
  fr_bounds : bounds;
  img_width : Q;
  img_height : Q
}.

(** The fixed margin of lines 72-73. *)
Definition margin : Q := 10.

Definition origin_x (fr : frame) : Q := px3 (bmin (fr_bounds fr)) + margin.

Definition origin_y (fr : frame) : Q := py3 (bmin (fr_bounds fr)) + margin.

Definition x_scale (fr : frame) : Q :=
  (px3 (bmax (fr_bounds fr)) - px3 (bmin (fr_bounds fr))) / img_width fr.

Definition y_scale (fr : frame) : Q :=
  (py3 (bmax (fr_bounds fr)) - py3 (bmin (fr_bounds fr))) / img_height fr.

Definition map_2d_to_3d (fr : frame) (x y : Q) : point2 :=
  let x3d := origin_x fr + x * x_scale fr in
  let y3d := origin_y fr + (img_height fr - y) * y_scale fr in
  (x3d, y3d).

(** Lines 238-239: a bump location is carried back to the image. *)
Definition unmap_3d_to_2d (fr : frame) (loc : point3) : point2 :=
  let x2d := (px3 loc - origin_x fr) / x_scale fr in
  let y2d := img_height fr - (py3 loc - origin_y fr) / y_scale fr in
  (x2d, y2d).

(** [top_z] of line 154. *)
Definition top_z (fr : frame) : Q := pz3 (bmax (fr_bounds fr)).

(** A frame on which the mapper is meaningful: a bounding box with
    positive extent in x and y and an image of positive size.  The source
    never checks it. *)
Definition frame_ok (fr : frame) : Prop :=
  px3 (bmin (fr_bounds fr)) < px3 (bmax (fr_bounds fr)) /\
  py3 (bmin (fr_bounds fr)) < py3 (bmax (fr_bounds fr)) /\
  0 < img_width fr /\ 0 < img_height fr.

Definition frame_okb (fr : frame) : bool :=
  (Qltb (px3 (bmin (fr_bounds fr))) (px3 (bmax (fr_bounds fr))) &&
   Qltb (py3 (bmin (fr_bounds fr))) (py3 (bmax (fr_bounds fr))) &&
   Qltb 0 (img_width fr) && Qltb 0 (img_height fr))%bool.

(** ** Lemmas *)

Section MapperFacts.
Context (fr : frame).

Lemma frame_okb_ok : frame_okb fr = true <-> frame_ok fr.
Proof.
  unfold frame_okb, frame_ok.
  rewrite !Bool.andb_true_iff, !Qltb_lt. tauto.
Qed.

Lemma Qdiv_pos (a b : Q) : 0 < a -> 0 < b -> 0 < a / b.
Proof.
  intros Ha Hb. unfold Qdiv. apply Qmult_lt_0_compat; [exact Ha|].
  now apply Qinv_lt_0_compat.
Qed.

Lemma x_scale_pos : frame_ok fr -> 0 < x_scale fr.
Proof. intros (Hx & _ & Hw & _). apply Qdiv_pos; lra. Qed.

Lemma y_scale_pos : frame_ok fr -> 0 < y_scale fr.
Proof. intros (_ & Hy & _ & Hh). apply Qdiv_pos; lra. Qed.

Lemma x_scale_width : ~ img_width fr == 0 ->
  x_scale fr * img_width fr == px3 (bmax (fr_bounds fr)) - px3 (bmin (fr_bounds fr)).
Proof. intros H. unfold x_scale. field. exact H. Qed.

Lemma y_scale_height : ~ img_height fr == 0 ->
  y_scale fr * img_height fr == py3 (bmax (fr_bounds fr)) - py3 (bmin (fr_bounds fr)).
Proof. intros H. unfold y_scale. field. exact H. Qed.

(** C3. Round trip through the mapper: carrying a pixel to the sole with
    [map_2d_to_3d] and back with the inverse transform of the metrics code
    returns the pixel, whenever both scale factors are not zero.  The
    height of the 3D point plays no part. *)
Theorem unmap_map_roundtrip (x y z : Q) :
  ~ x_scale fr == 0 -> ~ y_scale fr == 0 ->
  p2eq (unmap_3d_to_2d fr (map_2d_to_3d fr x y, z)) (x, y).
Proof.
  intros Hx Hy. unfold unmap_3d_to_2d, map_2d_to_3d, p2eq, px3, py3; simpl.
  split; field; assumption.
Qed.

(** The converse round trip: a 3D location carried to the image and
    mapped again lands on its own x-y position. *)
Theorem map_unmap_roundtrip (loc : point3) :
  ~ x_scale fr == 0 -> ~ y_scale fr == 0 ->
  p2eq (let p := unmap_3d_to_2d fr loc in map_2d_to_3d fr (fst p) (snd p))
       (px3 loc, py3 loc).
Proof.
  intros Hx Hy. unfold unmap_3d_to_2d, map_2d_to_3d, p2eq; simpl.
  split; field; assumption.
Qed.

(** A location whose x and y are those of a mapped pixel is carried back
    to that pixel. *)
Lemma unmap_hit (x y : Q) (loc : point3) :
  ~ x_scale fr == 0 -> ~ y_scale fr == 0 ->
  px3 loc == fst (map_2d_to_3d fr x y) -> py3 loc == snd (map_2d_to_3d fr x y) ->
  p2eq (unmap_3d_to_2d fr loc) (x, y).
Proof.
  intros Hx Hy Hlx Hly. unfold unmap_3d_to_2d, p2eq. cbn [fst snd] in *.
  rewrite Hlx, Hly. unfold map_2d_to_3d. cbn [fst snd]. split; field; assumption.
Qed.

(** [map_2d_to_3d] respects equality of rationals. *)
Lemma map_2d_to_3d_compat (x x' y y' : Q) :
  x == x' -> y == y' -> p2eq (map_2d_to_3d fr x y) (map_2d_to_3d fr x' y').
Proof.
  intros Hx Hy. unfold map_2d_to_3d, p2eq; simpl. rewrite Hx, Hy.
  split; reflexivity.
Qed.

(** The x axis keeps its direction and the y axis is inverted: image rows
    grow downwards, the sole's y grows upwards. *)
Lemma map_x_monotone (x1 x2 y : Q) :
  frame_ok fr -> x1 <= x2 ->
  fst (map_2d_to_3d fr x1 y) <= fst (map_2d_to_3d fr x2 y).
Proof.
  intros Hok Hx. pose proof (x_scale_pos Hok). simpl. nra.
Qed.

Lemma map_y_antitone (x y1 y2 : Q) :
  frame_ok fr -> y1 <= y2 ->
  snd (map_2d_to_3d fr x y2) <= snd (map_2d_to_3d fr x y1).
Proof.
  intros Hok Hy. pose proof (y_scale_pos Hok). simpl. nra.
Qed.

(** The mapper is injective on a well formed frame: two pixels with
    the same image are the same pixel. *)
Theorem map_2d_to_3d_injective (x1 y1 x2 y2 : Q) :
  frame_ok fr ->
  p2eq (map_2d_to_3d fr x1 y1) (map_2d_to_3d fr x2 y2) ->
  x1 == x2 /\ y1 == y2.
Proof.
  intros Hok [H1 H2]. pose proof (x_scale_pos Hok). pose proof (y_scale_pos Hok).
  simpl in H1, H2. split; nra.
Qed.

(** Where the picture lands: a pixel of the image is mapped into the
    bounding box translated by the margin in both axes.  The scale spans
    the whole bounding box and the margin is added on top, so the right
    and the top edge of the picture land [margin] outside the box. *)
Theorem map_2d_to_3d_range (x y : Q) :
  frame_ok fr -> 0 <= x <= img_width fr -> 0 <= y <= img_height fr ->
  let p := map_2d_to_3d fr x y in
  px3 (bmin (fr_bounds fr)) + margin <= fst p <= px3 (bmax (fr_bounds fr)) + margin /\
  py3 (bmin (fr_bounds fr)) + margin <= snd p <= py3 (bmax (fr_bounds fr)) + margin.
Proof.
  intros Hok Hx Hy. pose proof (x_scale_pos Hok) as Hsx.
  pose proof (y_scale_pos Hok) as Hsy. destruct Hok as (_ & _ & Hw & Hh).
  assert (Ex := x_scale_width ltac:(lra)). assert (Ey := y_scale_height ltac:(lra)).
  simpl. unfold origin_x, origin_y. repeat split; nra.
Qed.

(** The right edge of the picture is mapped strictly beyond the
    bounding box of the sole. *)
Theorem map_right_edge_outside (y : Q) :
  frame_ok fr ->
  px3 (bmax (fr_bounds fr)) < fst (map_2d_to_3d fr (img_width fr) y).
Proof.
  intros Hok. destruct Hok as (_ & _ & Hw & _).
  assert (Ex := x_scale_width ltac:(lra)).
  simpl. unfold origin_x, margin. nra.
Qed.

End MapperFacts.

(** ** Witnesses on a concrete frame: a 100 x 100 x 5 slab and a
    100 x 100 pixel picture. *)

Definition slab_frame : frame :=
  mkFrame (mkBounds (0, 0, 0) (100, 100, 5)) 100 100.

Lemma slab_frame_ok : frame_ok slab_frame.
Proof. apply frame_okb_ok. reflexivity. Defined.

Lemma slab_scale_x : ~ x_scale slab_frame == 0.
Proof. vm_compute. discriminate. Defined.

Lemma slab_scale_y : ~ y_scale slab_frame == 0.
Proof. vm_compute. discriminate. Defined.

Lemma unmap_map_roundtrip_witness :
  p2eq (unmap_3d_to_2d slab_frame (map_2d_to_3d slab_frame 25 30, 5)) (25, 30).
Proof. apply (unmap_map_roundtrip slab_frame 25 30 5 slab_scale_x slab_scale_y). Defined.

Lemma map_unmap_roundtrip_witness :
  p2eq (let p := unmap_3d_to_2d slab_frame (35, 80, 5) in
        map_2d_to_3d slab_frame (fst p) (snd p)) (35, 80).
Proof. apply (map_unmap_roundtrip slab_frame (35, 80, 5) slab_scale_x slab_scale_y). Defined.

Lemma map_2d_to_3d_injective_witness : 25 == 25 /\ 30 == 30.
Proof.
  apply (map_2d_to_3d_injective slab_frame 25 30 25 30 slab_frame_ok).
  reflexivity.
Defined.

Lemma map_2d_to_3d_range_witness :
  let p := map_2d_to_3d slab_frame 100 0 in
  0 + margin <= fst p <= 100 + margin /\ 0 + margin <= snd p <= 100 + margin.
Proof.
  apply (map_2d_to_3d_range slab_frame 100 0 slab_frame_ok);
    split; vm_compute; discriminate.
Defined.

Lemma map_right_edge_outside_witness :
  100 < fst (map_2d_to_3d slab_frame 100 50).
Proof. apply (map_right_edge_outside slab_frame 50 slab_frame_ok). Defined.
