(* ===== verification/Sampler.v ===== *)
(** * Zone sampler

    [generate_slippers.py] lines 172-181: the flat coordinate list of an
    annotation is reshaped into vertices, the bounding box of the vertices
    is scanned on a regular grid ([np.arange] on both axes, x outermost),
    and every grid point is tested with [Path.contains_point].

    [np_arange], [np_min], [np_max] and [contains_point] model library
    calls.  [contains_point] is the even-odd ray crossing test in the form
    of the crossings-multiply test: an edge is counted when its end points
    lie on different sides of the horizontal line through the point and
    the edge meets the ray towards +x; the polygon is closed from its last
    vertex to its first.  The behaviour on the boundary follows from that
    rule and is stated by [contains_point_rectangle]. *)

From Stdlib Require Import QArith Qround Qminmax Qfield Lqa Lia List ZArith Bool.
From Stdlib Require Import Morphisms Setoid.
From S2P Require Import Prelude.
Import ListNotations.
Local Open Scope Q_scope.

(** ** [np.arange] *)

(** The number of points [np.arange start stop step] produces:
    [ceil ((stop - start) / step)], and none when that is negative. *)
Definition arange_len (start stop step : Q) : nat :=
  Z.to_nat (Qceiling ((stop - start) / step)).

Definition np_arange (start stop step : Q) : list Q :=
  map (fun i => start + Qnat i * step) (seq 0 (arange_len start stop step)).

(** ** Vertices and bounding box *)

(** [np.array(flat).reshape(-1, 2)]: pairs of consecutive entries; an odd
    number of entries raises [ValueError], here [None]. *)
Fixpoint reshape_pairs (flat : list Q) : option (list point2) :=
  match flat with
  | [] => Some []
  | x :: y :: r => option_map (cons (x, y)) (reshape_pairs r)
  | _ :: [] => None
  end.

(** [np.min] and [np.max] of one column; an empty column raises
    [ValueError], here [None]. *)
Definition np_min (l : list Q) : option Q :=
  match l with
  | [] => None
  | x :: r => Some (fold_left Qmin r x)
  end.

Definition np_max (l : list Q) : option Q :=
  match l with
  | [] => None
  | x :: r => Some (fold_left Qmax r x)
  end.

Record bbox2 : Type := mkBbox2 { min_x : Q; min_y : Q; max_x : Q; max_y : Q }.

(** Lines 175-176: [np.min(seg, axis=0)] and [np.max(seg, axis=0)]. *)
Definition seg_bbox (seg : list point2) : option bbox2 :=
  match np_min (map fst seg), np_min (map snd seg),
        np_max (map fst seg), np_max (map snd seg) with
  | Some x0, Some y0, Some x1, Some y1 => Some (mkBbox2 x0 y0 x1 y1)
  | _, _, _, _ => None
  end.

(** ** Containment *)

(** Whether the edge from [v0] to [v1] is counted for the point [pt]. *)
Definition edge_crosses (pt v0 v1 : point2) : bool :=
  let yflag0 := Qle_bool (snd pt) (snd v0) in
  let yflag1 := Qle_bool (snd pt) (snd v1) in
  if Bool.eqb yflag0 yflag1 then false
  else Bool.eqb
         (Qle_bool ((fst v1 - fst pt) * (snd v0 - snd v1))
                   ((snd v1 - snd pt) * (fst v0 - fst v1)))
         yflag1.

(** Parity of the counted edges along [prev :: rest], closed by the edge
    back to [first]. *)
Fixpoint crossings (pt first prev : point2) (rest : list point2) : bool :=
  match rest with
  | [] => edge_crosses pt prev first
  | v :: rest' => xorb (edge_crosses pt prev v) (crossings pt first v rest')
  end.

Definition contains_point (path : list point2) (pt : point2) : bool :=
  match path with
  | [] => false
  | v0 :: rest => crossings pt v0 v0 rest
  end.

(** ** The grid of a zone *)

(** The sampling step of line 104, in pixels. *)
Definition step : Q := 5.

(** Lines 179-180: the two nested [np.arange] loops, x outermost. *)
Definition grid_points (bb : bbox2) (st : Q) : list point2 :=
  flat_map (fun xi => map (fun yi => (xi, yi)) (np_arange (min_y bb) (max_y bb) st))
           (np_arange (min_x bb) (max_x bb) st).

(** Line 181: the grid points that pass the containment test, in grid
    order. *)
Definition valid_grid_points (path : list point2) (bb : bbox2) (st : Q) : list point2 :=
  filter (contains_point path) (grid_points bb st).

(** The rectangle with corners [(x0, y0)] and [(x1, y1)], listed as an
    annotation tool writes it: along the first axis first. *)
Definition rectangle (x0 y0 x1 y1 : Q) : list point2 :=
  [(x0, y0); (x1, y0); (x1, y1); (x0, y1)].

(** * Theorems on [np_arange] *)

Section Arange.
Context (start stop st : Q).

Lemma np_arange_length : length (np_arange start stop st) = arange_len start stop st.
Proof. unfold np_arange. now rewrite length_map, length_seq. Qed.

Lemma np_arange_nth (i : nat) :
  (i < arange_len start stop st)%nat ->
  nth i (np_arange start stop st) 0 = start + Qnat i * st.
Proof.
  intros Hi. unfold np_arange.
  set (f := fun i : nat => start + Qnat i * st).
  transitivity (nth i (map f (seq 0 (arange_len start stop st))) (f 0%nat)).
  - apply nth_indep. now rewrite length_map, length_seq.
  - rewrite (map_nth f), seq_nth by exact Hi. reflexivity.
Qed.

Lemma np_arange_In (x : Q) :
  In x (np_arange start stop st) <->
  exists i, (i < arange_len start stop st)%nat /\ x = start + Qnat i * st.
Proof.
  unfold np_arange. rewrite in_map_iff. split.
  - intros (i & <- & Hi). apply in_seq in Hi. exists i. split; [lia | reflexivity].
  - intros (i & Hi & ->). exists i. split; [reflexivity | apply in_seq; lia].
Qed.

(** The count as a rational: it is at least the quotient and less than
    the quotient plus one, so it is the ceiling. *)
Lemma arange_len_ceiling :
  0 < st -> start < stop ->
  (stop - start) / st <= Qnat (arange_len start stop st) < (stop - start) / st + 1.
Proof.
  intros Hst Hlt. unfold arange_len, Qnat.
  assert (Hq : 0 < (stop - start) / st) by (apply Qlt_shift_div_l; lra).
  revert Hq. generalize ((stop - start) / st). intros q Hq.
  assert (Hc : (0 < Qceiling q)%Z).
  { rewrite Zlt_Qlt. eapply Qlt_le_trans; [exact Hq | apply Qle_ceiling]. }
  rewrite Z2Nat.id by lia. split; [apply Qle_ceiling|].
  pose proof (Qceiling_lt q) as H.
  unfold Z.sub in H. rewrite inject_Z_plus in H.
  assert (E : inject_Z (- (1)) == - (1)) by reflexivity.
  rewrite E in H. lra.
Qed.

Lemma np_arange_empty : 0 < st -> stop <= start -> np_arange start stop st = [].
Proof.
  intros Hst Hle. unfold np_arange, arange_len.
  assert (Hq : (stop - start) / st <= 0) by (apply Qle_shift_div_r; lra).
  assert (Hc : (Qceiling ((stop - start) / st) <= 0)%Z).
  { change 0%Z with (Qceiling 0). now apply Qceiling_resp_le. }
  destruct (Qceiling ((stop - start) / st)); try lia; reflexivity.
Qed.

(** The point of index [i] lies in the half-open range. *)
Lemma np_arange_bounds (i : nat) :
  0 < st -> (i < arange_len start stop st)%nat ->
  start <= start + Qnat i * st < stop.
Proof.
  intros Hst Hi. destruct (Qlt_le_dec start stop) as [Hlt|Hge].
  2: { pose proof (np_arange_empty Hst Hge) as He. apply (f_equal (@length Q)) in He.
       rewrite np_arange_length in He. simpl in He. lia. }
  pose proof (arange_len_ceiling Hst Hlt) as [_ Hup].
  pose proof (Qnat_nonneg i). apply Nat.le_succ_l, Qnat_le in Hi.
  rewrite Qnat_S in Hi.
  assert (Hq : (stop - start) / st * st == stop - start) by (field; lra).
  revert Hup Hq. generalize ((stop - start) / st). intros q Hup Hq.
  split; nra.
Qed.

(** C4. Half-open range of [np.arange]: with a positive step every point
    produced is at least [start] and strictly below [stop]. *)
Theorem np_arange_range (x : Q) :
  0 < st -> In x (np_arange start stop st) -> start <= x < stop.
Proof.
  intros Hst (i & Hi & ->)%np_arange_In. now apply np_arange_bounds.
Qed.

End Arange.

Section ArangeCount.
Context (start stop st : Q).

(** The point count of [np.arange]: with a positive step and a non
    empty range, the points stop at the last multiple of the step below
    [stop]: one more step from the last point reaches or passes [stop].
    Together with the half-open range this fixes the count. *)
Theorem np_arange_maximal :
  0 < st -> start < stop ->
  let n := length (np_arange start stop st) in
  (0 < n)%nat /\ start + Qnat (n - 1) * st < stop /\ stop <= start + Qnat n * st.
Proof.
  intros Hst Hlt n. subst n. rewrite np_arange_length.
  pose proof (arange_len_ceiling start stop st Hst Hlt) as [Hlo Hup].
  assert (Hq : (stop - start) / st * st == stop - start) by (field; lra).
  assert (Hq0 : 0 < (stop - start) / st) by (apply Qlt_shift_div_l; lra).
  revert Hlo Hup Hq Hq0. generalize ((stop - start) / st). intros q Hlo Hup Hq Hq0.
  assert (Hn : (0 < arange_len start stop st)%nat) by (apply Qnat_pos; lra).
  split; [exact Hn|].
  replace (arange_len start stop st) with (S (arange_len start stop st - 1)) in Hup at 1 by lia.
  rewrite Qnat_S in Hup. split; nra.
Qed.

(** When the extent is a whole number of steps the count is that
    number: this is the case in which the count equals
    [floor ((stop - start) / step)]. *)
Theorem np_arange_exact (k : nat) :
  0 < st -> stop - start == Qnat k * st ->
  length (np_arange start stop st) = k.
Proof.
  intros Hst Hk. rewrite np_arange_length. unfold arange_len.
  setoid_replace ((stop - start) / st) with (Qnat k) by (rewrite Hk; field; lra).
  unfold Qnat. rewrite Qceiling_Z. apply Nat2Z.id.
Qed.

End ArangeCount.

(** The count is the ceiling, not the floor, of the quotient: a range
    of 52 pixels scanned with step 5 has 11 points (0, 5, ..., 50) while
    [floor (52 / 5)] is 10. *)
Theorem np_arange_not_floor :
  length (np_arange 0 52 step) = 11%nat /\ Qfloor ((52 - 0) / step) = 10%Z.
Proof. split; reflexivity. Qed.

(** * Bounding box *)

Lemma fold_left_Qmin_le (l : list Q) (a : Q) :
  fold_left Qmin l a <= a /\ Forall (fun x => fold_left Qmin l a <= x) l.
Proof.
  revert a. induction l as [|x l IH]; intros a; simpl.
  - split; [apply Qle_refl | constructor].
  - destruct (IH (Qmin a x)) as [H1 H2]. split.
    + eapply Qle_trans; [exact H1 | apply Q.le_min_l].
    + constructor; [|exact H2]. eapply Qle_trans; [exact H1 | apply Q.le_min_r].
Qed.

Lemma fold_left_Qmax_ge (l : list Q) (a : Q) :
  a <= fold_left Qmax l a /\ Forall (fun x => x <= fold_left Qmax l a) l.
Proof.
  revert a. induction l as [|x l IH]; intros a; simpl.
  - split; [apply Qle_refl | constructor].
  - destruct (IH (Qmax a x)) as [H1 H2]. split.
    + eapply Qle_trans; [apply Q.le_max_l | exact H1].
    + constructor; [|exact H2]. eapply Qle_trans; [apply Q.le_max_r | exact H1].
Qed.

Lemma np_min_lower (l : list Q) (m : Q) :
  np_min l = Some m -> Forall (fun x => m <= x) l.
Proof.
  destruct l as [|a l]; simpl; [discriminate|]. intros [= <-].
  destruct (fold_left_Qmin_le l a). now constructor.
Qed.

Lemma np_max_upper (l : list Q) (m : Q) :
  np_max l = Some m -> Forall (fun x => x <= m) l.
Proof.
  destruct l as [|a l]; simpl; [discriminate|]. intros [= <-].
  destruct (fold_left_Qmax_ge l a). now constructor.
Qed.

Lemma seg_bbox_None (seg : list point2) : seg_bbox seg = None <-> seg = [].
Proof. destruct seg; unfold seg_bbox; simpl; split; congruence. Qed.

(** The bounding box of lines 175-176 bounds every vertex of the polygon
    on both axes. *)
Lemma seg_bbox_bounds (seg : list point2) (bb : bbox2) :
  seg_bbox seg = Some bb ->
  Forall (fun v => min_x bb <= fst v <= max_x bb /\ min_y bb <= snd v <= max_y bb) seg.
Proof.
  unfold seg_bbox.
  destruct (np_min (map fst seg)) as [x0|] eqn:E1; [|discriminate].
  destruct (np_min (map snd seg)) as [y0|] eqn:E2; [|discriminate].
  destruct (np_max (map fst seg)) as [x1|] eqn:E3; [|discriminate].
  destruct (np_max (map snd seg)) as [y1|] eqn:E4; [|discriminate].
  intros [= <-]. simpl.
  apply np_min_lower in E1, E2. apply np_max_upper in E3, E4.
  rewrite Forall_map in E1, E2, E3, E4. rewrite Forall_forall in *.
  intros v Hv. repeat split; auto.
Qed.

(** * The grid *)

Section Grid.
Context (bb : bbox2) (st : Q).

Lemma grid_points_length :
  length (grid_points bb st) =
  (arange_len (min_x bb) (max_x bb) st * arange_len (min_y bb) (max_y bb) st)%nat.
Proof.
  unfold grid_points. rewrite <- !np_arange_length.
  apply length_flat_map_const. intros a _. apply length_map.
Qed.

Lemma grid_points_In (p : point2) :
  In p (grid_points bb st) <->
  In (fst p) (np_arange (min_x bb) (max_x bb) st) /\
  In (snd p) (np_arange (min_y bb) (max_y bb) st).
Proof.
  unfold grid_points. rewrite in_flat_map. split.
  - intros (xi & Hx & Hp). apply in_map_iff in Hp as (yi & <- & Hy). now split.
  - intros [Hx Hy]. exists (fst p). split; [exact Hx|].
    apply in_map_iff. exists (snd p). split; [now destruct p | exact Hy].
Qed.

(** Every grid point of a zone lies in the bounding box of its
    polygon, half-open: the minimum edges are on the grid, the maximum
    edges are not. *)
Theorem grid_points_range (p : point2) :
  0 < st -> In p (grid_points bb st) ->
  min_x bb <= fst p < max_x bb /\ min_y bb <= snd p < max_y bb.
Proof.
  intros Hst Hp. apply grid_points_In in Hp as [Hx Hy].
  apply np_arange_In in Hx as (i & Hi & ->), Hy as (j & Hj & ->).
  split; now apply np_arange_bounds.
Qed.

Lemma valid_grid_points_le (path : list point2) :
  (length (valid_grid_points path bb st) <= length (grid_points bb st))%nat.
Proof. apply filter_length_le. Qed.

End Grid.

(** * Containment *)

(** The side of a vertex with respect to the horizontal line through the
    point: the flag the crossing test compares along an edge. *)
Definition yflag (pt v : point2) : bool := Qle_bool (snd pt) (snd v).

Lemma edge_crosses_compat (pt pt' v0 v1 : point2) :
  p2eq pt pt' -> edge_crosses pt v0 v1 = edge_crosses pt' v0 v1.
Proof.
  intros [Hx Hy]. unfold edge_crosses. cbv zeta.
  assert (E0 : Qle_bool (snd pt) (snd v0) = Qle_bool (snd pt') (snd v0)) by now rewrite Hy.
  assert (E1 : Qle_bool (snd pt) (snd v1) = Qle_bool (snd pt') (snd v1)) by now rewrite Hy.
  assert (E2 : Qle_bool ((fst v1 - fst pt) * (snd v0 - snd v1))
                        ((snd v1 - snd pt) * (fst v0 - fst v1))
             = Qle_bool ((fst v1 - fst pt') * (snd v0 - snd v1))
                        ((snd v1 - snd pt') * (fst v0 - fst v1))) by now rewrite Hx, Hy.
  now rewrite E0, E1, E2.
Qed.

Lemma crossings_compat (pt pt' first prev : point2) (rest : list point2) :
  p2eq pt pt' -> crossings pt first prev rest = crossings pt' first prev rest.
Proof.
  intros H. revert prev. induction rest as [|v rest IH]; intros prev; simpl.
  - now apply edge_crosses_compat.
  - rewrite IH, (edge_crosses_compat pt pt' _ _ H). reflexivity.
Qed.

(** [contains_point] does not distinguish equal rationals. *)
Lemma contains_point_compat (path : list point2) (pt pt' : point2) :
  p2eq pt pt' -> contains_point path pt = contains_point path pt'.
Proof. intros H. destruct path; simpl; [reflexivity | now apply crossings_compat]. Qed.

#[export] Instance contains_point_proper (path : list point2) :
  Proper (p2eq ==> eq) (contains_point path).
Proof. intros pt pt' H. now apply contains_point_compat. Qed.

(** An edge whose end points lie on the same side is not counted. *)
Lemma edge_crosses_same_side (pt v0 v1 : point2) :
  yflag pt v0 = yflag pt v1 -> edge_crosses pt v0 v1 = false.
Proof. unfold yflag, edge_crosses. intros ->. now rewrite Bool.eqb_reflx. Qed.

(** An edge entirely to the left of the point is not counted. *)
Lemma edge_crosses_left_of (pt v0 v1 : point2) :
  fst v0 < fst pt -> fst v1 < fst pt -> edge_crosses pt v0 v1 = false.
Proof.
  destruct pt as [tx ty], v0 as [a0 b0], v1 as [a1 b1]. unfold edge_crosses.
  simpl. intros H0 H1. qcases; simpl; try reflexivity; exfalso; nra.
Qed.

(** An edge entirely to the right of the point is counted exactly when
    its end points lie on different sides. *)
Lemma edge_crosses_right_of (pt v0 v1 : point2) :
  fst pt < fst v0 -> fst pt < fst v1 ->
  edge_crosses pt v0 v1 = xorb (yflag pt v0) (yflag pt v1).
Proof.
  destruct pt as [tx ty], v0 as [a0 b0], v1 as [a1 b1]. unfold edge_crosses, yflag.
  simpl. intros H0 H1. qcases; simpl; try reflexivity; exfalso; nra.
Qed.

Section CrossingsFacts.
Context (pt : point2).

(** Splits a [Forall] over the cyclic vertex list of [crossings] into the
    facts of the leading vertices. *)
Ltac split_vertices H :=
  repeat rewrite Forall_cons_iff in H;
  repeat match type of H with _ /\ _ => let H1 := fresh "Hv" in destruct H as [H1 H] end.

Lemma crossings_same_side (b : bool) (first prev : point2) (rest : list point2) :
  Forall (fun v => yflag pt v = b) (first :: prev :: rest) ->
  crossings pt first prev rest = false.
Proof.
  revert prev. induction rest as [|v rest IH]; intros prev H; simpl.
  - split_vertices H. apply edge_crosses_same_side. congruence.
  - rewrite IH by (split_vertices H; repeat constructor; assumption).
    split_vertices H. rewrite edge_crosses_same_side by congruence. reflexivity.
Qed.

Lemma crossings_left_of (first prev : point2) (rest : list point2) :
  Forall (fun v => fst v < fst pt) (first :: prev :: rest) ->
  crossings pt first prev rest = false.
Proof.
  revert prev. induction rest as [|v rest IH]; intros prev H; simpl.
  - split_vertices H. now apply edge_crosses_left_of.
  - rewrite IH by (split_vertices H; repeat constructor; assumption).
    split_vertices H. rewrite edge_crosses_left_of by assumption. reflexivity.
Qed.

Lemma crossings_right_of (first prev : point2) (rest : list point2) :
  Forall (fun v => fst pt < fst v) (first :: prev :: rest) ->
  crossings pt first prev rest = xorb (yflag pt prev) (yflag pt first).
Proof.
  revert prev. induction rest as [|v rest IH]; intros prev H; simpl.
  - split_vertices H. now apply edge_crosses_right_of.
  - rewrite IH by (split_vertices H; repeat constructor; assumption).
    split_vertices H. rewrite edge_crosses_right_of by assumption.
    now destruct (yflag pt prev), (yflag pt v), (yflag pt first).
Qed.

(** A polygon none of whose vertices lets the point in on some side does
    not contain it. *)
Lemma contains_point_outside (path : list point2) :
  Forall (fun v => fst v < fst pt) path \/ Forall (fun v => fst pt < fst v) path \/
  Forall (fun v => yflag pt v = true) path \/ Forall (fun v => yflag pt v = false) path ->
  contains_point path pt = false.
Proof.
  destruct path as [|v0 rest]; [reflexivity|]. simpl.
  intros [H|[H|[H|H]]].
  - apply crossings_left_of. constructor; [now inversion H | exact H].
  - rewrite crossings_right_of by (constructor; [now inversion H | exact H]).
    apply xorb_nilpotent.
  - apply (crossings_same_side true). constructor; [now inversion H | exact H].
  - apply (crossings_same_side false). constructor; [now inversion H | exact H].
Qed.

End CrossingsFacts.

(** A point the containment test accepts lies in the bounding box of
    the polygon: within the closed range in x, and in y strictly above the
    minimum and at most the maximum.  A point at the height of the lowest
    vertex is never accepted. *)
Theorem contains_point_in_bbox (path : list point2) (bb : bbox2) (pt : point2) :
  seg_bbox path = Some bb -> contains_point path pt = true ->
  min_x bb <= fst pt <= max_x bb /\ min_y bb < snd pt <= max_y bb.
Proof.
  intros Hbb Hc. apply seg_bbox_bounds in Hbb.
  assert (Hout : forall P : point2 -> Prop,
             (forall v, (min_x bb <= fst v <= max_x bb /\ min_y bb <= snd v <= max_y bb) -> P v) ->
             Forall P path).
  { intros P HP. eapply Forall_impl; [exact HP | exact Hbb]. }
  repeat split; apply Qnot_lt_le || apply Qnot_le_lt; intros Hbad;
    rewrite contains_point_outside in Hc; try discriminate.
  - right; left. apply Hout. intros v Hv. lra.
  - left. apply Hout. intros v Hv. lra.
  - right; right; left. apply Hout. intros v Hv. apply Qle_bool_iff. lra.
  - right; right; right. apply Hout. intros v Hv. unfold yflag.
    destruct (Qleb_spec (snd pt) (snd v)); [lra | reflexivity].
Qed.

(** The three comparisons that decide a vertical edge. *)
Lemma edge_crosses_up (x y c y0 y1 : Q) :
  y0 < y1 ->
  edge_crosses (x, y) (c, y0) (c, y1) = (Qltb y0 y && Qle_bool y y1 && Qle_bool x c)%bool.
Proof. intros H. unfold edge_crosses. simpl. qcases; simpl; try reflexivity; exfalso; nra. Qed.

Lemma edge_crosses_down (x y c y0 y1 : Q) :
  y0 < y1 ->
  edge_crosses (x, y) (c, y1) (c, y0) = (Qltb y0 y && Qle_bool y y1 && Qltb x c)%bool.
Proof. intros H. unfold edge_crosses. simpl. qcases; simpl; try reflexivity; exfalso; nra. Qed.

Lemma edge_crosses_level (pt : point2) (a b h : Q) : edge_crosses pt (a, h) (b, h) = false.
Proof. now apply edge_crosses_same_side. Qed.

(** The boundary rule on a rectangle listed along x first: the
    rectangle contains its left and right edges and its top edge in y,
    and not the edge at the smallest y. *)
Theorem contains_point_rectangle (x0 y0 x1 y1 x y : Q) :
  x0 < x1 -> y0 < y1 ->
  contains_point (rectangle x0 y0 x1 y1) (x, y) = true <->
  x0 <= x <= x1 /\ y0 < y <= y1.
Proof.
  intros Hx Hy. unfold rectangle, contains_point, crossings.
  rewrite !edge_crosses_level, (edge_crosses_up x y x1 y0 y1),
    (edge_crosses_down x y x0 y0 y1) by assumption.
  qcases; simpl; split; intros Hin; try discriminate; try reflexivity; lra.
Qed.

(** The same rectangle listed in the opposite direction loses its
    left and right edges: the boundary rule depends on the orientation of
    the polygon. *)
Theorem contains_point_rectangle_rev (x0 y0 x1 y1 x y : Q) :
  x0 < x1 -> y0 < y1 ->
  contains_point (rev (rectangle x0 y0 x1 y1)) (x, y) = true <->
  x0 < x < x1 /\ y0 < y <= y1.
Proof.
  intros Hx Hy. unfold rectangle. simpl rev. unfold contains_point, crossings.
  rewrite !edge_crosses_level, (edge_crosses_up x y x0 y0 y1),
    (edge_crosses_down x y x1 y0 y1) by assumption.
  qcases; simpl; split; intros Hin; try discriminate; try reflexivity; lra.
Qed.

(** * Concrete runs *)

(** The square zone of the first scenario: 50 x 50 pixels. *)
Definition square50 : list point2 := rectangle 0 0 50 50.

Definition square50_bbox : bbox2 := mkBbox2 0 0 50 50.

Lemma square50_bbox_eq : seg_bbox square50 = Some square50_bbox.
Proof. reflexivity. Defined.

Lemma np_arange_range_witness : 0 <= 45 < 50.
Proof.
  apply (np_arange_range 0 50 step 45); [reflexivity|].
  vm_compute. intuition.
Defined.

Lemma np_arange_maximal_witness :
  let n := length (np_arange 0 52 step) in
  (0 < n)%nat /\ 0 + Qnat (n - 1) * step < 52 /\ 52 <= 0 + Qnat n * step.
Proof. apply (np_arange_maximal 0 52 step); reflexivity. Defined.

Lemma np_arange_exact_witness : length (np_arange 0 50 step) = 10%nat.
Proof. apply (np_arange_exact 0 50 step 10); reflexivity. Defined.

Lemma grid_points_range_witness :
  min_x square50_bbox <= fst (45, 0) < max_x square50_bbox /\
  min_y square50_bbox <= snd (45, 0) < max_y square50_bbox.
Proof.
  apply (grid_points_range square50_bbox step (45, 0)); [reflexivity|].
  apply grid_points_In. split; vm_compute; intuition.
Defined.

Lemma contains_point_in_bbox_witness :
  min_x square50_bbox <= fst (0, 5) <= max_x square50_bbox /\
  min_y square50_bbox < snd (0, 5) <= max_y square50_bbox.
Proof.
  apply (contains_point_in_bbox square50 square50_bbox (0, 5) square50_bbox_eq).
  reflexivity.
Defined.

Lemma contains_point_rectangle_witness :
  contains_point (rectangle 0 0 50 50) (0, 50) = true <-> 0 <= 0 <= 50 /\ 0 < 50 <= 50.
Proof. apply (contains_point_rectangle 0 0 50 50 0 50); reflexivity. Defined.

Lemma contains_point_rectangle_rev_witness :
  contains_point (rev (rectangle 0 0 50 50)) (0, 50) = true <-> 0 < 0 < 50 /\ 0 < 50 <= 50.
Proof. apply (contains_point_rectangle_rev 0 0 50 50 0 50); reflexivity. Defined.

(** The first scenario's zone: the grid over the 50 x 50 square has
    100 points, of which the containment test accepts 90, because the ten
    points of the row at the smallest y lie on the boundary the test
    excludes; listed in the opposite direction the square keeps 81. *)
Theorem square50_counts :
  length (grid_points square50_bbox step) = 100%nat /\
  length (valid_grid_points square50 square50_bbox step) = 90%nat /\
  length (valid_grid_points (rev square50) square50_bbox step) = 81%nat.
Proof. repeat split; vm_compute; reflexivity. Qed.

(** No zone ever receives a bump on the first grid line in y: the
    grid starts at the smallest y of the polygon, and a point at that
    height is rejected whatever the polygon. *)
Theorem grid_first_line_rejected (path : list point2) (bb : bbox2) (x : Q) :
  seg_bbox path = Some bb -> contains_point path (x, min_y bb) = false.
Proof.
  intros Hbb. apply seg_bbox_bounds in Hbb. apply contains_point_outside.
  right; right; left. eapply Forall_impl; [|exact Hbb].
  intros v (_ & Hv & _). apply Qle_bool_iff. exact Hv.
Qed.

Lemma grid_first_line_rejected_witness :
  contains_point square50 (25, min_y square50_bbox) = false.
Proof. apply (grid_first_line_rejected square50 square50_bbox 25 square50_bbox_eq). Defined.
