(* ===== verification/Bump.v ===== *)
(** * Bump synthesizer

    [generate_slippers.py] lines 82-104 and 198-200: [create_ellipsoid_bump]
    builds the vertex grid and the faces of a half ellipsoid; the placement
    loop translates it onto the surface point and paints it.

    [np.cos], [np.sin] and [np.pi] enter through the interface [TrigOps]
    with the laws [TrigOk]; [bhaskara_trig] is an executable instance (a
    rational approximation of the sine, exact at 0 and at a quarter turn).
    What trimesh does when it is handed the arrays (merging of equal
    vertices) is not modelled: [trimesh] below holds the arrays as the
    program passes them. *)

From Stdlib Require Import QArith Qfield Lqa Lia List ZArith Bool Morphisms Setoid.
From S2P Require Import Prelude.
Import ListNotations.
Local Open Scope Q_scope.

(** ** Meshes as the program handles them *)

(** An RGBA colour as in [zone_color_map]. *)
Definition rgba : Type := (Z * Z * Z * Z)%type.

(** A face: three vertex indices. *)
Definition face : Type := (nat * nat * nat)%type.

(** [trimesh.Trimesh]: vertices, faces and the per-vertex colours
    ([None] for a vertex that was never painted). *)
Record trimesh : Type := mkTrimesh {
  vertices : list point3;
  faces : list face;
  vertex_colors : list (option rgba)
}.

(** ** The trigonometric interface *)

Class TrigOps : Type := {
  np_pi : Q;
  np_cos : Q -> Q;
  np_sin : Q -> Q
}.

Class TrigOk (t : TrigOps) : Prop := {
  np_pi_pos : 0 < np_pi;
  np_cos_compat : forall x y, x == y -> np_cos x == np_cos y;
  np_sin_compat : forall x y, x == y -> np_sin x == np_sin y;
  np_cos_0 : np_cos 0 == 1;
  np_sin_0 : np_sin 0 == 0;
  np_cos_le_1 : forall x, np_cos x <= 1;
  np_cos_quarter : forall x, 0 <= x <= np_pi / 2 -> 0 <= np_cos x
}.

(** ** A rational instance

    Bhaskara's approximation of the sine on a half turn,
    [16 x (pi - x) / (5 pi^2 - 4 x (pi - x))], continued by symmetry to
    the full turn the program uses, with [355 / 113] for [pi]. *)

Definition pi_q : Q := 355 # 113.

Definition bhaskara (x : Q) : Q :=
  16 * x * (pi_q - x) / (5 * pi_q * pi_q - 4 * x * (pi_q - x)).

Definition sin_q (x : Q) : Q :=
  if (Qle_bool 0 x && Qle_bool x pi_q)%bool then bhaskara x
  else if (Qltb pi_q x && Qle_bool x (2 * pi_q))%bool then - bhaskara (x - pi_q)
  else 0.

Definition cos_q (x : Q) : Q :=
  let y := x + pi_q / 2 in
  if Qle_bool y (2 * pi_q) then sin_q y else sin_q (y - 2 * pi_q).

Definition bhaskara_trig : TrigOps := {|
  np_pi := pi_q;
  np_cos := cos_q;
  np_sin := sin_q
|}.

(** ** [np.linspace] *)

(** [n] points from [a] to [b], both included. *)
Definition np_linspace (a b : Q) (n : nat) : list Q :=
  map (fun i => a + Qnat i * ((b - a) / Qnat (n - 1))) (seq 0 n).

(** ** [create_ellipsoid_bump] *)

Section WithTrig.
Context {tr : TrigOps}.

(** Lines 83-89: the flattened vertex grid, stacks outermost. *)
Definition dome_vertices (rx ry rz : Q) (sections stacks : nat) : list point3 :=
  let u := np_linspace 0 (2 * np_pi) sections in
  let v := np_linspace 0 (np_pi / 2) stacks in
  flat_map (fun vi =>
    map (fun uj => (rx * np_cos uj * np_sin vi,
                    ry * np_sin uj * np_sin vi,
                    rz * np_cos vi)) u) v.

End WithTrig.

(** Lines 93-98: the two triangles of the cell [(i, j)]. *)
Definition cell_faces (sections i j : nat) : list face :=
  let p0 := (i * sections + j)%nat in
  let p1 := (p0 + 1)%nat in
  let p2 := (p0 + sections)%nat in
  let p3 := (p2 + 1)%nat in
  [(p0, p2, p1); (p1, p2, p3)].

(** Lines 90-98: the two nested loops over the cells. *)
Definition dome_faces (sections stacks : nat) : list face :=
  flat_map (fun i => flat_map (fun j => cell_faces sections i j) (seq 0 (sections - 1)))
           (seq 0 (stacks - 1)).

Definition create_ellipsoid_bump {tr : TrigOps} (rx ry rz : Q) (sections stacks : nat) : trimesh :=
  let vs := dome_vertices rx ry rz sections stacks in
  mkTrimesh vs (dome_faces sections stacks) (map (fun _ => None) vs).

(** The default arguments of line 82. *)
Definition default_sections : nat := 20.
Definition default_stacks : nat := 10.

(** ** Bump parameters, lines 102-103. *)
Definition bump_radius : Q := 5 # 2.
Definition bump_height : Q := 4.

(** The z offset of line 199. *)
Definition z_offset : Q := 1 # 100.

(** ** Translation and painting *)

(** [mesh.apply_translation([dx, dy, dz])]. *)
Definition apply_translation (t : point3) (m : trimesh) : trimesh :=
  mkTrimesh (map (fun p => (px3 p + px3 t, py3 p + py3 t, pz3 p + pz3 t)) (vertices m))
            (faces m) (vertex_colors m).

(** [mesh.visual.vertex_colors = color]: one colour for every vertex. *)
Definition set_vertex_colors (c : rgba) (m : trimesh) : trimesh :=
  mkTrimesh (vertices m) (faces m) (map (fun _ => Some c) (vertices m)).

(** Lines 198-200: the bump placed for a surface point. *)
Definition make_bump {tr : TrigOps} (x3d y3d z3d : Q) (color : rgba) : trimesh :=
  set_vertex_colors color
    (apply_translation (x3d, y3d, z3d + z_offset)
       (create_ellipsoid_bump bump_radius bump_radius bump_height
          default_sections default_stacks)).

(** A face is well formed in a mesh when its three indices name
    vertices. *)
Definition face_ok (n : nat) (f : face) : Prop :=
  (fst (fst f) < n)%nat /\ (snd (fst f) < n)%nat /\ (snd f < n)%nat.

Definition trimesh_ok (m : trimesh) : Prop :=
  Forall (face_ok (length (vertices m))) (faces m) /\
  length (vertex_colors m) = length (vertices m).

(** * Theorems *)

Lemma np_linspace_length (a b : Q) (n : nat) : length (np_linspace a b n) = n.
Proof. unfold np_linspace. now rewrite length_map, length_seq. Qed.

Lemma np_linspace_In (a b x : Q) (n : nat) :
  In x (np_linspace a b n) ->
  exists i, (i < n)%nat /\ x = a + Qnat i * ((b - a) / Qnat (n - 1)).
Proof.
  unfold np_linspace. rewrite in_map_iff. intros (i & <- & Hi).
  apply in_seq in Hi. exists i. split; [lia | reflexivity].
Qed.

(** Every point of [np.linspace] lies between the end points. *)
Lemma np_linspace_range (a b x : Q) (n : nat) :
  a <= b -> In x (np_linspace a b n) -> a <= x <= b.
Proof.
  intros Hab Hin. apply np_linspace_In in Hin as (i & Hi & ->).
  destruct (Nat.eq_dec n 1) as [->|Hn].
  - assert (i = 0%nat) as -> by lia. rewrite Qnat_0. lra.
  - assert (Hpos : 0 < Qnat (n - 1)) by (apply Qnat_pos; lia).
    assert (Hi' : Qnat i <= Qnat (n - 1)) by (apply Qnat_le; lia).
    pose proof (Qnat_nonneg i) as Hi0.
    assert (Hq : (b - a) / Qnat (n - 1) * Qnat (n - 1) == b - a) by (field; lra).
    assert (Hq0 : 0 <= (b - a) / Qnat (n - 1)) by (apply Qle_shift_div_l; lra).
    revert Hq Hq0. generalize ((b - a) / Qnat (n - 1)). intros q Hq Hq0.
    split; nra.
Qed.

Section DomeFacts.
Context {tr : TrigOps}.
Context (rx ry rz : Q) (sections stacks : nat).

(** The vertex grid of a bump has [stacks * sections] vertices. *)
Lemma dome_vertices_length :
  length (dome_vertices rx ry rz sections stacks) = (stacks * sections)%nat.
Proof.
  unfold dome_vertices. rewrite <- (np_linspace_length 0 (np_pi / 2) stacks) at 2.
  apply length_flat_map_const. intros a _.
  now rewrite length_map, np_linspace_length.
Qed.

Lemma cell_faces_length (i j : nat) : length (cell_faces sections i j) = 2%nat.
Proof. reflexivity. Qed.

(** A bump has two faces per cell of the grid:
    [2 * (stacks - 1) * (sections - 1)] faces. *)
Lemma dome_faces_length :
  length (dome_faces sections stacks) = (2 * ((stacks - 1) * (sections - 1)))%nat.
Proof.
  unfold dome_faces.
  rewrite (length_flat_map_const _ ((sections - 1) * 2)).
  - rewrite length_seq. lia.
  - intros i _. rewrite (length_flat_map_const _ 2), length_seq; auto.
Qed.

Lemma dome_faces_In (f : face) :
  In f (dome_faces sections stacks) ->
  exists i j, (i < stacks - 1)%nat /\ (j < sections - 1)%nat /\ In f (cell_faces sections i j).
Proof.
  unfold dome_faces. rewrite in_flat_map. intros (i & Hi & Hf).
  apply in_flat_map in Hf as (j & Hj & Hf). apply in_seq in Hi, Hj.
  exists i, j. repeat split; [lia | lia | exact Hf].
Qed.

(** The greatest index a cell uses, that of the vertex diagonally
    opposite, is a vertex of the grid. *)
Lemma dome_face_ok (f : face) :
  In f (dome_faces sections stacks) -> face_ok (stacks * sections) f.
Proof.
  intros Hf. apply dome_faces_In in Hf as (i & j & Hi & Hj & Hf).
  assert (Hmax : ((i + 1) * sections + j + 1 < stacks * sections)%nat).
  { assert ((i + 1) * sections <= (stacks - 1) * sections)%nat
      by (apply Nat.mul_le_mono_r; lia).
    assert ((stacks - 1) * sections + sections = stacks * sections)%nat by nia.
    lia. }
  unfold cell_faces in Hf. simpl in Hf.
  destruct Hf as [<-|[<-|[]]]; unfold face_ok; simpl; repeat split; lia.
Qed.

(** Every face of a bump names three vertices of its grid: no index
    is out of range. *)
Theorem dome_faces_in_range :
  Forall (face_ok (stacks * sections)) (dome_faces sections stacks).
Proof. apply Forall_forall, dome_face_ok. Qed.

End DomeFacts.

(** * The rational instance keeps the interface *)

Lemma half_turn_square (x : Q) : 0 <= (x - (355 # 226)) * (x - (355 # 226)).
Proof. generalize (x - (355 # 226)). intros d. nra. Qed.

Lemma bhaskara_den_pos (x : Q) : 0 < 5 * pi_q * pi_q - 4 * x * (pi_q - x).
Proof. pose proof (half_turn_square x). unfold pi_q. lra. Qed.

Lemma bhaskara_range (x : Q) : 0 <= x <= pi_q -> 0 <= bhaskara x <= 1.
Proof.
  intros Hx. pose proof (bhaskara_den_pos x) as Hd. unfold bhaskara. split.
  - apply Qle_shift_div_l; [exact Hd|]. unfold pi_q in *. nra.
  - apply Qle_shift_div_r; [exact Hd|].
    pose proof (half_turn_square x). unfold pi_q in *. lra.
Qed.

Lemma bhaskara_compat (x y : Q) : x == y -> bhaskara x == bhaskara y.
Proof. intros H. unfold bhaskara. now rewrite H. Qed.

Lemma sin_q_compat (x y : Q) : x == y -> sin_q x == sin_q y.
Proof.
  intros H. unfold sin_q.
  rewrite <- (Qleb_comp 0 0 (Qeq_refl 0) x y H), <- (Qleb_comp x y H pi_q pi_q (Qeq_refl _)).
  rewrite <- (Qltb_proper pi_q pi_q (Qeq_refl _) x y H).
  rewrite <- (Qleb_comp x y H (2 * pi_q) (2 * pi_q) (Qeq_refl _)).
  destruct (Qle_bool 0 x && Qle_bool x pi_q)%bool; [now apply bhaskara_compat|].
  destruct (Qltb pi_q x && Qle_bool x (2 * pi_q))%bool; [|reflexivity].
  apply Qopp_comp, bhaskara_compat. now rewrite H.
Qed.

Lemma sin_q_le_1 (x : Q) : sin_q x <= 1.
Proof.
  unfold sin_q.
  destruct (Qleb_spec 0 x), (Qleb_spec x pi_q); simpl;
    try (apply bhaskara_range; split; assumption);
    destruct (Qltb_spec pi_q x), (Qleb_spec x (2 * pi_q)); simpl; try discriminate;
    pose proof (bhaskara_range (x - pi_q)) as Hb; lra.
Qed.

Lemma cos_q_compat (x y : Q) : x == y -> cos_q x == cos_q y.
Proof.
  intros H. unfold cos_q. cbv zeta.
  assert (E : Qle_bool (x + pi_q / 2) (2 * pi_q) = Qle_bool (y + pi_q / 2) (2 * pi_q))
    by now rewrite H.
  rewrite E. destruct (Qle_bool (y + pi_q / 2) (2 * pi_q));
    apply sin_q_compat; now rewrite H.
Qed.

Lemma cos_q_quarter (x : Q) : 0 <= x <= pi_q / 2 -> 0 <= cos_q x.
Proof.
  intros Hx. assert (Hh : pi_q / 2 == 355 # 226) by reflexivity.
  unfold cos_q, sin_q. cbv zeta. rewrite Hh in *. unfold pi_q in *.
  qcases; simpl; try lra.
  apply bhaskara_range. unfold pi_q. lra.
Qed.

#[export] Instance bhaskara_trig_ok : TrigOk bhaskara_trig.
Proof.
  split; simpl.
  - reflexivity.
  - exact cos_q_compat.
  - exact sin_q_compat.
  - reflexivity.
  - reflexivity.
  - intros x. unfold cos_q. cbv zeta.
    destruct (Qle_bool (x + pi_q / 2) (2 * pi_q)); apply sin_q_le_1.
  - exact cos_q_quarter.
Qed.

(** * Heights and well-formedness of a bump *)

Section DomeHeights.
Context {tr : TrigOps} {ok : TrigOk tr}.
Context (rx ry rz : Q) (sections stacks : nat).

Lemma dome_vertices_In (p : point3) :
  In p (dome_vertices rx ry rz sections stacks) ->
  exists vi uj, In vi (np_linspace 0 (np_pi / 2) stacks) /\
                In uj (np_linspace 0 (2 * np_pi) sections) /\
                p = (rx * np_cos uj * np_sin vi, ry * np_sin uj * np_sin vi, rz * np_cos vi).
Proof.
  unfold dome_vertices. rewrite in_flat_map. intros (vi & Hvi & Hp).
  apply in_map_iff in Hp as (uj & <- & Huj). exists vi, uj. auto.
Qed.

(** The polar angle stays in the first quarter turn, where the cosine is
    between 0 and 1. *)
Lemma dome_vertex_height (p : point3) :
  0 <= rz -> In p (dome_vertices rx ry rz sections stacks) -> 0 <= pz3 p <= rz.
Proof.
  intros Hrz Hp.
  apply dome_vertices_In in Hp as (vi & uj & Hvi & _ & ->).
  apply np_linspace_range in Hvi;
    [|pose proof np_pi_pos; apply Qle_shift_div_l; lra].
  pose proof (np_cos_quarter vi Hvi). pose proof (np_cos_le_1 vi).
  unfold pz3; simpl. split; nra.
Qed.

(** Every vertex of the dome lies between its base plane and its
    apex: the height is in [[0, rz]]. *)
Theorem dome_vertices_height :
  0 <= rz -> Forall (fun p => 0 <= pz3 p <= rz) (dome_vertices rx ry rz sections stacks).
Proof. intros Hrz. apply Forall_forall. intros p. now apply dome_vertex_height. Qed.

(** The first ring of the grid is the apex repeated [sections] times. *)
Lemma dome_apex_row :
  (0 < stacks)%nat ->
  Forall (fun p => p3eq p (0, 0, rz)) (firstn sections (dome_vertices rx ry rz sections stacks)).
Proof.
  intros Hs. destruct stacks as [|k]; [lia|]. unfold dome_vertices. cbv zeta.
  unfold np_linspace at 2. cbn [seq map flat_map].
  rewrite firstn_app, length_map, np_linspace_length, Nat.sub_diag, firstn_O, app_nil_r.
  rewrite firstn_all2 by now rewrite length_map, np_linspace_length.
  apply Forall_forall. intros p Hp. apply in_map_iff in Hp as (uj & <- & _).
  set (v0 := 0 + Qnat 0 * ((np_pi / 2 - 0) / Qnat (S k - 1))).
  assert (Hv0 : v0 == 0) by (unfold v0; rewrite Qnat_0; ring).
  assert (Hs0 : np_sin v0 == 0) by (rewrite (np_sin_compat _ _ Hv0); apply np_sin_0).
  assert (Hc0 : np_cos v0 == 1) by (rewrite (np_cos_compat _ _ Hv0); apply np_cos_0).
  unfold p3eq, px3, py3, pz3. cbn [fst snd]. rewrite Hs0, Hc0. repeat split; ring.
Qed.

End DomeHeights.

Section MakeBump.
Context {tr : TrigOps} {ok : TrigOk tr}.
Context (x3d y3d z3d : Q) (color : rgba).

Lemma make_bump_vertices :
  vertices (make_bump x3d y3d z3d color) =
  map (fun p => (px3 p + x3d, py3 p + y3d, pz3 p + (z3d + z_offset)))
      (dome_vertices bump_radius bump_radius bump_height default_sections default_stacks).
Proof. reflexivity. Qed.

(** The height of a vertex of a placed bump, from the hit upwards. *)
Lemma make_bump_vertex_range (p : point3) :
  In p (vertices (make_bump x3d y3d z3d color)) ->
  z3d + z_offset <= pz3 p <= z3d + z_offset + bump_height.
Proof.
  rewrite make_bump_vertices, in_map_iff. intros (q & <- & Hq).
  apply dome_vertex_height in Hq; [|vm_compute; discriminate].
  unfold pz3 in *; simpl. unfold bump_height in *. lra.
Qed.

(** A bump sits above the surface point it was made for: every
    vertex is strictly higher than the hit, by at least the z offset and
    at most the z offset plus the bump height. *)
Theorem make_bump_above_surface :
  Forall (fun p => z3d < pz3 p /\ pz3 p <= z3d + z_offset + bump_height)
         (vertices (make_bump x3d y3d z3d color)).
Proof.
  apply Forall_forall. intros p Hp%make_bump_vertex_range.
  unfold z_offset in *. lra.
Qed.

Lemma make_bump_vertices_length :
  length (vertices (make_bump x3d y3d z3d color)) = 200%nat.
Proof. rewrite make_bump_vertices, length_map. apply dome_vertices_length. Qed.

(** A placed bump is a well formed mesh. *)
Lemma make_bump_trimesh_ok : trimesh_ok (make_bump x3d y3d z3d color).
Proof.
  split.
  - rewrite make_bump_vertices_length.
    apply Forall_forall, (dome_face_ok default_sections default_stacks).
  - unfold make_bump, set_vertex_colors. cbn [vertex_colors vertices]. apply length_map.
Qed.


End MakeBump.

(** The faces of the first stack are degenerate: the first ring of
    vertices is the apex repeated, so the triangle [(j, j + sections,
    j + 1)] of every cell of the first stack has two corners at the same
    position. *)
Theorem dome_first_stack_degenerate {tr : TrigOps} {ok : TrigOk tr}
  (rx ry rz : Q) (sections stacks j : nat) :
  (1 < stacks)%nat -> (j < sections - 1)%nat ->
  let vs := dome_vertices rx ry rz sections stacks in
  In (j, (j + sections)%nat, (j + 1)%nat) (dome_faces sections stacks) /\
  p3eq (nth j vs (0, 0, 0)) (nth (j + 1) vs (0, 0, 0)).
Proof.
  intros Hs Hj vs. split.
  - unfold dome_faces. apply in_flat_map. exists 0%nat. split; [apply in_seq; lia|].
    apply in_flat_map. exists j. split; [apply in_seq; lia|]. left. reflexivity.
  - assert (Hrow := dome_apex_row rx ry rz sections stacks ltac:(lia)).
    fold vs in Hrow. rewrite Forall_forall in Hrow.
    assert (Hlen : length (firstn sections vs) = sections).
    { rewrite length_firstn. unfold vs. rewrite dome_vertices_length. nia. }
    assert (Hn : forall i, (i < sections)%nat -> p3eq (nth i vs (0, 0, 0)) (0, 0, rz)).
    { intros i Hi. apply Hrow. rewrite <- (firstn_skipn sections vs) at 1.
      rewrite app_nth1 by lia. apply nth_In. lia. }
    rewrite (Hn j), (Hn (j + 1)%nat) by lia. reflexivity.
Qed.

(** * Concrete runs with the rational instance *)

Lemma dome_vertices_height_witness :
  Forall (fun p => 0 <= pz3 p <= 4) (@dome_vertices bhaskara_trig (5 # 2) (5 # 2) 4 4 3).
Proof.
  apply (@dome_vertices_height bhaskara_trig bhaskara_trig_ok (5 # 2) (5 # 2) 4 4 3).
  vm_compute. discriminate.
Defined.

Lemma make_bump_above_surface_witness :
  Forall (fun p => 5 < pz3 p /\ pz3 p <= 5 + z_offset + bump_height)
         (vertices (@make_bump bhaskara_trig 35 80 5 (255, 0, 0, 255)%Z)).
Proof.
  apply (@make_bump_above_surface bhaskara_trig bhaskara_trig_ok 35 80 5 (255, 0, 0, 255)%Z).
Defined.

Lemma dome_first_stack_degenerate_witness :
  let vs := @dome_vertices bhaskara_trig (5 # 2) (5 # 2) 4 20 10 in
  In (3, 23, 4)%nat (dome_faces 20 10) /\
  p3eq (nth 3 vs (0, 0, 0)) (nth 4 vs (0, 0, 0)).
Proof.
  apply (@dome_first_stack_degenerate bhaskara_trig bhaskara_trig_ok
           (5 # 2) (5 # 2) 4 20 10 3); lia.
Defined.
