(* ===== verification/Compositor.v ===== *)
(** * Mesh compositor

    [generate_slippers.py] lines 143, 201 and 250: the pieces of the
    output are kept in the list [spikes], the sole first and then one bump
    per hit, and joined once at the end with [trimesh.util.concatenate].

    The concatenation is the mesh library's.  It is modelled as the
    specification describes it: the vertex lists, the face lists and the
    per-vertex colours of the pieces are appended in order, the indices of
    the faces of a piece moved by the number of vertices before it, and no
    vertex is merged with another. *)

From Stdlib Require Import QArith Lia List ZArith Bool.
From S2P Require Import Prelude Bump.
Import ListNotations.

(** ** Definitions *)

(** A face of a piece, in a mesh in which [k] vertices come first. *)
Definition shift_face (k : nat) (f : face) : face :=
  (fst (fst f) + k, snd (fst f) + k, snd f + k)%nat.

Definition empty_mesh : trimesh := mkTrimesh [] [] [].

(** One more piece after what was joined so far. *)
Definition append_mesh (acc m : trimesh) : trimesh :=
  mkTrimesh (vertices acc ++ vertices m)
            (faces acc ++ map (shift_face (length (vertices acc))) (faces m))
            (vertex_colors acc ++ vertex_colors m).

(** [trimesh.util.concatenate(spikes)] *)
Definition concatenate (pieces : list trimesh) : trimesh :=
  fold_left append_mesh pieces empty_mesh.

(** The faces of the pieces with their offsets, piece by piece: what the
    concatenation is meant to hold. *)
Fixpoint faces_from (k : nat) (pieces : list trimesh) : list face :=
  match pieces with
  | [] => []
  | m :: rest =>
      map (shift_face k) (faces m) ++ faces_from (k + length (vertices m)) rest
  end.

(** The three corners of a face in a mesh. *)
Definition corners (m : trimesh) (f : face) : point3 * point3 * point3 :=
  (nth (fst (fst f)) (vertices m) (0, 0, 0)%Q,
   nth (snd (fst f)) (vertices m) (0, 0, 0)%Q,
   nth (snd f) (vertices m) (0, 0, 0)%Q).

(** * Theorems *)

Lemma face_ok_shift (n k : nat) (f : face) :
  face_ok n f -> face_ok (k + n) (shift_face k f).
Proof. unfold face_ok, shift_face. simpl. lia. Qed.

Lemma face_ok_weaken (n n' : nat) (f : face) :
  (n <= n')%nat -> face_ok n f -> face_ok n' f.
Proof. unfold face_ok. lia. Qed.

Lemma append_mesh_ok (acc m : trimesh) :
  trimesh_ok acc -> trimesh_ok m -> trimesh_ok (append_mesh acc m).
Proof.
  intros [Ha Hca] [Hm Hcm]. split; simpl.
  - rewrite length_app. apply Forall_app. split.
    + eapply Forall_impl; [|exact Ha]. intros f. apply face_ok_weaken. lia.
    + apply Forall_map. eapply Forall_impl; [|exact Hm]. intros f. apply face_ok_shift.
  - rewrite !length_app. lia.
Qed.

(** The loop of the concatenation, from any mesh joined so far. *)
Lemma fold_append_mesh (pieces : list trimesh) (acc : trimesh) :
  let r := fold_left append_mesh pieces acc in
  vertices r = vertices acc ++ flat_map vertices pieces /\
  faces r = faces acc ++ faces_from (length (vertices acc)) pieces /\
  vertex_colors r = vertex_colors acc ++ flat_map vertex_colors pieces.
Proof.
  revert acc. induction pieces as [|m rest IH]; intros acc; simpl.
  - now rewrite !app_nil_r.
  - destruct (IH (append_mesh acc m)) as (Hv & Hf & Hc).
    rewrite Hv, Hf, Hc. simpl. rewrite length_app, <- !app_assoc. auto.
Qed.

Lemma fold_append_mesh_ok (pieces : list trimesh) (acc : trimesh) :
  trimesh_ok acc -> Forall trimesh_ok pieces ->
  trimesh_ok (fold_left append_mesh pieces acc).
Proof.
  revert acc. induction pieces as [|m rest IH]; intros acc Ha Hp; simpl; [exact Ha|].
  inversion Hp; subst. apply IH; [now apply append_mesh_ok | assumption].
Qed.

Lemma concatenate_vertices (pieces : list trimesh) :
  vertices (concatenate pieces) = flat_map vertices pieces.
Proof. apply (fold_append_mesh pieces empty_mesh). Qed.

Lemma length_faces_from (k : nat) (pieces : list trimesh) :
  length (faces_from k pieces) = sum_nat (map (fun m => length (faces m)) pieces).
Proof.
  revert k. induction pieces as [|m rest IH]; intros k; simpl; [reflexivity|].
  now rewrite length_app, length_map, IH.
Qed.

Lemma length_flat_map_sum {A B : Type} (f : A -> list B) (l : list A) :
  length (flat_map f l) = sum_nat (map (fun a => length (f a)) l).
Proof. induction l as [|a l IH]; simpl; [reflexivity|]. now rewrite length_app, IH. Qed.


(** Joining well formed pieces gives a well formed mesh. *)
Theorem concatenate_ok (pieces : list trimesh) :
  Forall trimesh_ok pieces -> trimesh_ok (concatenate pieces).
Proof.
  apply fold_append_mesh_ok. split; [constructor | reflexivity].
Qed.

(** The faces of a piece are in the list of [faces_from], moved by the
    number of vertices before the piece. *)
Lemma faces_from_In (k : nat) (before after : list trimesh) (m : trimesh) (f : face) :
  In f (faces m) ->
  In (shift_face (k + length (flat_map vertices before)) f)
     (faces_from k (before ++ m :: after)).
Proof.
  revert k. induction before as [|b before IH]; intros k Hf; simpl.
  - rewrite Nat.add_0_r. apply in_or_app. left. now apply in_map.
  - apply in_or_app. right. rewrite length_app, Nat.add_assoc. now apply IH.
Qed.

(** Concatenation moves no triangle: a face of a piece is a face of the
    joined mesh, under its moved indices, with the same three corners. *)
Theorem concatenate_keeps_faces (before after : list trimesh) (m : trimesh) (f : face) :
  In f (faces m) -> face_ok (length (vertices m)) f ->
  let joined := concatenate (before ++ m :: after) in
  let f' := shift_face (length (flat_map vertices before)) f in
  In f' (faces joined) /\ corners joined f' = corners m f.
Proof.
  intros Hf (H1 & H2 & H3) joined f'. subst joined f'.
  destruct (fold_append_mesh (before ++ m :: after) empty_mesh) as (Hv & Hfs & _).
  fold (concatenate (before ++ m :: after)) in Hv, Hfs. simpl in Hv, Hfs.
  split.
  - rewrite Hfs. apply (faces_from_In 0 before after m f Hf).
  - unfold corners. rewrite Hv, flat_map_app. simpl flat_map.
    unfold shift_face. simpl fst. simpl snd.
    rewrite !(Nat.add_comm _ (length (flat_map vertices before))).
    rewrite !app_nth2_plus, !app_nth1 by assumption. reflexivity.
Qed.

(** * Concrete runs *)

Definition triangle (a b c : point3) : trimesh :=
  mkTrimesh [a; b; c] [(0, 1, 2)%nat] [None; None; None].

Lemma concatenate_ok_witness :
  trimesh_ok (concatenate [triangle (0, 0, 0) (1, 0, 0) (0, 1, 0);
                           triangle (0, 0, 1) (1, 0, 1) (0, 1, 1)]%Q).
Proof.
  apply concatenate_ok. repeat constructor; simpl; lia.
Defined.

Lemma concatenate_keeps_faces_witness :
  let t1 := triangle (0, 0, 0) (1, 0, 0) (0, 1, 0)%Q in
  let t2 := triangle (0, 0, 1) (1, 0, 1) (0, 1, 1)%Q in
  In (3, 4, 5)%nat (faces (concatenate [t1; t2])) /\
  corners (concatenate [t1; t2]) (3, 4, 5)%nat = corners t2 (0, 1, 2)%nat.
Proof.
  intros t1 t2.
  apply (concatenate_keeps_faces [t1] [] t2 (0, 1, 2)%nat); [now left|].
  unfold face_ok. simpl. lia.
Defined.
