(* ===== verification/Surface.v ===== *)
(** * Surface locator

    [generate_slippers.py] lines 183-192: a ray is cast straight down from
    ten millimetres above the top of the sole; of all intersections the
    one with the greatest height is kept ([max] for the height, [np.argmax]
    for the location).

    The ray query itself is trimesh's.  It enters through the interface
    [SoleMesh] (the operations the program calls) and [SoleMeshOk] (what
    the program relies on: an intersection of a vertical ray lies on the
    ray and inside the bounding box).  [slab_mesh] is an executable
    instance: an axis aligned box, hit on its top and bottom face. *)

From Stdlib Require Import QArith Qminmax Lqa Lia List ZArith Bool Morphisms Setoid.
From S2P Require Import Prelude Mapper Sampler Bump.
Import ListNotations.
Local Open Scope Q_scope.

(** ** The mesh interface *)

(** The direction of line 185. *)
Definition ray_down : point3 := (0, 0, -(1)).

(** The clearance of line 184. *)
Definition ray_clearance : Q := 10.

Class SoleMesh : Type := {
  (** the vertices and faces of [sole_model], as loaded *)
  mesh_data : trimesh;
  (** [mesh.bounds] *)
  mesh_bounds : bounds;
  (** [mesh.ray.intersects_location(origin, direction)]: the locations,
      in the order the library returns them *)
  intersects_location : point3 -> point3 -> list point3
}.

Class SoleMeshOk (m : SoleMesh) : Prop := {
  hit_on_ray : forall o loc,
    In loc (intersects_location o ray_down) -> px3 loc == px3 o /\ py3 loc == py3 o;
  hit_in_bounds : forall o loc,
    In loc (intersects_location o ray_down) ->
    pz3 (bmin mesh_bounds) <= pz3 loc <= pz3 (bmax mesh_bounds)
}.

(** ** Selecting the top hit *)

(** [np.argmax]: the index of the first greatest entry.  [best_i] and
    [best] are the running index and value, [i] the index of the head of
    the remaining list. *)
Fixpoint argmax_from (best_i : nat) (best : Q) (i : nat) (l : list Q) : nat :=
  match l with
  | [] => best_i
  | x :: r => if Qltb best x then argmax_from i x (S i) r
              else argmax_from best_i best (S i) r
  end.

Definition np_argmax (l : list Q) : nat :=
  match l with
  | [] => 0%nat
  | x :: r => argmax_from 0 x 1 r
  end.

(** Lines 188-192: [None] when the ray misses; otherwise the greatest
    height [z3d] and the location [loc] that [np.argmax] selects. *)
Definition top_hit (locations : list point3) : option (Q * point3) :=
  match np_max (map pz3 locations) with
  | None => None
  | Some z3d => Some (z3d, nth (np_argmax (map pz3 locations)) locations (0, 0, 0))
  end.

(** Lines 184-187: the ray cast for the mapped position [(x3d, y3d)]. *)
Definition cast_ray {m : SoleMesh} (x3d y3d : Q) : list point3 :=
  let origin := (x3d, y3d, pz3 (bmax mesh_bounds) + ray_clearance) in
  intersects_location origin ray_down.

(** ** The slab: an axis aligned box as a mesh *)

Definition slab_hits (b : bounds) (origin : point3) : list point3 :=
  if (Qle_bool (px3 (bmin b)) (px3 origin) && Qle_bool (px3 origin) (px3 (bmax b)) &&
      Qle_bool (py3 (bmin b)) (py3 origin) && Qle_bool (py3 origin) (py3 (bmax b)) &&
      Qle_bool (pz3 (bmax b)) (pz3 origin))%bool
  then [(px3 origin, py3 origin, pz3 (bmin b)); (px3 origin, py3 origin, pz3 (bmax b))]
  else [].

(** The eight corners and twelve triangles of the box. *)
Definition box_trimesh (b : bounds) : trimesh :=
  let '(x0, y0, z0) := bmin b in
  let '(x1, y1, z1) := bmax b in
  mkTrimesh
    [(x0, y0, z0); (x1, y0, z0); (x1, y1, z0); (x0, y1, z0);
     (x0, y0, z1); (x1, y0, z1); (x1, y1, z1); (x0, y1, z1)]
    [(0, 2, 1); (0, 3, 2); (4, 5, 6); (4, 6, 7); (0, 1, 5); (0, 5, 4);
     (1, 2, 6); (1, 6, 5); (2, 3, 7); (2, 7, 6); (3, 0, 4); (3, 4, 7)]%nat
    [None; None; None; None; None; None; None; None].

Definition slab_mesh (b : bounds) : SoleMesh := {|
  mesh_data := box_trimesh b;
  mesh_bounds := b;
  intersects_location := fun origin _ => slab_hits b origin
|}.

(** * Theorems on the selection *)

Section ArgmaxFacts.

(** The running maximum of [argmax_from] written as a value. *)
Lemma fold_left_Qmax_step (l : list Q) (a x : Q) :
  fold_left Qmax l (Qmax a x) = fold_left Qmax (x :: l) a.
Proof. reflexivity. Qed.

Lemma Qmax_lt (a x : Q) : a < x -> Qmax a x = x.
Proof.
  intros H. unfold Qmax, GenericMinMax.gmax.
  destruct (a ?= x) eqn:E; try reflexivity.
  - apply Qeq_alt in E. lra.
  - apply Qgt_alt in E. lra.
Qed.

Lemma Qmax_ge (a x : Q) : x <= a -> Qmax a x = a.
Proof.
  intros H. unfold Qmax, GenericMinMax.gmax.
  destruct (a ?= x) eqn:E; try reflexivity.
  apply Qlt_alt in E. lra.
Qed.

(** [argmax_from] points at the running maximum: if [best] is the entry
    at [best_i] of the whole list, the result indexes the final maximum. *)
Lemma argmax_from_spec (pre l : list Q) (best_i : nat) (best : Q) :
  nth best_i pre 0 = best -> (best_i < length pre)%nat ->
  let k := argmax_from best_i best (length pre) l in
  (k < length (pre ++ l))%nat /\ nth k (pre ++ l) 0 = fold_left Qmax l best.
Proof.
  revert pre best_i best. induction l as [|x l IH]; intros pre best_i best Hn Hi; simpl.
  - rewrite app_nil_r. auto.
  - replace (pre ++ x :: l) with ((pre ++ [x]) ++ l) by now rewrite <- app_assoc.
    replace (S (length pre)) with (length (pre ++ [x])) by (rewrite length_app; simpl; lia).
    destruct (Qltb_spec best x) as [Hlt|Hge].
    + rewrite (Qmax_lt _ _ Hlt). apply IH.
      * rewrite app_nth2, Nat.sub_diag by lia. reflexivity.
      * rewrite length_app. simpl. lia.
    + rewrite (Qmax_ge _ _ Hge). apply IH.
      * rewrite app_nth1 by lia. exact Hn.
      * rewrite length_app. simpl. lia.
Qed.

Lemma np_argmax_spec (l : list Q) (m : Q) :
  np_max l = Some m -> (np_argmax l < length l)%nat /\ nth (np_argmax l) l 0 = m.
Proof.
  destruct l as [|x l]; simpl; [discriminate|]. intros [= <-].
  apply (argmax_from_spec [x] l 0 x); simpl; auto.
Qed.

(** Every entry before the selected index is strictly smaller than the
    maximum: [np.argmax] returns the first greatest entry. *)
Lemma argmax_from_first (pre l : list Q) (best_i : nat) (best : Q) :
  nth best_i pre 0 = best -> (best_i < length pre)%nat ->
  (forall j, (j < best_i)%nat -> nth j pre 0 < best) ->
  (forall j, (j < length pre)%nat -> nth j pre 0 <= best) ->
  forall j, (j < argmax_from best_i best (length pre) l)%nat ->
            nth j (pre ++ l) 0 < fold_left Qmax l best.
Proof.
  revert pre best_i best. induction l as [|x l IH];
    intros pre best_i best Hn Hi Hlt Hle j Hj; simpl in *.
  - rewrite app_nil_r. auto.
  - replace (pre ++ x :: l) with ((pre ++ [x]) ++ l) by now rewrite <- app_assoc.
    replace (S (length pre)) with (length (pre ++ [x])) in Hj
      by (rewrite length_app; simpl; lia).
    destruct (Qltb_spec best x) as [Hbx|Hbx].
    + rewrite (Qmax_lt _ _ Hbx). eapply IH; try exact Hj.
      * rewrite app_nth2, Nat.sub_diag by lia. reflexivity.
      * rewrite length_app. simpl. lia.
      * intros i Hi'. rewrite app_nth1 by lia.
        eapply Qle_lt_trans; [apply Hle; lia | exact Hbx].
      * intros i Hi'. rewrite length_app in Hi'. simpl in Hi'.
        destruct (Nat.eq_dec i (length pre)) as [->|Hne].
        -- rewrite app_nth2, Nat.sub_diag by lia. apply Qle_refl.
        -- rewrite app_nth1 by lia. apply Qlt_le_weak.
           eapply Qle_lt_trans; [apply Hle; lia | exact Hbx].
    + rewrite (Qmax_ge _ _ Hbx). eapply IH; try exact Hj.
      * rewrite app_nth1 by lia. exact Hn.
      * rewrite length_app. simpl. lia.
      * intros i Hi'. rewrite app_nth1 by lia. now apply Hlt.
      * intros i Hi'. rewrite length_app in Hi'. simpl in Hi'.
        destruct (Nat.eq_dec i (length pre)) as [->|Hne].
        -- rewrite app_nth2, Nat.sub_diag by lia. exact Hbx.
        -- rewrite app_nth1 by lia. apply Hle. lia.
Qed.

End ArgmaxFacts.

Section TopHit.
Context (locations : list point3).

Lemma top_hit_None : top_hit locations = None <-> locations = [].
Proof.
  unfold top_hit. destruct locations; simpl; split; congruence.
Qed.

Lemma nth_map_pz3 (k : nat) :
  (k < length locations)%nat ->
  nth k (map pz3 locations) 0 = pz3 (nth k locations (0, 0, 0)).
Proof.
  intros Hk. transitivity (nth k (map pz3 locations) (pz3 (0, 0, 0))).
  - apply nth_indep. now rewrite length_map.
  - apply map_nth.
Qed.

(** The selected hit is one of the intersections and its height is the
    height returned with it. *)
Lemma top_hit_In (z3d : Q) (loc : point3) :
  top_hit locations = Some (z3d, loc) -> In loc locations /\ pz3 loc = z3d.
Proof.
  unfold top_hit. destruct (np_max (map pz3 locations)) as [m|] eqn:E; [|discriminate].
  intros [= <- <-]. destruct (np_argmax_spec _ _ E) as [Hk Hn].
  rewrite length_map in Hk. rewrite nth_map_pz3 in Hn by exact Hk.
  split; [now apply nth_In | exact Hn].
Qed.

(** No intersection lies above the selected height. *)
Lemma top_hit_upper (z3d : Q) (loc : point3) :
  top_hit locations = Some (z3d, loc) -> Forall (fun l => pz3 l <= z3d) locations.
Proof.
  unfold top_hit. destruct (np_max (map pz3 locations)) as [m|] eqn:E; [|discriminate].
  intros [= <- _]. apply np_max_upper in E. now rewrite Forall_map in E.
Qed.

(** C5. The selected hit is one of the intersections, its height is the
    greatest height [z3d], and no intersection lies higher: the location
    taken with [np.argmax] and the height taken with [max] belong to the
    same point. *)
Theorem top_hit_spec (z3d : Q) (loc : point3) :
  top_hit locations = Some (z3d, loc) ->
  In loc locations /\ pz3 loc = z3d /\ Forall (fun l => pz3 l <= z3d) locations.
Proof.
  intros H. destruct (top_hit_In _ _ H) as [Hin Hz]. split; [exact Hin|]. split; [exact Hz|].
  now apply (top_hit_upper z3d loc).
Qed.

(** Among several intersections of the same greatest height the
    first in the library's order is taken: every intersection before the
    selected one is strictly lower. *)
Theorem top_hit_first (z3d : Q) (loc : point3) (j : nat) :
  top_hit locations = Some (z3d, loc) ->
  (j < np_argmax (map pz3 locations))%nat ->
  pz3 (nth j locations (0, 0, 0)) < z3d.
Proof.
  unfold top_hit. destruct (np_max (map pz3 locations)) as [m|] eqn:E; [|discriminate].
  intros [= <- <-] Hj. destruct (np_argmax_spec _ _ E) as [Hk _].
  rewrite length_map in Hk. rewrite <- nth_map_pz3 by lia.
  destruct locations as [|p l]; [discriminate|]. simpl in E, Hj |- *.
  injection E as <-.
  apply (argmax_from_first [pz3 p] (map pz3 l) 0 (pz3 p)); simpl; auto; try lia.
  intros i Hi. replace i with 0%nat by lia. apply Qle_refl.
Qed.

End TopHit.

(** * What the interface gives the clients *)

Section MeshClients.
Context {m : SoleMesh} {ok : SoleMeshOk m}.

(** The selected hit of a cast ray lies exactly below the ray's origin. *)
Lemma cast_ray_hit_on_ray (x3d y3d z3d : Q) (loc : point3) :
  top_hit (cast_ray x3d y3d) = Some (z3d, loc) -> px3 loc == x3d /\ py3 loc == y3d.
Proof.
  intros (Hin & _)%top_hit_In. apply (hit_on_ray _ _ Hin).
Qed.

(** Its height is within the bounds of the sole. *)
Lemma cast_ray_hit_in_bounds (x3d y3d z3d : Q) (loc : point3) :
  top_hit (cast_ray x3d y3d) = Some (z3d, loc) ->
  pz3 (bmin mesh_bounds) <= z3d <= pz3 (bmax mesh_bounds).
Proof.
  intros (Hin & <-)%top_hit_In. apply (hit_in_bounds _ _ Hin).
Qed.

(** On a mesh that keeps the interface, the selected hit of a cast
    ray lies exactly below the ray's origin and not above the top of the
    sole. *)
Theorem cast_ray_top_hit (x3d y3d z3d : Q) (loc : point3) :
  top_hit (cast_ray x3d y3d) = Some (z3d, loc) ->
  px3 loc == x3d /\ py3 loc == y3d /\
  pz3 (bmin mesh_bounds) <= z3d <= pz3 (bmax mesh_bounds).
Proof.
  intros H. destruct (cast_ray_hit_on_ray _ _ _ _ H) as [Hx Hy].
  pose proof (cast_ray_hit_in_bounds _ _ _ _ H). tauto.
Qed.

End MeshClients.

(** * The slab keeps the interface *)

Section Slab.
Context (b : bounds).

Lemma slab_hits_In (origin loc : point3) :
  In loc (slab_hits b origin) ->
  px3 (bmin b) <= px3 origin <= px3 (bmax b) /\
  py3 (bmin b) <= py3 origin <= py3 (bmax b) /\
  (loc = (px3 origin, py3 origin, pz3 (bmin b)) \/
   loc = (px3 origin, py3 origin, pz3 (bmax b))).
Proof.
  unfold slab_hits. qcases; simpl; try tauto.
  intros [<-|[<-|[]]]; auto.
Qed.

Lemma slab_hits_inside (origin : point3) :
  px3 (bmin b) <= px3 origin <= px3 (bmax b) ->
  py3 (bmin b) <= py3 origin <= py3 (bmax b) ->
  pz3 (bmax b) <= pz3 origin ->
  slab_hits b origin =
  [(px3 origin, py3 origin, pz3 (bmin b)); (px3 origin, py3 origin, pz3 (bmax b))].
Proof.
  intros Hx Hy Hz. unfold slab_hits. qcases; simpl; try reflexivity; lra.
Qed.

Lemma slab_hits_outside (origin : point3) :
  px3 origin < px3 (bmin b) \/ px3 (bmax b) < px3 origin \/
  py3 origin < py3 (bmin b) \/ py3 (bmax b) < py3 origin ->
  slab_hits b origin = [].
Proof.
  intros H. unfold slab_hits. qcases; simpl; try reflexivity; lra.
Qed.

(** The slab is a mesh in the sense of the interface as soon as its
    bottom is not above its top. *)
Lemma slab_mesh_ok : pz3 (bmin b) <= pz3 (bmax b) -> SoleMeshOk (slab_mesh b).
Proof.
  intros Hz. split; simpl; intros o loc Hin;
    apply slab_hits_In in Hin as (_ & _ & [-> | ->]); unfold px3, py3, pz3 in *; simpl.
  1, 2: split; reflexivity.
  all: lra.
Qed.

End Slab.

(** * Concrete runs on the slab of the scenarios *)

Definition slab100 : bounds := mkBounds (0, 0, 0) (100, 100, 5).

#[export] Instance slab100_mesh : SoleMesh := slab_mesh slab100.

#[export] Instance slab100_ok : SoleMeshOk slab100_mesh.
Proof. apply slab_mesh_ok. vm_compute. discriminate. Defined.

Lemma slab100_top_hit : top_hit (cast_ray 35 80) = Some (5, (35, 80, 5)).
Proof. reflexivity. Defined.

Lemma top_hit_spec_witness :
  In (35, 80, 5) (cast_ray 35 80) /\ pz3 (35, 80, 5) = 5 /\
  Forall (fun l => pz3 l <= 5) (cast_ray 35 80).
Proof. apply (top_hit_spec (cast_ray 35 80) 5 (35, 80, 5) slab100_top_hit). Defined.

Lemma top_hit_first_witness : pz3 (nth 0 (cast_ray 35 80) (0, 0, 0)) < 5.
Proof.
  apply (top_hit_first (cast_ray 35 80) 5 (35, 80, 5) 0 slab100_top_hit).
  vm_compute. lia.
Defined.

Lemma cast_ray_top_hit_witness :
  px3 (35, 80, 5) == 35 /\ py3 (35, 80, 5) == 80 /\
  pz3 (bmin mesh_bounds) <= 5 <= pz3 (bmax mesh_bounds).
Proof. apply (cast_ray_top_hit 35 80 5 (35, 80, 5) slab100_top_hit). Defined.

(** A ray outside the footprint of the slab misses. *)
Example slab100_miss : top_hit (cast_ray 105 50) = None.
Proof. reflexivity. Qed.
