(* ===== verification/RayMesh.v ===== *)
(** * Vertical rays against a triangulated sole

    [generate_slippers.py] line 187 asks the mesh library for the
    intersections of a vertical ray with the sole; line 71 asks it for the
    bounding box.  [Surface] takes both through the interface [SoleMesh].
    This file gives the interface its intended instance: a triangulated
    solid, its bounding box computed from the vertices, and the ray query
    answered triangle by triangle.

    The query is the library's, modelled from what it computes for the one
    ray the program casts (straight down): the barycentric coordinates of
    the ray's foot in the projection of the triangle, a hit when none is
    negative, one location per triangle that is hit, in the order of the
    faces.  A triangle that projects to a segment is parallel to the ray
    and is never hit.  The library's tolerances are not modelled: the
    coordinates are exact rationals and the boundary of a triangle
    belongs to it. *)

From Stdlib Require Import QArith Qminmax Qfield Lqa Lia List ZArith Bool.
From S2P Require Import Prelude Numerics Mapper Sampler Bump Compositor Surface.
Import ListNotations.
Local Open Scope Q_scope.

(** ** Definitions *)

(** The least and the greatest entry of a column; [0] for an empty one. *)
Definition col_min (l : list Q) : Q :=
  match np_min l with Some m => m | None => 0 end.

Definition col_max (l : list Q) : Q :=
  match np_max l with Some m => m | None => 0 end.

(** [mesh.bounds]: the least and the greatest coordinate of the vertices,
    axis by axis. *)
Definition bounds_of (vs : list point3) : bounds :=
  mkBounds (col_min (map px3 vs), col_min (map py3 vs), col_min (map pz3 vs))
           (col_max (map px3 vs), col_max (map py3 vs), col_max (map pz3 vs)).

(** A point is in the box when each coordinate is between the corners. *)
Definition in_box (b : bounds) (p : point3) : Prop :=
  px3 (bmin b) <= px3 p <= px3 (bmax b) /\
  py3 (bmin b) <= py3 p <= py3 (bmax b) /\
  pz3 (bmin b) <= pz3 p <= pz3 (bmax b).

(** Twice the signed area of the projection of a triangle on the x-y
    plane. *)
Definition cross2 (a b c : point3) : Q :=
  (px3 b - px3 a) * (py3 c - py3 a) - (px3 c - px3 a) * (py3 b - py3 a).

(** The barycentric coordinates of [(x, y)] in the projection of the
    triangle; none when the projection has no area. *)
Definition barycentric (a b c : point3) (x y : Q) : option (Q * Q * Q) :=
  let d := cross2 a b c in
  if Qeq_bool d 0 then None
  else
    let w1 := ((x - px3 a) * (py3 c - py3 a) - (px3 c - px3 a) * (y - py3 a)) / d in
    let w2 := ((px3 b - px3 a) * (y - py3 a) - (x - px3 a) * (py3 b - py3 a)) / d in
    Some (1 - w1 - w2, w1, w2).

(** The point with the given weights on the corners. *)
Definition combine (w : Q * Q * Q) (a b c : Q) : Q :=
  fst (fst w) * a + snd (fst w) * b + snd w * c.

Definition inside (w : Q * Q * Q) : bool :=
  Qle_bool 0 (fst (fst w)) && Qle_bool 0 (snd (fst w)) && Qle_bool 0 (snd w).

(** The intersection of the ray that leaves [origin] straight down with
    one triangle. *)
Definition triangle_hit (a b c origin : point3) : option point3 :=
  match barycentric a b c (px3 origin) (py3 origin) with
  | None => None
  | Some w =>
      let z := combine w (pz3 a) (pz3 b) (pz3 c) in
      if inside w && Qle_bool z (pz3 origin)
      then Some (px3 origin, py3 origin, z)
      else None
  end.

Definition face_hit (m : trimesh) (origin : point3) (f : face) : option point3 :=
  let '(a, b, c) := corners m f in triangle_hit a b c origin.

(** All intersections, one per triangle that is hit, in the order of the
    faces. *)
Definition ray_hits (m : trimesh) (origin : point3) : list point3 :=
  flat_map (fun f => match face_hit m origin f with Some p => [p] | None => [] end)
           (faces m).

(** A box with an extent on every axis. *)
Definition proper_box (b : bounds) : Prop :=
  px3 (bmin b) < px3 (bmax b) /\ py3 (bmin b) < py3 (bmax b) /\ pz3 (bmin b) < pz3 (bmax b).

(** A triangulated solid as a sole. *)
Definition tri_mesh (m : trimesh) : SoleMesh := {|
  mesh_data := m;
  mesh_bounds := bounds_of (vertices m);
  intersects_location := fun origin _ => ray_hits m origin
|}.

(** * Theorems *)

(** ** The bounding box holds the vertices *)

Lemma col_min_lower (l : list Q) (x : Q) : In x l -> col_min l <= x.
Proof.
  intros Hin. unfold col_min. destruct (np_min l) as [m|] eqn:E.
  - apply np_min_lower in E. rewrite Forall_forall in E. now apply E.
  - destruct l; [contradiction | discriminate].
Qed.

Lemma col_max_upper (l : list Q) (x : Q) : In x l -> x <= col_max l.
Proof.
  intros Hin. unfold col_max. destruct (np_max l) as [m|] eqn:E.
  - apply np_max_upper in E. rewrite Forall_forall in E. now apply E.
  - destruct l; [contradiction | discriminate].
Qed.

Lemma vertex_in_box (vs : list point3) (v : point3) :
  In v vs -> in_box (bounds_of vs) v.
Proof.
  intros Hin. unfold in_box, bounds_of. cbn [bmin bmax px3 py3 pz3 fst snd].
  repeat split; (apply col_min_lower || apply col_max_upper); now apply in_map.
Qed.

Lemma corners_in_box (m : trimesh) (f : face) :
  face_ok (length (vertices m)) f ->
  let '(a, b, c) := corners m f in
  in_box (bounds_of (vertices m)) a /\ in_box (bounds_of (vertices m)) b /\
  in_box (bounds_of (vertices m)) c.
Proof.
  intros (H1 & H2 & H3). unfold corners.
  repeat split; apply vertex_in_box; now apply nth_In.
Qed.

(** ** One triangle *)

Section Triangle.
Context (a b c : point3).

Lemma barycentric_Some (x y : Q) (w : Q * Q * Q) :
  barycentric a b c x y = Some w ->
  ~ cross2 a b c == 0 /\
  fst (fst w) + snd (fst w) + snd w == 1 /\
  combine w (px3 a) (px3 b) (px3 c) == x /\
  combine w (py3 a) (py3 b) (py3 c) == y.
Proof.
  unfold barycentric. destruct (Qeqb_spec (cross2 a b c) 0) as [|Hd]; [discriminate|].
  intros [= <-]. unfold combine. cbn [fst snd]. split; [exact Hd|].
  unfold cross2 in *. repeat split; field; exact Hd.
Qed.

(** The coordinates are the only weights that sum to one and combine the
    corners to the point. *)
Lemma barycentric_unique (x y : Q) (w : Q * Q * Q) :
  ~ cross2 a b c == 0 ->
  fst (fst w) + snd (fst w) + snd w == 1 ->
  combine w (px3 a) (px3 b) (px3 c) == x ->
  combine w (py3 a) (py3 b) (py3 c) == y ->
  exists w', barycentric a b c x y = Some w' /\
    fst (fst w') == fst (fst w) /\ snd (fst w') == snd (fst w) /\ snd w' == snd w.
Proof.
  intros Hd Hs Hx Hy. unfold barycentric.
  destruct (Qeqb_spec (cross2 a b c) 0) as [|_]; [contradiction|].
  eexists. split; [reflexivity|]. cbn [fst snd].
  destruct w as [[u0 u1] u2]. unfold combine in *. cbn [fst snd] in *.
  assert (H0 : u0 == 1 - u1 - u2) by lra.
  assert (H1 : ((x - px3 a) * (py3 c - py3 a) - (px3 c - px3 a) * (y - py3 a))
               / cross2 a b c == u1).
  { rewrite <- Hx, <- Hy, H0. unfold cross2 in *. field. exact Hd. }
  assert (H2 : ((px3 b - px3 a) * (y - py3 a) - (x - px3 a) * (py3 b - py3 a))
               / cross2 a b c == u2).
  { rewrite <- Hx, <- Hy, H0. unfold cross2 in *. field. exact Hd. }
  rewrite H1, H2, H0. repeat split; reflexivity.
Qed.

Lemma inside_true (w : Q * Q * Q) :
  inside w = true <-> 0 <= fst (fst w) /\ 0 <= snd (fst w) /\ 0 <= snd w.
Proof. unfold inside. rewrite !andb_true_iff, !Qle_bool_iff. tauto. Qed.

(** A weighted mean of three numbers is between the least and the
    greatest of them. *)
Lemma combine_between (w : Q * Q * Q) (lo hi p q r : Q) :
  inside w = true -> fst (fst w) + snd (fst w) + snd w == 1 ->
  lo <= p <= hi -> lo <= q <= hi -> lo <= r <= hi ->
  lo <= combine w p q r <= hi.
Proof.
  intros (H0 & H1 & H2)%inside_true Hs Hp Hq Hr. unfold combine.
  destruct w as [[u0 u1] u2]. cbn [fst snd] in *.
  assert (E : u0 == 1 - u1 - u2) by lra. rewrite E in *. split; nra.
Qed.

(** What a hit is: the point of the triangle straight below the origin. *)
Lemma triangle_hit_Some (origin loc : point3) :
  triangle_hit a b c origin = Some loc ->
  exists w, barycentric a b c (px3 origin) (py3 origin) = Some w /\ inside w = true /\
    loc = (px3 origin, py3 origin, combine w (pz3 a) (pz3 b) (pz3 c)) /\
    pz3 loc <= pz3 origin.
Proof.
  unfold triangle_hit. destruct (barycentric a b c _ _) as [w|]; [|discriminate].
  destruct (inside w) eqn:Ei; [|discriminate]. cbn [andb].
  destruct (Qleb_spec (combine w (pz3 a) (pz3 b) (pz3 c)) (pz3 origin)); [|discriminate].
  intros [= <-]. exists w. auto.
Qed.

End Triangle.

Section TriangleHit.
Context (a b c origin : point3).

Lemma combine_compat (w w' : Q * Q * Q) (p q r : Q) :
  fst (fst w') == fst (fst w) -> snd (fst w') == snd (fst w) -> snd w' == snd w ->
  combine w' p q r == combine w p q r.
Proof. intros H0 H1 H2. unfold combine. now rewrite H0, H1, H2. Qed.

(** Every point of the triangle straight below the origin is found, as
    long as the triangle is not seen edge-on. *)
Lemma triangle_hit_complete (w : Q * Q * Q) :
  ~ cross2 a b c == 0 -> inside w = true ->
  fst (fst w) + snd (fst w) + snd w == 1 ->
  combine w (px3 a) (px3 b) (px3 c) == px3 origin ->
  combine w (py3 a) (py3 b) (py3 c) == py3 origin ->
  combine w (pz3 a) (pz3 b) (pz3 c) <= pz3 origin ->
  exists z, triangle_hit a b c origin = Some (px3 origin, py3 origin, z) /\
            z == combine w (pz3 a) (pz3 b) (pz3 c).
Proof.
  intros Hd Hin Hs Hx Hy Hz.
  destruct (barycentric_unique a b c _ _ w Hd Hs Hx Hy) as (w' & E & H0 & H1 & H2).
  pose proof (combine_compat w w' (pz3 a) (pz3 b) (pz3 c) H0 H1 H2) as Hc.
  unfold triangle_hit. rewrite E.
  assert (Hin' : inside w' = true).
  { apply inside_true. apply inside_true in Hin. rewrite H0, H1, H2. exact Hin. }
  rewrite Hin'. cbn [andb].
  destruct (Qleb_spec (combine w' (pz3 a) (pz3 b) (pz3 c)) (pz3 origin)); [eauto|lra].
Qed.

(** A triangle seen edge-on is never hit. *)
Lemma triangle_hit_edge_on : cross2 a b c == 0 -> triangle_hit a b c origin = None.
Proof.
  intros Hd. unfold triangle_hit, barycentric.
  now destruct (Qeqb_spec (cross2 a b c) 0).
Qed.

End TriangleHit.

(** ** The whole mesh *)

Section Mesh.
Context (m : trimesh).

Lemma ray_hits_In (origin loc : point3) :
  In loc (ray_hits m origin) <->
  exists f, In f (faces m) /\ face_hit m origin f = Some loc.
Proof.
  unfold ray_hits. rewrite in_flat_map. split; intros (f & Hf & H); exists f; split; auto.
  - destruct (face_hit m origin f) as [p|]; [|contradiction].
    destruct H as [->|[]]. reflexivity.
  - rewrite H. now left.
Qed.

(** A hit is a point of a triangle of the mesh: below the origin, and
    in the bounding box when the face names vertices of the mesh. *)
Lemma face_hit_in_box (origin loc : point3) (f : face) :
  face_ok (length (vertices m)) f -> face_hit m origin f = Some loc ->
  px3 loc = px3 origin /\ py3 loc = py3 origin /\ pz3 loc <= pz3 origin /\
  in_box (bounds_of (vertices m)) loc.
Proof.
  intros Hok. pose proof (corners_in_box m f Hok) as Hbox. unfold face_hit.
  destruct (corners m f) as [[a b] c]. destruct Hbox as (Ha & Hb & Hc).
  intros (w & Ew & Hin & -> & Hz)%triangle_hit_Some.
  destruct (barycentric_Some _ _ _ _ _ _ Ew) as (_ & Hs & Hx & Hy).
  assert (Bx := combine_between w _ _ _ _ _ Hin Hs (proj1 Ha) (proj1 Hb) (proj1 Hc)).
  assert (By := combine_between w _ _ _ _ _ Hin Hs
                  (proj1 (proj2 Ha)) (proj1 (proj2 Hb)) (proj1 (proj2 Hc))).
  assert (Bz := combine_between w _ _ _ _ _ Hin Hs
                  (proj2 (proj2 Ha)) (proj2 (proj2 Hb)) (proj2 (proj2 Hc))).
  rewrite Hx in Bx. rewrite Hy in By.
  split; [reflexivity|]. split; [reflexivity|]. split; [exact Hz|].
  exact (conj Bx (conj By Bz)).
Qed.

Context (Hok : trimesh_ok m).

Lemma ray_hits_in_box (origin loc : point3) :
  In loc (ray_hits m origin) ->
  px3 loc = px3 origin /\ py3 loc = py3 origin /\ pz3 loc <= pz3 origin /\
  in_box (bounds_of (vertices m)) loc.
Proof.
  intros (f & Hf & H)%ray_hits_In. apply (face_hit_in_box origin loc f); [|exact H].
  destruct Hok as [Hfaces _]. rewrite Forall_forall in Hfaces. now apply Hfaces.
Qed.

(** The triangulated solid keeps the interface of [Surface]. *)
Lemma tri_mesh_ok : SoleMeshOk (tri_mesh m).
Proof.
  split; cbn [intersects_location mesh_bounds tri_mesh]; intros o loc Hin;
    apply ray_hits_in_box in Hin as (Hx & Hy & _ & Hb).
  - rewrite Hx, Hy. split; reflexivity.
  - apply Hb.
Qed.

(** A ray whose foot is outside the footprint of the bounding box hits
    nothing. *)
Lemma ray_hits_outside (origin : point3) :
  let b := bounds_of (vertices m) in
  px3 origin < px3 (bmin b) \/ px3 (bmax b) < px3 origin \/
  py3 origin < py3 (bmin b) \/ py3 (bmax b) < py3 origin ->
  ray_hits m origin = [].
Proof.
  intros b Hout. destruct (ray_hits m origin) as [|loc l] eqn:E; [reflexivity|].
  destruct (ray_hits_in_box origin loc) as (Hx & Hy & _ & Bx & By & _).
  { rewrite E. now left. }
  rewrite Hx in Bx. rewrite Hy in By. subst b. lra.
Qed.

(** A point of a face that is not seen edge-on, straight below the
    origin, is among the intersections. *)
Lemma ray_hits_complete (origin : point3) (f : face) (w : Q * Q * Q) :
  In f (faces m) ->
  let '(a, b, c) := corners m f in
  ~ cross2 a b c == 0 -> inside w = true ->
  fst (fst w) + snd (fst w) + snd w == 1 ->
  combine w (px3 a) (px3 b) (px3 c) == px3 origin ->
  combine w (py3 a) (py3 b) (py3 c) == py3 origin ->
  combine w (pz3 a) (pz3 b) (pz3 c) <= pz3 origin ->
  exists z, In (px3 origin, py3 origin, z) (ray_hits m origin) /\
            z == combine w (pz3 a) (pz3 b) (pz3 c).
Proof.
  intros Hf. destruct (corners m f) as [[a b] c] eqn:Ec. intros Hd Hin Hs Hx Hy Hz.
  destruct (triangle_hit_complete a b c origin w Hd Hin Hs Hx Hy Hz) as (z & Hhit & Ez).
  exists z. split; [|exact Ez]. apply ray_hits_In. exists f. split; [exact Hf|].
  unfold face_hit. now rewrite Ec.
Qed.

End Mesh.

(** ** The locator on a triangulated sole *)

Section Locator.
Context (m : trimesh) (Hok : trimesh_ok m).

(** The ray of the locator starts above every point of the mesh. *)
Lemma cast_ray_hits (x3d y3d : Q) :
  @cast_ray (tri_mesh m) x3d y3d =
  ray_hits m (x3d, y3d, pz3 (bmax (bounds_of (vertices m))) + ray_clearance).
Proof. reflexivity. Qed.

(** The locator answers with a height that no point of the surface below
    the ray exceeds: for every point of a face, given by its weights on
    the corners, the selected hit is at least as high. *)
Lemma top_hit_above (x3d y3d : Q) (f : face) (w : Q * Q * Q) :
  In f (faces m) ->
  let '(a, b, c) := corners m f in
  ~ cross2 a b c == 0 -> inside w = true ->
  fst (fst w) + snd (fst w) + snd w == 1 ->
  combine w (px3 a) (px3 b) (px3 c) == x3d ->
  combine w (py3 a) (py3 b) (py3 c) == y3d ->
  exists z3d loc, top_hit (@cast_ray (tri_mesh m) x3d y3d) = Some (z3d, loc) /\
                  combine w (pz3 a) (pz3 b) (pz3 c) <= z3d.
Proof.
  intros Hf. rewrite cast_ray_hits. set (origin := (x3d, y3d, _)).
  pose proof (ray_hits_complete m origin f w Hf) as Hc.
  assert (Hbox : face_ok (length (vertices m)) f).
  { destruct Hok as [Hfaces _]. rewrite Forall_forall in Hfaces. now apply Hfaces. }
  apply corners_in_box in Hbox.
  destruct (corners m f) as [[a b] c]. destruct Hbox as (Ha & Hb & Hcc).
  intros Hd Hin Hs Hx Hy.
  destruct Hc as (z & Hz & Ez); try assumption.
  { pose proof (combine_between w _ _ _ _ _ Hin Hs
                  (proj2 (proj2 Ha)) (proj2 (proj2 Hb)) (proj2 (proj2 Hcc))) as Bz.
    subst origin. cbn [pz3 snd]. unfold ray_clearance. lra. }
  destruct (top_hit (ray_hits m origin)) as [[z3d loc]|] eqn:E.
  - exists z3d, loc. split; [reflexivity|].
    apply top_hit_upper in E. rewrite Forall_forall in E.
    specialize (E _ Hz). cbn [pz3 snd] in E. lra.
  - apply top_hit_None in E. rewrite E in Hz. contradiction.
Qed.

(** Outside the footprint of the bounding box the locator reports no
    intersection. *)
Lemma top_hit_outside (x3d y3d : Q) :
  let b := bounds_of (vertices m) in
  x3d < px3 (bmin b) \/ px3 (bmax b) < x3d \/ y3d < py3 (bmin b) \/ py3 (bmax b) < y3d ->
  top_hit (@cast_ray (tri_mesh m) x3d y3d) = None.
Proof.
  intros b Hout. rewrite cast_ray_hits, ray_hits_outside; [reflexivity | exact Hok | exact Hout].
Qed.

End Locator.

(** ** The slab of the scenarios as a triangulated solid *)

Definition slab100_box : trimesh := box_trimesh slab100.

Lemma slab100_box_ok : trimesh_ok slab100_box.
Proof. split; [|reflexivity]. repeat constructor; simpl; lia. Defined.

Lemma slab100_box_bounds : bounds_of (vertices slab100_box) = slab100.
Proof. reflexivity. Qed.

(** ** Any box as a triangulated solid *)

Lemma Qmin_le (a x : Q) : a <= x -> Qmin a x = a.
Proof.
  intros H. unfold Qmin, GenericMinMax.gmin.
  destruct (a ?= x) eqn:E; try reflexivity. apply Qgt_alt in E. lra.
Qed.

Lemma Qmin_gt (a x : Q) : x < a -> Qmin a x = x.
Proof.
  intros H. unfold Qmin, GenericMinMax.gmin.
  destruct (a ?= x) eqn:E; try reflexivity.
  - apply Qeq_alt in E. lra.
  - apply Qlt_alt in E. lra.
Qed.

(** The least and the greatest of coordinates that are compared by
    [lra]. *)
Ltac qminmax :=
  repeat match goal with
  | |- context [Qmin ?a ?x] =>
      first [rewrite (Qmin_le a x) by lra | rewrite (Qmin_gt a x) by lra]
  | |- context [Qmax ?a ?x] =>
      first [rewrite (Qmax_lt a x) by lra | rewrite (Qmax_ge a x) by lra]
  end.

Section Box.
Context (b : bounds) (Hb : proper_box b).

Lemma box_trimesh_ok : trimesh_ok (box_trimesh b).
Proof.
  destruct b as [[[x0 y0] z0] [[x1 y1] z1]]. split; [|reflexivity].
  repeat constructor; simpl; lia.
Qed.

(** The bounding box of the eight corners is the box. *)
Lemma box_bounds_of : bounds_of (vertices (box_trimesh b)) = b.
Proof.
  destruct b as [[[x0 y0] z0] [[x1 y1] z1]]. destruct Hb as (Hx & Hy & Hz).
  cbn in Hx, Hy, Hz. unfold bounds_of, col_min, col_max. cbn. now qminmax.
Qed.

Lemma area_not_zero (d : Q) (a c e : point3) : 0 < d -> cross2 a c e == d -> ~ cross2 a c e == 0.
Proof. intros Hd E E0. rewrite E0 in E. rewrite <- E in Hd. exact (Qlt_irrefl 0 Hd). Qed.

(** The share of the way from [lo] to [hi] at which [x] lies. *)
Lemma share_facts (lo hi x : Q) :
  lo < hi -> lo <= x <= hi ->
  let u := (x - lo) / (hi - lo) in
  0 <= u <= 1 /\ lo + u * (hi - lo) == x.
Proof.
  intros Hlt Hx u. subst u. repeat split.
  - apply Qdiv_nonneg; lra.
  - apply Qle_shift_div_r; lra.
  - field. lra.
Qed.

(** The top of the box is two triangles; every point of the footprint is
    in one of them, at the height of the top. *)
Lemma box_top (x y : Q) :
  px3 (bmin b) <= x <= px3 (bmax b) -> py3 (bmin b) <= y <= py3 (bmax b) ->
  exists z3d loc, top_hit (@cast_ray (tri_mesh (box_trimesh b)) x y) = Some (z3d, loc) /\
                  pz3 (bmax b) <= z3d.
Proof.
  pose proof box_trimesh_ok as Hok. revert Hok.
  destruct b as [[[x0 y0] z0] [[x1 y1] z1]]. destruct Hb as (Hx & Hy & Hz).
  cbn in Hx, Hy, Hz. cbn [bmin bmax px3 py3 pz3 fst snd]. intros Hok Bx By.
  destruct (share_facts x0 x1 x Hx Bx) as [Hu Eu], (share_facts y0 y1 y Hy By) as [Hv Ev].
  cbv zeta in Hu, Eu, Hv, Ev.
  set (u := (x - x0) / (x1 - x0)) in *. set (v := (y - y0) / (y1 - y0)) in *.
  assert (Hd : 0 < (x1 - x0) * (y1 - y0)) by (apply Qmult_lt_0_compat; lra).
  destruct (Qlt_le_dec u v) as [Hlt|Hle].
  - destruct (top_hit_above _ Hok x y (4, 6, 7)%nat (1 - v, u, v - u)) as (z & loc & E & Hz').
    + simpl. tauto.
    + apply (area_not_zero _ _ _ _ Hd). cbn. unfold cross2. cbn [px3 py3 fst snd]. ring.
    + apply inside_true. cbn [fst snd]. repeat split; lra.
    + cbn [fst snd]. ring.
    + unfold combine. cbn. rewrite <- Eu. ring.
    + unfold combine. cbn. rewrite <- Ev. ring.
    + exists z, loc. split; [exact E|]. unfold combine in Hz'. cbn in Hz'.
      setoid_replace ((1 - v) * z1 + u * z1 + (v - u) * z1) with z1 in Hz' by ring. exact Hz'.
  - destruct (top_hit_above _ Hok x y (4, 5, 6)%nat (1 - u, u - v, v)) as (z & loc & E & Hz').
    + simpl. tauto.
    + apply (area_not_zero _ _ _ _ Hd). cbn. unfold cross2. cbn [px3 py3 fst snd]. ring.
    + apply inside_true. cbn [fst snd]. repeat split; lra.
    + cbn [fst snd]. ring.
    + unfold combine. cbn. rewrite <- Eu. ring.
    + unfold combine. cbn. rewrite <- Ev. ring.
    + exists z, loc. split; [exact E|]. unfold combine in Hz'. cbn in Hz'.
      setoid_replace ((1 - u) * z1 + (u - v) * z1 + v * z1) with z1 in Hz' by ring. exact Hz'.
Qed.

(** The box of [Surface] on the same footprint. *)
Lemma slab_top_hit_inside (x y : Q) :
  px3 (bmin b) <= x <= px3 (bmax b) -> py3 (bmin b) <= y <= py3 (bmax b) ->
  top_hit (@cast_ray (slab_mesh b) x y) = Some (pz3 (bmax b), (x, y, pz3 (bmax b))).
Proof.
  intros Hx Hy. destruct Hb as (_ & _ & Hz). unfold cast_ray.
  cbn [intersects_location mesh_bounds slab_mesh].
  rewrite slab_hits_inside; [|cbn; unfold ray_clearance; lra..].
  unfold top_hit, np_argmax. cbn [map pz3 snd np_max fold_left argmax_from px3 py3 fst].
  rewrite (Qmax_lt _ _ Hz). now rewrite (proj2 (Qltb_lt _ _) Hz).
Qed.

Lemma slab_top_hit_outside (x y : Q) :
  x < px3 (bmin b) \/ px3 (bmax b) < x \/ y < py3 (bmin b) \/ py3 (bmax b) < y ->
  top_hit (@cast_ray (slab_mesh b) x y) = None.
Proof.
  intros H. unfold cast_ray. cbn [intersects_location slab_mesh].
  rewrite slab_hits_outside; [reflexivity|]. cbn. lra.
Qed.

(** Both locators on a position: outside the footprint both miss, inside
    it both answer with the top face. *)
Lemma box_locators (x y : Q) :
  (top_hit (@cast_ray (tri_mesh (box_trimesh b)) x y) = None /\
   top_hit (@cast_ray (slab_mesh b) x y) = None) \/
  (exists z loc, top_hit (@cast_ray (tri_mesh (box_trimesh b)) x y) = Some (z, loc) /\
     z == pz3 (bmax b) /\ p3eq loc (x, y, pz3 (bmax b)) /\
     top_hit (@cast_ray (slab_mesh b) x y) = Some (pz3 (bmax b), (x, y, pz3 (bmax b)))).
Proof.
  pose proof box_trimesh_ok as Hok.
  destruct (Qlt_le_dec x (px3 (bmin b))) as [H1|H1];
    [|destruct (Qlt_le_dec (px3 (bmax b)) x) as [H2|H2];
      [|destruct (Qlt_le_dec y (py3 (bmin b))) as [H3|H3];
        [|destruct (Qlt_le_dec (py3 (bmax b)) y) as [H4|H4]]]].
  1-4: left; rewrite (top_hit_outside _ Hok), slab_top_hit_outside
         by (rewrite ?box_bounds_of; lra); split; reflexivity.
  right. destruct (box_top x y) as (z & loc & E & Hz); [lra | lra |].
  exists z, loc. rewrite slab_top_hit_inside by lra.
  destruct (@cast_ray_hit_on_ray _ (tri_mesh_ok _ Hok) _ _ _ _ E) as [Hlx Hly].
  pose proof (@cast_ray_hit_in_bounds _ (tri_mesh_ok _ Hok) _ _ _ _ E) as [_ Hup].
  apply top_hit_In in E as Hlz. destruct Hlz as [_ Hlz].
  cbn [mesh_bounds tri_mesh] in Hup. rewrite box_bounds_of in Hup.
  assert (Hz5 : z == pz3 (bmax b)) by lra.
  repeat split; cbn [px3 py3 pz3 fst snd]; try assumption. now rewrite Hlz.
Qed.

(** They hit and miss at the same positions. *)
Lemma box_miss_iff (x y : Q) :
  top_hit (@cast_ray (tri_mesh (box_trimesh b)) x y) = None <->
  top_hit (@cast_ray (slab_mesh b) x y) = None.
Proof.
  destruct (box_locators x y) as [[-> ->]|(z & loc & -> & _ & _ & ->)];
    split; (reflexivity || discriminate).
Qed.

End Box.

(** The slab of the scenarios is such a box. *)
Lemma slab100_proper : proper_box slab100.
Proof. repeat split; reflexivity. Qed.

Lemma slab100_miss_iff (x y : Q) :
  top_hit (@cast_ray (tri_mesh slab100_box) x y) = None <->
  top_hit (@cast_ray slab100_mesh x y) = None.
Proof. exact (box_miss_iff slab100 slab100_proper x y). Qed.

(** * The properties *)

(** C11. Every intersection that the query of line 187 reports on a
    triangle mesh, for the downward ray, is a point of a triangle of the
    mesh: it is straight below the origin of the ray, inside the
    bounding box, and a weighted mean of the three corners of a face
    with weights that are not negative and sum to one. *)
Theorem ray_hits_spec (m : trimesh) (origin loc : point3) :
  trimesh_ok m -> In loc (@intersects_location (tri_mesh m) origin ray_down) ->
  px3 loc = px3 origin /\ py3 loc = py3 origin /\ pz3 loc <= pz3 origin /\
  in_box (bounds_of (vertices m)) loc /\
  exists f w, In f (faces m) /\ inside w = true /\
    fst (fst w) + snd (fst w) + snd w == 1 /\
    let '(a, b, c) := corners m f in
    combine w (px3 a) (px3 b) (px3 c) == px3 loc /\
    combine w (py3 a) (py3 b) (py3 c) == py3 loc /\
    combine w (pz3 a) (pz3 b) (pz3 c) = pz3 loc.
Proof.
  cbn [intersects_location tri_mesh]. intros Hok Hin.
  destruct (ray_hits_in_box m Hok origin loc Hin) as (Hx & Hy & Hz & Hb).
  do 4 (split; [assumption|]).
  apply ray_hits_In in Hin as (f & Hf & H). exists f. unfold face_hit in H.
  destruct (corners m f) as [[a b] c].
  apply triangle_hit_Some in H as (w & Ew & Hw & -> & _).
  destruct (barycentric_Some _ _ _ _ _ _ Ew) as (_ & Hs & Hcx & Hcy).
  exists w. auto 8.
Qed.

(** C10. The locator returns the highest surface point under the ray: for
    any point of any face that is not seen edge-on, given by its weights
    on the corners, a ray cast at its x-y position finds an intersection
    that is straight below the origin, at least as high as the point and
    not above the top of the bounding box. *)
Theorem tri_mesh_top_hit (m : trimesh) (x3d y3d : Q) (f : face) (w : Q * Q * Q) :
  trimesh_ok m -> In f (faces m) ->
  let '(a, b, c) := corners m f in
  ~ cross2 a b c == 0 -> inside w = true ->
  fst (fst w) + snd (fst w) + snd w == 1 ->
  combine w (px3 a) (px3 b) (px3 c) == x3d ->
  combine w (py3 a) (py3 b) (py3 c) == y3d ->
  exists z3d loc, top_hit (@cast_ray (tri_mesh m) x3d y3d) = Some (z3d, loc) /\
    px3 loc == x3d /\ py3 loc == y3d /\
    combine w (pz3 a) (pz3 b) (pz3 c) <= z3d <= pz3 (bmax (bounds_of (vertices m))).
Proof.
  intros Hok Hf. pose proof (top_hit_above m Hok x3d y3d f w Hf) as H.
  destruct (corners m f) as [[a b] c]. intros Hd Hin Hs Hx Hy.
  destruct (H Hd Hin Hs Hx Hy) as (z3d & loc & E & Hz). exists z3d, loc.
  destruct (@cast_ray_hit_on_ray _ (tri_mesh_ok m Hok) _ _ _ _ E) as [Hlx Hly].
  pose proof (@cast_ray_hit_in_bounds _ (tri_mesh_ok m Hok) _ _ _ _ E) as [_ Hup].
  auto 8.
Qed.


(** * Concrete rays *)

(** The two intersections of a ray through the slab: the bottom face
    first, the top face second, in the order of the faces. *)
Example slab100_box_hits :
  map (fun p => (px3 p, py3 p, Qred (pz3 p))) (ray_hits slab100_box (35, 80, 15)) =
  [(35, 80, 0); (35, 80, 5)].
Proof. reflexivity. Qed.

Lemma ray_hits_spec_witness :
  let m := slab100_box in
  let origin := (35, 80, 15) in
  let loc := nth 1 (ray_hits m origin) (0, 0, 0) in
  px3 loc = px3 origin /\ py3 loc = py3 origin /\ pz3 loc <= pz3 origin /\
  in_box (bounds_of (vertices m)) loc /\
  exists f w, In f (faces m) /\ inside w = true /\
    fst (fst w) + snd (fst w) + snd w == 1 /\
    let '(a, b, c) := corners m f in
    combine w (px3 a) (px3 b) (px3 c) == px3 loc /\
    combine w (py3 a) (py3 b) (py3 c) == py3 loc /\
    combine w (pz3 a) (pz3 b) (pz3 c) = pz3 loc.
Proof.
  intros m origin loc. apply (ray_hits_spec m origin loc slab100_box_ok).
  right. left. reflexivity.
Defined.

Lemma tri_mesh_top_hit_witness :
  exists z3d loc, top_hit (@cast_ray (tri_mesh slab100_box) 35 80) = Some (z3d, loc) /\
    px3 loc == 35 /\ py3 loc == 80 /\
    combine (1 # 5, 7 # 20, 9 # 20) 5 5 5 <= z3d <= 5.
Proof.
  apply (tri_mesh_top_hit slab100_box 35 80 (4, 6, 7)%nat (1 # 5, 7 # 20, 9 # 20)
           slab100_box_ok).
  - simpl. tauto.
  - vm_compute. discriminate.
  - reflexivity.
  - reflexivity.
  - reflexivity.
  - reflexivity.
Defined.

(** A sole with a ledge above part of its top: a large triangle at height
    0 and a small one at height 3 over its corner.  Under the ledge the
    locator answers with the ledge, beside it with the large triangle. *)
Definition ledge : trimesh :=
  mkTrimesh [(0, 0, 0); (10, 0, 0); (0, 10, 0); (0, 0, 3); (4, 0, 3); (0, 4, 3)]
            [(0, 1, 2); (3, 4, 5)]%nat [None; None; None; None; None; None].

Example ledge_top_hit :
  option_map (fun h => Qred (fst h)) (top_hit (@cast_ray (tri_mesh ledge) 1 1)) = Some 3 /\
  option_map (fun h => Qred (fst h)) (top_hit (@cast_ray (tri_mesh ledge) 4 4)) = Some 0.
Proof. split; reflexivity. Qed.

