(* ===== verification/Zones.v ===== *)
(** * Zone names, categories and colours

    [generate_slippers.py] lines 21, 53-68 and 107-139: the requested zone
    names are lower-cased, every category of the annotation file is
    entered under its lower-cased name in [zone_name_to_ids], the
    requested names are resolved to category ids, and the run stops when
    names were given and none resolved.  [zone_color_map] is the colour
    table with its default.

    Strings are ASCII here: [lower] and [upper] change the 26 letters and
    leave every other character alone, where Python folds Unicode. *)

From stdpp Require Import gmap strings list fin_maps.
From Stdlib Require Import QArith.
From S2P Require Import Prelude Bump.
Local Open Scope string_scope.
Local Open Scope list_scope.

(** ** Case folding *)

Definition lower_ascii (c : Ascii.ascii) : Ascii.ascii :=
  let n := Ascii.N_of_ascii c in
  if ((65 <=? n)%N && (n <=? 90)%N)%bool then Ascii.ascii_of_N (n + 32) else c.

Definition upper_ascii (c : Ascii.ascii) : Ascii.ascii :=
  let n := Ascii.N_of_ascii c in
  if ((97 <=? n)%N && (n <=? 122)%N)%bool then Ascii.ascii_of_N (n - 32) else c.

(** [str.lower] *)
Fixpoint lower (s : string) : string :=
  match s with
  | EmptyString => EmptyString
  | String c r => String (lower_ascii c) (lower r)
  end.

(** [str.upper] *)
Fixpoint upper (s : string) : string :=
  match s with
  | EmptyString => EmptyString
  | String c r => String (upper_ascii c) (upper r)
  end.

(** ** The annotation file *)

(** One entry of [coco_data['categories']]. *)
Record category : Type := mkCategory { cat_id : Z; cat_name : string }.

(** One entry of [coco_data['annotations']]: [segmentation] is a list of
    flat coordinate lists, of which the program reads the first. *)
Record annotation : Type := mkAnnotation {
  ann_id : Z;
  ann_category_id : Z;
  ann_segmentation : list (list Q)
}.

(** [coco_data], with the size of its first image (lines 49-51). *)
Record coco : Type := mkCoco {
  image_width : Q;
  image_height : Q;
  categories : list category;
  annotations : list annotation
}.

(** ** Messages the run prints, in program order *)

Inductive message : Type :=
| ZoneNotFound (zone : string)                  (* line 65 *)
| NoCategoryFound (ann : Z)                     (* line 166 *)
| ColorAssigned (zone : string) (color : rgba)  (* line 170 *)
| BumpsPlaced (count : nat)                     (* line 206 *)
| NoValidPoints (zone : string)                 (* line 208 *)
| FailedAnnotation (ann : Z).                   (* line 210 *)

(** The ways the run ends with [sys.exit(1)] once its inputs are loaded. *)
Inductive fatal : Type :=
| NoMatchingCategories                  (* lines 66-68 *)
| ExportFailure.                        (* lines 257-259 *)

(** ** [zone_name_to_ids], lines 54-59 *)

(** The body of the loop: the id is appended to the list under the
    lower-cased name, which is created empty when missing. *)
Definition add_category (m : gmap string (list Z)) (cat : category) : gmap string (list Z) :=
  let name := lower (cat_name cat) in
  <[name := default [] (m !! name) ++ [cat_id cat]]> m.

Definition zone_name_to_ids (cats : list category) : gmap string (list Z) :=
  foldl add_category ∅ cats.

(** ** [selected_ids], lines 60-68 *)

(** Line 21. *)
Definition selected_zones (args_zones : list string) : list string :=
  lower <$> args_zones.

(** The body of the loop of lines 61-65, on the pair of the ids collected
    and the warnings written so far. *)
Definition select_zone (m : gmap string (list Z)) (acc : list Z * list message)
    (zone : string) : list Z * list message :=
  match m !! zone with
  | Some ids => (acc.1 ++ ids, acc.2)
  | None => (acc.1, acc.2 ++ [ZoneNotFound zone])
  end.

Definition selected_ids (m : gmap string (list Z)) (zones : list string)
    : list Z * list message :=
  foldl (select_zone m) ([], []) zones.

(** Lines 53-68 as one step: the ids to process and the warnings, or the
    fatal error of line 66. *)
Definition resolve (cats : list category) (args_zones : list string)
    : fatal + (list Z * list message) :=
  let zones := selected_zones args_zones in
  let r := selected_ids (zone_name_to_ids cats) zones in
  if bool_decide (r.1 = []) && bool_decide (zones ≠ []) then inl NoMatchingCategories
  else inr r.

(** Lines 160-167: the lower-cased name of the first category with the
    given id; [None] when there is none or when the name is empty (the
    test of line 165 is [if not zone_name]). *)
Definition zone_name_of (cats : list category) (id : Z) : option string :=
  match list_find (λ c, cat_id c = id) cats with
  | Some (_, c) => if decide (lower (cat_name c) = "") then None else Some (lower (cat_name c))
  | None => None
  end.

(** The ids of the categories whose lower-cased name is [n], in file
    order: what [zone_name_to_ids] is meant to hold under [n]. *)
Definition ids_named (n : string) (cats : list category) : list Z :=
  cat_id <$> filter (λ c, lower (cat_name c) = n) cats.

(** ** [zone_color_map], lines 107-139 *)

Definition default_color : rgba := (128, 128, 128, 255)%Z.

Definition zone_color_table : list (string * rgba) := [
  ("adrenal_gland", (255, 165, 0, 255)); ("appendix", (139, 69, 19, 255));
  ("ascending_colon", (153, 102, 51, 255)); ("bladder", (255, 215, 0, 255));
  ("brain_stem", (128, 0, 128, 255)); ("descending_colon", (139, 69, 19, 255));
  ("duodenum", (210, 105, 30, 255)); ("ear", (255, 192, 203, 255));
  ("eye", (0, 191, 255, 255)); ("gall_bladder", (50, 205, 50, 255));
  ("head_brain", (147, 112, 219, 255)); ("heart", (255, 0, 0, 255));
  ("anus", (139, 0, 0, 255)); ("kidney", (205, 92, 92, 255));
  ("liver", (165, 42, 42, 255)); ("lungs", (135, 206, 235, 255));
  ("neck", (255, 228, 196, 255)); ("pancreas", (255, 140, 0, 255));
  ("pituitary_gland", (255, 105, 180, 255)); ("rectum", (128, 0, 0, 255));
  ("sex_gland", (199, 21, 133, 255)); ("sinus", (173, 216, 230, 255));
  ("small_intestine", (244, 164, 96, 255)); ("solar_plexus", (255, 255, 0, 255));
  ("spleen", (220, 20, 60, 255)); ("stomach", (240, 128, 128, 255));
  ("thyroid", (0, 128, 128, 255)); ("trapezoid", (238, 130, 238, 255));
  ("transverse_colon", (160, 82, 45, 255)); ("ureter", (218, 165, 32, 255));
  ("default", default_color)
]%Z.

Definition zone_color_map : gmap string rgba := list_to_map zone_color_table.

(** A colour as the mesh library takes it: four channels of one byte,
    the last one, the opacity, full. *)
Definition rgba_ok (c : rgba) : Prop :=
  (0 ≤ c.1.1.1 ≤ 255 ∧ 0 ≤ c.1.1.2 ≤ 255 ∧ 0 ≤ c.1.2 ≤ 255 ∧ c.2 = 255)%Z.

(** Line 169: [zone_color_map.get(zone_name, zone_color_map["default"])]. *)
Definition zone_color (zone_name : string) : rgba :=
  default default_color (zone_color_map !! zone_name).

(** * Theorems *)

(** ** Case folding *)

Lemma lower_ascii_idemp (c : Ascii.ascii) : lower_ascii (lower_ascii c) = lower_ascii c.
Proof. destruct c as [[] [] [] [] [] [] [] []]; reflexivity. Qed.

Lemma lower_upper_ascii (c : Ascii.ascii) : lower_ascii (upper_ascii c) = lower_ascii c.
Proof. destruct c as [[] [] [] [] [] [] [] []]; reflexivity. Qed.

Lemma upper_lower_ascii (c : Ascii.ascii) : upper_ascii (lower_ascii c) = upper_ascii c.
Proof. destruct c as [[] [] [] [] [] [] [] []]; reflexivity. Qed.

Lemma lower_idemp (s : string) : lower (lower s) = lower s.
Proof. induction s as [|c s IH]; simpl; [done|]. by rewrite lower_ascii_idemp, IH. Qed.

Lemma lower_upper (s : string) : lower (upper s) = lower s.
Proof. induction s as [|c s IH]; simpl; [done|]. by rewrite lower_upper_ascii, IH. Qed.

Lemma upper_lower (s : string) : upper (lower s) = upper s.
Proof. induction s as [|c s IH]; simpl; [done|]. by rewrite upper_lower_ascii, IH. Qed.

Create Rewrite HintDb zones.
#[export] Hint Rewrite lower_idemp lower_upper upper_lower : zones.

(** ** The category table *)

Section CategoryTable.
Implicit Types (m : gmap string (list Z)) (cats : list category) (n : string).

Lemma ids_named_snoc n cats c :
  ids_named n (cats ++ [c]) =
  ids_named n cats ++ (if decide (lower (cat_name c) = n) then [cat_id c] else []).
Proof.
  unfold ids_named. rewrite filter_app, fmap_app. f_equal.
  rewrite filter_cons, filter_nil. by case_decide.
Qed.

Lemma add_category_lookup m c n :
  add_category m c !! n =
  if decide (lower (cat_name c) = n) then Some (default [] (m !! n) ++ [cat_id c])
  else m !! n.
Proof.
  unfold add_category. case_decide as E.
  - subst n. by rewrite lookup_insert_eq.
  - by rewrite lookup_insert_ne.
Qed.

(** The table after the loop, from any starting table: an entry exists
    when it existed or a category carries the name, and it holds the old
    ids followed by the new ones. *)
Lemma foldl_add_category_lookup cats m n :
  foldl add_category m cats !! n =
  match m !! n, ids_named n cats with
  | None, [] => None
  | o, l => Some (default [] o ++ l)
  end.
Proof.
  induction cats as [|c cats IH] using rev_ind.
  - simpl. destruct (m !! n); simpl; [by rewrite app_nil_r | done].
  - rewrite foldl_snoc, add_category_lookup, IH, ids_named_snoc.
    case_decide; [|rewrite app_nil_r; done].
    destruct (m !! n), (ids_named n cats); simpl; by rewrite <- ?app_assoc.
Qed.

(** The table built from the empty one. *)
Lemma zone_name_to_ids_lookup cats n :
  zone_name_to_ids cats !! n =
  if decide (ids_named n cats = []) then None else Some (ids_named n cats).
Proof.
  unfold zone_name_to_ids. rewrite foldl_add_category_lookup, lookup_empty.
  case_decide as E; [by rewrite E | by destruct (ids_named n cats)].
Qed.

Lemma zone_name_to_ids_nonempty cats n ids :
  zone_name_to_ids cats !! n = Some ids -> ids ≠ [].
Proof. rewrite zone_name_to_ids_lookup. case_decide; naive_solver. Qed.

Lemma elem_of_ids_named cats n id :
  id ∈ ids_named n cats ↔ ∃ c, c ∈ cats ∧ cat_id c = id ∧ lower (cat_name c) = n.
Proof.
  unfold ids_named. rewrite list_elem_of_fmap. setoid_rewrite list_elem_of_filter.
  naive_solver.
Qed.

Lemma ids_named_nil cats n :
  ids_named n cats = [] ↔ ∀ c, c ∈ cats → lower (cat_name c) ≠ n.
Proof.
  split.
  - intros E c Hc Hn. apply (elem_of_nil (cat_id c)). rewrite <- E.
    apply elem_of_ids_named. by exists c.
  - intros H. destruct (ids_named n cats) as [|id l] eqn:E; [done|].
    assert (Hid : id ∈ ids_named n cats) by (rewrite E; by left).
    apply elem_of_ids_named in Hid as (c & Hc & _ & Hn). by destruct (H c Hc).
Qed.

(** C8. [zone_name_to_ids] holds, under every lower-cased category
    name, the ids of exactly the categories with that name in file order,
    and holds nothing under any other name. *)
Theorem zone_name_to_ids_spec cats n :
  (zone_name_to_ids cats !! n = None ↔ ∀ c, c ∈ cats → lower (cat_name c) ≠ n) ∧
  (∀ ids, zone_name_to_ids cats !! n = Some ids ↔
          ids = ids_named n cats ∧ ∃ c, c ∈ cats ∧ lower (cat_name c) = n).
Proof.
  rewrite zone_name_to_ids_lookup. pose proof (ids_named_nil cats n) as E.
  case_decide as Hn.
  - split; [naive_solver|]. intros ids. split; [done|].
    intros [_ (c & Hc & Hc')]. by destruct (proj1 E Hn c Hc).
  - assert (∃ c, c ∈ cats ∧ lower (cat_name c) = n) as Hex.
    { destruct (ids_named n cats) as [|id l] eqn:El; [done|].
      assert (Hid : id ∈ ids_named n cats) by (rewrite El; by left).
      apply elem_of_ids_named in Hid. naive_solver. }
    split; [split; [done | intros H; destruct Hn; by apply E]|].
    intros ids. naive_solver.
Qed.

End CategoryTable.

(** ** The selection *)

Section Selection.
Context (m : gmap string (list Z)).
Implicit Types (zones : list string) (acc : list Z * list message).

Lemma foldl_select_zone zones acc :
  foldl (select_zone m) acc zones =
  (acc.1 ++ zones ≫= (λ z, default [] (m !! z)),
   acc.2 ++ (ZoneNotFound <$> filter (λ z, m !! z = None) zones)).
Proof.
  revert acc. induction zones as [|z zones IH]; intros [ids ws]; simpl.
  - by rewrite !app_nil_r.
  - rewrite IH. unfold select_zone. rewrite filter_cons.
    case_decide as E; [rewrite E | destruct (m !! z); [|done]]; simpl.
    + by rewrite <- app_assoc.
    + by rewrite app_assoc.
Qed.

(** The selection collects, in the order the names were given, the ids
    of every name found in the table, and warns once for every name that
    is not found. *)
Lemma selected_ids_spec zones :
  selected_ids m zones =
  (zones ≫= (λ z, default [] (m !! z)),
   ZoneNotFound <$> filter (λ z, m !! z = None) zones).
Proof. unfold selected_ids. by rewrite foldl_select_zone. Qed.

Lemma selected_ids_nil_iff zones :
  (∀ z ids, m !! z = Some ids → ids ≠ []) →
  (selected_ids m zones).1 = [] ↔ ∀ z, z ∈ zones → m !! z = None.
Proof.
  intros Hne. rewrite selected_ids_spec. simpl.
  induction zones as [|z zones IH]; simpl.
  - split; [intros _ z Hz; by apply elem_of_nil in Hz | done].
  - rewrite app_nil, IH. split.
    + intros [Hz Hall] z' [->|Hz']%elem_of_cons; [|by apply Hall].
      destruct (m !! z) as [l|] eqn:E; [|done]. simpl in Hz. by apply Hne in E.
    + intros Hall. split; [|intros z' Hz'; apply Hall; by right].
      rewrite (Hall z); [done | by left].
Qed.

End Selection.

Section Resolve.
Implicit Types (cats : list category) (args : list string).

(** C7. The run is refused with "no matching categories" exactly when
    zone names were given and no category carries any of them, whatever
    the letter case of the names. *)
Theorem resolve_fatal_iff cats args :
  resolve cats args = inl NoMatchingCategories ↔
  args ≠ [] ∧ ∀ z, z ∈ args → ids_named (lower z) cats = [].
Proof.
  unfold resolve, selected_zones.
  destruct (bool_decide _ && bool_decide _) eqn:E.
  - apply andb_true_iff in E as [E1%bool_decide_eq_true E2%bool_decide_eq_true].
    split; [intros _|done]. split; [by destruct args|].
    intros z Hz. rewrite selected_ids_nil_iff in E1 by apply zone_name_to_ids_nonempty.
    specialize (E1 (lower z) ltac:(by apply list_elem_of_fmap_2)).
    rewrite zone_name_to_ids_lookup in E1. by case_decide.
  - split; [done|]. intros [Hne Hall]. exfalso.
    apply andb_false_iff in E as [E%bool_decide_eq_false|E%bool_decide_eq_false].
    + apply E. apply selected_ids_nil_iff; [apply zone_name_to_ids_nonempty|].
      intros z (z' & -> & Hz')%list_elem_of_fmap.
      rewrite zone_name_to_ids_lookup, (Hall z' Hz'). by rewrite decide_True.
    + apply E. by destruct args.
Qed.

(** Letter case does not matter: the names in upper case resolve to the
    same ids with the same warnings as the names as given. *)
Lemma resolve_upper cats args :
  resolve cats (upper <$> args) = resolve cats args.
Proof.
  unfold resolve, selected_zones. rewrite <- list_fmap_compose.
  assert (E : lower ∘ upper <$> args = lower <$> args).
  { apply list_fmap_ext. intros _ z _. apply lower_upper. }
  by rewrite E.
Qed.

(** The ids of a successful resolution are the ids of the categories
    that carry one of the requested names. *)
Theorem resolve_ids cats args ids ws id :
  resolve cats args = inr (ids, ws) →
  id ∈ ids ↔ ∃ z c, z ∈ args ∧ c ∈ cats ∧ cat_id c = id ∧ lower (cat_name c) = lower z.
Proof.
  unfold resolve. destruct (bool_decide _ && bool_decide _); [done|].
  rewrite selected_ids_spec. intros [= <- <-]. unfold selected_zones.
  rewrite list_elem_of_bind. split.
  - intros (z' & Hid & (z & -> & Hz)%list_elem_of_fmap).
    rewrite zone_name_to_ids_lookup in Hid. case_decide; [by apply elem_of_nil in Hid|].
    simpl in Hid. apply list_elem_of_fmap in Hid as (c & -> & Hc).
    apply list_elem_of_filter in Hc as [Hn Hc]. by exists z, c.
  - intros (z & c & Hz & Hc & <- & Hn). exists (lower z).
    split; [|by apply list_elem_of_fmap_2].
    assert (Hin : cat_id c ∈ ids_named (lower z) cats).
    { apply list_elem_of_fmap_2, list_elem_of_filter. done. }
    rewrite zone_name_to_ids_lookup. case_decide as E; [|done].
    rewrite E in Hin. by apply elem_of_nil in Hin.
Qed.

(** With no names given nothing is selected and nothing is refused. *)
Lemma resolve_no_names cats : resolve cats [] = inr ([], []).
Proof. reflexivity. Qed.

End Resolve.

(** ** The colour table *)

(** Every entry of the table is an opaque colour with channels of one
    byte. *)
Lemma zone_color_table_ok : Forall (λ nc, rgba_ok nc.2) zone_color_table.
Proof. unfold rgba_ok. repeat constructor; simpl; lia. Qed.

(** Every zone has a colour, and it is a valid one: a name of the
    table gets its entry, any other name the default grey, and in both
    cases the channels are bytes and the colour is opaque. *)
Theorem zone_color_total (zone_name : string) :
  rgba_ok (zone_color zone_name) ∧
  (zone_color_map !! zone_name = None → zone_color zone_name = default_color) ∧
  (∀ c, (zone_name, c) ∈ zone_color_table → zone_color zone_name = c).
Proof.
  unfold zone_color. split; [|split].
  - destruct (zone_color_map !! zone_name) as [c|] eqn:E; simpl.
    + apply elem_of_list_to_map_2 in E.
      by apply (proj1 (Forall_forall _ _) zone_color_table_ok (zone_name, c)).
    + unfold rgba_ok, default_color. simpl. lia.
  - by intros ->.
  - intros c Hc. unfold zone_color_map.
    apply elem_of_list_to_map_1 in Hc; [by rewrite Hc|].
    apply (bool_decide_unpack (NoDup _)). by vm_compute.
Qed.

(** The table has 30 zones and the default. *)
Lemma zone_color_map_size : size zone_color_map = 31%nat.
Proof. by vm_compute. Qed.

(** * Concrete runs *)

Definition demo_categories : list category :=
  [mkCategory 1 "Heart"; mkCategory 2 "Liver"; mkCategory 3 "HEART"].

Example demo_table :
  zone_name_to_ids demo_categories !! "heart" = Some [1; 3]%Z.
Proof. by vm_compute. Qed.

Example demo_resolve :
  resolve demo_categories ["HEART"; "spleen"] = inr ([1; 3]%Z, [ZoneNotFound "spleen"]).
Proof. by vm_compute. Qed.

Lemma resolve_fatal_witness : resolve demo_categories ["spleen"] = inl NoMatchingCategories.
Proof.
  apply (resolve_fatal_iff demo_categories ["spleen"]). split; [done|].
  intros z ->%list_elem_of_singleton. by vm_compute.
Defined.

Lemma resolve_ids_witness :
  3%Z ∈ [1; 3]%Z ↔
  ∃ z c, z ∈ ["HEART"; "spleen"] ∧ c ∈ demo_categories ∧ cat_id c = 3%Z ∧
         lower (cat_name c) = lower z.
Proof.
  apply (resolve_ids demo_categories ["HEART"; "spleen"] [1; 3]%Z [ZoneNotFound "spleen"] 3).
  by vm_compute.
Defined.

Example zone_color_heart : zone_color "heart" = (255, 0, 0, 255)%Z.
Proof. by vm_compute. Qed.

Example zone_color_unknown : zone_color "toe" = default_color.
Proof. by vm_compute. Qed.
