(* ===== verification/Dicts.v ===== *)
(** * Counters in dictionaries and loops over lists

    The lemmas the stateful components share: the total of a dictionary of
    counters and how [d[k] = d.get(k, 0) + 1] changes it, and the
    induction principles for a loop written as [foldl]. *)

From stdpp Require Import gmap strings list fin_maps.

(** The sum of the values of a dictionary of counters. *)
Definition counter_total (m : gmap string nat) : nat :=
  map_fold (λ _ n acc, n + acc) 0 m.

(** [d[k] = d.get(k, 0) + 1] *)
Definition counter_incr (k : string) (m : gmap string nat) : gmap string nat :=
  <[k := default 0 (m !! k) + 1]> m.

Section Counters.
Implicit Types (m : gmap string nat) (k : string).

Lemma counter_total_empty : counter_total ∅ = 0.
Proof. apply map_fold_empty. Qed.

Lemma counter_total_insert_None m k v :
  m !! k = None → counter_total (<[k:=v]> m) = v + counter_total m.
Proof.
  intros H. unfold counter_total. rewrite map_fold_insert_L; [done| |done].
  intros. lia.
Qed.

Lemma counter_total_delete m k v :
  m !! k = Some v → counter_total m = v + counter_total (delete k m).
Proof.
  intros H. rewrite <- (insert_delete_id m k v H) at 1.
  apply counter_total_insert_None, lookup_delete_eq.
Qed.

Lemma counter_total_incr m k : counter_total (counter_incr k m) = S (counter_total m).
Proof.
  unfold counter_incr. destruct (m !! k) as [v|] eqn:E; simpl.
  - rewrite (counter_total_delete m k v E), <- insert_delete_eq.
    rewrite counter_total_insert_None by apply lookup_delete_eq. lia.
  - rewrite counter_total_insert_None by done. lia.
Qed.

Lemma counter_total_zero {A} (t : gmap string A) : counter_total ((λ _, 0) <$> t) = 0.
Proof.
  induction t as [|k x t Hk IH] using map_ind.
  - by rewrite fmap_empty, counter_total_empty.
  - rewrite fmap_insert, counter_total_insert_None, IH; [done|].
    by rewrite lookup_fmap, Hk.
Qed.

Lemma counter_incr_lookup m k : counter_incr k m !! k = Some (S (default 0 (m !! k))).
Proof. unfold counter_incr. rewrite lookup_insert_eq. f_equal. lia. Qed.

Lemma counter_incr_lookup_ne m k k' : k ≠ k' → counter_incr k m !! k' = m !! k'.
Proof. intros H. unfold counter_incr. by rewrite lookup_insert_ne. Qed.

Lemma counter_lookup_le_total m k : default 0 (m !! k) ≤ counter_total m.
Proof.
  destruct (m !! k) as [v|] eqn:E; simpl; [|lia].
  rewrite (counter_total_delete m k v E). lia.
Qed.

Lemma counter_incr_dom m k : dom (counter_incr k m) = {[k]} ∪ dom m.
Proof. unfold counter_incr. apply dom_insert_L. Qed.

End Counters.

(** ** Loops *)

Section Loops.
Context {A B : Type} (f : A → B → A).

(** A property every step preserves holds after the loop. *)
Lemma foldl_preserves (P : A → Prop) (l : list B) (a : A) :
  (∀ a b, b ∈ l → P a → P (f a b)) → P a → P (foldl f a l).
Proof.
  revert a. induction l as [|b l IH]; intros a Hstep Ha; simpl; [done|].
  apply IH; [intros; apply Hstep; [by right | done]|].
  apply Hstep; [by left | done].
Qed.

(** A measure that every step increases by an amount depending on the
    element only increases over the loop by the sum of the amounts. *)
Lemma foldl_measure (μ : A → nat) (g : B → nat) (l : list B) (a : A) :
  (∀ a b, μ (f a b) = μ a + g b) → μ (foldl f a l) = μ a + sum_list (g <$> l).
Proof.
  intros Hstep. revert a. induction l as [|b l IH]; intros a.
  - simpl. lia.
  - rewrite fmap_cons. simpl. rewrite IH, Hstep. lia.
Qed.

End Loops.

Create Rewrite HintDb counters.
#[export] Hint Rewrite counter_total_incr counter_total_empty : counters.

(** ** Loops that skip elements, and filtered counters *)

Section Skips.
Context {A B : Type} (f : A → B → A) (skip : B → bool).

(** A loop whose body starts with [if skip b: continue] is the loop over
    the elements that are not skipped. *)
Lemma foldl_skip (l : list B) (a : A) :
  foldl (λ a b, if skip b then a else f a b) a l =
  foldl f a (List.filter (λ b, negb (skip b)) l).
Proof.
  revert a. induction l as [|b l IH]; intros a; simpl; [done|].
  rewrite IH. by destruct (skip b).
Qed.

End Skips.

Lemma sum_list_indicator {B : Type} (p : B → bool) (l : list B) :
  sum_list ((λ b, if p b then 1 else 0) <$> l) = length (List.filter p l).
Proof.
  induction l as [|b l IH]; [done|]. rewrite fmap_cons. simpl.
  destruct (p b); simpl; lia.
Qed.

(** Dropping the counters that are zero does not change the total. *)
Lemma counter_total_positive (m : gmap string nat) :
  counter_total (filter (λ kc, 0 < kc.2) m) = counter_total m.
Proof.
  induction m as [|k c m Hk IH] using map_ind.
  - by rewrite map_filter_empty.
  - rewrite counter_total_insert_None by done.
    destruct (decide (0 < c)) as [Hc|Hc].
    + rewrite map_filter_insert_True by done.
      rewrite counter_total_insert_None, IH; [done|].
      by rewrite map_lookup_filter_None_2; [|left].
    + rewrite map_filter_insert_False by done.
      rewrite delete_id by done. rewrite IH. lia.
Qed.

(** A filtering map yields no more entries than it reads. *)
Lemma length_omap_le {A B : Type} (f : A → option B) (l : list A) :
  length (omap f l) ≤ length l.
Proof.
  induction l as [|a l IH]; [done|].
  change (omap f (a :: l)) with (match f a with Some b => b :: omap f l | None => omap f l end).
  destruct (f a); simpl; lia.
Qed.

(** A filter that no entry passes yields nothing. *)
Lemma filter_nil_Forall {A : Type} (P : A → Prop) `{∀ x, Decision (P x)} (l : list A) :
  Forall (λ x, ¬ P x) l → filter P l = [].
Proof. induction 1 as [|x l Hx _ IH]; [done|]. by rewrite filter_cons, decide_False. Qed.
