(* ===== verification/Placement.v ===== *)
(** * Bump placement

    [generate_slippers.py] lines 142-211: the run state and the loop over
    the annotations.  The module level variables of the source are the
    fields of [run_state]; the innermost loop body is [place_point], the
    two nested grid loops are [scan_zone], the body of the loop over the
    annotations with its [try ... except] is [process_annotation], and the
    whole loop is [place_all].

    An exception inside the [try] ends the work on that annotation and
    keeps what was already written to the state: a polygon with an odd
    number of coordinates fails before anything is written, an empty
    polygon fails after its path was entered in [zone_paths]. *)

From stdpp Require Import gmap strings list fin_maps.
From Stdlib Require Import QArith Lqa.
From S2P Require Import Prelude Numerics Mapper Sampler Bump Surface Zones Dicts.
Local Close Scope Q_scope.
Local Open Scope string_scope.
Local Open Scope list_scope.

(** ** The run state, lines 143-150 *)

Record run_state : Type := mkRun {
  spikes : list trimesh;
  spike_count : nat;
  ray_casting_attempts : nat;
  ray_casting_successes : nat;
  positional_errors : list Q;
  bump_locations : list point3;
  zone_bumps : gmap string nat;
  zone_paths : gmap string (list point2);
  messages : list message
}.

(** [print]: a message is appended to what the run has printed. *)
Definition say (msg : message) (st : run_state) : run_state :=
  mkRun (spikes st) (spike_count st) (ray_casting_attempts st) (ray_casting_successes st)
        (positional_errors st) (bump_locations st) (zone_bumps st) (zone_paths st)
        (messages st ++ [msg]).

(** Line 174: [zone_paths[zone_name] = path]. *)
Definition set_zone_path (zone_name : string) (path : list point2) (st : run_state) : run_state :=
  mkRun (spikes st) (spike_count st) (ray_casting_attempts st) (ray_casting_successes st)
        (positional_errors st) (bump_locations st) (zone_bumps st)
        (<[zone_name := path]> (zone_paths st)) (messages st).

(** Line 186: [ray_casting_attempts += 1]. *)
Definition count_attempt (st : run_state) : run_state :=
  mkRun (spikes st) (spike_count st) (S (ray_casting_attempts st)) (ray_casting_successes st)
        (positional_errors st) (bump_locations st) (zone_bumps st) (zone_paths st)
        (messages st).

(** Lines 190-206: what a hit writes to the state. *)
Definition record_hit (zone_name : string) (bump : trimesh) (positional_error : Q)
    (loc : point3) (st : run_state) : run_state :=
  let count := S (spike_count st) in
  mkRun (spikes st ++ [bump]) count
        (ray_casting_attempts st) (S (ray_casting_successes st))
        (positional_errors st ++ [positional_error])
        (bump_locations st ++ [loc])
        (counter_incr zone_name (zone_bumps st))
        (zone_paths st)
        (messages st ++ (if (count mod 200 =? 0)%nat then [BumpsPlaced count] else [])).

Section Placement.
Context {sq : SqrtOp} {tr : TrigOps} {mesh : SoleMesh}.
Context (data : coco).

(** The mapper's frame of this run: the bounds of the sole and the size
    of the annotated picture. *)
Definition run_frame : frame :=
  mkFrame mesh_bounds (image_width data) (image_height data).

(** Lines 143-150. *)
Definition initial_state : run_state :=
  mkRun [mesh_data] 0 0 0 [] [] ((λ _, 0%nat) <$> zone_name_to_ids (categories data)) ∅ [].

(** Lines 182-206: the body of the grid loops for a contained point. *)
Definition place_point (zone_name : string) (color : rgba) (st : run_state)
    (pt : point2) : run_state :=
  let xi := pt.1 in
  let yi := pt.2 in
  let '(x3d, y3d) := map_2d_to_3d run_frame xi yi in
  let st := count_attempt st in
  match top_hit (cast_ray x3d y3d) with
  | None => st
  | Some (z3d, loc) =>
      let expected_x := (origin_x run_frame + xi * x_scale run_frame)%Q in
      let expected_y :=
        (origin_y run_frame + (img_height run_frame - yi) * y_scale run_frame)%Q in
      let positional_error := norm2 (px3 loc - expected_x) (py3 loc - expected_y) in
      let bump := make_bump x3d y3d z3d color in
      record_hit zone_name bump positional_error loc st
  end.

(** Lines 181-182: one grid point; the second component counts the
    contained points of the zone ([valid_points]). *)
Definition scan_step (zone_name : string) (color : rgba) (path : list point2)
    (acc : run_state * nat) (pt : point2) : run_state * nat :=
  if contains_point path pt then (place_point zone_name color acc.1 pt, S acc.2)
  else acc.

(** Lines 178-206: the two grid loops of a zone. *)
Definition scan_zone (zone_name : string) (color : rgba) (path : list point2)
    (bb : bbox2) (st : run_state) : run_state * nat :=
  foldl (scan_step zone_name color path) (st, 0%nat) (grid_points bb step).

(** Lines 209-211: the exception handler. *)
Definition fail_annotation (ann : annotation) (st : run_state) : run_state :=
  say (FailedAnnotation (ann_id ann)) st.

(** Lines 169-208: the work on an annotation whose zone name is known. *)
Definition process_zone (ann : annotation) (zone_name : string) (st : run_state) : run_state :=
  let color := zone_color zone_name in
  let st := say (ColorAssigned zone_name color) st in
  match ann_segmentation ann with
  | [] => fail_annotation ann st
  | flat :: _ =>
      match reshape_pairs flat with
      | None => fail_annotation ann st
      | Some seg =>
          let st := set_zone_path zone_name seg st in
          match seg_bbox seg with
          | None => fail_annotation ann st
          | Some bb =>
              let '(st, valid_points) := scan_zone zone_name color seg bb st in
              if (valid_points =? 0)%nat then say (NoValidPoints zone_name) st else st
          end
      end
  end.

(** Lines 157-211: the body of the loop over the annotations. *)
Definition process_annotation (selected : list Z) (st : run_state) (ann : annotation)
    : run_state :=
  if bool_decide (selected ≠ []) && bool_decide (ann_category_id ann ∉ selected) then st
  else
    match zone_name_of (categories data) (ann_category_id ann) with
    | None => say (NoCategoryFound (ann_id ann)) st
    | Some zone_name => process_zone ann zone_name st
    end.

(** Lines 156-211. *)
Definition place_all (selected : list Z) : run_state :=
  foldl (process_annotation selected) initial_state (annotations data).

(** ** What an annotation contributes, as functions of the input alone *)

(** Whether the ray of a grid point hits the sole. *)
Definition point_hits (pt : point2) : bool :=
  let '(x3d, y3d) := map_2d_to_3d run_frame pt.1 pt.2 in
  match top_hit (cast_ray x3d y3d) with Some _ => true | None => false end.

(** The contained grid points of an annotation: the rays it casts. *)
Definition ann_points (ann : annotation) : list point2 :=
  match ann_segmentation ann with
  | flat :: _ =>
      match reshape_pairs flat with
      | Some seg =>
          match seg_bbox seg with
          | Some bb => valid_grid_points seg bb step
          | None => []
          end
      | None => []
      end
  | [] => []
  end.

(** Whether the loop works on the annotation at all: it is selected and
    its category has a name. *)
Definition ann_active (selected : list Z) (ann : annotation) : bool :=
  negb (bool_decide (selected ≠ []) && bool_decide (ann_category_id ann ∉ selected))
  && bool_decide (is_Some (zone_name_of (categories data) (ann_category_id ann))).

(** The rays an annotation casts and the bumps it places. *)
Definition ann_attempts (selected : list Z) (ann : annotation) : nat :=
  if ann_active selected ann then length (ann_points ann) else 0%nat.

Definition ann_bumps (selected : list Z) (ann : annotation) : nat :=
  if ann_active selected ann then length (List.filter point_hits (ann_points ann)) else 0%nat.

End Placement.

(** ** The invariant of the run state *)

Record run_inv (st : run_state) : Prop := mkRunInv {
  inv_successes : (ray_casting_successes st ≤ ray_casting_attempts st)%nat;
  inv_count : spike_count st = ray_casting_successes st;
  inv_errors : length (positional_errors st) = spike_count st;
  inv_locations : length (bump_locations st) = spike_count st;
  inv_spikes : length (spikes st) = S (spike_count st);
  inv_zones : counter_total (zone_bumps st) = spike_count st
}.

(** * The invariant is kept by every operation *)

Section StateOps.
Implicit Types (st : run_state).

Lemma say_inv msg st : run_inv st → run_inv (say msg st).
Proof. by intros []. Qed.

Lemma set_zone_path_inv z path st : run_inv st → run_inv (set_zone_path z path st).
Proof. by intros []. Qed.

Lemma count_attempt_inv st : run_inv st → run_inv (count_attempt st).
Proof. intros []. split; simpl; try done. lia. Qed.

Lemma record_hit_inv z bump e loc st :
  ray_casting_successes st < ray_casting_attempts st →
  run_inv st → run_inv (record_hit z bump e loc st).
Proof.
  intros Hlt []. split; simpl; rewrite ?length_app, ?counter_total_incr; simpl; lia.
Qed.

End StateOps.

(** * The states a run goes through

    [reachable] lists the writes the loop makes to the state, each with
    what is known at that point of the program.  Every state of a run is
    reachable, so a property kept by the five rules holds at the end of
    every run. *)

Section Reachable.
Context {sq : SqrtOp} {tr : TrigOps} {mesh : SoleMesh}.
Context (data : coco).
Implicit Types (st : run_state) (pt : point2) (ann : annotation).

Inductive reachable : run_state → Prop :=
| reach_init : reachable (initial_state data)
| reach_say msg st : reachable st → reachable (say msg st)
| reach_path z path st : reachable st → reachable (set_zone_path z path st)
| reach_miss st : reachable st → reachable (count_attempt st)
| reach_hit z color path pt z3d loc st :
    reachable st →
    zone_paths st !! z = Some path →
    contains_point path pt = true →
    top_hit (cast_ray (map_2d_to_3d (run_frame data) pt.1 pt.2).1
                      (map_2d_to_3d (run_frame data) pt.1 pt.2).2) = Some (z3d, loc) →
    reachable
      (record_hit z
         (make_bump (map_2d_to_3d (run_frame data) pt.1 pt.2).1
                    (map_2d_to_3d (run_frame data) pt.1 pt.2).2 z3d color)
         (norm2 (px3 loc - (map_2d_to_3d (run_frame data) pt.1 pt.2).1)
                (py3 loc - (map_2d_to_3d (run_frame data) pt.1 pt.2).2))
         loc (count_attempt st)).

Lemma place_point_unfold z color st pt :
  place_point data z color st pt =
  match top_hit (cast_ray (map_2d_to_3d (run_frame data) pt.1 pt.2).1
                          (map_2d_to_3d (run_frame data) pt.1 pt.2).2) with
  | None => count_attempt st
  | Some (z3d, loc) =>
      record_hit z
        (make_bump (map_2d_to_3d (run_frame data) pt.1 pt.2).1
                   (map_2d_to_3d (run_frame data) pt.1 pt.2).2 z3d color)
        (norm2 (px3 loc - (map_2d_to_3d (run_frame data) pt.1 pt.2).1)
               (py3 loc - (map_2d_to_3d (run_frame data) pt.1 pt.2).2))
        loc (count_attempt st)
  end.
Proof. reflexivity. Qed.

Lemma place_point_zone_paths z color st pt :
  zone_paths (place_point data z color st pt) = zone_paths st.
Proof. rewrite place_point_unfold. by destruct (top_hit _) as [[??]|]. Qed.

Lemma place_point_reachable z color path st pt :
  reachable st → zone_paths st !! z = Some path → contains_point path pt = true →
  reachable (place_point data z color st pt).
Proof.
  intros H Hz Hc. rewrite place_point_unfold.
  destruct (top_hit _) as [[z3d loc]|] eqn:E; [|by apply reach_miss].
  by eapply reach_hit.
Qed.

Lemma scan_zone_reachable z color path bb st :
  reachable st → zone_paths st !! z = Some path →
  reachable (scan_zone data z color path bb st).1.
Proof.
  intros H Hz. unfold scan_zone.
  apply (foldl_preserves _ (λ acc, reachable acc.1 ∧ zone_paths acc.1 !! z = Some path));
    [|done].
  intros [st' n] pt _ [Hst' Hz']. unfold scan_step.
  destruct (contains_point path pt) eqn:Hc; [|done]. simpl. split.
  - by eapply place_point_reachable.
  - by rewrite place_point_zone_paths.
Qed.

Lemma process_zone_reachable ann z st :
  reachable st → reachable (process_zone data ann z st).
Proof.
  intros H. unfold process_zone, fail_annotation.
  destruct (ann_segmentation ann) as [|flat ?]; [by do 2 apply reach_say|].
  destruct (reshape_pairs flat) as [seg|]; [|by do 2 apply reach_say].
  destruct (seg_bbox seg) as [bb|]; [|by apply reach_say, reach_path, reach_say].
  pose proof (scan_zone_reachable z (zone_color z) seg bb
                (set_zone_path z seg (say (ColorAssigned z (zone_color z)) st))
                (reach_path _ _ _ (reach_say _ _ H))
                (lookup_insert_eq _ _ _)) as Hs.
  destruct (scan_zone _ _ _ _ _ _) as [st' n]. simpl in Hs.
  destruct (n =? 0)%nat; [by apply reach_say | done].
Qed.

Lemma process_annotation_reachable selected st ann :
  reachable st → reachable (process_annotation data selected st ann).
Proof.
  intros H. unfold process_annotation.
  destruct (_ && _); [done|].
  destruct (zone_name_of _ _); [by apply process_zone_reachable | by apply reach_say].
Qed.

(** Every run ends in a reachable state: the placement loop only ever
    writes to the state by one of the rules of [reachable]. *)
Lemma place_all_reachable (selected : list Z) : reachable (place_all data selected).
Proof.
  unfold place_all. apply foldl_preserves; [|apply reach_init].
  intros st ann _. apply process_annotation_reachable.
Qed.

Lemma reachable_inv st : reachable st → run_inv st.
Proof.
  induction 1 as [|msg st _ IH|z path st _ IH|st _ IH|z color path pt z3d loc st _ IH _ _ _].
  - split; simpl; try done. apply counter_total_zero.
  - by apply say_inv.
  - by apply set_zone_path_inv.
  - by apply count_attempt_inv.
  - apply record_hit_inv; [|by apply count_attempt_inv]. destruct IH. simpl. lia.
Qed.

(** C1. The state the placement loop ends in is consistent: successes
    do not exceed attempts, the bump count equals the successes, one
    error sample and one location were recorded per bump, the pieces kept
    for export are the sole and one mesh per bump, and the per-zone
    counters add up to the bump count. *)
Theorem place_all_inv (selected : list Z) : run_inv (place_all data selected).
Proof. apply reachable_inv, place_all_reachable. Qed.

End Reachable.

(** * What a run counts *)

Section Counts.
Context {sq : SqrtOp} {tr : TrigOps} {mesh : SoleMesh}.
Context (data : coco).
Implicit Types (st : run_state) (pt : point2) (ann : annotation).

Lemma place_point_counts z color st pt :
  ray_casting_attempts (place_point data z color st pt) = S (ray_casting_attempts st) ∧
  spike_count (place_point data z color st pt) =
  spike_count st + (if point_hits data pt then 1 else 0).
Proof.
  rewrite place_point_unfold. unfold point_hits. cbn [map_2d_to_3d fst snd].
  destruct (top_hit _) as [[z3d loc]|]; simpl; lia.
Qed.

Lemma scan_fold_counts z color path (l : list point2) st n :
  let r := foldl (scan_step data z color path) (st, n) l in
  r.2 = n + length (List.filter (contains_point path) l) ∧
  ray_casting_attempts r.1 =
    ray_casting_attempts st + length (List.filter (contains_point path) l) ∧
  spike_count r.1 =
    spike_count st + length (List.filter (point_hits data) (List.filter (contains_point path) l)).
Proof.
  revert st n. induction l as [|pt l IH]; intros st n; simpl; [lia|].
  unfold scan_step at 2 4 6. destruct (contains_point path pt); simpl.
  - destruct (IH (place_point data z color st pt) (S n)) as (-> & -> & ->).
    destruct (place_point_counts z color st pt) as [-> ->].
    destruct (point_hits data pt); simpl; lia.
  - apply IH.
Qed.

(** A zone casts one ray per contained grid point and places one bump
    per ray that hits; [valid_points] is the number of contained grid
    points. *)
Lemma scan_zone_counts z color path bb st :
  let r := scan_zone data z color path bb st in
  r.2 = length (valid_grid_points path bb step) ∧
  ray_casting_attempts r.1 =
    ray_casting_attempts st + length (valid_grid_points path bb step) ∧
  spike_count r.1 =
    spike_count st + length (List.filter (point_hits data) (valid_grid_points path bb step)).
Proof. apply (scan_fold_counts z color path (grid_points bb step) st 0). Qed.

Lemma process_zone_counts ann z st :
  ray_casting_attempts (process_zone data ann z st) =
    ray_casting_attempts st + length (ann_points ann) ∧
  spike_count (process_zone data ann z st) =
    spike_count st + length (List.filter (point_hits data) (ann_points ann)).
Proof.
  unfold process_zone, fail_annotation, ann_points.
  destruct (ann_segmentation ann) as [|flat ?]; [simpl; lia|].
  destruct (reshape_pairs flat) as [seg|]; [|simpl; lia].
  destruct (seg_bbox seg) as [bb|]; [|simpl; lia].
  pose proof (scan_zone_counts z (zone_color z) seg bb
                (set_zone_path z seg (say (ColorAssigned z (zone_color z)) st))) as Hs.
  destruct (scan_zone _ _ _ _ _ _) as [st' n]. simpl in Hs.
  destruct Hs as (_ & Ha & Hc). by destruct (n =? 0)%nat.
Qed.

Lemma process_annotation_counts selected st ann :
  ray_casting_attempts (process_annotation data selected st ann) =
    ray_casting_attempts st + ann_attempts data selected ann ∧
  spike_count (process_annotation data selected st ann) =
    spike_count st + ann_bumps data selected ann.
Proof.
  unfold process_annotation, ann_attempts, ann_bumps, ann_active.
  destruct (_ && _); [simpl; lia|]. simpl.
  destruct (zone_name_of _ _) as [z|]; simpl; [apply process_zone_counts | lia].
Qed.

(** The two counters the loop increments, as sums over the annotations
    in file order. *)
Lemma place_all_tally (selected : list Z) :
  spike_count (place_all data selected) =
    sum_list (ann_bumps data selected <$> annotations data) ∧
  ray_casting_attempts (place_all data selected) =
    sum_list (ann_attempts data selected <$> annotations data).
Proof.
  unfold place_all. split.
  - rewrite (foldl_measure _ spike_count (ann_bumps data selected)); [done|].
    intros st ann. apply process_annotation_counts.
  - rewrite (foldl_measure _ ray_casting_attempts (ann_attempts data selected)); [done|].
    intros st ann. apply process_annotation_counts.
Qed.

(** C2. What a run counts is the sum, over the annotations in file
    order, of what each annotation contributes, and the contribution of
    an annotation depends on the annotation, the selection and the sole
    only, not on what was placed before: the rays cast are the contained
    grid points of the annotations worked on, and the successes, the
    bumps, the recorded locations and errors and the meshes kept beside
    the sole are the contained grid points whose ray hits. *)
Theorem place_all_counts (selected : list Z) :
  let st := place_all data selected in
  let bumps := sum_list (ann_bumps data selected <$> annotations data) in
  ray_casting_attempts st = sum_list (ann_attempts data selected <$> annotations data) ∧
  ray_casting_successes st = bumps ∧ spike_count st = bumps ∧
  length (bump_locations st) = bumps ∧ length (positional_errors st) = bumps ∧
  length (spikes st) = S bumps.
Proof.
  intros st bumps. destruct (place_all_tally selected) as [Hb Ha].
  destruct (reachable_inv data st (place_all_reachable data selected)).
  subst st bumps. repeat split; congruence.
Qed.

End Counts.

(** * Selections *)

Section Selections.
Context {sq : SqrtOp} {tr : TrigOps} {mesh : SoleMesh}.
Context (data : coco).
Implicit Types (ann : annotation) (sa sb : list Z).

Lemma ann_bumps_split sa sb ann :
  sa ≠ [] → sb ≠ [] → (∀ id, id ∈ sa → id ∉ sb) →
  ann_bumps data (sa ++ sb) ann = ann_bumps data sa ann + ann_bumps data sb ann.
Proof.
  intros Ha Hb Hdis. unfold ann_bumps, ann_active.
  assert (Hab : sa ++ sb ≠ []) by (by destruct sa).
  rewrite !(bool_decide_eq_true_2 (_ ≠ [])) by done. simpl.
  destruct (bool_decide (is_Some _)); [|by rewrite !andb_false_r].
  rewrite !andb_true_r.
  destruct (decide (ann_category_id ann ∈ sa)) as [Hin|Hin].
  - rewrite (bool_decide_eq_false_2 (_ ∉ sa ++ sb)) by set_solver.
    rewrite (bool_decide_eq_false_2 (_ ∉ sa)) by set_solver.
    rewrite (bool_decide_eq_true_2 (_ ∉ sb)) by set_solver. simpl. lia.
  - rewrite (bool_decide_eq_true_2 (_ ∉ sa)) by done. simpl.
    destruct (decide (ann_category_id ann ∈ sb)) as [Hin'|Hin'].
    + rewrite (bool_decide_eq_false_2 (_ ∉ sa ++ sb)) by set_solver.
      by rewrite (bool_decide_eq_false_2 (_ ∉ sb)) by set_solver.
    + rewrite (bool_decide_eq_true_2 (_ ∉ sa ++ sb)) by set_solver.
      by rewrite (bool_decide_eq_true_2 (_ ∉ sb)) by done.
Qed.

(** Two selections without a common category id: the bump count of
    the run over both is the sum of the bump counts of the two runs over
    each alone. *)
Theorem place_all_additive sa sb :
  sa ≠ [] → sb ≠ [] → (∀ id, id ∈ sa → id ∉ sb) →
  spike_count (place_all data (sa ++ sb)) =
  spike_count (place_all data sa) + spike_count (place_all data sb).
Proof.
  intros Ha Hb Hdis. rewrite !(proj1 (place_all_tally data _)).
  induction (annotations data) as [|ann l IH]; [done|].
  rewrite !fmap_cons. simpl. rewrite IH, (ann_bumps_split sa sb ann) by done. lia.
Qed.

(** An annotation that was not selected leaves the state as it is,
    and with no selection at all every annotation is worked on: a run
    without zone names processes all zones. *)
Theorem process_annotation_selection selected st ann :
  (selected ≠ [] → ann_category_id ann ∉ selected →
   process_annotation data selected st ann = st) ∧
  process_annotation data [] st ann =
    match zone_name_of (categories data) (ann_category_id ann) with
    | None => say (NoCategoryFound (ann_id ann)) st
    | Some zone_name => process_zone data ann zone_name st
    end.
Proof.
  split; [|done]. intros Hs Hn. unfold process_annotation.
  by rewrite !bool_decide_eq_true_2.
Qed.

End Selections.

(** * The exception paths *)

Section Failures.
Context {sq : SqrtOp} {tr : TrigOps} {mesh : SoleMesh}.
Context (data : coco).
Implicit Types (st : run_state) (ann : annotation).

(** An annotation with an odd number of coordinates, or with no
    coordinate list, is given up before anything but messages is written;
    an annotation with an empty coordinate list is given up after its
    empty path has replaced the zone's entry in [zone_paths]. *)
Theorem process_zone_failures ann z st :
  ((ann_segmentation ann = [] ∨
    ∃ flat r, ann_segmentation ann = flat :: r ∧ reshape_pairs flat = None) →
   process_zone data ann z st =
   say (FailedAnnotation (ann_id ann)) (say (ColorAssigned z (zone_color z)) st)) ∧
  ((∃ r, ann_segmentation ann = [] :: r) →
   process_zone data ann z st =
   say (FailedAnnotation (ann_id ann))
       (set_zone_path z [] (say (ColorAssigned z (zone_color z)) st))).
Proof.
  unfold process_zone, fail_annotation. split.
  - intros [->|(flat & r & -> & ->)]; done.
  - intros [r ->]. done.
Qed.

(** A grid none of whose contained points hits the sole only counts
    attempts. *)
Lemma scan_fold_all_miss z color path (l : list point2) st n :
  (∀ pt, pt ∈ l → contains_point path pt = true → point_hits data pt = false) →
  foldl (scan_step data z color path) (st, n) l =
  (Nat.iter (length (List.filter (contains_point path) l)) count_attempt st,
   n + length (List.filter (contains_point path) l)).
Proof.
  revert st n. induction l as [|pt l IH]; intros st n Hmiss; simpl; [by rewrite Nat.add_0_r|].
  unfold scan_step at 2. destruct (contains_point path pt) eqn:Hc; simpl.
  - assert (place_point data z color st pt = count_attempt st) as ->.
    { rewrite place_point_unfold. specialize (Hmiss pt ltac:(by left) Hc).
      unfold point_hits in Hmiss. cbn [map_2d_to_3d fst snd] in *.
      by destruct (top_hit _). }
    rewrite IH by (intros; apply Hmiss; [by right | done]).
    by rewrite Nat.iter_swap, Nat.add_succ_r.
  - apply IH. intros; apply Hmiss; [by right | done].
Qed.

(** A zone that lies off the sole: when no ray of the contained grid
    points of an annotation hits, the annotation only counts its attempts,
    and the warning for a zone without valid points is printed only if no
    grid point was contained at all, not because every ray missed. *)
Theorem process_zone_all_miss ann z st flat r seg bb :
  ann_segmentation ann = flat :: r → reshape_pairs flat = Some seg →
  seg_bbox seg = Some bb →
  (∀ pt, pt ∈ valid_grid_points seg bb step → point_hits data pt = false) →
  let n := length (valid_grid_points seg bb step) in
  let st' := Nat.iter n count_attempt
               (set_zone_path z seg (say (ColorAssigned z (zone_color z)) st)) in
  process_zone data ann z st = if (n =? 0)%nat then say (NoValidPoints z) st' else st'.
Proof.
  intros Hs Hr Hb Hmiss. unfold process_zone, scan_zone. rewrite Hs, Hr, Hb.
  rewrite scan_fold_all_miss; [done|].
  intros pt Hpt Hc. apply Hmiss. unfold valid_grid_points.
  apply list_elem_of_In, filter_In. split; [by apply list_elem_of_In | done].
Qed.

End Failures.

(** * What the mesh interface gives the run *)

Section OnMesh.
Context {sq : SqrtOp} {tr : TrigOps} {mesh : SoleMesh}.
Context {mesh_ok : SoleMeshOk mesh} {tr_ok : TrigOk tr}.
Context (data : coco).
Implicit Types (st : run_state).

(** A bump and the surface point it was made for. *)
Definition bump_on (bump : trimesh) (loc : point3) : Prop :=
  trimesh_ok bump ∧ Forall (λ v, (pz3 loc < pz3 v)%Q) (vertices bump).

Lemma reachable_errors_zero st :
  reachable data st → Forall (λ e, (e == 0)%Q) (positional_errors st).
Proof.
  induction 1 as [| | | |z color path pt z3d loc st _ IH _ _ Hhit]; try done.
  simpl. apply Forall_app. split; [done|]. apply Forall_singleton.
  apply cast_ray_hit_on_ray in Hhit as (Hx & Hy).
  apply norm2_zero; [rewrite Hx | rewrite Hy]; apply Qplus_opp_r.
Qed.

Lemma reachable_locations st :
  reachable data st →
  Forall (λ loc, (pz3 (bmin mesh_bounds) <= pz3 loc <= pz3 (bmax mesh_bounds))%Q)
         (bump_locations st).
Proof.
  induction 1 as [| | | |z color path pt z3d loc st _ IH _ _ Hhit]; try done.
  simpl. apply Forall_app. split; [done|]. apply Forall_singleton.
  pose proof (top_hit_In _ _ _ Hhit) as (_ & ->).
  by apply cast_ray_hit_in_bounds in Hhit.
Qed.

Lemma reachable_bumps st :
  reachable data st → Forall2 bump_on (tail (spikes st)) (bump_locations st).
Proof.
  induction 1 as [| | | |z color path pt z3d loc st Hr IH _ _ Hhit];
    [by constructor | done | done | done |].
  simpl. pose proof (inv_spikes _ (reachable_inv _ _ Hr)) as Hlen.
  destruct (spikes st) as [|sole bumps]; [done|]. simpl in *.
  apply Forall2_app; [done|]. constructor; [|constructor].
  pose proof (top_hit_In _ _ _ Hhit) as (_ & <-). split.
  - apply make_bump_trimesh_ok.
  - apply Forall_forall. intros v Hv%list_elem_of_In%make_bump_vertex_range.
    unfold z_offset in Hv. lra.
Qed.

(** C6. On a sole whose ray intersections lie on the ray, every
    positional error a run records is zero: the error compares the hit
    with the position the ray was cast from. *)
Theorem place_all_errors_zero (selected : list Z) :
  Forall (λ e, (e == 0)%Q) (positional_errors (place_all data selected)).
Proof. apply reachable_errors_zero, place_all_reachable. Qed.

(** C28. Every bump a run places is a well formed mesh and lies strictly
    above the surface point recorded for it; the pieces kept for export
    are the sole followed by these bumps in placement order. *)
Theorem place_all_bumps (selected : list Z) :
  Forall2 bump_on (tail (spikes (place_all data selected)))
                  (bump_locations (place_all data selected)).
Proof. apply reachable_bumps, place_all_reachable. Qed.

(** Every surface point a run records lies between the bottom and
    the top of the sole. *)
Theorem place_all_locations (selected : list Z) :
  Forall (λ loc, (pz3 (bmin mesh_bounds) <= pz3 loc <= pz3 (bmax mesh_bounds))%Q)
         (bump_locations (place_all data selected)).
Proof. apply reachable_locations, place_all_reachable. Qed.

End OnMesh.

(** * Per-zone counters *)

Section ZoneCounts.
Context {sq : SqrtOp} {tr : TrigOps} {mesh : SoleMesh}.
Context (data : coco) (zone : string).
Implicit Types (st : run_state) (pt : point2) (ann : annotation).

(** The counter of [zone], read as the report reads it. *)
Definition zone_count st : nat := default 0 (zone_bumps st !! zone).

(** The bumps an annotation places for [zone]. *)
Definition ann_zone_bumps (selected : list Z) ann : nat :=
  if decide (zone_name_of (categories data) (ann_category_id ann) = Some zone)
  then ann_bumps data selected ann else 0.

Lemma place_point_zone_count z color st pt :
  zone_count (place_point data z color st pt) =
  zone_count st + (if decide (z = zone) then (if point_hits data pt then 1 else 0) else 0).
Proof.
  rewrite place_point_unfold. unfold point_hits, zone_count. cbn [map_2d_to_3d fst snd].
  destruct (top_hit _) as [[z3d loc]|]; simpl; [|case_decide; lia].
  case_decide as E.
  - subst z. rewrite counter_incr_lookup. simpl. lia.
  - rewrite counter_incr_lookup_ne by done. lia.
Qed.

Lemma scan_fold_zone_count z color path (l : list point2) st n :
  zone_count (foldl (scan_step data z color path) (st, n) l).1 =
  zone_count st +
  (if decide (z = zone)
   then length (List.filter (point_hits data) (List.filter (contains_point path) l))
   else 0).
Proof.
  revert st n. induction l as [|pt l IH]; intros st n; simpl; [case_decide; lia|].
  unfold scan_step at 2. destruct (contains_point path pt); simpl; [|apply IH].
  rewrite IH, place_point_zone_count.
  case_decide; [|lia]. destruct (point_hits data pt); simpl; lia.
Qed.

Lemma process_zone_zone_count ann z st :
  zone_count (process_zone data ann z st) =
  zone_count st +
  (if decide (z = zone) then length (List.filter (point_hits data) (ann_points ann)) else 0).
Proof.
  unfold process_zone, fail_annotation, ann_points.
  destruct (ann_segmentation ann) as [|flat ?]; [simpl; case_decide; unfold zone_count; simpl; lia|].
  destruct (reshape_pairs flat) as [seg|]; [|simpl; case_decide; unfold zone_count; simpl; lia].
  destruct (seg_bbox seg) as [bb|]; [|simpl; case_decide; unfold zone_count; simpl; lia].
  pose proof (scan_fold_zone_count z (zone_color z) seg (grid_points bb step)
                (set_zone_path z seg (say (ColorAssigned z (zone_color z)) st)) 0) as Hs.
  unfold scan_zone. destruct (foldl _ _ _) as [st' n]. simpl in Hs.
  by destruct (n =? 0)%nat.
Qed.

Lemma process_annotation_zone_count selected st ann :
  zone_count (process_annotation data selected st ann) =
  zone_count st + ann_zone_bumps selected ann.
Proof.
  unfold process_annotation, ann_zone_bumps, ann_bumps, ann_active.
  destruct (_ && _); [simpl; case_decide; lia|]. cbn [negb andb].
  destruct (zone_name_of _ _) as [z|].
  - rewrite process_zone_zone_count, bool_decide_eq_true_2 by done.
    do 2 case_decide; simplify_eq; done.
  - case_decide; [done|]. unfold zone_count. simpl. lia.
Qed.

(** The counter of a zone as a sum over the annotations. *)
Lemma place_all_zone_tally (selected : list Z) :
  zone_count (place_all data selected) =
  sum_list (ann_zone_bumps selected <$> annotations data).
Proof.
  unfold place_all.
  rewrite (foldl_measure _ zone_count (ann_zone_bumps selected)).
  - unfold zone_count, initial_state. simpl. rewrite lookup_fmap.
    by destruct (zone_name_to_ids _ !! zone).
  - intros st ann. apply process_annotation_zone_count.
Qed.

(** The counter the run keeps for a zone is the number of bumps
    placed by the annotations of that zone, and no zone is credited with
    more bumps than the run placed. *)
Theorem place_all_zone_count (selected : list Z) :
  zone_count (place_all data selected) =
    sum_list (ann_zone_bumps selected <$> annotations data) ∧
  (zone_count (place_all data selected) ≤ spike_count (place_all data selected))%nat.
Proof.
  split; [apply place_all_zone_tally|].
  rewrite <- (inv_zones _ (reachable_inv data _ (place_all_reachable data selected))).
  apply counter_lookup_le_total.
Qed.

End ZoneCounts.

(** * Concrete runs

    The first scenario of the specification: a slab of 100 x 100 x 5 mm
    with its top at z = 5, a picture of 100 x 100 pixels, and one zone
    "heart" whose polygon is the square from (0, 0) to (50, 50).  The
    second zone "liver" lies in the opposite corner of the picture. *)

Definition scenario_data : coco :=
  mkCoco 100 100
    [mkCategory 1 "Heart"; mkCategory 2 "Liver"]
    [mkAnnotation 10 1 [[0; 0; 50; 0; 50; 50; 0; 50]%Q];
     mkAnnotation 11 2 [[60; 60; 90; 60; 90; 90; 60; 90]%Q]].

#[local] Existing Instance bhaskara_trig.

Definition scenario_run (selected : list Z) : run_state :=
  @place_all sqrt_fixed_op bhaskara_trig slab100_mesh scenario_data selected.

(** The first scenario, run: the square zone has 90 contained grid
    points, so 90 rays are cast; the ten of the grid line y = 5 are mapped
    beyond the edge of the sole by the margin and miss, and 80 bumps are
    placed, all of them counted for "heart". *)
Theorem scenario_heart_counts :
  ray_casting_attempts (scenario_run [1%Z]) = 90 ∧
  ray_casting_successes (scenario_run [1%Z]) = 80 ∧
  spike_count (scenario_run [1%Z]) = 80 ∧
  zone_count "heart" (scenario_run [1%Z]) = 80 ∧
  zone_count "liver" (scenario_run [1%Z]) = 0.
Proof.
  unfold scenario_run.
  rewrite <- (inv_count _ (reachable_inv _ _ (place_all_reachable scenario_data [1%Z]))).
  rewrite !place_all_zone_tally.
  destruct (place_all_tally scenario_data [1%Z]) as [-> ->].
  by vm_compute.
Qed.

(** The second zone alone, and both zones. *)
Example scenario_liver_count : spike_count (scenario_run [2%Z]) = 30.
Proof. unfold scenario_run. rewrite (proj1 (place_all_tally _ _)). by vm_compute. Qed.

Example scenario_both_count : spike_count (scenario_run [1%Z; 2%Z]) = 110.
Proof. unfold scenario_run. rewrite (proj1 (place_all_tally _ _)). by vm_compute. Qed.

Lemma place_all_additive_witness :
  spike_count (scenario_run ([1%Z] ++ [2%Z])) =
  spike_count (scenario_run [1%Z]) + spike_count (scenario_run [2%Z]).
Proof.
  unfold scenario_run.
  refine (@place_all_additive sqrt_fixed_op bhaskara_trig slab100_mesh scenario_data
            [1%Z] [2%Z] _ _ _); [done | done |].
  intros id ->%list_elem_of_singleton [=]%list_elem_of_singleton.
Defined.

Lemma place_all_errors_zero_witness :
  Forall (λ e, (e == 0)%Q) (positional_errors (scenario_run [1%Z])).
Proof.
  unfold scenario_run.
  exact (@place_all_errors_zero sqrt_fixed_op bhaskara_trig slab100_mesh slab100_ok
           scenario_data [1%Z]).
Defined.

Lemma place_all_bumps_witness :
  Forall2 bump_on (tail (spikes (scenario_run [1%Z]))) (bump_locations (scenario_run [1%Z])).
Proof.
  unfold scenario_run.
  exact (@place_all_bumps sqrt_fixed_op bhaskara_trig slab100_mesh bhaskara_trig_ok
           scenario_data [1%Z]).
Defined.

Lemma place_all_locations_witness :
  Forall (λ loc, (pz3 (bmin mesh_bounds) <= pz3 loc <= pz3 (bmax mesh_bounds))%Q)
         (bump_locations (scenario_run [1%Z])).
Proof.
  unfold scenario_run.
  exact (@place_all_locations sqrt_fixed_op bhaskara_trig slab100_mesh slab100_ok
           scenario_data [1%Z]).
Defined.

(** A run with no zone names works on every annotation. *)
Example scenario_no_names_count : spike_count (scenario_run []) = 110.
Proof. unfold scenario_run. rewrite (proj1 (place_all_tally _ _)). by vm_compute. Qed.

(** A polygon with an odd number of coordinates is given up with a
    message; an empty polygon leaves an empty path behind. *)
Example scenario_failures :
  let data := mkCoco 100 100 [mkCategory 1 "Heart"]
                [mkAnnotation 10 1 [[0; 0; 50]%Q]; mkAnnotation 11 1 [[]]] in
  let st := @place_all sqrt_fixed_op bhaskara_trig slab100_mesh data [] in
  spike_count st = 0 ∧ zone_paths st !! "heart" = Some [] ∧
  messages st = [ColorAssigned "heart" (255, 0, 0, 255)%Z; FailedAnnotation 10;
                 ColorAssigned "heart" (255, 0, 0, 255)%Z; FailedAnnotation 11].
Proof. by vm_compute. Qed.

(** The fourth scenario: a zone whose grid points are all mapped beyond
    the edge of the sole.  Its six rays miss, no bump is placed, and no
    warning is printed for the zone. *)
Definition scenario_outside : coco :=
  mkCoco 100 100 [mkCategory 1 "Heart"]
    [mkAnnotation 10 1 [[91; 20; 99; 20; 99; 40; 91; 40]%Q]].

Example scenario_outside_run :
  let st := @place_all sqrt_fixed_op bhaskara_trig slab100_mesh scenario_outside [1%Z] in
  ray_casting_attempts st = 6 ∧ spike_count st = 0 ∧
  messages st = [ColorAssigned "heart" (255, 0, 0, 255)%Z].
Proof. by vm_compute. Qed.

Lemma process_zone_all_miss_witness :
  let ann := mkAnnotation 10 1 [[91; 20; 99; 20; 99; 40; 91; 40]%Q] in
  let seg := [(91, 20); (99, 20); (99, 40); (91, 40)]%Q in
  let bb := mkBbox2 91 20 99 40 in
  let st := @initial_state slab100_mesh scenario_outside in
  let n := length (valid_grid_points seg bb step) in
  let st' := Nat.iter n count_attempt
               (set_zone_path "heart" seg (say (ColorAssigned "heart" (zone_color "heart")) st)) in
  @process_zone sqrt_fixed_op bhaskara_trig slab100_mesh scenario_outside ann "heart" st =
  if (n =? 0)%nat then say (NoValidPoints "heart") st' else st'.
Proof.
  intros ann seg bb st.
  refine (@process_zone_all_miss sqrt_fixed_op bhaskara_trig slab100_mesh scenario_outside
            ann "heart" st _ [] seg bb eq_refl _ _ _); [done | done |].
  intros pt Hpt. vm_compute in Hpt.
  repeat (apply elem_of_cons in Hpt as [->|Hpt]; [by vm_compute|]).
  by apply elem_of_nil in Hpt.
Defined.
