(* ===== verification/Machine.v ===== *)
(** * The placement loop, one iteration at a time

    [generate_slippers.py] lines 156-211 once more, as a machine.
    [Placement] folds the loop body over the annotations; here the loop
    variables are part of the configuration and a step is one pass through
    the head of a loop: the next annotation of line 156 is taken, or the
    next grid point of lines 179-180, or the grid loops end at line 207.
    Every step is labelled with what happened.

    The machine is given twice: as the function [next] that computes the
    step, and as the relation [loop_step] with one rule per case.  The
    theorems show that the two agree, that the machine stops after a
    number of steps known in advance, that it stops in the state of
    [place_all], which events it emits in which order, and that the
    invariant of the state holds after every step. *)

From stdpp Require Import gmap strings list relations.
From Stdlib Require Import QArith.
From S2P Require Import Prelude Numerics Mapper Sampler Bump Surface Zones Dicts Placement.
Local Close Scope Q_scope.
Local Open Scope string_scope.
Local Open Scope list_scope.

(** ** Configurations and events *)

(** Where the loop stands: at the head of the loop over the annotations
    with those still to come, or inside the grid loops of an annotation
    with its zone name, colour and path, the contained points counted so
    far ([valid_points]) and the grid points still to come. *)
Inductive control : Type :=
| AtAnnotations (rest : list annotation)
| AtPoints (ann : annotation) (zone_name : string) (color : rgba) (path : list point2)
           (valid_points : nat) (points : list point2) (rest : list annotation).

Record config : Type := mkConfig { cur : run_state; ctl : control }.

(** What a step does. *)
Inductive event : Type :=
| Skipped (ann : Z)                           (* line 158: not selected *)
| Unnamed (ann : Z)                           (* line 167: no category *)
| Failed (ann : Z)                            (* line 211: exception *)
| Entered (ann : Z) (zone_name : string)      (* line 179: the grid loops start *)
| Rejected (pt : point2)                      (* line 181: not contained *)
| RayCast (pt : point2) (hit : bool)          (* lines 186-188 *)
| Left (zone_name : string).                  (* line 207: the grid loops end *)

(** The path and the bounding box of an annotation; none when line 172
    or lines 175-176 raise. *)
Definition ann_polygon (ann : annotation) : option (list point2 * bbox2) :=
  match ann_segmentation ann with
  | [] => None
  | flat :: _ =>
      match reshape_pairs flat with
      | None => None
      | Some seg =>
          match seg_bbox seg with
          | None => None
          | Some bb => Some (seg, bb)
          end
      end
  end.

Section Machine.
Context {sq : SqrtOp} {tr : TrigOps} {mesh : SoleMesh}.
Context (data : coco) (selected : list Z).

(** Lines 157-176: the head of the loop body, up to the grid loops. *)
Definition enter (st : run_state) (ann : annotation) (rest : list annotation)
    : event * config :=
  if bool_decide (selected ≠ []) && bool_decide (ann_category_id ann ∉ selected)
  then (Skipped (ann_id ann), mkConfig st (AtAnnotations rest))
  else
    match zone_name_of (categories data) (ann_category_id ann) with
    | None =>
        (Unnamed (ann_id ann), mkConfig (say (NoCategoryFound (ann_id ann)) st)
                                        (AtAnnotations rest))
    | Some zone_name =>
        let color := zone_color zone_name in
        let st := say (ColorAssigned zone_name color) st in
        let failed st := (Failed (ann_id ann),
                          mkConfig (fail_annotation ann st) (AtAnnotations rest)) in
        match ann_segmentation ann with
        | [] => failed st
        | flat :: _ =>
            match reshape_pairs flat with
            | None => failed st
            | Some seg =>
                let st := set_zone_path zone_name seg st in
                match seg_bbox seg with
                | None => failed st
                | Some bb =>
                    (Entered (ann_id ann) zone_name,
                     mkConfig st (AtPoints ann zone_name color seg 0
                                           (grid_points bb step) rest))
                end
            end
        end
    end.

(** One step; [None] when the loop over the annotations has ended. *)
Definition next (c : config) : option (event * config) :=
  match ctl c with
  | AtAnnotations [] => None
  | AtAnnotations (ann :: rest) => Some (enter (cur c) ann rest)
  | AtPoints ann zone_name color path valid_points [] rest =>
      Some (Left zone_name,
            mkConfig (if (valid_points =? 0)%nat then say (NoValidPoints zone_name) (cur c)
                      else cur c)
                     (AtAnnotations rest))
  | AtPoints ann zone_name color path valid_points (pt :: points) rest =>
      if contains_point path pt
      then Some (RayCast pt (point_hits data pt),
                 mkConfig (place_point data zone_name color (cur c) pt)
                          (AtPoints ann zone_name color path (S valid_points) points rest))
      else Some (Rejected pt,
                 mkConfig (cur c) (AtPoints ann zone_name color path valid_points points rest))
  end.

(** The machine run for at most [fuel] steps: the events and the
    configuration reached. *)
Fixpoint run_for (fuel : nat) (c : config) : list event * config :=
  match fuel with
  | O => ([], c)
  | S fuel =>
      match next c with
      | None => ([], c)
      | Some (e, c') => let '(es, c'') := run_for fuel c' in (e :: es, c'')
      end
  end.

(** The configurations the loop starts and ends in. *)
Definition start : config := mkConfig (initial_state data) (AtAnnotations (annotations data)).

Definition stop : config := mkConfig (place_all data selected) (AtAnnotations []).

(** ** The step relation *)

Inductive loop_step : config → event → config → Prop :=
| step_skip st ann rest :
    selected ≠ [] → ann_category_id ann ∉ selected →
    loop_step (mkConfig st (AtAnnotations (ann :: rest)))
              (Skipped (ann_id ann)) (mkConfig st (AtAnnotations rest))
| step_unnamed st ann rest :
    ¬ (selected ≠ [] ∧ ann_category_id ann ∉ selected) →
    zone_name_of (categories data) (ann_category_id ann) = None →
    loop_step (mkConfig st (AtAnnotations (ann :: rest)))
              (Unnamed (ann_id ann))
              (mkConfig (say (NoCategoryFound (ann_id ann)) st) (AtAnnotations rest))
| step_failed st ann rest zone_name :
    ¬ (selected ≠ [] ∧ ann_category_id ann ∉ selected) →
    zone_name_of (categories data) (ann_category_id ann) = Some zone_name →
    ann_polygon ann = None →
    loop_step (mkConfig st (AtAnnotations (ann :: rest)))
              (Failed (ann_id ann))
              (mkConfig (process_zone data ann zone_name st) (AtAnnotations rest))
| step_enter st ann rest zone_name seg bb :
    ¬ (selected ≠ [] ∧ ann_category_id ann ∉ selected) →
    zone_name_of (categories data) (ann_category_id ann) = Some zone_name →
    ann_polygon ann = Some (seg, bb) →
    loop_step (mkConfig st (AtAnnotations (ann :: rest)))
              (Entered (ann_id ann) zone_name)
              (mkConfig (set_zone_path zone_name seg
                           (say (ColorAssigned zone_name (zone_color zone_name)) st))
                        (AtPoints ann zone_name (zone_color zone_name) seg 0
                                  (grid_points bb step) rest))
| step_reject st ann zone_name color path valid_points pt points rest :
    contains_point path pt = false →
    loop_step (mkConfig st (AtPoints ann zone_name color path valid_points (pt :: points) rest))
              (Rejected pt)
              (mkConfig st (AtPoints ann zone_name color path valid_points points rest))
| step_cast st ann zone_name color path valid_points pt points rest :
    contains_point path pt = true →
    loop_step (mkConfig st (AtPoints ann zone_name color path valid_points (pt :: points) rest))
              (RayCast pt (point_hits data pt))
              (mkConfig (place_point data zone_name color st pt)
                        (AtPoints ann zone_name color path (S valid_points) points rest))
| step_leave st ann zone_name color path valid_points rest :
    loop_step (mkConfig st (AtPoints ann zone_name color path valid_points [] rest))
              (Left zone_name)
              (mkConfig (if (valid_points =? 0)%nat then say (NoValidPoints zone_name) st
                         else st)
                        (AtAnnotations rest)).

End Machine.

(** ** Executions, what is left to do, and the events a run is to emit *)

Section Executions.
Context {sq : SqrtOp} {tr : TrigOps} {mesh : SoleMesh}.
Context (data : coco) (selected : list Z).

(** Executions: the events of the steps from one configuration to
    another, in order. *)
Inductive loop_steps : config → list event → config → Prop :=
| steps_nil c : loop_steps c [] c
| steps_cons c e c' es c'' :
    loop_step data selected c e c' → loop_steps c' es c'' → loop_steps c (e :: es) c''.

(** An event that is emitted sooner or later. *)
Definition emits (c : config) (e : event) : Prop :=
  ∃ es c1 c2, loop_steps c es c1 ∧ loop_step data selected c1 e c2.

(** The steps an annotation takes: one when it is skipped, has no name
    or fails, otherwise one to enter, one per grid point and one to
    leave. *)
Definition ann_steps (ann : annotation) : nat :=
  if ann_active data selected ann then
    match ann_polygon ann with
    | Some (_, bb) => 2 + length (grid_points bb step)
    | None => 1
    end
  else 1.

Definition steps_left (k : control) : nat :=
  match k with
  | AtAnnotations rest => sum_list (ann_steps <$> rest)
  | AtPoints _ _ _ _ _ points rest => S (length points) + sum_list (ann_steps <$> rest)
  end.

(** The event of a grid point. *)
Definition point_event (path : list point2) (pt : point2) : event :=
  if contains_point path pt then RayCast pt (point_hits data pt) else Rejected pt.

(** The events of an annotation and of the whole run. *)
Definition ann_events (ann : annotation) : list event :=
  if bool_decide (selected ≠ []) && bool_decide (ann_category_id ann ∉ selected)
  then [Skipped (ann_id ann)]
  else
    match zone_name_of (categories data) (ann_category_id ann) with
    | None => [Unnamed (ann_id ann)]
    | Some zone_name =>
        match ann_polygon ann with
        | None => [Failed (ann_id ann)]
        | Some (seg, bb) =>
            Entered (ann_id ann) zone_name
              :: (point_event seg <$> grid_points bb step) ++ [Left zone_name]
        end
    end.

Definition run_events : list event := annotations data ≫= ann_events.

(** The rays counted in a list of events, and the hits among them. *)
Definition casts (es : list event) : nat :=
  sum_list_with (λ e, match e with RayCast _ _ => 1 | _ => 0 end) es.

Definition hits (es : list event) : nat :=
  sum_list_with (λ e, match e with RayCast _ true => 1 | _ => 0 end) es.

(** A configuration the loop can be in: its state is reachable, and
    inside the grid loops the path of the zone is the one recorded. *)
Definition config_ok (c : config) : Prop :=
  reachable data (cur c) ∧
  match ctl c with
  | AtPoints _ zone_name _ path _ _ _ => zone_paths (cur c) !! zone_name = Some path
  | AtAnnotations _ => True
  end.

End Executions.

(** * Theorems *)

Section MachineFacts.
Context {sq : SqrtOp} {tr : TrigOps} {mesh : SoleMesh}.
Context (data : coco) (selected : list Z).
Implicit Types (c : config) (st : run_state) (ann : annotation) (e : event)
  (es : list event) (rest : list annotation).

Local Notation "c '-[' e ']->' c'" := (loop_step data selected c e c')
  (at level 70, e at level 69, no associativity).
Local Notation "c '-[' es ']->*' c'" := (loop_steps data selected c es c')
  (at level 70, es at level 69, no associativity).

(** ** The function and the relation *)

Lemma not_skipped ann :
  ¬ (selected ≠ [] ∧ ann_category_id ann ∉ selected) ↔
  bool_decide (selected ≠ []) && bool_decide (ann_category_id ann ∉ selected) = false.
Proof.
  rewrite andb_false_iff, !bool_decide_eq_false. split; [|tauto].
  intros H. destruct (decide (selected ≠ [])); [right|left]; tauto.
Qed.

(** The work on a named annotation whose polygon can be read: the path
    is recorded and the grid is scanned. *)
Lemma process_zone_polygon ann zone_name st seg bb :
  ann_polygon ann = Some (seg, bb) →
  process_zone data ann zone_name st =
  let r := scan_zone data zone_name (zone_color zone_name) seg bb
             (set_zone_path zone_name seg
                (say (ColorAssigned zone_name (zone_color zone_name)) st)) in
  if (r.2 =? 0)%nat then say (NoValidPoints zone_name) r.1 else r.1.
Proof.
  unfold process_zone, ann_polygon. destruct (ann_segmentation ann) as [|flat ?]; [done|].
  destruct (reshape_pairs flat) as [seg'|]; [|done].
  destruct (seg_bbox seg') as [bb'|]; [|done]. intros [= -> ->].
  by destruct (scan_zone _ _ _ _ _ _).
Qed.

(** The head of the loop body by what the annotation holds. *)
Lemma enter_unfold st ann rest :
  enter data selected st ann rest =
  if bool_decide (selected ≠ []) && bool_decide (ann_category_id ann ∉ selected)
  then (Skipped (ann_id ann), mkConfig st (AtAnnotations rest))
  else
    match zone_name_of (categories data) (ann_category_id ann) with
    | None => (Unnamed (ann_id ann),
               mkConfig (say (NoCategoryFound (ann_id ann)) st) (AtAnnotations rest))
    | Some zone_name =>
        match ann_polygon ann with
        | None => (Failed (ann_id ann),
                   mkConfig (process_zone data ann zone_name st) (AtAnnotations rest))
        | Some (seg, bb) =>
            (Entered (ann_id ann) zone_name,
             mkConfig (set_zone_path zone_name seg
                         (say (ColorAssigned zone_name (zone_color zone_name)) st))
                      (AtPoints ann zone_name (zone_color zone_name) seg 0
                                (grid_points bb step) rest))
        end
    end.
Proof.
  unfold enter, process_zone, ann_polygon. destruct (_ && _); [done|].
  destruct (zone_name_of _ _) as [z|]; [|done].
  destruct (ann_segmentation ann) as [|flat ?]; [done|].
  destruct (reshape_pairs flat) as [seg|]; [|done]. by destruct (seg_bbox seg).
Qed.

Lemma enter_step st ann rest :
  mkConfig st (AtAnnotations (ann :: rest))
    -[ (enter data selected st ann rest).1 ]-> (enter data selected st ann rest).2.
Proof.
  rewrite enter_unfold.
  destruct (_ && _) eqn:Hsel.
  { apply andb_true_iff in Hsel as [Hs%bool_decide_eq_true Hc%bool_decide_eq_true].
    by apply step_skip. }
  apply not_skipped in Hsel.
  destruct (zone_name_of _ _) as [z|] eqn:Hz; [|by apply step_unnamed].
  destruct (ann_polygon ann) as [[seg bb]|] eqn:Hp;
    [by apply step_enter | by apply step_failed].
Qed.

Lemma next_step c e c' : next data selected c = Some (e, c') → c -[ e ]-> c'.
Proof.
  destruct c as [st [[|ann rest]|ann z color path v [|pt pts] rest]]; cbn [next ctl cur].
  - done.
  - intros [= E]. pose proof (enter_step st ann rest) as H. by rewrite E in H.
  - intros [= <- <-]. apply step_leave.
  - destruct (contains_point path pt) eqn:Hc; intros [= <- <-];
      [by apply step_cast | by apply step_reject].
Qed.

Lemma step_next c e c' : c -[ e ]-> c' → next data selected c = Some (e, c').
Proof.
  destruct 1 as [st ann rest Hs Hc|st ann rest Hsel Hz|st ann rest z Hsel Hz Hp
                |st ann rest z seg bb Hsel Hz Hp|????????? Hc|????????? Hc|];
    cbn [next ctl cur]; rewrite ?enter_unfold, ?Hc; try done.
  - by rewrite !bool_decide_eq_true_2.
  - apply not_skipped in Hsel. by rewrite Hsel, Hz.
  - apply not_skipped in Hsel. by rewrite Hsel, Hz, Hp.
  - apply not_skipped in Hsel. by rewrite Hsel, Hz, Hp.
Qed.

(** The relation has exactly the steps the function computes, so a
    configuration has at most one step. *)
Lemma loop_step_det c e1 c1 e2 c2 : c -[ e1 ]-> c1 → c -[ e2 ]-> c2 → e1 = e2 ∧ c1 = c2.
Proof. intros H1%step_next H2%step_next. by simplify_eq. Qed.

(** ** Executions *)

Lemma loop_steps_once c e c' : c -[ e ]-> c' → c -[ [e] ]->* c'.
Proof. intros H. eapply steps_cons; [done | apply steps_nil]. Qed.

Lemma loop_steps_app c es1 c1 es2 c2 :
  c -[ es1 ]->* c1 → c1 -[ es2 ]->* c2 → c -[ es1 ++ es2 ]->* c2.
Proof. induction 1; [done|]. intros H2. eapply steps_cons; eauto. Qed.

Lemma loop_steps_split c es1 e es2 c' :
  c -[ es1 ++ e :: es2 ]->* c' → ∃ c1 c2, c -[ es1 ]->* c1 ∧ c1 -[ e ]-> c2 ∧ c2 -[ es2 ]->* c'.
Proof.
  revert c. induction es1 as [|e1 es1 IH]; intros c; inversion 1 as [|? ? cm ? ? Hs Hr];
    simplify_eq.
  - eexists _, _. split; [apply steps_nil | done].
  - destruct (IH _ Hr) as (c1 & c2 & Ha & Hb & Hc).
    exists c1, c2. split; [by eapply steps_cons | done].
Qed.

(** Executions of the same length from the same configuration are the
    same execution. *)
Lemma loop_steps_det c es1 c1 es2 c2 :
  c -[ es1 ]->* c1 → c -[ es2 ]->* c2 → length es1 = length es2 → es1 = es2 ∧ c1 = c2.
Proof.
  intros H1. revert es2 c2. induction H1 as [c|c e c' es c'' Hs _ IH]; intros es2 c2 H2 Hl.
  - destruct H2; [done | discriminate].
  - destruct H2 as [|c e2 c2' es2 c2'' Hs2 H2]; [discriminate|].
    destruct (loop_step_det _ _ _ _ _ Hs Hs2) as [-> ->].
    destruct (IH _ _ H2) as [-> ->]; [by injection Hl | done].
Qed.

(** ** What is left to do *)

Lemma ann_steps_skipped ann :
  bool_decide (selected ≠ []) && bool_decide (ann_category_id ann ∉ selected) = true →
  ann_steps data selected ann = 1.
Proof. intros H. unfold ann_steps, ann_active. by rewrite H. Qed.

Lemma ann_steps_named ann zone_name :
  bool_decide (selected ≠ []) && bool_decide (ann_category_id ann ∉ selected) = false →
  zone_name_of (categories data) (ann_category_id ann) = Some zone_name →
  ann_steps data selected ann =
  match ann_polygon ann with Some (_, bb) => 2 + length (grid_points bb step) | None => 1 end.
Proof.
  intros H Hz. unfold ann_steps, ann_active. rewrite H, Hz. cbn [negb andb].
  by rewrite bool_decide_eq_true_2.
Qed.

Lemma ann_steps_unnamed ann :
  zone_name_of (categories data) (ann_category_id ann) = None →
  ann_steps data selected ann = 1.
Proof.
  intros Hz. unfold ann_steps, ann_active. rewrite Hz.
  rewrite (bool_decide_eq_false_2 (is_Some None)) by (by intros [??]).
  by rewrite andb_false_r.
Qed.

(** Every step takes one off what is left. *)
Lemma step_decreases c e c' :
  c -[ e ]-> c' → steps_left data selected (ctl c) = S (steps_left data selected (ctl c')).
Proof.
  destruct 1 as [st ann rest Hs Hc|st ann rest Hsel Hz|st ann rest z Hsel Hz Hp
                |st ann rest z seg bb Hsel Hz Hp| | |];
    cbn [steps_left ctl fmap list_fmap sum_list length]; try lia.
  - rewrite ann_steps_skipped; [done|]. by rewrite !bool_decide_eq_true_2.
  - by rewrite ann_steps_unnamed.
  - apply not_skipped in Hsel. by rewrite (ann_steps_named _ z), Hp.
  - apply not_skipped in Hsel. rewrite (ann_steps_named _ z), Hp by done. simpl. lia.
Qed.

Lemma loop_steps_length c es c' :
  c -[ es ]->* c' →
  steps_left data selected (ctl c) = length es + steps_left data selected (ctl c').
Proof.
  induction 1 as [|c e c' es c'' Hs _ IH]; [done|].
  rewrite (step_decreases _ _ _ Hs), IH. simpl. lia.
Qed.

Lemma ann_steps_pos ann : 0 < ann_steps data selected ann.
Proof.
  unfold ann_steps. destruct (ann_active _ _ _); [|lia].
  destruct (ann_polygon ann) as [[??]|]; lia.
Qed.

(** The machine stops exactly when nothing is left. *)
Lemma next_None c : next data selected c = None ↔ steps_left data selected (ctl c) = 0.
Proof.
  destruct c as [st [[|ann rest]|ann z color path v [|pt pts] rest]];
    cbn [next ctl cur steps_left]; try done.
  - pose proof (ann_steps_pos ann). rewrite fmap_cons. simpl. split; [done | lia].
  - by destruct (contains_point path pt).
Qed.

(** ** The machine run with fuel *)

Lemma run_for_steps fuel c :
  c -[ (run_for data selected fuel c).1 ]->* (run_for data selected fuel c).2.
Proof.
  revert c. induction fuel as [|fuel IH]; intros c; cbn [run_for]; [apply steps_nil|].
  destruct (next data selected c) as [[e c']|] eqn:E; [|apply steps_nil].
  specialize (IH c'). destruct (run_for data selected fuel c') as [es c''].
  eapply steps_cons; [by apply next_step | done].
Qed.

Lemma run_for_stops fuel c :
  (steps_left data selected (ctl c) ≤ fuel)%nat →
  next data selected (run_for data selected fuel c).2 = None.
Proof.
  revert c. induction fuel as [|fuel IH]; intros c Hle; cbn [run_for].
  - apply next_None. simpl. lia.
  - destruct (next data selected c) as [[e c']|] eqn:E; [|done].
    specialize (IH c'). destruct (run_for data selected fuel c') as [es c'']. apply IH.
    apply next_step, step_decreases in E. lia.
Qed.

(** ** The loops, run to their end *)

(** The grid loops from any point on. *)
Lemma points_run st ann z color path v pts rest :
  mkConfig st (AtPoints ann z color path v pts rest)
    -[ (point_event data path <$> pts) ++ [Left z] ]->*
  mkConfig (let r := foldl (scan_step data z color path) (st, v) pts in
            if (r.2 =? 0)%nat then say (NoValidPoints z) r.1 else r.1)
           (AtAnnotations rest).
Proof.
  revert st v. induction pts as [|pt pts IH]; intros st v.
  - apply loop_steps_once, step_leave.
  - rewrite fmap_cons. cbn [foldl app]. unfold point_event at 1.
    destruct (contains_point path pt) eqn:Hc.
    + eapply steps_cons; [by apply step_cast|].
      replace (scan_step data z color path (st, v) pt)
        with (place_point data z color st pt, S v) by (unfold scan_step; by rewrite Hc).
      apply IH.
    + eapply steps_cons; [by apply step_reject|].
      replace (scan_step data z color path (st, v) pt) with (st, v)
        by (unfold scan_step; by rewrite Hc).
      apply IH.
Qed.

(** One pass through the body of the loop over the annotations. *)
Lemma annotation_run st ann rest :
  mkConfig st (AtAnnotations (ann :: rest)) -[ ann_events data selected ann ]->*
  mkConfig (process_annotation data selected st ann) (AtAnnotations rest).
Proof.
  pose proof (enter_step st ann rest) as H. rewrite enter_unfold in H.
  unfold ann_events, process_annotation.
  destruct (_ && _); [by apply loop_steps_once|].
  destruct (zone_name_of _ _) as [z|]; [|by apply loop_steps_once].
  destruct (ann_polygon ann) as [[seg bb]|] eqn:Hp; [|by apply loop_steps_once].
  rewrite (process_zone_polygon _ _ _ seg bb Hp).
  eapply steps_cons; [exact H|]. apply points_run.
Qed.

Lemma annotations_run st anns rest :
  mkConfig st (AtAnnotations (anns ++ rest)) -[ anns ≫= ann_events data selected ]->*
  mkConfig (foldl (process_annotation data selected) st anns) (AtAnnotations rest).
Proof.
  revert st. induction anns as [|ann anns IH]; intros st; simpl; [apply steps_nil|].
  eapply loop_steps_app; [apply annotation_run | apply IH].
Qed.

(** The whole run. *)
Lemma start_run : start data -[ run_events data selected ]->* stop data selected.
Proof.
  unfold start, stop, run_events, place_all.
  rewrite <- (app_nil_r (annotations data)) at 1. apply annotations_run.
Qed.

Lemma run_events_length :
  length (run_events data selected) = steps_left data selected (ctl (start data)).
Proof. rewrite (loop_steps_length _ _ _ start_run). simpl. lia. Qed.

(** ** What every step keeps *)

Lemma ann_points_polygon ann :
  ann_points ann =
  match ann_polygon ann with
  | Some (seg, bb) => valid_grid_points seg bb step
  | None => []
  end.
Proof.
  unfold ann_points, ann_polygon. destruct (ann_segmentation ann) as [|flat ?]; [done|].
  destruct (reshape_pairs flat) as [seg|]; [|done]. by destruct (seg_bbox seg).
Qed.

Lemma step_config_ok c e c' : config_ok data c → c -[ e ]-> c' → config_ok data c'.
Proof.
  intros [Hr Hp].
  destruct 1 as [| | | | |st ann z color path v pt pts rest Hc|st ann z color path v rest];
    cbn [cur ctl] in *; split; cbn [cur ctl]; try done.
  - by apply reach_say.
  - by apply process_zone_reachable.
  - by apply reach_path, reach_say.
  - apply lookup_insert_eq.
  - by eapply place_point_reachable.
  - by rewrite place_point_zone_paths.
  - destruct (v =? 0)%nat; [by apply reach_say | done].
Qed.

(** A step that casts a ray counts an attempt, and a bump when the ray
    hits; no other step touches the counters. *)
Lemma step_counts c e c' :
  c -[ e ]-> c' →
  ray_casting_attempts (cur c') = ray_casting_attempts (cur c) + casts [e] ∧
  spike_count (cur c') = spike_count (cur c) + hits [e].
Proof.
  destruct 1 as [| |st ann rest z Hsel Hz Hp| | |st ann z color path v pt pts rest Hc|];
    cbn [cur]; unfold casts, hits; simpl; try lia.
  - destruct (process_zone_counts data ann z st) as [-> ->].
    rewrite ann_points_polygon, Hp. simpl. lia.
  - destruct (place_point_counts data z color st pt) as [-> ->].
    destruct (point_hits data pt); lia.
  - destruct (_ =? _)%nat; simpl; lia.
Qed.

Lemma loop_steps_ok c es c' :
  config_ok data c → c -[ es ]->* c' →
  config_ok data c' ∧
  ray_casting_attempts (cur c') = ray_casting_attempts (cur c) + casts es ∧
  spike_count (cur c') = spike_count (cur c) + hits es.
Proof.
  intros Hok. induction 1 as [c|c e c' es c'' Hs _ IH].
  { split; [done|]. unfold casts, hits. simpl. lia. }
  destruct (IH (step_config_ok _ _ _ Hok Hs)) as (Hok' & -> & ->).
  destruct (step_counts _ _ _ Hs) as [-> ->]. unfold casts, hits in *. simpl. split; [done|lia].
Qed.

Lemma start_ok : config_ok data (start data).
Proof. split; [apply reach_init | done]. Qed.

(** Nothing is left after the run: from a configuration with [n] steps
    left no execution is longer than [n]. *)
Lemma steps_left_sn (n : nat) c :
  steps_left data selected (ctl c) = n → sn (λ c1 c2, ∃ e, c1 -[ e ]-> c2) c.
Proof.
  revert c. induction n as [|n IH]; intros c Hn; constructor; intros c' [e Hs];
    apply step_decreases in Hs; simpl in *; [lia|]. apply IH. lia.
Qed.

(** * The properties *)

(** The relation has exactly the steps the function computes: the
    machine is deterministic and [next] decides whether it can step. *)
Theorem loop_step_next c e c' : c -[ e ]-> c' ↔ next data selected c = Some (e, c').
Proof. split; [apply step_next | apply next_step]. Qed.

(** C12. The loop terminates.  From every configuration no infinite
    execution exists, no execution has more steps than [steps_left]
    counts in advance (one step per skipped, unnamed or failing
    annotation, and two more than its grid points for every other), and
    the machine run with that much fuel stops after exactly that many
    steps in a configuration without a step. *)
Theorem machine_terminates c :
  sn (λ c1 c2, ∃ e, c1 -[ e ]-> c2) c ∧
  (∀ es c', c -[ es ]->* c' → (length es ≤ steps_left data selected (ctl c))%nat) ∧
  (∀ fuel, (steps_left data selected (ctl c) ≤ fuel)%nat →
     next data selected (run_for data selected fuel c).2 = None ∧
     length (run_for data selected fuel c).1 = steps_left data selected (ctl c)).
Proof.
  split; [by eapply steps_left_sn|]. split.
  - intros es c' H%loop_steps_length. lia.
  - intros fuel Hf. pose proof (run_for_stops fuel c Hf) as Hn. split; [done|].
    apply next_None in Hn. pose proof (loop_steps_length _ _ _ (run_for_steps fuel c)). lia.
Qed.

(** C13. The machine computes [place_all].  The run from the start emits
    the events of the annotations in their order, inside an annotation
    those of its grid points in grid order, and stops in the state of
    [place_all]; every execution from the start that stops is this one;
    and the machine run with enough fuel returns it. *)
Theorem machine_run :
  cur (stop data selected) = place_all data selected ∧
  start data -[ run_events data selected ]->* stop data selected ∧
  (∀ es c, start data -[ es ]->* c → next data selected c = None →
     es = run_events data selected ∧ c = stop data selected) ∧
  (∀ fuel, (length (run_events data selected) ≤ fuel)%nat →
     run_for data selected fuel (start data) =
     (run_events data selected, stop data selected)).
Proof.
  split; [done|]. pose proof start_run as Hrun.
  assert (Huniq : ∀ es c, start data -[ es ]->* c → next data selected c = None →
                          es = run_events data selected ∧ c = stop data selected).
  { intros es c H Hn. apply (loop_steps_det _ _ _ _ _ H Hrun).
    apply next_None in Hn. apply loop_steps_length in H, Hrun. simpl in *. lia. }
  split; [done|]. split; [done|]. intros fuel Hf. rewrite run_events_length in Hf.
  destruct (Huniq _ _ (run_for_steps fuel (start data)) (run_for_stops fuel _ Hf)) as [E1 E2].
  destruct (run_for data selected fuel (start data)). simpl in *. by subst.
Qed.

(** C15. After every step of a run the state is consistent and its
    counters are those of the events so far: the attempts are the rays
    cast, the successes and the bumps are the rays that hit. *)
Theorem machine_invariant es c :
  start data -[ es ]->* c →
  run_inv (cur c) ∧
  ray_casting_attempts (cur c) = casts es ∧
  ray_casting_successes (cur c) = hits es ∧
  spike_count (cur c) = hits es.
Proof.
  intros (Hok & Ha & Hb)%(loop_steps_ok _ _ _ start_ok). simpl in Ha, Hb.
  pose proof (reachable_inv data _ (proj1 Hok)) as Hinv. split; [done|].
  destruct Hinv as [_ Hc _ _ _ _]. split; [done|]. by rewrite <- Hc.
Qed.

(** C14. No grid point is forgotten.  For every annotation of the input
    that is selected, has a category and a polygon that can be read, the
    run reaches, for each grid point inside the polygon, a step that
    casts the ray of that point; the step counts an attempt, and a bump
    when the ray hits. *)
Theorem every_point_is_cast ann seg bb pt :
  ann ∈ annotations data → ann_active data selected ann = true →
  ann_polygon ann = Some (seg, bb) →
  pt ∈ grid_points bb step → contains_point seg pt = true →
  ∃ es c1 c2,
    start data -[ es ]->* c1 ∧ c1 -[ RayCast pt (point_hits data pt) ]-> c2 ∧
    ray_casting_attempts (cur c2) = S (casts es) ∧
    spike_count (cur c2) = hits es + (if point_hits data pt then 1 else 0).
Proof.
  intros Hann Hact Hp Hpt Hc.
  assert (He : RayCast pt (point_hits data pt) ∈ run_events data selected).
  { unfold run_events. apply list_elem_of_bind. exists ann. split; [|done].
    unfold ann_events. unfold ann_active in Hact.
    apply andb_true_iff in Hact as [Hs%negb_true_iff [z Hz]%bool_decide_eq_true].
    rewrite Hs, Hz, Hp. right. apply elem_of_app. left.
    apply list_elem_of_fmap. exists pt. split; [|done]. unfold point_event. by rewrite Hc. }
  apply list_elem_of_split in He as (es1 & es2 & E).
  pose proof start_run as Hrun. rewrite E in Hrun.
  apply loop_steps_split in Hrun as (c1 & c2 & H1 & Hs & _).
  exists es1, c1, c2. split; [done|]. split; [done|].
  destruct (loop_steps_ok _ _ _ start_ok H1) as (_ & Ha & Hb).
  destruct (step_counts _ _ _ Hs) as [-> ->]. rewrite Ha, Hb. unfold casts, hits. simpl.
  destruct (point_hits data pt); lia.
Qed.

End MachineFacts.

(** * Concrete runs *)

(** The first scenario as a run of the machine: it takes 103 steps, one
    to enter the zone "heart", one for each of its 100 grid points, one
    to leave, and one to skip the other zone. *)
Example scenario_machine_steps :
  steps_left scenario_data [1%Z] (ctl (@start slab100_mesh scenario_data)) = 103.
Proof. by vm_compute. Qed.

(** The events of the first scenario counted: 90 rays, 80 hits. *)
Example scenario_events :
  casts (@run_events slab100_mesh scenario_data [1%Z]) = 90 ∧
  hits (@run_events slab100_mesh scenario_data [1%Z]) = 80.
Proof. by vm_compute. Qed.

Lemma machine_invariant_witness :
  let c := @stop sqrt_fixed_op bhaskara_trig slab100_mesh scenario_data [1%Z] in
  let es := @run_events slab100_mesh scenario_data [1%Z] in
  run_inv (cur c) ∧ ray_casting_attempts (cur c) = casts es ∧
  ray_casting_successes (cur c) = hits es ∧ spike_count (cur c) = hits es.
Proof.
  exact (@machine_invariant sqrt_fixed_op bhaskara_trig slab100_mesh scenario_data [1%Z]
           (@run_events slab100_mesh scenario_data [1%Z])
           (@stop sqrt_fixed_op bhaskara_trig slab100_mesh scenario_data [1%Z])
           (@start_run sqrt_fixed_op bhaskara_trig slab100_mesh scenario_data [1%Z])).
Defined.

(** A grid point of the zone "heart" and its annotation. *)
Definition heart_annotation : annotation :=
  mkAnnotation 10 1 [[0; 0; 50; 0; 50; 50; 0; 50]%Q].

Definition heart_point : point2 :=
  default (0, 0)%Q (grid_points (mkBbox2 0 0 50 50) step !! 12).

Lemma heart_point_grid : heart_point ∈ grid_points (mkBbox2 0 0 50 50) step.
Proof. apply (list_elem_of_lookup_2 _ 12). by vm_compute. Qed.

Lemma heart_point_inside :
  contains_point [(0, 0); (50, 0); (50, 50); (0, 50)]%Q heart_point = true.
Proof. by vm_compute. Qed.

Lemma every_point_is_cast_witness :
  ∃ es c1 c2,
    @loop_steps sqrt_fixed_op bhaskara_trig slab100_mesh scenario_data [1%Z]
      (@start slab100_mesh scenario_data) es c1 ∧
    @loop_step sqrt_fixed_op bhaskara_trig slab100_mesh scenario_data [1%Z] c1
      (RayCast heart_point (@point_hits slab100_mesh scenario_data heart_point)) c2 ∧
    ray_casting_attempts (cur c2) = S (casts es) ∧
    spike_count (cur c2) =
      hits es + (if @point_hits slab100_mesh scenario_data heart_point then 1 else 0).
Proof.
  refine (@every_point_is_cast sqrt_fixed_op bhaskara_trig slab100_mesh scenario_data [1%Z]
            heart_annotation [(0, 0); (50, 0); (50, 50); (0, 50)]%Q (mkBbox2 0 0 50 50)
            heart_point _ _ _ heart_point_grid heart_point_inside).
  - by left.
  - by vm_compute.
  - reflexivity.
Defined.
