(* ===== verification/Soles.v ===== *)
(** * The run on two soles

    The placement loop of [generate_slippers.py] (lines 156-211) sees the
    sole through two questions only: its bounding box (line 71) and
    whether the ray of a grid point hits it (line 188).  Two soles with
    the same bounding box that are hit at the same positions therefore
    give runs with the same counters.  The theorem applies to every box
    in its two forms: the box of [Surface], which answers from the
    bounding box, and the triangulated box of [RayMesh], which answers
    triangle by triangle; the slab of the scenarios is one. *)

From stdpp Require Import gmap strings list.
From Stdlib Require Import QArith.
From S2P Require Import Prelude Numerics Mapper Sampler Bump Surface RayMesh.
From S2P Require Import Zones Dicts Placement.
Local Close Scope Q_scope.
Local Open Scope string_scope.
Local Open Scope list_scope.

(** Two soles look the same to the loop when they have the same bounding
    box and are hit by the same vertical rays. *)
Definition sole_equiv (m1 m2 : SoleMesh) : Prop :=
  @mesh_bounds m1 = @mesh_bounds m2 ∧
  ∀ x3d y3d, top_hit (@cast_ray m1 x3d y3d) = None ↔ top_hit (@cast_ray m2 x3d y3d) = None.

(** The counters of a run that the report prints. *)
Definition run_counts (st : run_state) : nat * nat * nat :=
  (ray_casting_attempts st, ray_casting_successes st, spike_count st).

#[export] Instance sole_equiv_equivalence : Equivalence sole_equiv.
Proof.
  split.
  - by intros m.
  - intros m1 m2 [Hb Hm]. split; [done|]. intros x y. by rewrite Hm.
  - intros m1 m2 m3 [Hb1 Hm1] [Hb2 Hm2]. split; [congruence|].
    intros x y. by rewrite Hm1, Hm2.
Qed.

Section TwoSoles.
Context {sq : SqrtOp} {tr : TrigOps} (m1 m2 : SoleMesh) (data : coco).
Context (Hequiv : sole_equiv m1 m2).

Lemma run_frame_same : @run_frame m1 data = @run_frame m2 data.
Proof. unfold run_frame. by rewrite (proj1 Hequiv). Qed.

Lemma point_hits_same (pt : point2) : @point_hits m1 data pt = @point_hits m2 data pt.
Proof.
  unfold point_hits. rewrite run_frame_same.
  destruct (map_2d_to_3d _ _ _) as [x3d y3d]. pose proof (proj2 Hequiv x3d y3d) as [H1 H2].
  destruct (top_hit (@cast_ray m1 x3d y3d)), (top_hit (@cast_ray m2 x3d y3d)); try done.
  - by specialize (H2 eq_refl).
  - by specialize (H1 eq_refl).
Qed.

Lemma ann_bumps_same (selected : list Z) (ann : annotation) :
  @ann_bumps m1 data selected ann = @ann_bumps m2 data selected ann.
Proof.
  unfold ann_bumps. destruct (ann_active data selected ann); [|done].
  f_equal. apply List.filter_ext. intros pt. apply point_hits_same.
Qed.

Lemma ann_zone_bumps_same (zone : string) (selected : list Z) (ann : annotation) :
  @ann_zone_bumps m1 data zone selected ann = @ann_zone_bumps m2 data zone selected ann.
Proof. unfold ann_zone_bumps. case_decide; [apply ann_bumps_same | done]. Qed.

(** C29. Two soles with the same bounding box that are hit at the same
    positions give the same run counters: rays cast, hits, bumps, and
    bumps of every zone. *)
Theorem place_all_same_counts (selected : list Z) :
  let st1 := @place_all sq tr m1 data selected in
  let st2 := @place_all sq tr m2 data selected in
  run_counts st1 = run_counts st2 ∧ ∀ zone, zone_count zone st1 = zone_count zone st2.
Proof.
  intros st1 st2.
  destruct (@place_all_tally sq tr m1 data selected) as [Hb1 Ha1].
  destruct (@place_all_tally sq tr m2 data selected) as [Hb2 Ha2].
  destruct (reachable_inv data st1 (place_all_reachable data selected)) as [_ Hc1 _ _ _ _].
  destruct (reachable_inv data st2 (place_all_reachable data selected)) as [_ Hc2 _ _ _ _].
  assert (Hb : spike_count st1 = spike_count st2).
  { subst st1 st2. rewrite Hb1, Hb2. f_equal. apply list_fmap_ext.
    intros _ ann _. apply ann_bumps_same. }
  split.
  - unfold run_counts. rewrite <- Hc1, <- Hc2, Hb. subst st1 st2. by rewrite Ha1, Ha2.
  - intros zone. subst st1 st2. rewrite !place_all_zone_tally. f_equal.
    apply list_fmap_ext. intros _ ann _. apply ann_zone_bumps_same.
Qed.

End TwoSoles.

(** * The slab of the scenarios, as a box and as triangles *)

(** A box as triangles and the box of [Surface] look the same to the
    loop. *)
Lemma box_sole_equiv (b : bounds) :
  proper_box b → sole_equiv (tri_mesh (box_trimesh b)) (slab_mesh b).
Proof. intros Hb. split; [exact (box_bounds_of b Hb) | exact (box_miss_iff b Hb)]. Qed.

Lemma slab100_sole_equiv : sole_equiv (tri_mesh slab100_box) slab100_mesh.
Proof. exact (box_sole_equiv slab100 slab100_proper). Qed.

Lemma place_all_same_counts_witness :
  let st1 := @place_all sqrt_fixed_op bhaskara_trig (tri_mesh slab100_box) scenario_data [1%Z] in
  let st2 := @place_all sqrt_fixed_op bhaskara_trig slab100_mesh scenario_data [1%Z] in
  run_counts st1 = run_counts st2 ∧ ∀ zone, zone_count zone st1 = zone_count zone st2.
Proof.
  exact (@place_all_same_counts sqrt_fixed_op bhaskara_trig (tri_mesh slab100_box)
           slab100_mesh scenario_data slab100_sole_equiv [1%Z]).
Defined.
