(* ===== verification/Metrics.v ===== *)
(** * Metrics

    [generate_slippers.py] lines 213-247: what the run reports once the
    placement loop is over.  Every metric is a function of the final
    [run_state]; the frame of the mapper is needed to carry the bump
    locations back to the picture.

    The guards of the source are kept: a rate over no attempts is 0, the
    mean of no samples is 0, the spacing of fewer than two bumps is the
    sampling step. *)

From stdpp Require Import gmap strings list fin_maps.
From Stdlib Require Import QArith Lqa.
From S2P Require Import Prelude Numerics Mapper Sampler Bump Surface Zones Dicts Placement.
Local Close Scope Q_scope.
Local Open Scope string_scope.
Local Open Scope list_scope.

(** ** Success rate, line 214 *)

Definition success_rate (st : run_state) : Q :=
  if (0 <? ray_casting_attempts st)%nat
  then (Qnat (ray_casting_successes st) / Qnat (ray_casting_attempts st) * 100)%Q
  else 0%Q.

(** ** Positional error, lines 215-216 *)

Definition mean_positional_error (st : run_state) : Q :=
  match positional_errors st with
  | [] => 0%Q
  | _ => np_mean (positional_errors st)
  end.

Definition std_positional_error {sq : SqrtOp} (st : run_state) : Q :=
  match positional_errors st with
  | [] => 0%Q
  | _ => np_std (positional_errors st)
  end.

(** ** Bump spacing, lines 219-231 *)

(** Line 226: [if 0 < distance < min_distance: min_distance = distance],
    with [None] for [float('inf')]. *)
Definition closer (distance : Q) (min_distance : option Q) : option Q :=
  if Qltb 0 distance then
    match min_distance with
    | None => Some distance
    | Some m => if Qltb distance m then Some distance else min_distance
    end
  else min_distance.

(** Lines 222-227: the inner loop for the bump of index [i] at [p]. *)
Definition min_distance {sq : SqrtOp} (locs : list point3) (i : nat) (p : point3) : option Q :=
  foldl (λ best jq, if (i =? jq.1)%nat then best
                    else closer (norm3 (psub3 p jq.2)) best)
        None (imap pair locs).

(** Lines 219-229: one entry per bump that has a neighbour at a positive
    distance, and nothing at all for fewer than two bumps. *)
Definition bump_spacing {sq : SqrtOp} (locs : list point3) : list Q :=
  if (1 <? length locs)%nat
  then omap (λ ip, min_distance locs ip.1 ip.2) (imap pair locs)
  else [].

Definition avg_spacing {sq : SqrtOp} (st : run_state) : Q :=
  match bump_spacing (bump_locations st) with
  | [] => step
  | l => np_mean l
  end.

Definition std_spacing {sq : SqrtOp} (st : run_state) : Q :=
  match bump_spacing (bump_locations st) with
  | [] => 0%Q
  | l => np_std l
  end.

(** ** Mapping accuracy, lines 234-244 *)

(** Lines 240-243: whether some zone's path contains the point. *)
Definition in_any_zone (paths : gmap string (list point2)) (p : point2) : bool :=
  existsb (λ zp, contains_point zp.2 p) (map_to_list paths).

(** Lines 237-243. *)
Definition correct_placements (fr : frame) (st : run_state) : nat :=
  length (List.filter (λ loc, in_any_zone (zone_paths st) (unmap_3d_to_2d fr loc))
                      (bump_locations st)).

Definition placement_accuracy (fr : frame) (st : run_state) : Q :=
  if (0 <? spike_count st)%nat
  then (Qnat (correct_placements fr st) / Qnat (spike_count st) * 100)%Q
  else 0%Q.

(** ** Per-zone counts, line 247 *)

Definition report_zone_bumps (st : run_state) : gmap string nat :=
  filter (λ zc, (0 < zc.2)%nat) (zone_bumps st).

(** ** The report, lines 262-268 *)

Record report : Type := mkReport {
  rep_success_rate : Q;
  rep_mean_positional_error : Q;
  rep_std_positional_error : Q;
  rep_placement_accuracy : Q;
  rep_zone_bumps : gmap string nat;
  rep_total_bumps : nat;
  rep_avg_spacing : Q;
  rep_std_spacing : Q
}.

Definition make_report {sq : SqrtOp} (fr : frame) (st : run_state) : report :=
  mkReport (success_rate st) (mean_positional_error st) (std_positional_error st)
           (placement_accuracy fr st) (report_zone_bumps st) (spike_count st)
           (avg_spacing st) (std_spacing st).

(** * Theorems *)

Section RateFacts.
Context (st : run_state) (Hinv : run_inv st).

(** The success rate is a percentage: it lies between 0 and 100. *)
Theorem success_rate_range : (0 <= success_rate st <= 100)%Q.
Proof.
  unfold success_rate. destruct (Nat.ltb_spec 0 (ray_casting_attempts st)) as [Hn|Hn].
  - apply percentage_range; [apply (inv_successes _ Hinv) | done].
  - split; [apply Qle_refl | done].
Qed.

(** When rays were cast, the success rate is 100 exactly when every
    ray hit the sole. *)
Theorem success_rate_full :
  (0 < ray_casting_attempts st)%nat →
  (success_rate st == 100)%Q ↔ ray_casting_successes st = ray_casting_attempts st.
Proof.
  intros Hn. unfold success_rate. rewrite (proj2 (Nat.ltb_lt _ _) Hn).
  by apply percentage_full.
Qed.

End RateFacts.

(** ** Positional error *)

Section ErrorFacts.
Context {sq : SqrtOp} (st : run_state).

Lemma positional_error_zero :
  Forall (λ e, (e == 0)%Q) (positional_errors st) →
  (mean_positional_error st == 0)%Q ∧ (std_positional_error st == 0)%Q.
Proof.
  unfold mean_positional_error, std_positional_error, np_std.
  intros H. destruct (positional_errors st) eqn:E; [done|]. split.
  - apply np_mean_zeros. by apply Forall_forall, Forall_forall.
  - rewrite (qsqrt_compat _ 0%Q); [apply qsqrt_0|].
    apply np_var_zeros. by apply Forall_forall, Forall_forall.
Qed.

(** The reported error is never negative: the mean of samples that
    are not negative is not negative, and the deviation is a square
    root. *)
Theorem positional_error_nonneg :
  Forall (λ e, (0 <= e)%Q) (positional_errors st) →
  (0 <= mean_positional_error st)%Q ∧ (0 <= std_positional_error st)%Q.
Proof.
  unfold mean_positional_error, std_positional_error. intros H.
  destruct (positional_errors st) eqn:E; [split; apply Qle_refl|]. split.
  - apply np_mean_nonneg. by apply Forall_forall, Forall_forall.
  - apply np_std_nonneg.
Qed.

End ErrorFacts.

(** ** Spacing *)

Section SpacingFacts.
Context {sq : SqrtOp}.
Implicit Types (best : option Q) (ds : list Q).

(** The running minimum over the positive distances. *)
Lemma foldl_closer_None ds best :
  foldl (λ b d, closer d b) best ds = None ↔
  best = None ∧ Forall (λ d, ¬ (0 < d)%Q) ds.
Proof.
  revert best. induction ds as [|d ds IH]; intros best; simpl.
  - split; [by intros -> | by intros [-> _]].
  - rewrite IH, Forall_cons. unfold closer.
    destruct (Qltb_spec 0 d) as [Hd|Hd].
    + destruct best as [m|]; [destruct (Qltb d m)|]; naive_solver.
    + split; [intros [-> ?]; repeat split; [|done]; lra | naive_solver].
Qed.

Lemma foldl_closer_Some ds best r :
  foldl (λ b d, closer d b) best ds = Some r →
  (best = Some r ∨ (r ∈ ds ∧ (0 < r)%Q)) ∧
  (∀ m, best = Some m → (r <= m)%Q) ∧
  Forall (λ d, (0 < d)%Q → (r <= d)%Q) ds.
Proof.
  revert best. induction ds as [|d ds IH]; intros best; simpl.
  - intros ->. repeat split; [by left | by intros m [= ->]; apply Qle_refl | done].
  - intros (Hsrc & Hle & Hall)%IH. unfold closer in *.
    destruct (Qltb_spec 0 d) as [Hd|Hd].
    + destruct best as [m|].
      * destruct (Qltb_spec d m) as [Hdm|Hdm].
        -- pose proof (Hle d eq_refl). repeat split.
           ++ destruct Hsrc as [[= ->]|[? ?]]; right; split; try done; [by left | by right].
           ++ intros m' [= <-]. lra.
           ++ constructor; [done | done].
        -- pose proof (Hle m eq_refl). repeat split.
           ++ destruct Hsrc as [?|[? ?]]; [by left | right; split; [by right | done]].
           ++ intros m' [= <-]. done.
           ++ constructor; [intros _; lra | done].
      * pose proof (Hle d eq_refl). repeat split.
        -- destruct Hsrc as [[= ->]|[? ?]]; right; split; try done; [by left | by right].
        -- done.
        -- constructor; [done | done].
    + repeat split.
      * destruct Hsrc as [?|[? ?]]; [by left | right; split; [by right | done]].
      * done.
      * constructor; [intros ?; lra | done].
Qed.

(** The inner loop is the running minimum over the distances to the
    other bumps. *)
Definition other_distances (locs : list point3) (i : nat) (p : point3) : list Q :=
  (λ jq : nat * point3, norm3 (psub3 p jq.2)) <$>
  List.filter (λ jq : nat * point3, negb (i =? jq.1)%nat) (imap pair locs).

Lemma min_distance_fold (locs : list point3) (i : nat) (p : point3) :
  min_distance locs i p = foldl (λ b d, closer d b) None (other_distances locs i p).
Proof.
  unfold min_distance, other_distances. rewrite foldl_fmap.
  apply (foldl_skip (λ best (jq : nat * point3), closer (norm3 (psub3 p jq.2)) best)
                    (λ jq : nat * point3, (i =? jq.1)%nat)).
Qed.

Lemma elem_of_other_distances (locs : list point3) (i : nat) (p : point3) (d : Q) :
  d ∈ other_distances locs i p ↔
  ∃ j q, locs !! j = Some q ∧ j ≠ i ∧ d = norm3 (psub3 p q).
Proof.
  unfold other_distances. rewrite list_elem_of_fmap. split.
  - intros ([j q] & -> & Hin). apply list_elem_of_In, filter_In in Hin as [Hin Hne].
    apply list_elem_of_In, elem_of_lookup_imap in Hin as (j' & q' & [= -> ->] & Hq).
    exists j', q'. repeat split; [done|]. simpl in Hne.
    intros ->. by rewrite Nat.eqb_refl in Hne.
  - intros (j & q & Hq & Hne & ->). exists (j, q). split; [done|].
    apply list_elem_of_In, filter_In. split.
    + apply list_elem_of_In, elem_of_lookup_imap. by exists j, q.
    + simpl. apply negb_true_iff, Nat.eqb_neq. congruence.
Qed.

Lemma min_distance_Some (locs : list point3) (i : nat) (p : point3) (r : Q) :
  min_distance locs i p = Some r →
  (0 < r)%Q ∧
  (∃ j q, locs !! j = Some q ∧ j ≠ i ∧ r = norm3 (psub3 p q)) ∧
  (∀ j q, locs !! j = Some q → j ≠ i →
          (0 < norm3 (psub3 p q))%Q → (r <= norm3 (psub3 p q))%Q).
Proof.
  rewrite min_distance_fold.
  intros ([?|[Hin Hpos]] & _ & Hmin)%foldl_closer_Some; [done|].
  repeat split; [done | by apply elem_of_other_distances |].
  intros j q Hq Hne. rewrite Forall_forall in Hmin.
  apply Hmin, elem_of_other_distances. by exists j, q.
Qed.

Lemma min_distance_None (locs : list point3) (i : nat) (p : point3) :
  min_distance locs i p = None ↔
  ∀ j q, locs !! j = Some q → j ≠ i → ¬ (0 < norm3 (psub3 p q))%Q.
Proof.
  rewrite min_distance_fold, foldl_closer_None, Forall_forall. split.
  - intros [_ H] j q Hq Hne. apply H, elem_of_other_distances. by exists j, q.
  - intros H. split; [done|].
    intros d (j & q & Hq & Hne & ->)%elem_of_other_distances. by eapply H.
Qed.

(** C38. The nearest-neighbour distance of bump [i]: when the loop ends
    with a finite value it is positive, it is the distance to some other
    bump, and no other bump lies at a smaller positive distance; it ends
    at infinity exactly when no other bump lies at a positive distance. *)
Theorem min_distance_spec (locs : list point3) (i : nat) (p : point3) :
  (∀ r, min_distance locs i p = Some r →
        (0 < r)%Q ∧
        (∃ j q, locs !! j = Some q ∧ j ≠ i ∧ r = norm3 (psub3 p q)) ∧
        (∀ j q, locs !! j = Some q → j ≠ i →
                (0 < norm3 (psub3 p q))%Q → (r <= norm3 (psub3 p q))%Q)) ∧
  (min_distance locs i p = None ↔
   ∀ j q, locs !! j = Some q → j ≠ i → ¬ (0 < norm3 (psub3 p q))%Q).
Proof. split; [intros r; apply min_distance_Some | apply min_distance_None]. Qed.

Lemma bump_spacing_pos (locs : list point3) : Forall (λ d, (0 < d)%Q) (bump_spacing locs).
Proof.
  unfold bump_spacing. destruct (1 <? length locs)%nat; [|done].
  apply Forall_forall. intros d ([j q] & _ & Hd)%list_elem_of_omap.
  by apply min_distance_Some in Hd as [? _].
Qed.

(** Every recorded spacing is positive, there is at most one per
    bump, and fewer than two bumps record none. *)
Theorem bump_spacing_facts (locs : list point3) :
  Forall (λ d, (0 < d)%Q) (bump_spacing locs) ∧
  (length (bump_spacing locs) ≤ length locs)%nat ∧
  ((length locs ≤ 1)%nat → bump_spacing locs = []).
Proof.
  split; [apply bump_spacing_pos|]. unfold bump_spacing.
  destruct (Nat.ltb_spec 1 (length locs)) as [Hn|Hn].
  - split; [|lia]. etrans; [apply length_omap_le|]. by rewrite length_imap.
  - split; [simpl; lia | done].
Qed.

(** The average spacing is always positive: it is the mean of
    positive distances, or the sampling step when no distance was
    recorded, which is the case for fewer than two bumps; the deviation
    is then zero. *)
Theorem avg_spacing_facts (st : run_state) :
  (0 < avg_spacing st)%Q ∧ (0 <= std_spacing st)%Q ∧
  ((length (bump_locations st) ≤ 1)%nat → avg_spacing st = step ∧ std_spacing st = 0%Q).
Proof.
  unfold avg_spacing, std_spacing. pose proof (bump_spacing_pos (bump_locations st)) as Hp.
  split; [|split].
  - destruct (bump_spacing _) as [|d l] eqn:E; [done|].
    apply np_mean_pos; [done | by apply Forall_forall, Forall_forall].
  - destruct (bump_spacing _); [done | apply np_std_nonneg].
  - intros Hn. unfold bump_spacing. by rewrite (proj2 (Nat.ltb_ge _ _) Hn).
Qed.

End SpacingFacts.

(** ** Mapping accuracy and per-zone counts *)

Section ReportFacts.
Context (fr : frame) (st : run_state) (Hinv : run_inv st).

Lemma correct_placements_le : (correct_placements fr st ≤ spike_count st)%nat.
Proof.
  unfold correct_placements. rewrite <- (inv_locations _ Hinv). apply filter_length_le.
Qed.

(** The mapping accuracy is a percentage, and it is 100 exactly
    when every recorded location maps back into the path of some zone. *)
Theorem placement_accuracy_range :
  (0 <= placement_accuracy fr st <= 100)%Q ∧
  ((0 < spike_count st)%nat →
   (placement_accuracy fr st == 100)%Q ↔
   Forall (λ loc, in_any_zone (zone_paths st) (unmap_3d_to_2d fr loc) = true)
          (bump_locations st)).
Proof.
  unfold placement_accuracy. split.
  - destruct (Nat.ltb_spec 0 (spike_count st)) as [Hn|Hn]; [|split; [apply Qle_refl | done]].
    apply percentage_range; [apply correct_placements_le | done].
  - intros Hn. rewrite (proj2 (Nat.ltb_lt _ _) Hn), percentage_full by done.
    unfold correct_placements. rewrite <- (inv_locations _ Hinv). split.
    + intros E. apply Forall_forall. intros loc Hloc%list_elem_of_In.
      by apply (filter_length_all _ _ E).
    + intros H. f_equal. apply filter_all. rewrite Forall_forall in H.
      intros loc Hloc%list_elem_of_In. by apply H.
Qed.

(** The per-zone counts of the report are the positive counters,
    and they still add up to the total number of bumps. *)
Theorem report_zone_bumps_spec :
  counter_total (report_zone_bumps st) = spike_count st ∧
  ∀ z c, report_zone_bumps st !! z = Some c ↔ zone_bumps st !! z = Some c ∧ (0 < c)%nat.
Proof.
  unfold report_zone_bumps. split.
  - rewrite counter_total_positive. apply (inv_zones _ Hinv).
  - intros z c. by rewrite map_lookup_filter_Some.
Qed.

End ReportFacts.

(** ** The report of a run *)

Section RunReport.
Context {sq : SqrtOp} {tr : TrigOps} {mesh : SoleMesh} {mesh_ok : SoleMeshOk mesh}.
Context (data : coco) (selected : list Z).

(** On a sole whose ray intersections lie on the ray, the report of
    every run shows a positional error of 0 with deviation 0: the error
    compares each hit with the position its own ray was cast from. *)
Theorem run_positional_error_zero :
  (mean_positional_error (place_all data selected) == 0)%Q ∧
  (std_positional_error (place_all data selected) == 0)%Q.
Proof.
  apply positional_error_zero, (reachable_errors_zero data), place_all_reachable.
Qed.

End RunReport.

(** * Concrete runs *)

#[local] Existing Instance bhaskara_trig.

Lemma scenario_run_inv (selected : list Z) : run_inv (scenario_run selected).
Proof. unfold scenario_run. apply (reachable_inv scenario_data), place_all_reachable. Qed.

Lemma scenario_heart_attempts : ray_casting_attempts (scenario_run [1%Z]) = 90%nat.
Proof. unfold scenario_run. rewrite (proj2 (place_all_tally _ _)). by vm_compute. Qed.

Lemma scenario_heart_successes : ray_casting_successes (scenario_run [1%Z]) = 80%nat.
Proof.
  rewrite <- (inv_count _ (scenario_run_inv _)). unfold scenario_run.
  rewrite (proj1 (place_all_tally _ _)). by vm_compute.
Qed.

(** The first scenario reports a success rate of 80 out of 90, not
    of 100 percent: the rays of one grid line start beyond the edge of
    the sole. *)
Theorem scenario_heart_success_rate : (success_rate (scenario_run [1%Z]) == 800 # 9)%Q.
Proof.
  unfold success_rate. by rewrite scenario_heart_attempts, scenario_heart_successes.
Qed.

Lemma success_rate_range_witness : (0 <= success_rate (scenario_run [1%Z]) <= 100)%Q.
Proof. exact (success_rate_range (scenario_run [1%Z]) (scenario_run_inv _)). Defined.

Lemma success_rate_full_witness :
  (success_rate (scenario_run [1%Z]) == 100)%Q ↔
  ray_casting_successes (scenario_run [1%Z]) = ray_casting_attempts (scenario_run [1%Z]).
Proof.
  apply (success_rate_full (scenario_run [1%Z])). rewrite scenario_heart_attempts. lia.
Defined.

Lemma positional_error_nonneg_witness :
  (0 <= mean_positional_error (scenario_run [1%Z]))%Q ∧
  (0 <= @std_positional_error sqrt_fixed_op (scenario_run [1%Z]))%Q.
Proof.
  apply (@positional_error_nonneg sqrt_fixed_op (scenario_run [1%Z])).
  eapply Forall_impl;
    [exact (@reachable_errors_zero sqrt_fixed_op bhaskara_trig slab100_mesh slab100_ok
              scenario_data _ (place_all_reachable scenario_data [1%Z]))|].
  intros e He. simpl in He. rewrite He. apply Qle_refl.
Defined.

Lemma placement_accuracy_range_witness :
  (0 <= placement_accuracy (run_frame scenario_data) (scenario_run [1%Z]) <= 100)%Q.
Proof.
  exact (proj1 (placement_accuracy_range (run_frame scenario_data) (scenario_run [1%Z])
                  (scenario_run_inv _))).
Defined.

Lemma report_zone_bumps_spec_witness :
  counter_total (report_zone_bumps (scenario_run [1%Z])) = spike_count (scenario_run [1%Z]).
Proof. exact (proj1 (report_zone_bumps_spec (scenario_run [1%Z]) (scenario_run_inv _))). Defined.

Lemma run_positional_error_zero_witness :
  (mean_positional_error (scenario_run [1%Z]) == 0)%Q ∧
  (@std_positional_error sqrt_fixed_op (scenario_run [1%Z]) == 0)%Q.
Proof.
  unfold scenario_run.
  exact (@run_positional_error_zero sqrt_fixed_op bhaskara_trig slab100_mesh slab100_ok
           scenario_data [1%Z]).
Defined.

(** Nearest-neighbour spacing on three bumps in a row, two of them at the
    same place: the coincident pair is skipped by the test [0 < distance]. *)
Example bump_spacing_row :
  Qred <$> @bump_spacing sqrt_fixed_op [(0, 0, 5); (0, 0, 5); (3, 4, 5)]%Q = [5; 5; 5]%Q.
Proof. by vm_compute. Qed.
