(* ===== verification/Pipeline.v ===== *)
(** * The whole run of the generator

    [generate_slippers.py] from line 53 to the end: the requested names
    are resolved, the placement loop runs over the annotations, the
    metrics are computed, the pieces are joined and exported, and the
    report is printed.  The run ends early with [sys.exit(1)] when no
    requested name matches a category (line 68) and when the export fails
    (line 259); whether the export succeeds is a parameter, writing the
    files is not modelled. *)

From stdpp Require Import gmap strings list fin_maps.
From Stdlib Require Import QArith Lqa.
From S2P Require Import Prelude Numerics Mapper Sampler Bump Compositor Surface Zones Dicts.
From S2P Require Import Placement Metrics.
Local Close Scope Q_scope.
Local Open Scope string_scope.
Local Open Scope list_scope.

(** What a run that ends well leaves: the final state, everything it
    printed before the report, the mesh handed to the exporter and the
    report. *)
Record run_output : Type := mkOutput {
  out_state : run_state;
  out_messages : list message;
  out_combined : trimesh;
  out_report : report
}.

Section Pipeline.
Context {sq : SqrtOp} {tr : TrigOps} {mesh : SoleMesh}.

(** Lines 53-268. *)
Definition run_generator (export_ok : bool) (data : coco) (args_zones : list string)
    : fatal + run_output :=
  match resolve (categories data) args_zones with
  | inl e => inl e
  | inr (selected_ids, warnings) =>
      let st := place_all data selected_ids in
      let metrics := make_report (run_frame data) st in
      let combined := concatenate (spikes st) in
      if export_ok then inr (mkOutput st (warnings ++ messages st) combined metrics)
      else inl ExportFailure
  end.

End Pipeline.

(** * Theorems *)

Section PipelineFacts.
Context {sq : SqrtOp} {tr : TrigOps} {mesh : SoleMesh}.
Context (data : coco).
Implicit Types (st : run_state) (args : list string).

(** The shape of a placed bump. *)
Definition bump_shape (b : trimesh) : Prop :=
  trimesh_ok b ∧ length (vertices b) = 200%nat ∧ length (faces b) = 342%nat.

(** The pieces of a reachable state: the sole, then one bump per hit. *)
Lemma reachable_spikes st :
  reachable data st →
  ∃ bumps, spikes st = mesh_data :: bumps ∧ Forall bump_shape bumps ∧
           length bumps = spike_count st.
Proof.
  induction 1 as [| | | |z color path pt z3d loc st _ (bumps & E & Hb & Hn) _ _ _];
    [by exists [] | done | done | done |].
  exists (bumps ++ [make_bump (map_2d_to_3d (run_frame data) pt.1 pt.2).1
                              (map_2d_to_3d (run_frame data) pt.1 pt.2).2 z3d color]).
  simpl. rewrite E. split; [done|]. split.
  - apply Forall_app. split; [done|]. apply Forall_singleton. split.
    + apply make_bump_trimesh_ok.
    + split; [apply make_bump_vertices_length|].
      apply (dome_faces_length default_sections default_stacks).
  - rewrite length_app. simpl. lia.
Qed.

Lemma sum_nat_const {A : Type} (f : A → nat) (c : nat) (l : list A) :
  Forall (λ a, f a = c) l → sum_nat (List.map f l) = (c * length l)%nat.
Proof. induction 1 as [|a l Ha _ IH]; simpl; [lia|]. rewrite Ha, IH. lia. Qed.

(** The fatal ends of a run: it is refused with "no matching
    categories" exactly when the resolution of the names is, before
    anything is placed, and it ends with the export failure exactly when
    the names resolve and the export fails. *)
Theorem run_generator_fatal (export_ok : bool) args :
  (run_generator export_ok data args = inl NoMatchingCategories ↔
   resolve (categories data) args = inl NoMatchingCategories) ∧
  (run_generator export_ok data args = inl ExportFailure ↔
   export_ok = false ∧ ∃ r, resolve (categories data) args = inr r).
Proof.
  unfold run_generator.
  assert (Hr : ∀ e, resolve (categories data) args = inl e → e = NoMatchingCategories).
  { unfold resolve. intros e. by destruct (_ && _); intros [= <-]. }
  destruct (resolve _ _) as [e|[ids ws]] eqn:E.
  - rewrite (Hr e eq_refl). split; [done|]. split; [done | by intros [_ [r [=]]]].
  - destruct export_ok; split; split; try done; try (by intros [[=] _]); eauto.
Qed.

(** Letter case does not matter for a run: the names in upper case
    give the same state, the same messages, the same mesh and the same
    report as the names as given. *)
Theorem run_generator_case_insensitive (export_ok : bool) args :
  run_generator export_ok data (upper <$> args) = run_generator export_ok data args.
Proof. unfold run_generator. by rewrite resolve_upper. Qed.


End PipelineFacts.

(** * Concrete runs *)

#[local] Existing Instance bhaskara_trig.

(** The second scenario: only an unknown name is given; the run is
    refused and nothing is produced. *)
Example scenario_unknown_zone :
  @run_generator sqrt_fixed_op bhaskara_trig slab100_mesh true scenario_data ["spleen"]
  = inl NoMatchingCategories.
Proof. by vm_compute. Qed.

(** The fourth scenario as a whole run. *)
Definition outside_output : run_output :=
  let st := @place_all sqrt_fixed_op bhaskara_trig slab100_mesh scenario_outside [1%Z] in
  mkOutput st ([] ++ messages st) (concatenate (spikes st))
           (@make_report sqrt_fixed_op (@run_frame slab100_mesh scenario_outside) st).

Lemma outside_runs :
  @run_generator sqrt_fixed_op bhaskara_trig slab100_mesh true scenario_outside ["HEART"]
  = inr outside_output.
Proof.
  unfold run_generator.
  assert (resolve (categories scenario_outside) ["HEART"] = inr ([1%Z], [])) as ->
    by (by vm_compute).
  reflexivity.
Qed.


(** The mesh exported for the fourth scenario is the sole alone: eight
    vertices and twelve faces. *)
Example outside_combined :
  length (vertices (out_combined outside_output)) = 8%nat ∧
  length (faces (out_combined outside_output)) = 12%nat.
Proof. by vm_compute. Qed.
