(* ===== verification/Accuracy.v ===== *)
(** * The mapping accuracy of a run

    [generate_slippers.py] lines 234-244 judge every recorded location by
    carrying it back to the picture and testing it against the paths in
    [zone_paths].  This file relates the metric to the run that recorded
    the locations: a location comes from a grid point that its zone's
    path contains, and is carried back to that grid point, so the metric
    can only fall below 100 when the path of a zone was replaced after
    bumps were placed for it, that is, when a zone has more than one
    annotation. *)

From stdpp Require Import gmap strings list fin_maps.
From Stdlib Require Import QArith Lqa.
From S2P Require Import Prelude Numerics Mapper Sampler Bump Surface Zones Dicts.
From S2P Require Import Placement Metrics.
Local Close Scope Q_scope.
Local Open Scope string_scope.
Local Open Scope list_scope.

Section Accuracy.
Context {sq : SqrtOp} {tr : TrigOps} {mesh : SoleMesh} {mesh_ok : SoleMeshOk mesh}.
Context (data : coco).
Implicit Types (st : run_state) (pt : point2) (ann : annotation)
  (paths : gmap string (list point2)).

(** A location that the metric counts as correct. *)
Definition loc_ok paths (loc : point3) : Prop :=
  in_any_zone paths (unmap_3d_to_2d (run_frame data) loc) = true.

(** Every recorded location is counted as correct. *)
Definition accurate st : Prop := Forall (loc_ok (zone_paths st)) (bump_locations st).

(** The zones of the annotations the loop works on, in file order. *)
Definition active_zones (selected : list Z) (anns : list annotation) : list string :=
  omap (λ ann, if ann_active data selected ann
               then zone_name_of (categories data) (ann_category_id ann) else None) anns.

Lemma in_any_zone_true paths (p : point2) :
  in_any_zone paths p = true ↔
  ∃ z path, paths !! z = Some path ∧ contains_point path p = true.
Proof.
  unfold in_any_zone. rewrite existsb_exists. split.
  - intros ([z path] & Hin%list_elem_of_In%elem_of_map_to_list & Hc). by exists z, path.
  - intros (z & path & Hz & Hc). exists (z, path).
    split; [by apply list_elem_of_In, elem_of_map_to_list | done].
Qed.

(** A path entered under a new name takes no location away. *)
Lemma loc_ok_insert paths z path loc :
  paths !! z = None → loc_ok paths loc → loc_ok (<[z := path]> paths) loc.
Proof.
  unfold loc_ok. rewrite !in_any_zone_true. intros Hz (z' & path' & Hz' & Hc).
  exists z', path'. split; [|done]. rewrite lookup_insert_ne; [done|]. congruence.
Qed.

Section OnFrame.
Context (Hfr : frame_ok (run_frame data)).

(** A hit is carried back to the grid point its ray was cast for. *)
Lemma hit_unmaps pt z3d loc :
  top_hit (cast_ray (map_2d_to_3d (run_frame data) pt.1 pt.2).1
                    (map_2d_to_3d (run_frame data) pt.1 pt.2).2) = Some (z3d, loc) →
  p2eq (unmap_3d_to_2d (run_frame data) loc) pt.
Proof.
  intros [Hx Hy]%cast_ray_hit_on_ray. destruct pt as [x y].
  pose proof (x_scale_pos _ Hfr). pose proof (y_scale_pos _ Hfr).
  apply unmap_hit; [lra | lra | exact Hx | exact Hy].
Qed.

Lemma place_point_accurate z color path st pt :
  accurate st → zone_paths st !! z = Some path → contains_point path pt = true →
  accurate (place_point data z color st pt).
Proof.
  intros Hacc Hz Hc. rewrite place_point_unfold.
  destruct (top_hit _) as [[z3d loc]|] eqn:E; [|done].
  unfold accurate. simpl. apply Forall_app. split; [done|]. apply Forall_singleton.
  apply in_any_zone_true. exists z, path. split; [done|].
  by rewrite (contains_point_compat path _ pt (hit_unmaps pt z3d loc E)).
Qed.

Lemma scan_fold_accurate z color path (l : list point2) st n :
  accurate st → zone_paths st !! z = Some path →
  accurate (foldl (scan_step data z color path) (st, n) l).1 ∧
  zone_paths (foldl (scan_step data z color path) (st, n) l).1 = zone_paths st.
Proof.
  revert st n. induction l as [|pt l IH]; intros st n Hacc Hz; simpl; [done|].
  unfold scan_step at 2 4. destruct (contains_point path pt) eqn:Hc; simpl; [|by apply IH].
  destruct (IH (place_point data z color st pt) (S n)) as [Ha Hp].
  - by eapply place_point_accurate.
  - by rewrite place_point_zone_paths.
  - split; [done|]. by rewrite Hp, place_point_zone_paths.
Qed.

(** An annotation of a zone that has no path yet keeps the run accurate
    and enters at most the path of its zone. *)
Lemma process_zone_accurate ann z st :
  accurate st → zone_paths st !! z = None →
  accurate (process_zone data ann z st) ∧
  ∀ z', z' ≠ z → zone_paths (process_zone data ann z st) !! z' = zone_paths st !! z'.
Proof.
  intros Hacc Hz. unfold process_zone, fail_annotation.
  destruct (ann_segmentation ann) as [|flat ?]; [done|].
  destruct (reshape_pairs flat) as [seg|]; [|done].
  assert (Hins : accurate (set_zone_path z seg (say (ColorAssigned z (zone_color z)) st))).
  { unfold accurate in *. simpl. eapply Forall_impl; [exact Hacc|].
    intros loc. by apply loc_ok_insert. }
  destruct (seg_bbox seg) as [bb|].
  - unfold scan_zone.
    destruct (scan_fold_accurate z (zone_color z) seg (grid_points bb step)
                (set_zone_path z seg (say (ColorAssigned z (zone_color z)) st)) 0 Hins)
      as [Ha Hp]; [simpl; by rewrite lookup_insert_eq|].
    destruct (foldl _ _ _) as [st' n]. simpl in *.
    assert (∀ z', z' ≠ z → zone_paths st' !! z' = zone_paths st !! z') as Hother
      by (intros z' Hne; rewrite Hp; by rewrite lookup_insert_ne).
    by destruct (n =? 0)%nat.
  - split; [done|]. intros z' Hne. simpl. by rewrite lookup_insert_ne.
Qed.

Lemma process_annotation_accurate selected st ann :
  accurate st →
  (∀ z, active_zones selected [ann] = [z] → zone_paths st !! z = None) →
  accurate (process_annotation data selected st ann) ∧
  ∀ z', z' ∉ active_zones selected [ann] →
        zone_paths (process_annotation data selected st ann) !! z' = zone_paths st !! z'.
Proof.
  intros Hacc Hfresh. unfold process_annotation, active_zones, ann_active in *.
  cbn [omap list_omap] in *.
  destruct (bool_decide (selected ≠ []) && bool_decide (ann_category_id ann ∉ selected));
    cbn [negb andb] in *; [done|].
  destruct (zone_name_of _ _) as [z|]; [|done].
  rewrite (bool_decide_eq_true_2 (is_Some (Some z))) in * by done.
  destruct (process_zone_accurate ann z st Hacc (Hfresh z eq_refl)) as [Ha Hp].
  split; [done|]. intros z' Hz'. apply Hp. set_solver.
Qed.

(** The loop over the annotations, from any accurate state in which the
    zones still to come have no path. *)
Lemma foldl_process_accurate selected (anns : list annotation) st :
  accurate st → NoDup (active_zones selected anns) →
  (∀ z, z ∈ active_zones selected anns → zone_paths st !! z = None) →
  accurate (foldl (process_annotation data selected) st anns).
Proof.
  revert st. induction anns as [|ann anns IH]; intros st Hacc Hnd Hfresh; simpl; [done|].
  change (ann :: anns) with ([ann] ++ anns) in Hnd, Hfresh.
  unfold active_zones in Hnd, Hfresh. rewrite omap_app in Hnd, Hfresh.
  fold (active_zones selected [ann]) in Hnd, Hfresh.
  fold (active_zones selected anns) in Hnd, Hfresh.
  apply NoDup_app in Hnd as (_ & Hdis & Hnd).
  destruct (process_annotation_accurate selected st ann Hacc) as [Ha Hp].
  { intros z Hz. apply Hfresh. rewrite Hz. set_solver. }
  apply IH; [done | done |]. intros z Hz. rewrite Hp.
  - apply Hfresh. set_solver.
  - intros Hin. by apply (Hdis z).
Qed.

(** A run in which no zone has two annotations to work on is
    accurate: every location it records is carried back by the metric
    into the path of its own zone. *)
Theorem place_all_accurate (selected : list Z) :
  NoDup (active_zones selected (annotations data)) →
  accurate (place_all data selected).
Proof.
  intros Hnd. unfold place_all. apply foldl_process_accurate; [|done|done].
  unfold accurate. simpl. constructor.
Qed.

(** C36. The mapping accuracy measures nothing but repeated zones: on a
    sole with a proper bounding box and intersections on the ray, a run
    in which no zone has two annotations to work on reports 100 as soon
    as it places a bump, and 0 when it places none. *)
Theorem placement_accuracy_full (selected : list Z) :
  NoDup (active_zones selected (annotations data)) →
  let st := place_all data selected in
  ((0 < spike_count st)%nat → (placement_accuracy (run_frame data) st == 100)%Q) ∧
  (spike_count st = 0%nat → placement_accuracy (run_frame data) st = 0%Q).
Proof.
  intros Hnd st. subst st. unfold placement_accuracy. split.
  - intros Hn. rewrite (proj2 (Nat.ltb_lt _ _) Hn). apply percentage_full; [done|].
    unfold correct_placements.
    rewrite <- (inv_locations _ (reachable_inv data _ (place_all_reachable data selected))).
    f_equal. apply filter_all. intros loc Hloc%list_elem_of_In.
    pose proof (foldl_process_accurate selected (annotations data) (initial_state data))
      as Hacc.
    unfold accurate at 2 in Hacc. rewrite Forall_forall in Hacc.
    apply Hacc; [by constructor | done | done | done].
  - by intros ->.
Qed.

End OnFrame.

End Accuracy.

(** * Concrete runs *)

#[local] Existing Instance bhaskara_trig.

Lemma slab100_frame_ok (data : coco) :
  (0 < image_width data)%Q → (0 < image_height data)%Q →
  frame_ok (@run_frame slab100_mesh data).
Proof. intros Hw Hh. unfold frame_ok. simpl. repeat split; done. Qed.

Lemma placement_accuracy_full_witness :
  let st := scenario_run [1%Z] in
  ((0 < spike_count st)%nat →
   (placement_accuracy (@run_frame slab100_mesh scenario_data) st == 100)%Q) ∧
  (spike_count st = 0%nat →
   placement_accuracy (@run_frame slab100_mesh scenario_data) st = 0%Q).
Proof.
  unfold scenario_run.
  refine (@placement_accuracy_full sqrt_fixed_op bhaskara_trig slab100_mesh slab100_ok
            scenario_data _ [1%Z] _).
  - by apply slab100_frame_ok.
  - by vm_compute; repeat constructor; set_solver.
Defined.

(** A zone with two annotations: the path of the second replaces the
    path of the first, the two bumps of the first polygon are judged
    against the second, and the accuracy is 50. *)
Definition scenario_twice : coco :=
  mkCoco 100 100 [mkCategory 1 "Heart"]
    [mkAnnotation 10 1 [[20; 20; 26; 20; 26; 26; 20; 26]%Q];
     mkAnnotation 11 1 [[60; 60; 66; 60; 66; 66; 60; 66]%Q]].

Example scenario_twice_accuracy :
  let st := @place_all sqrt_fixed_op bhaskara_trig slab100_mesh scenario_twice [] in
  spike_count st = 4%nat ∧
  Qred (placement_accuracy (@run_frame slab100_mesh scenario_twice) st) = 50%Q.
Proof. by vm_compute. Qed.
