(* ===== verification/RayTest.v ===== *)
(** * The stand-alone ray casting check

    [test.py]: the polygons of an annotation file keyed by category id
    ([load_coco_annotations]), the rays cast from the vertices of one
    polygon with the success rate and the mean positional error
    ([ray_casting]), and the driver [main].

    The mapping of [ray_casting] is the mapping of the generator without
    its margin.  The mesh is queried with [multiple_hits=False], which
    returns for every ray its first intersection; for a ray that starts
    above the sole and points down this is the highest one, so the query
    is [top_hit] of the intersections of the interface [SoleMesh].  A
    dictionary key of Python is an integer or a string here, [pykey]:
    the polygons are stored under integers and looked up under a string. *)

From stdpp Require Import gmap strings list fin_maps countable.
From Stdlib Require Import QArith Lqa.
From S2P Require Import Prelude Numerics Mapper Sampler Bump Surface Zones Dicts.
Local Close Scope Q_scope.
Local Open Scope string_scope.
Local Open Scope list_scope.

(** ** Keys of a dictionary *)

Inductive pykey : Type :=
| KInt (n : Z)
| KStr (s : string).

#[export] Instance pykey_eq_dec : EqDecision pykey.
Proof. solve_decision. Defined.

#[export] Instance pykey_countable : Countable pykey.
Proof.
  refine (inj_countable' (λ k, match k with KInt n => inl n | KStr s => inr s end)
                         (λ x, match x with inl n => KInt n | inr s => KStr s end) _).
  by intros [].
Defined.

(** ** [load_coco_annotations], lines 7-16 *)

(** Lines 13-15: the body of the loop.  [None] is the exception of an
    annotation without a coordinate list or with an odd number of
    coordinates. *)
Definition load_polygon (polygons : gmap pykey (list point2)) (ann : annotation)
    : option (gmap pykey (list point2)) :=
  let zone := KInt (ann_category_id ann) in
  match ann_segmentation ann with
  | [] => None
  | flat :: _ =>
      match reshape_pairs flat with
      | None => None
      | Some points => Some (<[zone := points]> polygons)
      end
  end.

(** Lines 11-16. *)
Definition load_coco_annotations (data : coco)
    : option (gmap pykey (list point2) * Q * Q) :=
  match foldl (λ acc ann, acc ≫= λ polygons, load_polygon polygons ann)
              (Some ∅) (annotations data) with
  | Some polygons => Some (polygons, image_width data, image_height data)
  | None => None
  end.

(** ** [ray_casting], lines 19-53 *)

Section RayCasting.
Context {sq : SqrtOp} {mesh : SoleMesh}.

(** Lines 30-32: the origin of the ray of one point. *)
Definition ray_origin (img_width img_height : Q) (pt : point2) : point3 :=
  let bounds := mesh_bounds in
  let x_scale := ((px3 (bmax bounds) - px3 (bmin bounds)) / img_width)%Q in
  let y_scale := ((py3 (bmax bounds) - py3 (bmin bounds)) / img_height)%Q in
  let z_height := (pz3 (bmax bounds) + 10)%Q in
  let x_3d := (pt.1 * x_scale + px3 (bmin bounds))%Q in
  let y_3d := ((img_height - pt.2) * y_scale + py3 (bmin bounds))%Q in
  (x_3d, y_3d, z_height).

(** The first intersection of a ray that points down. *)
Definition first_hit (origin : point3) : option point3 :=
  snd <$> top_hit (intersects_location origin ray_down).

(** Lines 39-41: the locations with the index of their ray. *)
Definition intersects_first (ray_origins : list point3) : list (nat * point3) :=
  omap (λ io, pair io.1 <$> first_hit io.2) (imap pair ray_origins).

(** Lines 47-49: the error of one location against the origin of its
    ray. *)
Definition hit_error (ray_origins : list point3) (hit : nat * point3) : Q :=
  let expected := default ((0, 0, 0)%Q : point3) (ray_origins !! hit.1) in
  let actual := hit.2 in
  norm2 (px3 expected - px3 actual) (py3 expected - py3 actual).

(** Lines 19-53: the locations, the success rate and the mean error. *)
Definition ray_casting (points_2d : list point2) (img_width img_height : Q)
    : list point3 * Q * Q :=
  let ray_origins := ray_origin img_width img_height <$> points_2d in
  let hits := intersects_first ray_origins in
  let locations := snd <$> hits in
  let success_rate :=
    if (0 <? length ray_origins)%nat
    then (Qnat (length locations) / Qnat (length ray_origins) * 100)%Q
    else 0%Q in
  let positional_errors := hit_error ray_origins <$> hits in
  let mean_error :=
    match positional_errors with [] => 0%Q | _ => np_mean positional_errors end in
  (locations, success_rate, mean_error).

(** ** [main], lines 56-77 *)

(** What [main] prints. *)
Inductive test_output : Type :=
| NoHeartZone                                    (* line 68 *)
| TestReport (success_rate mean_error : Q) (intersections : nat).  (* lines 75-77 *)

(** Lines 67-77, for the points found for the zone. *)
Definition report_zone (zone_points : list point2) (img_width img_height : Q)
    : test_output :=
  if (length zone_points =? 0)%nat then NoHeartZone
  else
    let '(locations, success_rate, mean_error) :=
      ray_casting zone_points img_width img_height in
    TestReport success_rate mean_error (length locations).

(** Lines 63-77: [None] when loading the annotations raises. *)
Definition main (data : coco) : option test_output :=
  match load_coco_annotations data with
  | None => None
  | Some (polygons, img_width, img_height) =>
      let zone_points := default [] (polygons !! KStr "heart") in
      Some (report_zone zone_points img_width img_height)
  end.

End RayCasting.

(** * Theorems *)

(** ** The polygons *)

Section Loading.
Implicit Types (polygons : gmap pykey (list point2)) (ann : annotation).

(** The polygon an annotation contributes, when it can be read. *)
Definition ann_polygon ann : option (list point2) :=
  head (ann_segmentation ann) ≫= reshape_pairs.

Lemma load_polygon_Some polygons ann polygons' :
  load_polygon polygons ann = Some polygons' ↔
  ∃ points, ann_polygon ann = Some points ∧
            polygons' = <[KInt (ann_category_id ann) := points]> polygons.
Proof.
  unfold load_polygon, ann_polygon.
  destruct (ann_segmentation ann) as [|flat r]; simpl; [naive_solver|].
  destruct (reshape_pairs flat); naive_solver.
Qed.

(** The loop of [load_coco_annotations], from any dictionary: string keys
    are left alone, and an integer key holds the polygon of the last
    annotation of that category, or what it held before. *)
Lemma foldl_load_polygon (anns : list annotation) polygons polygons' :
  foldl (λ acc ann, acc ≫= λ polygons, load_polygon polygons ann) (Some polygons) anns
    = Some polygons' →
  (∀ s, polygons' !! KStr s = polygons !! KStr s) ∧
  (∀ c, polygons' !! KInt c =
        match list.last (filter (λ ann, ann_category_id ann = c) anns) with
        | Some ann => ann_polygon ann
        | None => polygons !! KInt c
        end).
Proof.
  revert polygons'. induction anns as [|ann anns IH] using rev_ind; intros polygons'.
  - simpl. by intros [= <-].
  - rewrite foldl_snoc.
    destruct (foldl _ _ anns) as [mid|] eqn:E; [|done]. simpl.
    intros (points & Hp & ->)%load_polygon_Some.
    destruct (IH mid eq_refl) as [IHs IHc]. split.
    + intros s. by rewrite lookup_insert_ne.
    + intros c. rewrite list.filter_app, list.filter_cons, list.filter_nil.
      case_decide as Hc.
      * subst c. by rewrite last_snoc, lookup_insert_eq.
      * rewrite app_nil_r, lookup_insert_ne by congruence. apply IHc.
Qed.

Lemma load_coco_annotations_keys (data : coco) polygons w h s :
  load_coco_annotations data = Some (polygons, w, h) → polygons !! KStr s = None.
Proof.
  unfold load_coco_annotations. destruct (foldl _ _ _) as [m|] eqn:E; [|done].
  intros [= <- <- <-]. apply foldl_load_polygon in E as [Hs _].
  by rewrite Hs, lookup_empty.
Qed.

(** The polygons loaded from an annotation file are keyed by the
    integer category ids: no string is a key, and a category id holds the
    polygon of the last annotation of that category. *)
Theorem load_coco_annotations_spec (data : coco) polygons w h :
  load_coco_annotations data = Some (polygons, w, h) →
  w = image_width data ∧ h = image_height data ∧
  (∀ s, polygons !! KStr s = None) ∧
  (∀ c, polygons !! KInt c =
        list.last (filter (λ ann, ann_category_id ann = c) (annotations data))
          ≫= ann_polygon).
Proof.
  unfold load_coco_annotations. destruct (foldl _ _ _) as [m|] eqn:E; [|done].
  intros [= <- <- <-]. apply foldl_load_polygon in E as [Hs Hc].
  split; [done|]. split; [done|]. split.
  - intros s. by rewrite Hs, lookup_empty.
  - intros c. rewrite Hc, lookup_empty. by destruct (list.last _).
Qed.

End Loading.

(** ** The rays *)

Section Rays.
Context {sq : SqrtOp} {mesh : SoleMesh}.
Implicit Types (pt : point2) (ray_origins : list point3) (hit : nat * point3).

(** A location belongs to the ray whose index comes with it. *)
Lemma elem_of_intersects_first ray_origins hit :
  hit ∈ intersects_first ray_origins ↔
  ∃ o, ray_origins !! hit.1 = Some o ∧ first_hit o = Some hit.2.
Proof.
  unfold intersects_first. rewrite list_elem_of_omap. split.
  - intros ([i o] & (i' & o' & [= <- <-] & Ho)%elem_of_lookup_imap & Hh). simpl in Hh.
    destruct (first_hit o) as [loc|] eqn:Ef; [|done]. injection Hh as <-. by exists o.
  - intros (o & Ho & Hh). exists (hit.1, o). split.
    + apply elem_of_lookup_imap. by exists hit.1, o.
    + simpl. rewrite Hh. by destruct hit.
Qed.

Lemma length_intersects_first ray_origins :
  (length (intersects_first ray_origins) ≤ length ray_origins)%nat.
Proof.
  unfold intersects_first. etrans; [apply length_omap_le|]. by rewrite length_imap.
Qed.

(** The success rate of the check is a percentage, there is at most
    one location per ray, and the rate is 100 exactly when every ray has
    one. *)
Theorem ray_casting_rate (points_2d : list point2) (w h : Q) :
  let '(locations, success_rate, _) := ray_casting points_2d w h in
  (0 <= success_rate <= 100)%Q ∧ (length locations ≤ length points_2d)%nat ∧
  (points_2d ≠ [] →
   (success_rate == 100)%Q ↔ length locations = length points_2d).
Proof.
  unfold ray_casting. cbv zeta.
  pose proof (length_intersects_first (ray_origin w h <$> points_2d)) as Hle.
  rewrite !length_fmap in *. split; [|split; [done|]].
  - destruct (Nat.ltb_spec 0 (length points_2d)) as [Hn|Hn]; [|done].
    by apply percentage_range.
  - intros Hne. assert (0 < length points_2d)%nat as Hn by (destruct points_2d; simpl; [done|lia]).
    rewrite (proj2 (Nat.ltb_lt _ _) Hn). by apply percentage_full.
Qed.

(** On a mesh whose intersections lie on the ray the mean error of
    the check is 0 whatever the points. *)
Theorem ray_casting_mean_zero {ok : SoleMeshOk mesh} (points_2d : list point2) (w h : Q) :
  ((ray_casting points_2d w h).2 == 0)%Q.
Proof.
  unfold ray_casting. cbv zeta. cbn [snd].
  set (ray_origins := ray_origin w h <$> points_2d).
  assert (Hz : Forall (λ e, (e == 0)%Q) (hit_error ray_origins <$> intersects_first ray_origins)).
  { apply Forall_fmap, Forall_forall. intros hit (o & Ho & Hh)%list_elem_of_In%elem_of_intersects_first.
    unfold compose, hit_error. cbv zeta. rewrite Ho. simpl. unfold first_hit in Hh.
    destruct (top_hit _) as [[z3d loc]|] eqn:E; [|done]. injection Hh as Hh.
    apply top_hit_In in E as [Hin _]. rewrite <- Hh.
    apply hit_on_ray in Hin as [Hx Hy].
    apply norm2_zero; [rewrite Hx | rewrite Hy]; apply Qplus_opp_r. }
  destruct (hit_error ray_origins <$> _) eqn:E; [done|].
  apply np_mean_zeros. by apply Forall_forall, Forall_forall.
Qed.

(** The check does not exercise the mapping of the generator: its
    ray starts at the generator's position shifted back by the margin on
    both axes, at the same height. *)
Theorem ray_origin_no_margin (w h : Q) pt :
  let o := ray_origin w h pt in
  let g := map_2d_to_3d (mkFrame mesh_bounds w h) pt.1 pt.2 in
  (g.1 == px3 o + margin)%Q ∧ (g.2 == py3 o + margin)%Q ∧
  (pz3 o == top_z (mkFrame mesh_bounds w h) + ray_clearance)%Q.
Proof.
  unfold ray_origin, map_2d_to_3d, origin_x, origin_y, x_scale, y_scale, top_z,
    ray_clearance, px3, py3, pz3. simpl. repeat split; ring.
Qed.

(** [main] never casts a ray: the polygons are stored under integer
    keys and looked up under the string "heart", so whenever the
    annotations load it reports that no heart zone was found. *)
Theorem main_no_heart (data : coco) (out : test_output) :
  main data = Some out → out = NoHeartZone.
Proof.
  unfold main. destruct (load_coco_annotations data) as [[[polygons w] h]|] eqn:E; [|done].
  rewrite (load_coco_annotations_keys _ _ _ _ "heart" E). by intros [= <-].
Qed.

End Rays.

(** * Concrete runs *)

(** The annotation file and the sole of the first scenario. *)
Definition heart_data : coco :=
  mkCoco 100 100 [mkCategory 1 "heart"]
    [mkAnnotation 10 1 [[0; 0; 50; 0; 50; 50; 0; 50]%Q]].

Definition heart_square : list point2 := [(0, 0); (50, 0); (50, 50); (0, 50)]%Q.

Lemma heart_data_loads :
  load_coco_annotations heart_data = Some (<[KInt 1 := heart_square]> ∅, 100%Q, 100%Q).
Proof. by vm_compute. Qed.

Lemma load_coco_annotations_spec_witness :
  100%Q = image_width heart_data ∧ 100%Q = image_height heart_data ∧
  (∀ s, (<[KInt 1 := heart_square]> ∅ : gmap pykey (list point2)) !! KStr s = None) ∧
  (∀ c, (<[KInt 1 := heart_square]> ∅ : gmap pykey (list point2)) !! KInt c =
        list.last (filter (λ ann, ann_category_id ann = c) (annotations heart_data))
          ≫= ann_polygon).
Proof. exact (load_coco_annotations_spec heart_data _ _ _ heart_data_loads). Defined.

Lemma main_no_heart_witness : NoHeartZone = NoHeartZone.
Proof.
  apply (@main_no_heart sqrt_fixed_op slab100_mesh heart_data NoHeartZone).
  unfold main. by rewrite heart_data_loads.
Defined.

Lemma ray_casting_mean_zero_witness :
  ((@ray_casting sqrt_fixed_op slab100_mesh heart_square 100 100).2 == 0)%Q.
Proof.
  exact (@ray_casting_mean_zero sqrt_fixed_op slab100_mesh slab100_ok heart_square 100 100).
Defined.

(** What the check reports for the polygon of the zone when it is given
    to it: the four corners of the square are mapped onto the sole, every
    ray hits, and the error is 0. *)
Example report_zone_heart :
  match @report_zone sqrt_fixed_op slab100_mesh heart_square 100 100 with
  | TestReport rate mean n => Qred rate = 100%Q ∧ Qred mean = 0%Q ∧ n = 4%nat
  | NoHeartZone => False
  end.
Proof. by vm_compute. Qed.
