(* ===== verification/WebApp.v ===== *)
(** * The web front end

    [app.py]: the zone keys loaded from the two annotation files at start
    up ([load_valid_zone_keys]), the handler of [/generate_slippers] with
    its validation, the command line it builds for the generator and the
    classification of what the generator returns, and
    [/get_available_zones].

    Flask, the file system and the subprocess are outside the program:
    the request is a record of the form fields the handler reads, and the
    [world] holds what the handler asks of its environment (whether a file
    exists, what running a command gives, the URL of a file).  The handler
    is a function from these to the response and the command it ran, if
    any.  Case conversion is the ASCII one of [Zones]. *)

From stdpp Require Import gmap strings list sets sorting.
From S2P Require Import Prelude Zones Dicts.
Local Open Scope string_scope.
Local Open Scope list_scope.

(** ** Configuration, lines 9-16 *)

Definition SCRIPT_TO_RUN : string := "generate_slippers.py".
Definition LEFT_FOOT_STL : string := "Shoe_Sole_UK_8_Left.stl".
Definition RIGHT_FOOT_STL : string := "Shoe_Sole_UK_8_Right.stl".
Definition GENERATED_STL_BASE_FILENAME : string := "sole_with_spikes".

(** ** [load_valid_zone_keys], lines 25-40 *)

(** What is found at the path of a zone configuration: nothing, a file
    that cannot be read as JSON, or a document with or without a
    [categories] field, each category with or without a [name]. *)
Inductive config_file : Type :=
| ConfigMissing
| ConfigUnreadable
| ConfigData (categories : option (list (option string))).

(** The two category names of line 34 that are not zones. *)
Definition reserved_names : list string := ["LEFT_FOOT_ORGANS"; "RIGHT_FOOT_ORGANS"].

Definition load_valid_zone_keys (config : config_file) : option (gset string) :=
  match config with
  | ConfigMissing => None
  | ConfigUnreadable => None
  | ConfigData None => Some ∅
  | ConfigData (Some cats) =>
      Some (list_to_set (filter (λ name, name ∉ reserved_names) (upper <$> omap id cats)))
  end.

(** ** Requests, responses and the environment *)

(** The fields of the request the handler reads (lines 58-62). *)
Record request : Type := mkRequest {
  req_method : string;
  form_areas : list string;
  form_foot : option string;
  form_size : option string
}.

(** [jsonify(...)] with its status code. *)
Inductive body : Type :=
| ErrorBody (message : string)
| SuccessBody (message filename stl_url : string).

Record response : Type := mkResponse { status : nat; res_body : body }.

(** What [subprocess.run(..., check=True)] gives (lines 119, 135-146). *)
Inductive script_outcome : Type :=
| ScriptDone (stdout stderr : string)
| ScriptNotFound (e : string)
| ScriptFailed (returncode : Z) (stdout stderr : string)
| ScriptRaised (e : string).

Record world : Type := mkWorld {
  python_executable : string;
  (** [os.path.exists] under [APP_ROOT] when the request arrives *)
  file_exists : string → bool;
  (** running a command *)
  run : list string → script_outcome;
  (** [os.path.exists] after the command has run *)
  file_exists_after : list string → string → bool;
  (** [url_for('get_stl', filename=..., _external=True)] *)
  url_for_get_stl : string → string
}.

(** Python's [not x] on a form field: missing or empty. *)
Definition falsy (field : option string) : bool :=
  match field with
  | None => true
  | Some s => bool_decide (s = "")
  end.

(** [a or b] on strings. *)
Definition str_or (a b : string) : string := if decide (a = "") then b else a.

(** [', '.join(l)] *)
Definition join (sep : string) (l : list string) : string := String.concat sep l.

(** ** The handler of [/generate_slippers], lines 54-148 *)

(** Lines 82-88: the body of the loop over the submitted values, on the
    pair [(zones_to_process_internal_keys, unknown_html_values)]. *)
Definition map_area (valid_zone_keys : gset string) (acc : list string * list string)
    (html_val : string) : list string * list string :=
  let internal_key_candidate := upper html_val in
  if decide (internal_key_candidate ∈ valid_zone_keys) then
    if decide (internal_key_candidate ∈ acc.1) then acc
    else (acc.1 ++ [internal_key_candidate], acc.2)
  else (acc.1, acc.2 ++ [html_val]).

(** Lines 76-88. *)
Definition map_areas (valid_zone_keys : gset string) (selected_html_values : list string)
    : list string * list string :=
  foldl (map_area valid_zone_keys) ([], []) selected_html_values.

Definition error (code : nat) (message : string) : response :=
  mkResponse code (ErrorBody message).

(** Lines 109-115. *)
Definition command_line (w : world) (target_foot input_stl output : string)
    (zones : list string) : list string :=
  [python_executable w; SCRIPT_TO_RUN; "--foot"; target_foot; "--input"; input_stl;
   "--output"; output] ++ zones.

(** Lines 118-146: the command is run and its outcome classified. *)
Definition run_script (w : world) (target_foot expected_output_filename : string)
    (zones command : list string) : response :=
  match run w command with
  | ScriptDone _ _ =>
      if file_exists_after w command expected_output_filename then
        mkResponse 200
          (SuccessBody
             ("Generation successful for " +:+ target_foot +:+ " foot. Processed zones: "
              +:+ join ", " zones)
             expected_output_filename
             (url_for_get_stl w expected_output_filename))
      else error 500 "Script ran but output PLY file was not created."
  | ScriptNotFound e =>
      error 500 ("Server error: Could not find script or Python executable: " +:+ e)
  | ScriptFailed _ stdout stderr =>
      let error_details :=
        String.substring 0 500 (str_or stderr (str_or stdout "Unknown script error")) in
      error 500 ("Error during generation: " +:+ error_details)
  | ScriptRaised e => error 500 ("An unexpected server error occurred: " +:+ e)
  end.

(** Lines 54-148: the response, and the command that was run if one was. *)
Definition generate_slippers (keys_left keys_right : option (gset string)) (w : world)
    (req : request) : response * option (list string) :=
  match keys_left, keys_right with
  | Some valid_left, Some valid_right =>
    if decide (req_method req = "POST") then
      let selected_html_values := form_areas req in
      let selected_foot := default "" (form_foot req) in
      if decide (selected_html_values = []) then
        (error 400 "Please select at least one reflexology area.", None)
      else if falsy (form_foot req) || bool_decide (selected_foot ∉ ["left"; "right"]) then
        (error 400 "Please select either Left Foot or Right Foot.", None)
      else if falsy (form_size req) then
        (error 400 "Please select a foot size.", None)
      else
        let valid_zone_keys :=
          if decide (selected_foot = "left") then valid_left else valid_right in
        let '(zones, unknown) := map_areas valid_zone_keys selected_html_values in
        if decide (zones = []) then
          (error 400
             ("None of the selected areas could be mapped to known zones."
              +:+ (if decide (unknown = []) then ""
                   else " Unrecognized values: " +:+ join ", " unknown +:+ ".")), None)
        else
          let target_foot := lower selected_foot in
          let input_stl :=
            if decide (target_foot = "left") then LEFT_FOOT_STL else RIGHT_FOOT_STL in
          if file_exists w input_stl then
            let expected_output_filename :=
              GENERATED_STL_BASE_FILENAME +:+ "_" +:+ target_foot +:+ ".ply" in
            let command :=
              command_line w target_foot input_stl expected_output_filename zones in
            (run_script w target_foot expected_output_filename zones command, Some command)
          else
            (error 404 ("Input STL file for " +:+ target_foot
                        +:+ " foot (UK size 8) not found."), None)
    else (error 405 "Method not allowed.", None)
  | _, _ => (error 500 "Server configuration error: Cannot validate zones.", None)
  end.

(** Lines 55-115 alone: the handler up to the start of the generator.
    It ends with a refusal, or with the local variables [target_foot],
    [expected_output_filename], [zones_to_process_internal_keys] and
    [command] that the rest of the handler uses. *)
Definition prepare (keys_left keys_right : option (gset string)) (w : world)
    (req : request) : response + (string * string * list string * list string) :=
  match keys_left, keys_right with
  | Some valid_left, Some valid_right =>
    if decide (req_method req = "POST") then
      let selected_html_values := form_areas req in
      let selected_foot := default "" (form_foot req) in
      if decide (selected_html_values = []) then
        inl (error 400 "Please select at least one reflexology area.")
      else if falsy (form_foot req) || bool_decide (selected_foot ∉ ["left"; "right"]) then
        inl (error 400 "Please select either Left Foot or Right Foot.")
      else if falsy (form_size req) then
        inl (error 400 "Please select a foot size.")
      else
        let valid_zone_keys :=
          if decide (selected_foot = "left") then valid_left else valid_right in
        let '(zones, unknown) := map_areas valid_zone_keys selected_html_values in
        if decide (zones = []) then
          inl (error 400
                 ("None of the selected areas could be mapped to known zones."
                  +:+ (if decide (unknown = []) then ""
                       else " Unrecognized values: " +:+ join ", " unknown +:+ ".")))
        else
          let target_foot := lower selected_foot in
          let input_stl :=
            if decide (target_foot = "left") then LEFT_FOOT_STL else RIGHT_FOOT_STL in
          if file_exists w input_stl then
            let expected_output_filename :=
              GENERATED_STL_BASE_FILENAME +:+ "_" +:+ target_foot +:+ ".ply" in
            inr (target_foot, expected_output_filename, zones,
                 command_line w target_foot input_stl expected_output_filename zones)
          else
            inl (error 404 ("Input STL file for " +:+ target_foot
                            +:+ " foot (UK size 8) not found."))
    else inl (error 405 "Method not allowed.")
  | _, _ => inl (error 500 "Server configuration error: Cannot validate zones.")
  end.

(** ** [/get_available_zones], lines 159-165 *)

(** The order of [sorted] on strings. *)
Definition str_le (a b : string) : Prop := String.leb a b = true.

#[export] Instance str_le_dec : RelDecision str_le.
Proof. intros a b. unfold str_le. apply _. Defined.

#[export] Instance str_le_total : Total str_le.
Proof. intros a b. apply String.leb_total. Qed.

Definition sorted_keys (keys : gset string) : list string :=
  merge_sort str_le (elements keys).

(** [None] is the [TypeError] of [list(None)]: the route does not test
    that the keys were loaded. *)
Definition get_available_zones (keys_left keys_right : option (gset string))
    : option (list string * list string) :=
  match keys_left, keys_right with
  | Some l, Some r => Some (sorted_keys l, sorted_keys r)
  | _, _ => None
  end.

(** * Theorems *)

(** ** The zone keys *)

(** The keys loaded from a configuration with categories are the
    upper-cased names of its categories except the two reserved names; a
    document without categories gives no key, and a missing or unreadable
    file gives no key set at all. *)
Theorem load_valid_zone_keys_spec (config : config_file) :
  (load_valid_zone_keys config = None ↔ config = ConfigMissing ∨ config = ConfigUnreadable) ∧
  (load_valid_zone_keys (ConfigData None) = Some ∅) ∧
  (∀ cats keys, load_valid_zone_keys (ConfigData (Some cats)) = Some keys →
     ∀ k, k ∈ keys ↔ (k ∉ reserved_names) ∧ (∃ name, Some name ∈ cats ∧ k = upper name)).
Proof.
  split; [|split; [done|]].
  - destruct config as [| |[cats|]]; naive_solver.
  - intros cats keys [= <-] k.
    rewrite elem_of_list_to_set, list_elem_of_filter, list_elem_of_fmap.
    setoid_rewrite list_elem_of_omap. split.
    + intros (Hk & name & -> & [name'|] & Hin & [= ->]). naive_solver.
    + intros (Hk & name & Hin & ->). split; [done|]. exists name. split; [done|].
      by exists (Some name).
Qed.

(** ** The mapping of the submitted values *)

Section MapAreas.
Context (valid : gset string).
Implicit Types (areas zs us : list string).

Lemma foldl_map_area_unknown areas zs us :
  (foldl (map_area valid) (zs, us) areas).2 = us ++ filter (λ a, upper a ∉ valid) areas.
Proof.
  revert zs us. induction areas as [|a areas IH]; intros zs us; simpl.
  - by rewrite app_nil_r.
  - unfold map_area at 2. simpl. rewrite filter_cons.
    destruct (decide (upper a ∈ valid)) as [Hin|Hin].
    + rewrite (decide_False (P := upper a ∉ valid)) by (intros H; by apply H).
      destruct (decide (upper a ∈ zs)); apply IH.
    + rewrite (decide_True (P := upper a ∉ valid)) by done. rewrite IH. by rewrite <- app_assoc.
Qed.

Lemma foldl_map_area_zones areas zs us z :
  z ∈ (foldl (map_area valid) (zs, us) areas).1 ↔
  z ∈ zs ∨ (z ∈ valid ∧ ∃ a, a ∈ areas ∧ z = upper a).
Proof.
  revert zs us. induction areas as [|a areas IH]; intros zs us; simpl.
  - split; [by left|]. intros [?|(_ & a & Ha%elem_of_nil & _)]; done.
  - unfold map_area at 2. simpl. setoid_rewrite elem_of_cons.
    destruct (decide (upper a ∈ valid)) as [Hin|Hin];
      [destruct (decide (upper a ∈ zs)) as [Hz|Hz]|]; rewrite IH;
      rewrite ?elem_of_app, ?list_elem_of_singleton; naive_solver.
Qed.

Lemma foldl_map_area_NoDup areas zs us :
  NoDup zs → NoDup (foldl (map_area valid) (zs, us) areas).1.
Proof.
  revert zs us. induction areas as [|a areas IH]; intros zs us Hnd; simpl; [done|].
  unfold map_area at 2. simpl.
  destruct (decide (upper a ∈ valid)); [destruct (decide (upper a ∈ zs))|];
    apply IH; [done | | done].
  apply NoDup_app. split; [done|]. split; [|apply NoDup_singleton].
  intros x Hx ->%list_elem_of_singleton. done.
Qed.

(** The zones handed to the generator are the upper-cased submitted
    values that are valid keys, each once; the values reported as unknown
    are the submitted values whose upper case is not a key, in the order
    submitted. *)
Theorem map_areas_spec areas :
  NoDup (map_areas valid areas).1 ∧
  (∀ z, z ∈ (map_areas valid areas).1 ↔ z ∈ valid ∧ ∃ a, a ∈ areas ∧ z = upper a) ∧
  (map_areas valid areas).2 = filter (λ a, upper a ∉ valid) areas.
Proof.
  unfold map_areas. split; [|split].
  - apply foldl_map_area_NoDup, NoDup_nil_2.
  - intros z. rewrite foldl_map_area_zones. split; [|by right].
    by intros [?%elem_of_nil|?].
  - apply foldl_map_area_unknown.
Qed.

End MapAreas.

(** ** The handler *)

Section Handler.
Context (w : world).
Implicit Types (req : request) (keys : option (gset string)).

Lemma map_areas_not_nil (valid : gset string) (areas : list string) :
  (map_areas valid areas).1 ≠ [] ↔ ∃ a, a ∈ areas ∧ upper a ∈ valid.
Proof.
  unfold map_areas. split.
  - destruct (foldl _ _ _).1 as [|z zs] eqn:E; [done|]. intros _.
    assert (Hz : z ∈ (foldl (map_area valid) ([], []) areas).1) by (rewrite E; by left).
    apply foldl_map_area_zones in Hz as [?%elem_of_nil|(Hv & a & Ha & ->)]; [done|].
    by exists a.
  - intros (a & Ha & Hin) E. apply (elem_of_nil (upper a)). rewrite <- E.
    apply foldl_map_area_zones. right. split; [done|]. by exists a.
Qed.

(** The foot chosen by a request that passes the test of line 68. *)
Lemma foot_accepted (field : option string) :
  falsy field || bool_decide (default "" field ∉ ["left"; "right"]) = false ↔
  field = Some "left" ∨ field = Some "right".
Proof.
  rewrite orb_false_iff, bool_decide_eq_false. split.
  - intros [Hf Hin]. destruct field as [foot|]; [|done]. simpl in Hin.
    apply dec_stable in Hin. set_solver.
  - intros [-> | ->]; split; try done; simpl; intros H; apply H; set_solver.
Qed.

(** The stages of the handler once the keys are loaded and the request
    is a POST that passes the validation of lines 65-73. *)
Lemma generate_slippers_valid valid_left valid_right req foot :
  req_method req = "POST" → form_areas req ≠ [] →
  form_foot req = Some foot → foot = "left" ∨ foot = "right" →
  falsy (form_size req) = false →
  let valid := if decide (foot = "left") then valid_left else valid_right in
  let zones := (map_areas valid (form_areas req)).1 in
  let input_stl := if decide (foot = "left") then LEFT_FOOT_STL else RIGHT_FOOT_STL in
  let output := GENERATED_STL_BASE_FILENAME +:+ "_" +:+ foot +:+ ".ply" in
  let command := command_line w foot input_stl output zones in
  generate_slippers (Some valid_left) (Some valid_right) w req =
  if decide (zones = []) then
    (error 400
       ("None of the selected areas could be mapped to known zones."
        +:+ (if decide ((map_areas valid (form_areas req)).2 = []) then ""
             else " Unrecognized values: "
                  +:+ join ", " (map_areas valid (form_areas req)).2 +:+ ".")), None)
  else if file_exists w input_stl then (run_script w foot output zones command, Some command)
  else (error 404 ("Input STL file for " +:+ foot +:+ " foot (UK size 8) not found."), None).
Proof.
  intros Hm Ha Hf Hfoot Hs. unfold generate_slippers.
  rewrite decide_True by done. rewrite (decide_False (P := form_areas req = [])) by done.
  rewrite (proj2 (foot_accepted (form_foot req))) by (rewrite Hf; naive_solver).
  rewrite Hs, Hf. cbv zeta. simpl default.
  destruct (map_areas _ _) as [zones unknown]. simpl.
  by destruct Hfoot as [-> | ->].
Qed.

End Handler.

Section HandlerFacts.
Context (w : world).
Implicit Types (req : request) (keys : option (gset string)).

(** The status codes of [run_script]. *)
Lemma run_script_status target_foot output zones command :
  status (run_script w target_foot output zones command) = 200 ∧
    (∃ stdout stderr, run w command = ScriptDone stdout stderr) ∧
    file_exists_after w command output = true ∧
    (∃ message url,
       res_body (run_script w target_foot output zones command)
       = SuccessBody message output url)
  ∨ status (run_script w target_foot output zones command) = 500 ∧
    ¬ ((∃ stdout stderr, run w command = ScriptDone stdout stderr) ∧
       file_exists_after w command output = true).
Proof.
  unfold run_script. destruct (run w command) eqn:E; simpl.
  1: destruct (file_exists_after w command output) eqn:Ex; simpl.
  1: left; naive_solver.
  all: right; naive_solver.
Qed.

(** A request that fails the checks of lines 55-73 is answered without
    running anything. *)
Lemma generate_slippers_refused keys_left keys_right req :
  keys_left = None ∨ keys_right = None ∨ req_method req ≠ "POST" ∨ form_areas req = [] ∨
  (form_foot req ≠ Some "left" ∧ form_foot req ≠ Some "right") ∨
  falsy (form_size req) = true →
  (generate_slippers keys_left keys_right w req).2 = None ∧
  status (generate_slippers keys_left keys_right w req).1 ∈ [400; 405; 500].
Proof.
  intros H. unfold generate_slippers.
  destruct keys_left as [vl|], keys_right as [vr|]; try (split; [done | set_solver]).
  case_decide as Hm; [|split; [done | set_solver]].
  case_decide as Ha; [split; [done | set_solver]|].
  destruct (falsy (form_foot req) || _) eqn:Ef; [split; [done | set_solver]|].
  apply foot_accepted in Ef.
  destruct (falsy (form_size req)) eqn:Es; [split; [done | set_solver]|].
  naive_solver.
Qed.

(** C20. The generator is started exactly for a POST request, with the
    keys of both feet loaded, that names at least one area whose upper
    case is a key of the chosen foot, a foot that is left or right, a
    size that is not empty, and when the sole of that foot is on disk. *)
Theorem generate_slippers_runs_iff keys_left keys_right req :
  is_Some (generate_slippers keys_left keys_right w req).2 ↔
  ∃ valid_left valid_right foot,
    keys_left = Some valid_left ∧ keys_right = Some valid_right ∧
    req_method req = "POST" ∧ form_foot req = Some foot ∧ foot ∈ ["left"; "right"] ∧
    falsy (form_size req) = false ∧
    (∃ a, a ∈ form_areas req ∧
          upper a ∈ (if decide (foot = "left") then valid_left else valid_right)) ∧
    file_exists w (if decide (foot = "left") then LEFT_FOOT_STL else RIGHT_FOOT_STL) = true.
Proof.
  split.
  - intros Hran.
    destruct (decide (keys_left = None ∨ keys_right = None ∨ req_method req ≠ "POST" ∨
                      form_areas req = [] ∨
                      (form_foot req ≠ Some "left" ∧ form_foot req ≠ Some "right") ∨
                      falsy (form_size req) = true)) as [Hbad|Hok].
    { apply generate_slippers_refused in Hbad as [E _]. rewrite E in Hran. by destruct Hran. }
    destruct keys_left as [vl|], keys_right as [vr|]; try (destruct Hok; naive_solver).
    destruct (form_foot req) as [foot|] eqn:Hf; [|destruct Hok; naive_solver].
    assert (foot = "left" ∨ foot = "right") as Hlr.
    { destruct (decide (foot = "left")), (decide (foot = "right")); naive_solver. }
    assert (req_method req = "POST") as Hm by (apply dec_stable; naive_solver).
    assert (form_areas req ≠ []) as Ha by naive_solver.
    assert (falsy (form_size req) = false) as Hs
      by (destruct (falsy (form_size req)); [destruct Hok; naive_solver | done]).
    rewrite (generate_slippers_valid w vl vr req foot) in Hran by done.
    cbv zeta in Hran. case_decide as Hz; [by destruct Hran|].
    destruct (file_exists w _) eqn:Hex; [|by destruct Hran].
    exists vl, vr, foot. repeat split; try done; [set_solver|].
    by apply map_areas_not_nil.
  - intros (vl & vr & foot & -> & -> & Hm & Hf & Hlr & Hs & Ha & Hex).
    assert (foot = "left" ∨ foot = "right") as Hlr' by set_solver.
    rewrite (generate_slippers_valid w vl vr req foot); try done.
    + cbv zeta. rewrite decide_False by (by apply map_areas_not_nil). by rewrite Hex.
    + destruct Ha as (a & Ha & _). intros E. rewrite E in Ha. by apply elem_of_nil in Ha.
Qed.

(** The handler is its first part followed by the run of the script. *)
Lemma generate_slippers_prepare keys_left keys_right req :
  generate_slippers keys_left keys_right w req =
  match prepare keys_left keys_right w req with
  | inl r => (r, None)
  | inr (target_foot, expected_output_filename, zones, command) =>
      (run_script w target_foot expected_output_filename zones command, Some command)
  end.
Proof.
  unfold generate_slippers, prepare. destruct keys_left, keys_right; try done.
  repeat (case_decide || destruct (_ || _) || destruct (falsy _) || destruct (map_areas _ _)
          || destruct (file_exists _ _)); done.
Qed.

(** What the handler returns when it does not refuse the request. *)
Lemma generate_slippers_cases keys_left keys_right req :
  (generate_slippers keys_left keys_right w req).2 = None ∧
    status (generate_slippers keys_left keys_right w req).1 ∈ [400; 404; 405; 500]
  ∨ ∃ valid_left valid_right foot,
      keys_left = Some valid_left ∧ keys_right = Some valid_right ∧
      form_foot req = Some foot ∧ (foot = "left" ∨ foot = "right") ∧
      let valid := if decide (foot = "left") then valid_left else valid_right in
      let zones := (map_areas valid (form_areas req)).1 in
      let input_stl := if decide (foot = "left") then LEFT_FOOT_STL else RIGHT_FOOT_STL in
      let output := GENERATED_STL_BASE_FILENAME +:+ "_" +:+ foot +:+ ".ply" in
      let command := command_line w foot input_stl output zones in
      zones ≠ [] ∧
      generate_slippers keys_left keys_right w req
      = (run_script w foot output zones command, Some command).
Proof.
  destruct (decide (keys_left = None ∨ keys_right = None ∨ req_method req ≠ "POST" ∨
                    form_areas req = [] ∨
                    (form_foot req ≠ Some "left" ∧ form_foot req ≠ Some "right") ∨
                    falsy (form_size req) = true)) as [Hbad|Hok].
  { left. apply generate_slippers_refused in Hbad as [E Hst]. split; [done | set_solver]. }
  destruct keys_left as [vl|], keys_right as [vr|]; try (destruct Hok; naive_solver).
  destruct (form_foot req) as [foot|] eqn:Hf; [|destruct Hok; naive_solver].
  assert (foot = "left" ∨ foot = "right") as Hlr.
  { destruct (decide (foot = "left")), (decide (foot = "right")); naive_solver. }
  assert (req_method req = "POST") as Hm by (apply dec_stable; naive_solver).
  assert (form_areas req ≠ []) as Ha by naive_solver.
  assert (falsy (form_size req) = false) as Hs
    by (destruct (falsy (form_size req)); [destruct Hok; naive_solver | done]).
  rewrite (generate_slippers_valid w vl vr req foot) by done. cbv zeta.
  case_decide as Hz; [left; split; [done | set_solver]|].
  destruct (file_exists w _) eqn:Hex; [|left; split; [done | set_solver]].
  right. by exists vl, vr, foot.
Qed.

(** C21. The answer of the handler has one of five status codes; it is
    200 only if the generator was started, ended without error and left
    its output file, and the body then names that file; every refusal
    before the start is a 400, 404 or 405, or the 500 of the missing zone
    configuration. *)
Theorem generate_slippers_status keys_left keys_right req :
  let r := generate_slippers keys_left keys_right w req in
  status r.1 ∈ [200; 400; 404; 405; 500] ∧
  (r.2 = None → status r.1 ≠ 200) ∧
  (status r.1 = 200 →
   ∃ command stdout stderr message filename url,
     r.2 = Some command ∧ run w command = ScriptDone stdout stderr ∧
     file_exists_after w command filename = true ∧
     res_body r.1 = SuccessBody message filename url).
Proof.
  cbv zeta.
  destruct (generate_slippers_cases keys_left keys_right req)
    as [[E Hst]|(vl & vr & foot & _ & _ & _ & _ & _ & E)].
  - split; [set_solver|]. split; [intros _ H|intros H]; rewrite H in Hst; set_solver.
  - rewrite E. cbn [fst snd].
    match goal with
    | |- context [run_script w ?f ?o ?z ?c] =>
        destruct (run_script_status f o z c)
          as [(Hs & (out & err & Hrun) & Hex & msg & url & Hb)|[Hs _]]
    end.
    + split; [rewrite Hs; set_solver|]. split; [done|]. intros _.
      eexists _, out, err, msg, _, url. by repeat split.
    + split; [rewrite Hs; set_solver|]. split; [done|]. intros H. by rewrite H in Hs.
Qed.

(** The command the handler runs: the script with the foot, the
    sole of that foot, the output name made from the foot, and then the
    zones, which are not empty, without repetition, and all keys of the
    chosen foot. *)
Theorem generate_slippers_command keys_left keys_right req command :
  (generate_slippers keys_left keys_right w req).2 = Some command →
  ∃ valid_left valid_right foot zones,
    keys_left = Some valid_left ∧ keys_right = Some valid_right ∧
    (foot = "left" ∨ foot = "right") ∧
    command =
      [python_executable w; "generate_slippers.py"; "--foot"; foot; "--input";
       if decide (foot = "left") then "Shoe_Sole_UK_8_Left.stl"
       else "Shoe_Sole_UK_8_Right.stl";
       "--output"; "sole_with_spikes_" +:+ foot +:+ ".ply"] ++ zones ∧
    zones ≠ [] ∧ NoDup zones ∧
    ∀ z, z ∈ zones → z ∈ (if decide (foot = "left") then valid_left else valid_right).
Proof.
  destruct (generate_slippers_cases keys_left keys_right req)
    as [[E _]|(vl & vr & foot & -> & -> & _ & Hlr & Hz & E)]; [by rewrite E|].
  rewrite E. intros [= <-].
  exists vl, vr, foot,
    (map_areas (if decide (foot = "left") then vl else vr) (form_areas req)).1.
  repeat split; try done.
  - apply foldl_map_area_NoDup, NoDup_nil_2.
  - intros z [?%elem_of_nil|[? _]]%foldl_map_area_zones; done.
Qed.

End HandlerFacts.

(** ** The diagnostic of a failed run *)

Lemma substring_length (n : nat) (s : string) :
  (String.length (String.substring 0 n s) ≤ n)%nat.
Proof.
  revert s. induction n as [|n IH]; intros [|c s]; simpl; try lia.
  specialize (IH s). lia.
Qed.

(** A generator that ends with an error is answered with status 500
    and an excerpt of at most 500 characters of what it wrote: of its
    error output, or of its output when that is empty, or a fixed text
    when both are. *)
Theorem run_script_failed (w : world) target_foot output zones command returncode stdout stderr :
  run w command = ScriptFailed returncode stdout stderr →
  ∃ details,
    run_script w target_foot output zones command
    = error 500 ("Error during generation: " +:+ details) ∧
    (String.length details ≤ 500)%nat ∧
    details = String.substring 0 500
                (if decide (stderr ≠ "") then stderr
                 else if decide (stdout ≠ "") then stdout else "Unknown script error").
Proof.
  intros Hrun. unfold run_script. rewrite Hrun. eexists. split; [done|].
  split; [apply substring_length|]. unfold str_or. by repeat case_decide.
Qed.

(** ** What the handler asks of its world *)

(** The first part of the handler depends on the world through the name
    of the interpreter and the presence of the two soles. *)
Lemma prepare_ext keys_left keys_right (w w' : world) (req : request) :
  python_executable w = python_executable w' →
  (∀ path, path ∈ [LEFT_FOOT_STL; RIGHT_FOOT_STL] → file_exists w path = file_exists w' path) →
  prepare keys_left keys_right w req = prepare keys_left keys_right w' req.
Proof.
  intros Hp He. unfold prepare, command_line. destruct keys_left, keys_right; try done.
  rewrite Hp.
  repeat (case_decide || destruct (_ || _) || destruct (falsy _) || destruct (map_areas _ _));
    try done; (rewrite He by set_solver); done.
Qed.

(** The second part depends on it through the outcome of the command,
    the address it makes, and the presence of the output when the
    command ended well. *)
Lemma run_script_ext (w w' : world) (target_foot output : string) (zones command : list string) :
  run w command = run w' command →
  (∀ stdout stderr, run w command = ScriptDone stdout stderr →
     file_exists_after w command output = file_exists_after w' command output) →
  url_for_get_stl w output = url_for_get_stl w' output →
  run_script w target_foot output zones command
  = run_script w' target_foot output zones command.
Proof.
  intros Hr He Hu. unfold run_script. rewrite <- Hr.
  destruct (run w command) eqn:E; try done. by rewrite (He _ _ eq_refl), Hu.
Qed.

(** ** The handler and the generator *)

Section Contract.
Context (cats : list category).

(** The configuration the handler reads is the annotation file the
    generator reads. *)
Definition config_of : config_file := ConfigData (Some ((λ c, Some (cat_name c)) <$> cats)).

Lemma key_resolves (keys : gset string) (z : string) :
  load_valid_zone_keys config_of = Some keys → z ∈ keys →
  ∃ ids, zone_name_to_ids cats !! lower z = Some ids ∧ ids ≠ [].
Proof.
  intros [= <-]. rewrite elem_of_list_to_set, list_elem_of_filter, list_elem_of_fmap.
  intros (_ & name & -> & Hname). apply list_elem_of_omap in Hname as (o & Ho & Hid).
  apply list_elem_of_fmap in Ho as (c & -> & Hc). injection Hid as <-.
  rewrite lower_upper, zone_name_to_ids_lookup.
  assert (Hin : cat_id c ∈ ids_named (lower (cat_name c)) cats)
    by (apply elem_of_ids_named; by exists c).
  case_decide as E; [rewrite E in Hin; by apply elem_of_nil in Hin|].
  by eexists.
Qed.

(** The generator accepts what the handler sends: zone names that
    are keys loaded from an annotation file all resolve in the generator
    reading the same file, so the run is not refused for want of a
    matching category and prints no warning for an unknown zone. *)
Theorem keys_resolve (keys : gset string) (zones : list string) :
  load_valid_zone_keys config_of = Some keys →
  zones ≠ [] → (∀ z, z ∈ zones → z ∈ keys) →
  ∃ ids, resolve cats zones = inr (ids, []) ∧ ids ≠ [].
Proof.
  intros Hk Hne Hall. unfold resolve. rewrite selected_ids_spec. cbn [fst].
  unfold selected_zones.
  assert (Hw : filter (λ z, zone_name_to_ids cats !! z = None) (lower <$> zones) = []).
  { apply filter_nil_Forall, Forall_forall. intros z' (z & -> & Hz)%list_elem_of_fmap.
    destruct (key_resolves keys z Hk (Hall z Hz)) as (ids & -> & _). done. }
  rewrite Hw.
  destruct zones as [|z zones]; [done|]. rewrite fmap_cons, bind_cons.
  destruct (key_resolves keys z Hk (Hall z ltac:(by left))) as (ids & -> & Hids).
  simpl default. destruct ids as [|id ids]; [done|].
  rewrite bool_decide_eq_false_2 by done. by eexists.
Qed.

End Contract.

(** ** The list of zones *)

(** The zones offered to the page are the keys of each foot in
    ascending order, each once; the route fails when a key set was not
    loaded, which it does not test. *)
Theorem get_available_zones_spec (keys_left keys_right : option (gset string)) :
  (get_available_zones keys_left keys_right = None ↔ keys_left = None ∨ keys_right = None) ∧
  (∀ l r, keys_left = Some l → keys_right = Some r →
     ∃ ls rs, get_available_zones keys_left keys_right = Some (ls, rs) ∧
       Sorted str_le ls ∧ NoDup ls ∧ (∀ k, k ∈ ls ↔ k ∈ l) ∧
       Sorted str_le rs ∧ NoDup rs ∧ (∀ k, k ∈ rs ↔ k ∈ r)).
Proof.
  split; [destruct keys_left, keys_right; naive_solver|].
  intros l r -> ->. exists (sorted_keys l), (sorted_keys r). unfold sorted_keys.
  repeat split; try apply Sorted_merge_sort, _;
    try (rewrite merge_sort_Permutation; apply NoDup_elements);
    rewrite merge_sort_Permutation, elem_of_elements; done.
Qed.

(** * Concrete runs *)

Definition demo_keys : gset string := {["HEART"; "LIVER"]}.

(** A world in which both soles are on disk and the generator succeeds. *)
Definition demo_world : world :=
  mkWorld "python3" (λ _, true) (λ _, ScriptDone "" "") (λ _ _, true)
          (λ filename, "http://localhost/get_stl/" +:+ filename).

(** The same world with a generator that fails. *)
Definition failing_world : world :=
  mkWorld "python3" (λ _, true) (λ _, ScriptFailed 1 "" "no matching categories")
          (λ _ _, false) (λ filename, "http://localhost/get_stl/" +:+ filename).

Definition demo_request : request :=
  mkRequest "POST" ["heart"; "Heart"; "toe"] (Some "left") (Some "8").

(** The request is answered with 200; the zone is passed once, in upper
    case, and the unknown value is dropped without a word. *)
Example demo_run :
  generate_slippers (Some demo_keys) (Some demo_keys) demo_world demo_request =
  (mkResponse 200
     (SuccessBody "Generation successful for left foot. Processed zones: HEART"
        "sole_with_spikes_left.ply" "http://localhost/get_stl/sole_with_spikes_left.ply"),
   Some ["python3"; "generate_slippers.py"; "--foot"; "left"; "--input";
         "Shoe_Sole_UK_8_Left.stl"; "--output"; "sole_with_spikes_left.ply"; "HEART"]).
Proof. by vm_compute. Qed.

(** Values that match no key are refused with their list. *)
Example demo_unknown :
  generate_slippers (Some demo_keys) (Some demo_keys) demo_world
    (mkRequest "POST" ["toe"; "heel"] (Some "right") (Some "8")) =
  (error 400 ("None of the selected areas could be mapped to known zones."
              +:+ " Unrecognized values: toe, heel."), None).
Proof. by vm_compute. Qed.

Lemma generate_slippers_command_witness :
  ∃ valid_left valid_right foot zones,
    Some demo_keys = Some valid_left ∧ Some demo_keys = Some valid_right ∧
    (foot = "left" ∨ foot = "right") ∧
    ["python3"; "generate_slippers.py"; "--foot"; "left"; "--input";
     "Shoe_Sole_UK_8_Left.stl"; "--output"; "sole_with_spikes_left.ply"; "HEART"] =
      [python_executable demo_world; "generate_slippers.py"; "--foot"; foot; "--input";
       if decide (foot = "left") then "Shoe_Sole_UK_8_Left.stl"
       else "Shoe_Sole_UK_8_Right.stl";
       "--output"; "sole_with_spikes_" +:+ foot +:+ ".ply"] ++ zones ∧
    zones ≠ [] ∧ NoDup zones ∧
    ∀ z, z ∈ zones → z ∈ (if decide (foot = "left") then valid_left else valid_right).
Proof.
  apply (generate_slippers_command demo_world (Some demo_keys) (Some demo_keys) demo_request).
  by vm_compute.
Defined.

Lemma run_script_failed_witness :
  ∃ details,
    run_script failing_world "left" "sole_with_spikes_left.ply" ["HEART"] ["python3"]
    = error 500 ("Error during generation: " +:+ details) ∧
    (String.length details ≤ 500)%nat ∧
    details = String.substring 0 500
                (if decide ("no matching categories" ≠ "") then "no matching categories"
                 else if decide ("" ≠ "") then "" else "Unknown script error").
Proof.
  apply (run_script_failed failing_world "left" "sole_with_spikes_left.ply" ["HEART"]
           ["python3"] 1 "" "no matching categories").
  reflexivity.
Defined.

Lemma keys_resolve_witness :
  ∃ ids, resolve demo_categories ["HEART"; "LIVER"] = inr (ids, []) ∧ ids ≠ [].
Proof.
  refine (keys_resolve demo_categories _ ["HEART"; "LIVER"] eq_refl _ _); [done|].
  intros z Hz. apply (bool_decide_unpack _).
  repeat (apply elem_of_cons in Hz as [->|Hz]; [by vm_compute|]).
  by apply elem_of_nil in Hz.
Defined.

Example demo_available :
  get_available_zones (Some {["LIVER"; "HEART"]}) (Some {["HEART"]})
  = Some (["HEART"; "LIVER"], ["HEART"]).
Proof. by vm_compute. Qed.
