(* ===== verification/Server.v ===== *)
(** * The web application as a whole

    [app.py] outside the handler of [WebApp]: the configuration of lines
    13-16, the loading of the zone keys when the module starts (lines
    43-46), the pages and files of lines 49-51 and 150-157, the start of
    the server (lines 167-173), and the way a request reaches a handler.

    Which handler a request reaches is decided by Flask from the route
    decorators of lines 49, 53, 150 and 159.  [url_map] states what the
    four decorators declare: the paths, the methods (those given, or GET
    and HEAD when none is given) and the one path parameter.  Flask's own
    routes and redirects are not modelled.  A reply is what the handler
    returns, or the error response Flask makes when no handler is
    reached or a handler raises. *)

From stdpp Require Import gmap strings list sorting.
From S2P Require Import Prelude Zones Dicts WebApp.
Local Open Scope string_scope.
Local Open Scope list_scope.

(** ** Configuration, lines 13-16 *)

Definition LEFT_ZONE_CONFIG_FILE : string := "Left_reflexology_zones.json".
Definition RIGHT_ZONE_CONFIG_FILE : string := "Right_reflexology_zones.json".
Definition STL_SERVE_DIRECTORY_NAME : string := ".".

(** ** The zone keys, lines 43-46 *)

(** The two module level variables that hold the keys. *)
Record app_keys : Type := mkKeys {
  VALID_INTERNAL_ZONE_KEYS_LEFT : option (gset string);
  VALID_INTERNAL_ZONE_KEYS_RIGHT : option (gset string)
}.

(** Lines 43-44, for what is found at the two paths. *)
Definition load_keys (read_config : string → config_file) : app_keys :=
  mkKeys (load_valid_zone_keys (read_config LEFT_ZONE_CONFIG_FILE))
         (load_valid_zone_keys (read_config RIGHT_ZONE_CONFIG_FILE)).

(** The test of lines 45, 55 and 168. *)
Definition keys_missing (k : app_keys) : bool :=
  bool_decide (VALID_INTERNAL_ZONE_KEYS_LEFT k = None ∨ VALID_INTERNAL_ZONE_KEYS_RIGHT k = None).

(** Lines 167-173: the script either leaves without serving or serves
    after printing how many keys it has for each foot. *)
Inductive start_up : Type :=
| Exits
| Serves (left_keys right_keys : nat).

Definition app_main (k : app_keys) : start_up :=
  match VALID_INTERNAL_ZONE_KEYS_LEFT k, VALID_INTERNAL_ZONE_KEYS_RIGHT k with
  | Some l, Some r => Serves (size l) (size r)
  | _, _ => Exits
  end.

(** ** Routes *)

Inductive endpoint : Type :=
| Index                         (* line 49 *)
| GenerateSlippers              (* line 53 *)
| GetStl (filename : string)    (* line 150 *)
| GetAvailableZones.            (* line 159 *)

(** What Flask does with a request: it calls a handler, or answers by
    itself when no rule matches the path (404), when the method is
    OPTIONS (200) or when the rule does not allow the method (405). *)
Inductive routed : Type :=
| Handler (e : endpoint)
| NoRoute
| AutomaticOptions
| WrongMethod.

Definition allowed (methods : list string) (method : string) (e : endpoint) : routed :=
  if decide (method ∈ methods) then Handler e
  else if decide (method = "OPTIONS") then AutomaticOptions
  else WrongMethod.

(** The path after a prefix, when it is there. *)
Fixpoint strip_prefix (prefix s : string) : option string :=
  match prefix, s with
  | EmptyString, _ => Some s
  | String a prefix, String b s => if decide (a = b) then strip_prefix prefix s else None
  | String _ _, EmptyString => None
  end.

Definition url_map (method path : string) : routed :=
  if decide (path = "/") then allowed ["GET"; "HEAD"] method Index
  else if decide (path = "/generate_slippers") then allowed ["POST"] method GenerateSlippers
  else if decide (path = "/get_available_zones")
       then allowed ["GET"; "HEAD"] method GetAvailableZones
  else
    match strip_prefix "/get_stl/" path with
    | Some filename =>
        if decide (filename = "") then NoRoute
        else allowed ["GET"; "HEAD"] method (GetStl filename)
    | None => NoRoute
    end.

(** ** Replies *)

Section Replies.
Context {content : Type}.

(** What [send_from_directory] does for a file name: it sends the file,
    or raises the exception of the web framework for a missing file, or
    [FileNotFoundError]. *)
Inductive send_result : Type :=
| Sent (c : content)
| RaisesNotFound
| RaisesFileNotFoundError.

Inductive reply : Type :=
| Json (r : response)                       (* jsonify(...), code *)
| Page (template : string)                  (* render_template *)
| FileBody (c : content)                    (* send_from_directory *)
| ZoneLists (ls rs : list string)           (* lines 162-165 *)
| Framework (code : nat).                   (* made by Flask *)

Definition reply_status (r : reply) : nat :=
  match r with
  | Json r => status r
  | Page _ | FileBody _ | ZoneLists _ _ => 200
  | Framework code => code
  end.

#[export] Instance Json_inj : Inj (=) (=) Json.
Proof. by intros ?? [=]. Qed.

(** Lines 50-51. *)
Definition index : reply := Page "AccuFoot.html".

(** Lines 151-157.  Only [FileNotFoundError] is caught; the exception of
    the framework reaches Flask, which answers 404 by itself. *)
Definition get_stl (send : string → send_result) (filename : string) : reply :=
  match send filename with
  | Sent c => FileBody c
  | RaisesFileNotFoundError => Json (error 404 "File not found")
  | RaisesNotFound => Framework 404
  end.

(** Lines 160-165 as a reply: the [TypeError] of [list(None)] reaches
    Flask, which answers 500. *)
Definition available_zones (k : app_keys) : reply :=
  match get_available_zones (VALID_INTERNAL_ZONE_KEYS_LEFT k)
                            (VALID_INTERNAL_ZONE_KEYS_RIGHT k) with
  | Some (ls, rs) => ZoneLists ls rs
  | None => Framework 500
  end.

(** A request as it arrives: method, path and the form fields. *)
Record http_request : Type := mkHttp {
  http_method : string;
  http_path : string;
  http_areas : list string;
  http_foot : option string;
  http_size : option string
}.

Definition form_of (q : http_request) : request :=
  mkRequest (http_method q) (http_areas q) (http_foot q) (http_size q).

(** The application: the reply to a request and the command that was
    run for it, if one was. *)
Definition handle (k : app_keys) (w : world) (send : string → send_result)
    (q : http_request) : reply * option (list string) :=
  match url_map (http_method q) (http_path q) with
  | Handler Index => (index, None)
  | Handler GenerateSlippers =>
      let r := generate_slippers (VALID_INTERNAL_ZONE_KEYS_LEFT k)
                                 (VALID_INTERNAL_ZONE_KEYS_RIGHT k) w (form_of q) in
      (Json r.1, r.2)
  | Handler (GetStl filename) => (get_stl send filename, None)
  | Handler GetAvailableZones => (available_zones k, None)
  | NoRoute => (Framework 404, None)
  | AutomaticOptions => (Framework 200, None)
  | WrongMethod => (Framework 405, None)
  end.

End Replies.

Arguments send_result : clear implicits.
Arguments reply : clear implicits.

(** * Theorems *)

(** ** Routes *)

Lemma strip_prefix_Some (prefix s r : string) :
  strip_prefix prefix s = Some r ↔ s = prefix +:+ r.
Proof.
  revert s. induction prefix as [|a prefix IH]; intros s; simpl.
  - split; [by intros [= ->] | by intros ->].
  - destruct s as [|b s]; [done|]. case_decide as Hab.
    + subst b. rewrite IH. split; [by intros -> | by intros [= ->]].
    + split; [done | intros [= ? _]; by subst].
Qed.

Lemma allowed_Handler (methods : list string) (method : string) (e e' : endpoint) :
  allowed methods method e = Handler e' ↔ e = e' ∧ method ∈ methods.
Proof. unfold allowed. repeat case_decide; naive_solver. Qed.

(** The handler of the generator is reached by a POST to its path and by
    nothing else. *)
Lemma url_map_generate (method path : string) :
  url_map method path = Handler GenerateSlippers ↔
  path = "/generate_slippers" ∧ method = "POST".
Proof.
  unfold url_map. repeat case_decide; subst; rewrite ?allowed_Handler;
    try (split; [naive_solver | by intros [[=] _]]).
  - split; [intros [_ ?]; set_solver | intros [_ ->]; set_solver].
  - destruct (strip_prefix _ _); [case_decide|]; rewrite ?allowed_Handler; naive_solver.
Qed.

(** A file is asked for by a GET or HEAD below [/get_stl/]. *)
Lemma url_map_get_stl (method filename : string) :
  filename ≠ "" → method ∈ ["GET"; "HEAD"] →
  url_map method ("/get_stl/" +:+ filename) = Handler (GetStl filename).
Proof.
  intros Hne Hm. unfold url_map. rewrite !decide_False by done.
  rewrite (proj2 (strip_prefix_Some "/get_stl/" _ filename)) by done.
  rewrite decide_False by done. unfold allowed. by rewrite decide_True.
Qed.

(** ** The handlers *)

Section Handlers.
Context {content : Type} (k : app_keys) (w : world) (send : string → send_result content).
Implicit Types (q : http_request) (req : request).

(** The handler's own test of the method never fails for a POST. *)
Lemma generate_slippers_post_status keys_left keys_right req :
  req_method req = "POST" →
  status (generate_slippers keys_left keys_right w req).1 ∈ [200; 400; 404; 500].
Proof.
  intros Hm. unfold generate_slippers. destruct keys_left, keys_right; try (simpl; set_solver).
  rewrite decide_True by done.
  repeat (destruct (_ || _) || destruct (falsy _) || destruct (map_areas _ _)
          || case_decide || destruct (file_exists _ _)); try (simpl; set_solver).
  all: cbn [fst]; match goal with |- status (run_script w ?f ?o ?z ?c) ∈ _ =>
      destruct (run_script_status w f o z c) as [[-> _]|[-> _]] end; set_solver.
Qed.

(** With both sets of keys the handler never gives the answer of line 57. *)
Lemma generate_slippers_configured valid_left valid_right req :
  (generate_slippers (Some valid_left) (Some valid_right) w req).1
  ≠ error 500 "Server configuration error: Cannot validate zones.".
Proof.
  unfold generate_slippers, run_script.
  repeat (case_decide || destruct (_ || _) || destruct (falsy _) || destruct (map_areas _ _)
          || destruct (file_exists _ _) || destruct (run _ _)
          || destruct (file_exists_after _ _ _)); by cbn.
Qed.

Lemma get_stl_status filename : reply_status (get_stl send filename) ∈ [200; 404].
Proof. unfold get_stl. destruct (send filename); set_solver. Qed.

Lemma available_zones_status :
  reply_status (available_zones (content := content) k) ∈ [200; 500].
Proof. unfold available_zones. destruct (get_available_zones _ _) as [[]|]; set_solver. Qed.

(** A command is run only by the handler of the generator, for a POST. *)
Lemma handle_command q (command : list string) :
  (handle k w send q).2 = Some command →
  url_map (http_method q) (http_path q) = Handler GenerateSlippers ∧
  (generate_slippers (VALID_INTERNAL_ZONE_KEYS_LEFT k) (VALID_INTERNAL_ZONE_KEYS_RIGHT k)
     w (form_of q)).2 = Some command.
Proof. unfold handle. by destruct (url_map _ _) as [[| |filename|]| | |]. Qed.

(** The reply of the handler of the generator. *)
Lemma handle_generate q :
  url_map (http_method q) (http_path q) = Handler GenerateSlippers →
  handle k w send q =
  (Json (generate_slippers (VALID_INTERNAL_ZONE_KEYS_LEFT k) (VALID_INTERNAL_ZONE_KEYS_RIGHT k)
           w (form_of q)).1,
   (generate_slippers (VALID_INTERNAL_ZONE_KEYS_LEFT k) (VALID_INTERNAL_ZONE_KEYS_RIGHT k)
      w (form_of q)).2).
Proof. unfold handle. by intros ->. Qed.

(** The reply to a request for a file. *)
Lemma handle_get_stl q (filename : string) :
  url_map (http_method q) (http_path q) = Handler (GetStl filename) →
  handle k w send q = (get_stl send filename, None).
Proof. unfold handle. by intros ->. Qed.

(** C23. Every request is answered with one of five status codes.  The
    answer is 405 exactly when the rule of the path does not allow the
    method, and then it is the framework that answers: the reply of
    lines 147-148 of [app.py], "Method not allowed.", is never given. *)
Theorem handle_status q :
  let r := (handle k w send q).1 in
  reply_status r ∈ [200; 400; 404; 405; 500] ∧
  (reply_status r = 405 ↔ url_map (http_method q) (http_path q) = WrongMethod) ∧
  r ≠ Json (error 405 "Method not allowed.").
Proof.
  unfold handle. destruct (url_map _ _) as [[| |filename|]| | |] eqn:Hroute; cbn.
  - split_and!; [set_solver | done | done].
  - apply url_map_generate in Hroute as [_ Hm].
    pose proof (generate_slippers_post_status (VALID_INTERNAL_ZONE_KEYS_LEFT k)
                  (VALID_INTERNAL_ZONE_KEYS_RIGHT k) (form_of q) Hm) as Hs.
    split_and!; [set_solver | split; [intros E; rewrite E in Hs; set_solver | done] |].
    intros [= E]. rewrite E in Hs. set_solver.
  - pose proof (get_stl_status filename) as Hs.
    split_and!; [set_solver | split; [intros E; rewrite E in Hs; set_solver | done] |].
    unfold get_stl. by destruct (send filename).
  - pose proof available_zones_status as Hs.
    split_and!; [set_solver | split; [intros E; rewrite E in Hs; set_solver | done] |].
    unfold available_zones. by destruct (get_available_zones _ _) as [[]|].
  - split_and!; [set_solver | done | done].
  - split_and!; [set_solver | done | done].
  - split_and!; [set_solver | done | done].
Qed.

End Handlers.

(** ** Start up *)

Lemma app_main_exits (k : app_keys) : app_main k = Exits ↔ keys_missing k = true.
Proof.
  unfold app_main, keys_missing. rewrite bool_decide_eq_true.
  destruct k as [[l|] [r|]]; naive_solver.
Qed.

Lemma sorted_keys_length (keys : gset string) : length (sorted_keys keys) = size keys.
Proof. unfold sorted_keys. by rewrite merge_sort_Permutation. Qed.

(** When the script reaches [app.run] both configuration files were
    read, every request for the generator is tested (the answer of line
    57 is never given), and the list of zones has as many names for each
    foot as the start up printed. *)
Theorem app_main_serves {content : Type} (read_config : string → config_file) (w : world)
    (send : string → send_result content) (q : http_request) (n m : nat) :
  app_main (load_keys read_config) = Serves n m →
  (∀ f, f ∈ [LEFT_ZONE_CONFIG_FILE; RIGHT_ZONE_CONFIG_FILE] →
     ∃ categories, read_config f = ConfigData categories) ∧
  (handle (load_keys read_config) w send q).1
    ≠ Json (error 500 "Server configuration error: Cannot validate zones.") ∧
  ∃ ls rs, available_zones (content := content) (load_keys read_config) = ZoneLists ls rs ∧
           length ls = n ∧ length rs = m.
Proof.
  unfold app_main, load_keys, available_zones, handle. cbn [VALID_INTERNAL_ZONE_KEYS_LEFT
    VALID_INTERNAL_ZONE_KEYS_RIGHT].
  destruct (load_valid_zone_keys (read_config LEFT_ZONE_CONFIG_FILE)) as [l|] eqn:El; [|done].
  destruct (load_valid_zone_keys (read_config RIGHT_ZONE_CONFIG_FILE)) as [r|] eqn:Er; [|done].
  intros [= <- <-]. split_and!.
  - intros f Hf. assert (is_Some (load_valid_zone_keys (read_config f))) as [x Hx]
      by (set_unfold; destruct Hf as [->|[->|[]]]; eauto).
    destruct (read_config f); try done. eauto.
  - destruct (url_map _ _) as [[| |filename|]| | |]; cbn [fst]; try done.
    + intros E%(inj Json). by apply generate_slippers_configured in E.
    + unfold get_stl. by destruct (send filename).
  - eexists _, _. split; [done|]. by rewrite !sorted_keys_length.
Qed.

(** * Concrete requests *)

(** A configuration with a category without a name and one of the two
    names that are not zones. *)
Definition demo_config (path : string) : config_file :=
  ConfigData (Some [Some "Heart"; None; Some "Left_Foot_Organs"; Some "liver"]).

Definition demo_send (filename : string) : send_result string :=
  if decide (filename = "sole_with_spikes_left.ply") then Sent "ply" else RaisesNotFound.

Definition demo_http : http_request :=
  mkHttp "POST" "/generate_slippers" ["heart"] (Some "left") (Some "8").

Example demo_app_main : app_main (load_keys demo_config) = Serves 2 2.
Proof. by vm_compute. Qed.

(** Without one of the files the script does not serve. *)
Example demo_app_main_exits :
  app_main (load_keys (λ path, if decide (path = RIGHT_ZONE_CONFIG_FILE) then ConfigMissing
                               else demo_config path)) = Exits.
Proof. reflexivity. Qed.

(** The routes: a GET on the route of the generator and a POST on the
    page are refused by the framework, OPTIONS is answered by it, and a
    path below [/get_stl/] may have further slashes. *)
Example demo_routes :
  url_map "GET" "/generate_slippers" = WrongMethod ∧
  url_map "POST" "/" = WrongMethod ∧
  url_map "OPTIONS" "/generate_slippers" = AutomaticOptions ∧
  url_map "HEAD" "/get_available_zones" = Handler GetAvailableZones ∧
  url_map "GET" "/get_stl/" = NoRoute ∧
  url_map "GET" "/get_stl/a/b.ply" = Handler (GetStl "a/b.ply") ∧
  url_map "GET" "/favicon.ico" = NoRoute.
Proof. by vm_compute. Qed.

(** When the keys are missing and the application is served all the
    same, the list of zones is a 500 of the framework. *)
Example demo_zones_without_keys :
  (handle (mkKeys None (Some ∅)) demo_world demo_send
     (mkHttp "GET" "/get_available_zones" [] None None)).1 = Framework 500.
Proof. reflexivity. Qed.

Lemma app_main_serves_witness :
  (∀ f, f ∈ [LEFT_ZONE_CONFIG_FILE; RIGHT_ZONE_CONFIG_FILE] →
     ∃ categories, demo_config f = ConfigData categories) ∧
  (handle (load_keys demo_config) demo_world demo_send demo_http).1
    ≠ Json (error 500 "Server configuration error: Cannot validate zones.") ∧
  ∃ ls rs, available_zones (content := string) (load_keys demo_config) = ZoneLists ls rs ∧
           length ls = 2 ∧ length rs = 2.
Proof. apply (app_main_serves demo_config demo_world demo_send demo_http 2 2). by vm_compute. Defined.
