(* ===== verification/Cli.v ===== *)
(** * The command line of the generator

    [generate_slippers.py] lines 12-17: the parser with its three options
    and its list of zones, and [parser.parse_args()].  The parser is the
    one of Python's standard library; what it does with a command line
    is modelled here from its rules, for the four arguments of lines
    13-16 and the [-h]/[--help] option every parser has:

    - [parse_optional] sorts one argument: a positional argument, an
      option (written in full, abbreviated to a prefix that fits one
      option only, or joined to its value by [=]), or an option the
      parser does not know.  An argument that looks like a negative
      number or holds a space is positional;
    - [classify] sorts the command line up to the first [--], after
      which everything is positional;
    - [consume] reads the arguments from the left: an option takes the
      argument after it as its value, [--foot] refuses a value that is
      not one of its choices, the first run of positional arguments is
      the list of zones and a later one is left over;
    - [conclude] refuses a command line with arguments left over or
      without [--foot] or [--input].

    [parse_args] gives the arguments, or the way the process ends
    instead: with status 2 after a message on the standard error
    ([Usage]), or with status 0 after the help text ([HelpPrinted]).
    One more result is a namespace the script cannot use
    ([ParsedList]): the parser drops the first [--] among the arguments
    of every action, so [--foot=--] and [--input=--] store an empty
    list, on which line 19 or line 25 raises.

    The rules are those of [Lib/argparse.py] of CPython 3.11
    ([_parse_optional], [_get_option_tuples], [_parse_known_args],
    [_get_values]).  Later versions of the library differ on command
    lines that [app.py] never builds: a cluster of single dash options
    after [-h], a value [--] joined by [=], and an ambiguous
    abbreviation that follows [--help].  Strings are strings of bytes
    and digits are the ten ASCII digits; the parser of Python also
    takes the decimal digits of other scripts for digits. *)

From stdpp Require Import strings list sets.
From Stdlib Require Import Ascii.
From S2P Require Import Prelude.
Local Open Scope string_scope.
Local Open Scope list_scope.

(** ** The arguments, lines 13-17 *)

(** [args]: [--foot] is one of [left] and [right], [--input] is required,
    [--output] may be missing, the zones may be none. *)
Record args : Type := mkArgs {
  args_foot : string;
  args_input : string;
  args_output : option string;
  args_zones : list string
}.

(** The actions of the parser: the help and the three options that
    store one value. *)
Inductive action : Type := Help | Foot | Input | Output.

#[global] Instance action_eq_dec : EqDecision action.
Proof. solve_decision. Defined.

(** The option strings of the parser, in the order in which they were
    added. *)
Definition option_string_actions : list (string * action) :=
  [("-h", Help); ("--help", Help); ("--foot", Foot); ("--input", Input); ("--output", Output)].

(** Line 13, [choices]. *)
Definition choices : list string := ["left"; "right"].

(** How [parse_args] ends. *)
Inductive parse_result : Type :=
| Parsed (a : args)
| ParsedList
| Usage
| HelpPrinted.

(** ** Strings *)

(** An argument that does not start with a dash. *)
Definition plain (s : string) : Prop := String.prefix "-" s = false.

#[global] Instance plain_dec s : Decision (plain s).
Proof. unfold plain. apply _. Defined.

(** [s.split(c, 1)] when [c] occurs in [s]. *)
Fixpoint partition_at (c : ascii) (s : string) : option (string * string) :=
  match s with
  | EmptyString => None
  | String x rest =>
      if decide (x = c) then Some (EmptyString, rest)
      else (λ p, (String x p.1, p.2)) <$> partition_at c rest
  end.

Definition is_digit (c : ascii) : bool :=
  (48 <=? nat_of_ascii c)%nat && (nat_of_ascii c <=? 57)%nat.

(** What is left of [s] after its leading digits. *)
Fixpoint skip_digits (s : string) : string :=
  match s with
  | EmptyString => EmptyString
  | String c rest => if is_digit c then skip_digits rest else s
  end.

(** [\d+$]: one digit or more up to the end, which may be a last line
    feed. *)
Definition digits_to_end (s : string) : bool :=
  bool_decide (skip_digits s ≠ s) &&
  bool_decide (skip_digits s = "" ∨ skip_digits s = String "010" "").

(** The pattern [^-\d+$|^-\d*\.\d+$] of the parser. *)
Definition negative_number (s : string) : bool :=
  match s with
  | String "-" rest =>
      digits_to_end rest ||
      match skip_digits rest with
      | String "." fraction => digits_to_end fraction
      | _ => false
      end
  | _ => false
  end.

(** ** One argument *)

(** An option found in an argument: its action when the parser has the
    option, the option string and the value joined to it. *)
Record option_tuple : Type := mkOption {
  opt_action : option action;
  opt_string : string;
  explicit_arg : option string
}.

Inductive arg_pattern : Type :=
| Positional
| Optional (t : option_tuple)
| DoubleDash.

Definition option_action (option_string : string) : option action :=
  (λ p, p.2.2) <$> list_find (λ p, p.1 = option_string) option_string_actions.

(** The options an argument may abbreviate: after two dashes every
    option that starts with the argument, up to its [=]; after one dash
    the option of its first letter, the rest being joined to it. *)
Definition get_option_tuples (option_string : string) : list option_tuple :=
  match option_string with
  | String "-" (String "-" _) =>
      let split := partition_at "=" option_string in
      let option_prefix := from_option fst option_string split in
      (λ p, mkOption (Some p.2) p.1 (snd <$> split)) <$>
        filter (λ p, String.prefix option_prefix p.1 = true) option_string_actions
  | String "-" (String c short_explicit_arg) =>
      omap (λ p, if decide (p.1 = String "-" (String c ""))
                 then Some (mkOption (Some p.2) p.1 (Some short_explicit_arg))
                 else if String.prefix option_string p.1
                      then Some (mkOption (Some p.2) p.1 None) else None)
           option_string_actions
  | _ => []
  end.

(** What one argument is: [None] when it fits more than one option. *)
Definition parse_optional (arg_string : string) : option arg_pattern :=
  if decide (arg_string = "") then Some Positional
  else if negb (String.prefix "-" arg_string) then Some Positional
  else match option_action arg_string with
  | Some a => Some (Optional (mkOption (Some a) arg_string None))
  | None =>
  if decide (String.length arg_string = 1) then Some Positional
  else match partition_at "=" arg_string ≫= λ p, (λ a, (a, p)) <$> option_action p.1 with
  | Some (a, p) => Some (Optional (mkOption (Some a) p.1 (Some p.2)))
  | None =>
  match get_option_tuples arg_string with
  | _ :: _ :: _ => None
  | [t] => Some (Optional t)
  | [] =>
      if negative_number arg_string then Some Positional
      else if bool_decide (is_Some (partition_at " " arg_string)) then Some Positional
      else Some (Optional (mkOption None arg_string None))
  end end end.

(** The pattern of the command line: everything after the first [--] is
    positional.  [None] when an argument is ambiguous. *)
Fixpoint classify (arg_strings : list string) : option (list arg_pattern) :=
  match arg_strings with
  | [] => Some []
  | arg_string :: rest =>
      if decide (arg_string = "--") then Some (DoubleDash :: ((λ _, Positional) <$> rest))
      else p ← parse_optional arg_string; (p ::.) <$> classify rest
  end.

(** ** The namespace *)

(** The positional arguments: not met yet, being read, or read. *)
Inductive positionals : Type :=
| ZonesNone
| ZonesOpen (zones : list string)
| ZonesDone (zones : list string).

(** What an option stores: its value, or the empty list that is left
    of the value [--]. *)
Inductive stored_value : Type :=
| Str (s : string)
| EmptyList.

Record namespace : Type := mkNamespace {
  ns_foot : option stored_value;
  ns_input : option stored_value;
  ns_output : option stored_value;
  ns_zones : positionals;
  extras : list string
}.

Definition empty_namespace : namespace := mkNamespace None None None ZonesNone [].

(** The end of a run of positional arguments. *)
Definition close (ns : namespace) : namespace :=
  match ns_zones ns with
  | ZonesOpen zones =>
      mkNamespace (ns_foot ns) (ns_input ns) (ns_output ns) (ZonesDone zones) (extras ns)
  | _ => ns
  end.

(** One positional argument: a zone of the first run, the [--] of which
    is dropped, or an argument left over. *)
Definition take_positional (arg_string : string) (dash : bool) (ns : namespace) : namespace :=
  let zone := if dash then [] else [arg_string] in
  match ns_zones ns with
  | ZonesNone =>
      mkNamespace (ns_foot ns) (ns_input ns) (ns_output ns) (ZonesOpen zone) (extras ns)
  | ZonesOpen zones =>
      mkNamespace (ns_foot ns) (ns_input ns) (ns_output ns) (ZonesOpen (zones ++ zone))
                  (extras ns)
  | ZonesDone _ =>
      mkNamespace (ns_foot ns) (ns_input ns) (ns_output ns) (ns_zones ns)
                  (extras ns ++ [arg_string])
  end.

Definition add_extra (arg_string : string) (ns : namespace) : namespace :=
  mkNamespace (ns_foot ns) (ns_input ns) (ns_output ns) (ns_zones ns)
              (extras ns ++ [arg_string]).

(** The value made of the argument of an option: the first [--] among
    the arguments of an action is dropped, and an option left without
    an argument stores the empty list. *)
Definition get_values (arg_string : string) : stored_value :=
  if decide (arg_string = "--") then EmptyList else Str arg_string.

(** Line 13: a string has to be one of the choices. *)
Definition check_value (v : stored_value) : bool :=
  match v with
  | Str s => bool_decide (s ∈ choices)
  | EmptyList => true
  end.

(** The action of an option that stores its value; [None] when the
    value is not among the choices. *)
Definition store (a : action) (value : string) (ns : namespace) : option namespace :=
  let v := get_values value in
  match a with
  | Foot =>
      if check_value v
      then Some (mkNamespace (Some v) (ns_input ns) (ns_output ns) (ns_zones ns) (extras ns))
      else None
  | Input => Some (mkNamespace (ns_foot ns) (Some v) (ns_output ns) (ns_zones ns) (extras ns))
  | Output => Some (mkNamespace (ns_foot ns) (ns_input ns) (Some v) (ns_zones ns) (extras ns))
  | Help => None
  end.

(** The letters joined to [-h] are all [h]. *)
Fixpoint help_cluster (s : string) : bool :=
  match s with
  | EmptyString => true
  | String c rest => bool_decide (c = "h"%char) && help_cluster rest
  end.

(** The help action: it takes no value, and after [-h] only more of
    [-h] may be joined. *)
Definition take_help (t : option_tuple) : parse_result :=
  match explicit_arg t with
  | None => HelpPrinted
  | Some e =>
      if bool_decide (opt_string t = "-h") && bool_decide (e ≠ "") && help_cluster e
      then HelpPrinted else Usage
  end.

(** The zones read so far; none when no positional argument was met. *)
Definition zones_read (ns : namespace) : list string :=
  match ns_zones ns with
  | ZonesNone => []
  | ZonesOpen zones | ZonesDone zones => zones
  end.

(** [args.output], to line 22: an empty list is as good as no
    output. *)
Definition output_of (v : option stored_value) : option string :=
  match v with
  | Some (Str s) => Some s
  | _ => None
  end.

(** The end of the command line: nothing is left over and the required
    options were given. *)
Definition conclude (ns : namespace) : parse_result :=
  match ns_foot ns, ns_input ns, extras ns with
  | Some (Str f), Some (Str i), [] => Parsed (mkArgs f i (output_of (ns_output ns)) (zones_read ns))
  | Some _, Some _, [] => ParsedList
  | _, _, _ => Usage
  end.

(** ** The command line *)

Fixpoint consume (items : list (string * arg_pattern)) (ns : namespace) : parse_result :=
  match items with
  | [] => conclude ns
  | (arg_string, Positional) :: rest => consume rest (take_positional arg_string false ns)
  | (arg_string, DoubleDash) :: rest => consume rest (take_positional arg_string true ns)
  | (arg_string, Optional t) :: rest =>
      match opt_action t with
      | None => consume rest (add_extra arg_string (close ns))
      | Some Help => take_help t
      | Some a =>
          match explicit_arg t, rest with
          | Some value, _ =>
              match store a value (close ns) with
              | Some ns' => consume rest ns'
              | None => Usage
              end
          | None, (value, Positional) :: rest' =>
              match store a value (close ns) with
              | Some ns' => consume rest' ns'
              | None => Usage
              end
          | None, _ => Usage
          end
      end
  end.

(** Line 17, on [sys.argv[1:]]. *)
Definition parse_args (arg_strings : list string) : parse_result :=
  match classify arg_strings with
  | Some pattern => consume (zip arg_strings pattern) empty_namespace
  | None => Usage
  end.

(** ** Command lines written in full

    The command lines of [app.py], and those a user types without
    abbreviations: options with their values, and one run of zones. *)

Definition option_string (a : action) : string :=
  match a with
  | Help => "--help"
  | Foot => "--foot"
  | Input => "--input"
  | Output => "--output"
  end.

(** The words of a list of options with their values. *)
Definition words (given : list (action * string)) : list string :=
  given ≫= λ g, [option_string g.1; g.2].

(** The value an option has after a list of options: the last one
    given. *)
Definition last_value (a : action) (given : list (action * string)) : option string :=
  snd <$> last (filter (λ g, g.1 = a) given).

(** The options are written well: none is the help, every value is
    plain and every foot is a choice. *)
Definition well_given (given : list (action * string)) : Prop :=
  Forall (λ g, g.1 ≠ Help ∧ plain g.2 ∧ (g.1 = Foot → g.2 ∈ choices)) given.

(** A command line for given arguments, the way [app.py] writes it. *)
Definition command_line_of (a : args) : list string :=
  words ([(Foot, args_foot a); (Input, args_input a)] ++
         from_option (λ o, [(Output, o)]) [] (args_output a)) ++ args_zones a.

(** What the parser is to make of options written well and a run of
    zones. *)
Definition args_given (given : list (action * string)) (zones : list string) : parse_result :=
  match last_value Foot given, last_value Input given with
  | Some f, Some i => Parsed (mkArgs f i (last_value Output given) zones)
  | _, _ => Usage
  end.

(** The namespace after an option written in full. *)
Definition give (ns : namespace) (g : action * string) : namespace :=
  default ns (store g.1 g.2 (close ns)).

(** The value stored for an option. *)
Definition stored (a : action) (ns : namespace) : option stored_value :=
  match a with
  | Help => None
  | Foot => ns_foot ns
  | Input => ns_input ns
  | Output => ns_output ns
  end.

(** What holds of the namespace while [arg_strings] is read: the foot
    is a choice and the zones are arguments. *)
Definition ns_ok (arg_strings : list string) (ns : namespace) : Prop :=
  (∀ f, ns_foot ns = Some (Str f) → f ∈ choices) ∧ zones_read ns ⊆ arg_strings.

(** The pattern of a list of options written in full. *)
Definition words_pattern (given : list (action * string)) : list arg_pattern :=
  given ≫= λ g, [Optional (mkOption (Some g.1) (option_string g.1) None); Positional].

(** * Lemmas *)

Lemma plain_not_dash s : plain s → s ≠ "--".
Proof. by intros Hs ->. Qed.

Lemma plain_no_dash zones : Forall plain zones → "--" ∉ zones.
Proof. intros Hz Hin. by apply (plain_not_dash "--"); [eapply Forall_forall|]. Qed.

Lemma parse_optional_plain s : plain s → parse_optional s = Some Positional.
Proof. unfold parse_optional, plain. intros ->. by case_decide. Qed.

Lemma parse_optional_option a :
  parse_optional (option_string a) = Some (Optional (mkOption (Some a) (option_string a) None)).
Proof. by destruct a. Qed.

(** An argument that is not [--] is sorted on its own. *)
Lemma classify_cons s rest :
  s ≠ "--" → classify (s :: rest) = p ← parse_optional s; (p ::.) <$> classify rest.
Proof. intros Hs. cbn [classify]. by rewrite decide_False. Qed.

Lemma classify_option a rest :
  classify (option_string a :: rest) =
  (Optional (mkOption (Some a) (option_string a) None) ::.) <$> classify rest.
Proof. rewrite classify_cons by by destruct a. by rewrite parse_optional_option. Qed.

Lemma classify_plain_cons s rest :
  plain s → classify (s :: rest) = (Positional ::.) <$> classify rest.
Proof.
  intros Hs. rewrite classify_cons by by apply plain_not_dash. by rewrite parse_optional_plain.
Qed.

Lemma classify_plain zones :
  Forall plain zones → classify zones = Some ((λ _, Positional) <$> zones).
Proof.
  induction 1 as [|z zones Hz _ IH]; [done|]. by rewrite classify_plain_cons, IH.
Qed.

Lemma classify_app l1 l2 :
  "--" ∉ l1 → classify (l1 ++ l2) = p1 ← classify l1; (p1 ++.) <$> classify l2.
Proof.
  induction l1 as [|s l1 IH]; intros Hl.
  - cbn. by destruct (classify l2).
  - apply not_elem_of_cons in Hl as [Hs Hl]. cbn [app]. rewrite !classify_cons, IH by done.
    destruct (parse_optional s); [|done]. cbn.
    destruct (classify l1); [|done]. cbn. by destruct (classify l2).
Qed.

Lemma classify_length l p : classify l = Some p → length p = length l.
Proof.
  revert p. induction l as [|s l IH]; intros p; cbn [classify]; [by intros [= <-]|].
  case_decide; [intros [= <-]; cbn; by rewrite length_fmap|].
  destruct (parse_optional s); [|done]. cbn.
  destruct (classify l) eqn:E; [|done]. intros [= <-]. cbn. by rewrite (IH _ eq_refl).
Qed.

Lemma words_cons a v given : words ((a, v) :: given) = option_string a :: v :: words given.
Proof. done. Qed.

Lemma words_pattern_cons a v given :
  words_pattern ((a, v) :: given) =
  Optional (mkOption (Some a) (option_string a) None) :: Positional :: words_pattern given.
Proof. done. Qed.

Lemma words_no_dash given : well_given given → "--" ∉ words given.
Proof.
  induction 1 as [|[a v] given (_ & Hv & _) _ IH]; [by intros ?%elem_of_nil|].
  unfold words. cbn. rewrite !not_elem_of_cons.
  split_and!; [by destruct a | by intros <- | done].
Qed.

Lemma classify_words given :
  well_given given → classify (words given) = Some (words_pattern given).
Proof.
  induction 1 as [|[a v] given (_ & Hv & _) _ IH]; [done|].
  by rewrite words_cons, classify_option, classify_plain_cons, IH.
Qed.

(** ** The namespace *)

Lemma last_value_snoc a given g :
  last_value a (given ++ [g]) = if decide (g.1 = a) then Some g.2 else last_value a given.
Proof.
  unfold last_value. rewrite filter_app, filter_cons, filter_nil.
  case_decide; [by rewrite last_snoc | by rewrite app_nil_r].
Qed.

Lemma last_value_app a g1 g2 :
  last_value a (g1 ++ g2) = from_option Some (last_value a g1) (last_value a g2).
Proof.
  induction g2 as [|g g2 IH] using rev_ind; [by rewrite app_nil_r|].
  rewrite app_assoc, !last_value_snoc, IH. by case_decide.
Qed.

Lemma get_values_plain s : plain s → get_values s = Str s.
Proof. intros Hs. unfold get_values. by rewrite decide_False by by apply plain_not_dash. Qed.

(** An option written well stores its value. *)
Lemma store_well a v ns :
  plain v → (a = Foot → v ∈ choices) →
  store a v ns =
  match a with
  | Help => None
  | Foot => Some (mkNamespace (Some (Str v)) (ns_input ns) (ns_output ns) (ns_zones ns) (extras ns))
  | Input => Some (mkNamespace (ns_foot ns) (Some (Str v)) (ns_output ns) (ns_zones ns) (extras ns))
  | Output => Some (mkNamespace (ns_foot ns) (ns_input ns) (Some (Str v)) (ns_zones ns) (extras ns))
  end.
Proof.
  intros Hv Hc. unfold store. rewrite get_values_plain by done. destruct a; try done.
  cbn. by rewrite bool_decide_eq_true_2 by auto.
Qed.

Lemma stored_give a ns g :
  a ≠ Help → plain g.2 → (g.1 = Foot → g.2 ∈ choices) →
  stored a (give ns g) = if decide (g.1 = a) then Some (Str g.2) else stored a ns.
Proof.
  intros Ha Hp Hg. destruct g as [b v]. unfold give. cbn [fst snd] in *.
  rewrite store_well by done. by destruct ns as [f i o [|zones|zones] e], b, a.
Qed.

Lemma stored_foldl_give a ns given :
  a ≠ Help → well_given given →
  stored a (foldl give ns given) =
  from_option (λ v, Some (Str v)) (stored a ns) (last_value a given).
Proof.
  intros Ha. induction given as [|g given IH] using rev_ind; [done|].
  intros [Hgiven (_ & Hp & Hg)%Forall_singleton]%Forall_app.
  rewrite foldl_app, last_value_snoc. cbn [foldl]. rewrite stored_give, IH by done.
  by case_decide.
Qed.

(** An option leaves the zones and the arguments left over as they
    are, and ends the run of zones. *)
Lemma give_zones ns g :
  zones_read (give ns g) = zones_read ns ∧ extras (give ns g) = extras ns ∧
  (ns_zones ns = ZonesNone → ns_zones (give ns g) = ZonesNone).
Proof.
  destruct g as [a v]. unfold give, store. cbn [fst snd].
  destruct ns as [f i o [|zones|zones] e], a; cbn; try destruct (check_value _); done.
Qed.

Lemma foldl_give_zones ns given :
  zones_read (foldl give ns given) = zones_read ns ∧
  extras (foldl give ns given) = extras ns ∧
  (ns_zones ns = ZonesNone → ns_zones (foldl give ns given) = ZonesNone).
Proof.
  revert ns. induction given as [|g given IH]; intros ns; [done|]. cbn [foldl].
  destruct (IH (give ns g)) as (-> & -> & H), (give_zones ns g) as (-> & -> & H'). auto.
Qed.

(** A run of zones is read whole while the first run is not over. *)
Lemma foldl_take_positional ns zones :
  (∀ read, ns_zones ns ≠ ZonesDone read) →
  let ns' := foldl (λ ns z, take_positional z false ns) ns zones in
  zones_read ns' = zones_read ns ++ zones ∧ extras ns' = extras ns ∧
  ∀ a, stored a ns' = stored a ns.
Proof.
  revert ns. induction zones as [|z zones IH]; intros ns Hns; cbv zeta.
  { by rewrite app_nil_r. }
  cbn [foldl]. destruct (IH (take_positional z false ns)) as (-> & -> & Hs).
  - destruct ns as [f i o [|read|read] e]; [done..|by destruct (Hns read)].
  - split_and!.
    + destruct ns as [f i o [|read|read] e]; cbn; [done|by rewrite <- app_assoc|].
      by destruct (Hns read).
    + destruct ns as [f i o [|read|read] e]; [done..|by destruct (Hns read)].
    + intros a. rewrite Hs. by destruct ns as [f i o [|read|read] e], a.
Qed.

(** The [--] that opens the zones. *)
Lemma take_positional_dash ns :
  ns_zones ns = ZonesNone →
  let ns' := take_positional "--" true ns in
  zones_read ns' = [] ∧ extras ns' = extras ns ∧ (∀ a, stored a ns' = stored a ns) ∧
  ∀ read, ns_zones ns' ≠ ZonesDone read.
Proof. destruct ns as [f i o z e]. cbn. intros ->. split_and!; [done..|by intros []|done]. Qed.

(** The end of the command line, from what the namespace holds. *)
Lemma conclude_given ns given zones :
  (∀ a, a ≠ Help → stored a ns = Str <$> last_value a given) → extras ns = [] →
  zones_read ns = zones → conclude ns = args_given given zones.
Proof.
  intros Hs He <-. unfold conclude, args_given.
  pose proof (Hs Foot) as Hf. pose proof (Hs Input) as Hi. pose proof (Hs Output) as Ho.
  cbn [stored] in Hf, Hi, Ho. rewrite Hf, Hi, Ho, He by done.
  by destruct (last_value Foot given), (last_value Input given), (last_value Output given).
Qed.

(** The namespace after options written well. *)
Lemma foldl_give_empty given :
  well_given given →
  let ns := foldl give empty_namespace given in
  (∀ a, a ≠ Help → stored a ns = Str <$> last_value a given) ∧ extras ns = [] ∧
  zones_read ns = [] ∧ ns_zones ns = ZonesNone.
Proof.
  intros Hg. destruct (foldl_give_zones empty_namespace given) as (Hr & He & Hz).
  split_and!; [|done|done|by apply Hz].
  intros a Ha. rewrite stored_foldl_give by done. by destruct a, (last_value _ given).
Qed.

(** ** The arguments read from the left *)

Lemma consume_words given rest ns :
  well_given given →
  consume (zip (words given) (words_pattern given) ++ rest) ns = consume rest (foldl give ns given).
Proof.
  intros Hgiven. revert ns.
  induction Hgiven as [|[a v] given (Ha & Hp & Hv) _ IH]; intros ns; [done|].
  cbn [fst snd] in *. cbn [foldl]. rewrite <- IH.
  rewrite words_cons, words_pattern_cons. unfold give. cbn -[close store words words_pattern].
  rewrite store_well by done. by destruct a.
Qed.

Lemma consume_zones zones rest ns :
  consume (zip zones ((λ _, Positional) <$> zones) ++ rest) ns =
  consume rest (foldl (λ ns z, take_positional z false ns) ns zones).
Proof. revert ns. induction zones as [|z zones IH]; intros ns; [done|]. apply IH. Qed.

Lemma zip_app_length {X Y} (l1 l2 : list X) (k1 k2 : list Y) :
  length l1 = length k1 → zip (l1 ++ l2) (k1 ++ k2) = zip l1 k1 ++ zip l2 k2.
Proof.
  revert k1. induction l1 as [|x l1 IH]; intros [|y k1]; try done.
  intros [= H]. cbn. by rewrite IH.
Qed.

Lemma words_length given : length (words given) = length (words_pattern given).
Proof.
  induction given as [|[a v] given IH]; [done|].
  rewrite words_cons, words_pattern_cons. cbn [length]. by rewrite IH.
Qed.

(** The parser on a command line written in full: the options before
    the zones, the zones, the options after them. *)
Lemma parse_args_words g1 zones g2 :
  well_given g1 → well_given g2 → Forall plain zones →
  parse_args (words g1 ++ zones ++ words g2) = args_given (g1 ++ g2) zones.
Proof.
  intros H1 H2 Hz. unfold parse_args.
  rewrite !classify_app, !classify_words, classify_plain
    by auto using words_no_dash, plain_no_dash.
  cbn [mbind option_bind fmap option_fmap option_map].
  rewrite !zip_app_length by (by rewrite ?length_fmap, ?words_length).
  rewrite consume_words, consume_zones by done.
  rewrite <- (app_nil_r (zip (words g2) _)), consume_words by done. cbn [consume].
  destruct (foldl_give_empty g1 H1) as (Hs1 & He1 & Hr1 & Hz1). cbv zeta in Hs1, He1, Hr1, Hz1.
  set (ns1 := foldl give empty_namespace g1) in *.
  destruct (foldl_take_positional ns1 zones) as (Hr2 & He2 & Hs2); [by rewrite Hz1|].
  cbv zeta in Hr2, He2, Hs2. set (ns2 := foldl _ ns1 zones) in *.
  destruct (foldl_give_zones ns2 g2) as (Hr3 & He3 & _).
  apply conclude_given; [|congruence|by rewrite Hr3, Hr2, Hr1].
  intros a Ha. rewrite stored_foldl_give, Hs2, Hs1, last_value_app by done.
  by destruct (last_value a g2).
Qed.

Lemma well_given_cons a v given :
  a ≠ Help → plain v → (a = Foot → v ∈ choices) → well_given given →
  well_given ((a, v) :: given).
Proof. by constructor. Qed.

Lemma choices_plain f : f ∈ choices → plain f.
Proof. by intros [->|[->|[]%elem_of_nil]%elem_of_cons]%elem_of_cons. Qed.

(** The command line of [app.py]: the three options, then the zones. *)
Lemma parse_args_command f i o zones :
  f ∈ choices → plain i → plain o → Forall plain zones →
  parse_args (["--foot"; f; "--input"; i; "--output"; o] ++ zones) =
  Parsed (mkArgs f i (Some o) zones).
Proof.
  intros Hf Hi Ho Hz.
  assert (Hg : well_given [(Foot, f); (Input, i); (Output, o)]).
  { repeat apply well_given_cons; try done; auto using choices_plain. apply Forall_nil_2. }
  rewrite <- (app_nil_r zones) at 1.
  exact (parse_args_words _ zones [] Hg (Forall_nil_2 _) Hz).
Qed.

(** After [--] every argument is a zone, whatever it starts with. *)
Lemma parse_args_dash given zones :
  well_given given → parse_args (words given ++ "--" :: zones) = args_given given zones.
Proof.
  intros Hg. unfold parse_args.
  rewrite classify_app, classify_words by auto using words_no_dash.
  cbn [mbind option_bind fmap option_fmap option_map classify].
  rewrite decide_True by done. cbn [fmap option_fmap option_map].
  rewrite zip_app_length, consume_words by (by rewrite ?words_length).
  cbn [zip zip_with consume]. rewrite <- (app_nil_r (zip_with _ _ _)), (consume_zones zones).
  destruct (foldl_give_empty given Hg) as (Hs1 & He1 & _ & Hz1). cbv zeta in Hs1, He1, Hz1.
  set (ns := foldl give empty_namespace given) in *.
  destruct (take_positional_dash ns Hz1) as (Hr2 & He2 & Hs2 & Hz2).
  cbv zeta in Hr2, He2, Hs2, Hz2. set (ns2 := take_positional _ _ ns) in *.
  destruct (foldl_take_positional ns2 zones Hz2) as (Hr3 & He3 & Hs3).
  apply conclude_given; [|congruence|by rewrite Hr3, Hr2].
  intros a Ha. by rewrite Hs3, Hs2, Hs1.
Qed.

(** ** Every command line *)

Section Checked.
Context (arg_strings : list string).

Lemma empty_namespace_ok : ns_ok arg_strings empty_namespace.
Proof. split; [done|]. apply list_subseteq_nil. Qed.

Lemma close_ok ns : ns_ok arg_strings ns → ns_ok arg_strings (close ns).
Proof. by destruct ns as [f i o [|read|read] e]. Qed.

Lemma take_positional_ok s dash ns :
  s ∈ arg_strings → ns_ok arg_strings ns → ns_ok arg_strings (take_positional s dash ns).
Proof.
  intros Hs [Hf Hz]. destruct ns as [f i o [|read|read] e], dash; (split; [done|]); cbn in *;
    set_solver.
Qed.

Lemma add_extra_ok s ns : ns_ok arg_strings ns → ns_ok arg_strings (add_extra s ns).
Proof. by intros [Hf Hz]. Qed.

Lemma store_ok a value ns ns' :
  store a value ns = Some ns' → ns_ok arg_strings ns → ns_ok arg_strings ns'.
Proof.
  intros Hs [Hf Hz]. unfold store, get_values in Hs.
  destruct a; try case_decide; cbn in Hs; try case_bool_decide; simplify_eq;
    (split; [|done]); cbn; try done.
  by intros ? [= <-].
Qed.

Lemma take_help_not_parsed t a : take_help t ≠ Parsed a.
Proof. unfold take_help. by repeat case_match. Qed.

Lemma conclude_ok ns a : ns_ok arg_strings ns → conclude ns = Parsed a →
  args_foot a ∈ choices ∧ args_zones a ⊆ arg_strings.
Proof.
  intros [Hf Hz]. unfold conclude.
  destruct (ns_foot ns) as [[f|]|], (ns_input ns) as [[i|]|], (extras ns); try done.
  intros [= <-]. auto.
Qed.

Lemma consume_ok (n : nat) items ns a :
  (length items ≤ n)%nat → (∀ s p, (s, p) ∈ items → s ∈ arg_strings) →
  ns_ok arg_strings ns →
  consume items ns = Parsed a → args_foot a ∈ choices ∧ args_zones a ⊆ arg_strings.
Proof.
  revert items ns. induction n as [|n IH]; intros items ns Hn Hin Hns.
  { destruct items; [apply (conclude_ok _ _ Hns) | cbn in Hn; lia]. }
  destruct items as [|[s p] rest]; [apply (conclude_ok _ _ Hns)|].
  assert (Hs : s ∈ arg_strings) by (eapply Hin; left).
  assert (Hrest : ∀ s p, (s, p) ∈ rest → s ∈ arg_strings) by (intros; eapply Hin; by right).
  cbn [length] in Hn.
  destruct p as [|t|]; cbn [consume]; [| |].
  1, 3: apply IH; [lia|done|by apply take_positional_ok].
  destruct (opt_action t) as [act|]; [|apply IH; [lia|done|by apply add_extra_ok, close_ok]].
  destruct (decide (act = Help)) as [->|Hact]; [by intros ?%take_help_not_parsed|].
  assert (Hstep : ∀ value rest', (length rest' ≤ n)%nat →
            (∀ s p, (s, p) ∈ rest' → s ∈ arg_strings) →
            match store act value (close ns) with
            | Some ns' => consume rest' ns' | None => Usage end = Parsed a →
            args_foot a ∈ choices ∧ args_zones a ⊆ arg_strings).
  { intros value rest' Hl Hr. destruct (store _ _ _) as [ns'|] eqn:E; [|done].
    apply IH; [done..|]. eapply store_ok; [done|]. by apply close_ok. }
  destruct act; [done|..]; (destruct (explicit_arg t); [apply Hstep; [lia|done]|]);
    destruct rest as [|[v [| |]] rest']; try done;
    (apply Hstep; [cbn in Hn; lia|intros; eapply Hrest; by right]).
Qed.

End Checked.

(** ** Zones on both sides of the options *)

Lemma give_closes ns g read :
  g.1 ≠ Help → plain g.2 → (g.1 = Foot → g.2 ∈ choices) →
  ns_zones ns = ZonesOpen read ∨ ns_zones ns = ZonesDone read →
  ns_zones (give ns g) = ZonesDone read.
Proof.
  destruct g as [a v]. unfold give. cbn [fst snd]. intros Ha Hp Hv Hz.
  rewrite store_well by done. destruct ns as [f i o z e]. cbn in Hz.
  by destruct Hz as [-> | ->], a.
Qed.

Lemma foldl_give_done ns given read :
  well_given given → ns_zones ns = ZonesDone read →
  ns_zones (foldl give ns given) = ZonesDone read.
Proof.
  intros Hg. revert ns. induction Hg as [|g given (Ha & Hp & Hv) _ IH]; intros ns Hns; [done|].
  cbn [foldl]. apply IH, give_closes; auto.
Qed.

Lemma foldl_give_closes ns given read :
  well_given given → given ≠ [] → ns_zones ns = ZonesOpen read →
  ns_zones (foldl give ns given) = ZonesDone read.
Proof.
  intros Hg Hne Hns. destruct Hg as [|g given (Ha & Hp & Hv) Hg]; [done|]. cbn [foldl].
  apply foldl_give_done, give_closes; auto.
Qed.

(** Arguments met after the run of zones are left over. *)
Lemma foldl_take_positional_done ns zones read :
  ns_zones ns = ZonesDone read →
  extras (foldl (λ ns z, take_positional z false ns) ns zones) = extras ns ++ zones.
Proof.
  revert ns. induction zones as [|z zones IH]; intros ns Hns; [by rewrite app_nil_r|].
  cbn [foldl]. rewrite IH; unfold take_positional; rewrite Hns; [|done].
  cbn. by rewrite <- app_assoc.
Qed.

Lemma conclude_extras ns : extras ns ≠ [] → conclude ns = Usage.
Proof.
  unfold conclude. by destruct (ns_foot ns) as [[?|]|], (ns_input ns) as [[?|]|], (extras ns).
Qed.

Lemma foldl_take_positional_open ns z zones :
  (∀ read, ns_zones ns ≠ ZonesDone read) →
  ns_zones (foldl (λ ns z, take_positional z false ns) ns (z :: zones)) =
  ZonesOpen (zones_read ns ++ z :: zones).
Proof.
  revert ns z. induction zones as [|z' zones IH]; intros ns z Hns.
  { destruct ns as [f i o [|read|read] e]; [done..|by destruct (Hns read)]. }
  change (foldl ?f ns (z :: z' :: zones)) with (foldl f (take_positional z false ns) (z' :: zones)).
  rewrite IH; destruct ns as [f i o [|read|read] e]; cbn; try done;
    by (rewrite <- app_assoc || destruct (Hns read)).
Qed.

(** Zones before and after the options: the second run is left over
    and the command line is refused. *)
Lemma parse_args_two_runs zones1 given zones2 :
  well_given given → Forall plain zones1 → Forall plain zones2 →
  zones1 ≠ [] → given ≠ [] → zones2 ≠ [] →
  parse_args (zones1 ++ words given ++ zones2) = Usage.
Proof.
  intros Hg H1 H2 Hn1 Hng Hn2. unfold parse_args.
  rewrite !classify_app, classify_words, !classify_plain
    by auto using words_no_dash, plain_no_dash.
  cbn [mbind option_bind fmap option_fmap option_map].
  rewrite !zip_app_length by (by rewrite ?length_fmap, ?words_length).
  rewrite consume_zones, consume_words by done.
  rewrite <- (app_nil_r (zip zones2 _)), consume_zones. cbn [consume].
  apply conclude_extras. destruct zones1 as [|z zones1]; [done|].
  erewrite foldl_take_positional_done;
    [|by eapply foldl_give_closes, foldl_take_positional_open].
  by destruct zones2, (extras _).
Qed.

(** * Theorems *)

(** C32. A command line written in full is read by what it says, in
    whatever order it says it.  [parse_args] on options written with
    their values, a run of zones and more options gives the last value
    of every option and the zones, and refuses the command line when
    [--foot] or [--input] is missing; after [--] the zones may start
    with anything. *)
Theorem parse_args_written (g1 g2 : list (action * string)) (zones after : list string) :
  well_given g1 → well_given g2 → Forall plain zones →
  parse_args (words g1 ++ zones ++ words g2) = args_given (g1 ++ g2) zones ∧
  parse_args (words g1 ++ "--" :: after) = args_given g1 after.
Proof.
  intros Hg1 Hg2 Hzones. split.
  - by apply parse_args_words.
  - by apply parse_args_dash.
Qed.

(** The command line written for given arguments is read back as
    these arguments. *)
Theorem parse_args_command_line_of (a : args) :
  args_foot a ∈ choices → plain (args_input a) → from_option plain True (args_output a) →
  Forall plain (args_zones a) →
  parse_args (command_line_of a) = Parsed a.
Proof.
  destruct a as [f i [o|] zones]; cbn [args_foot args_input args_output args_zones from_option];
    intros Hf Hi Ho Hz.
  - by apply parse_args_command.
  - unfold command_line_of. cbn [args_foot args_input args_output args_zones from_option app].
    rewrite <- (app_nil_r zones) at 1. change [] with (words []) at 2.
    rewrite parse_args_words; [done| |apply Forall_nil_2|done].
    repeat apply well_given_cons; try done; auto using choices_plain. apply Forall_nil_2.
Qed.

(** C39. Whatever the command line, arguments that [parse_args] gives
    have a foot that is [left] or [right], and zones that are arguments
    of the command line. *)
Theorem parse_args_checked (arg_strings : list string) (a : args) :
  parse_args arg_strings = Parsed a →
  args_foot a ∈ choices ∧ args_zones a ⊆ arg_strings.
Proof.
  unfold parse_args. destruct (classify arg_strings) as [pattern|]; [|done].
  apply (consume_ok arg_strings (length (zip arg_strings pattern))); [done| |].
  - by intros s p ?%elem_of_zip_l.
  - apply empty_namespace_ok.
Qed.

(** C40. Zones on both sides of the options are refused: the parser takes
    the first run of zones and has nothing to give the second one to. *)
Theorem parse_args_intermixed (zones1 zones2 : list string) (given : list (action * string)) :
  well_given given → Forall plain zones1 → Forall plain zones2 →
  zones1 ≠ [] → given ≠ [] → zones2 ≠ [] →
  parse_args (zones1 ++ words given ++ zones2) = Usage.
Proof. apply parse_args_two_runs. Qed.

(** * Concrete command lines *)

Definition demo_given : list (action * string) := [(Foot, "left"); (Input, "sole.stl")].
Definition demo_given_after : list (action * string) := [(Output, "out.ply"); (Foot, "right")].

Lemma demo_given_well : well_given demo_given ∧ well_given demo_given_after.
Proof.
  split; repeat apply well_given_cons; try done; try apply Forall_nil_2;
    intros _; unfold choices; set_solver.
Qed.

Lemma parse_args_written_witness :
  parse_args (words demo_given ++ ["HEART"] ++ words demo_given_after) =
    args_given (demo_given ++ demo_given_after) ["HEART"] ∧
  parse_args (words demo_given ++ "--" :: ["-TOE"]) = args_given demo_given ["-TOE"].
Proof.
  apply parse_args_written; [apply demo_given_well..|]. by repeat constructor.
Defined.

Definition demo_line_args : args := mkArgs "right" "sole.stl" None ["HEART"; "LIVER"].

Lemma parse_args_command_line_of_witness :
  parse_args (command_line_of demo_line_args) = Parsed demo_line_args.
Proof.
  apply parse_args_command_line_of; [unfold choices; set_solver|done|done|by repeat constructor].
Defined.

Lemma parse_args_checked_witness :
  args_foot demo_line_args ∈ choices ∧
  args_zones demo_line_args ⊆ command_line_of demo_line_args.
Proof. apply parse_args_checked. reflexivity. Defined.

Lemma parse_args_intermixed_witness :
  parse_args (["HEART"] ++ words demo_given ++ ["LIVER"]) = Usage.
Proof.
  apply parse_args_intermixed; [apply demo_given_well|by repeat constructor..|done|done|done].
Defined.

(** Options may be abbreviated and joined to their values. *)
Example demo_abbreviated :
  parse_args ["--fo=right"; "--in"; "sole.stl"; "HEART"] =
  Parsed (mkArgs "right" "sole.stl" None ["HEART"]).
Proof. reflexivity. Qed.

(** The help ends the process before the missing options are
    reported. *)
Example demo_help : parse_args ["--input"; "sole.stl"; "-h"] = HelpPrinted.
Proof. reflexivity. Qed.

(** What the parser refuses: a foot that is no choice, a missing
    [--input], an option without its value, an option it does not know,
    and an abbreviation that fits two options. *)
Example demo_usage :
  parse_args ["--foot"; "both"; "--input"; "sole.stl"] = Usage ∧
  parse_args ["--foot"; "left"] = Usage ∧
  parse_args ["--foot"; "left"; "--input"] = Usage ∧
  parse_args ["--foot"; "left"; "--input"; "sole.stl"; "-TOE"] = Usage ∧
  parse_args ["--foot"; "left"; "--input"; "sole.stl"; "--="] = Usage.
Proof. by split_and!. Qed.

(** A lone [--] where the zones are expected leaves no zone: the
    generator then works on every zone of the annotations. *)
Example demo_lone_dash :
  parse_args ["--foot"; "left"; "--input"; "sole.stl"; "--output"; "out.ply"; "--"] =
  Parsed (mkArgs "left" "sole.stl" (Some "out.ply") []).
Proof. reflexivity. Qed.

(** Zones that start with a dash: a negative number and a zone with a
    space are zones, [--] is dropped. *)
Example demo_dash_zones :
  parse_args ["--foot"; "left"; "--input"; "sole.stl"; "-5"; "- TOE"; "--"; "-TOE"] =
  Parsed (mkArgs "left" "sole.stl" None ["-5"; "- TOE"; "-TOE"]).
Proof. reflexivity. Qed.

(** ** The answers of the library

    What [parser.parse_args] of lines 12-17 answers under CPython
    3.11.2 on command lines that meet every rule above, with the exit
    status read as [Usage] (2) and [HelpPrinted] (0). *)
Definition argparse_answers : list (list string * parse_result) := [
  (["--foot"; "left"; "--input"; "a.stl"; "--output"; "o.ply"; "HEART"; "LIVER"],
   Parsed (mkArgs "left" "a.stl" (Some "o.ply") ["HEART"; "LIVER"]));
  (["HEART"; "--foot"; "left"; "--input"; "a.stl"],
   Parsed (mkArgs "left" "a.stl" None ["HEART"]));
  (["--input"; "a.stl"; "LIVER"; "--foot"; "right"],
   Parsed (mkArgs "right" "a.stl" None ["LIVER"]));
  (["--output"; "o.ply"; "--foot"; "left"; "--input"; "a.stl"; "--output"; "p.ply"; "--foot";
    "right"],
   Parsed (mkArgs "right" "a.stl" (Some "p.ply") []));
  (["--fo=right"; "--in"; "a.stl"],
   Parsed (mkArgs "right" "a.stl" None []));
  (["--f"; "left"; "--i=a.stl"; "--o"; "o.ply"],
   Parsed (mkArgs "left" "a.stl" (Some "o.ply") []));
  (["--foot"; "left"; "--input"; "a.stl"; "--input="],
   Parsed (mkArgs "left" "" None []));
  (["--foot"; "left"; "--input"; "a.stl"; "--output=a=b"],
   Parsed (mkArgs "left" "a.stl" (Some "a=b") []));
  (["X"; "--foot"; "left"; "--input"; "a.stl"; "Y"],
   Usage);
  (["--foot"; "left"; "--input"; "a.stl"; "HEART"; "--output"; "o.ply"; "LIVER"],
   Usage);
  (["X"; "--foot"; "left"; "--input"; "a.stl"; "--"],
   Usage);
  (["--foot"; "left"; "--input"; "a.stl"; "--"; "-TOE"; "--"; "--foot"],
   Parsed (mkArgs "left" "a.stl" None ["-TOE"; "--"; "--foot"]));
  (["--foot"; "left"; "--input"; "a.stl"; "HEART"; "--"; "-TOE"],
   Parsed (mkArgs "left" "a.stl" None ["HEART"; "-TOE"]));
  (["--foot"; "left"; "--input"; "a.stl"; "--"],
   Parsed (mkArgs "left" "a.stl" None []));
  (["--foot"; "left"; "--input"; "a.stl"; "-5"; "-.5"; "-12.75"; "- TOE"; "-"; ""],
   Parsed (mkArgs "left" "a.stl" None ["-5"; "-.5"; "-12.75"; "- TOE"; "-"; ""]));
  (["--foot"; "left"; "--input"; "a.stl"; "-5."],
   Usage);
  (["--foot"; "left"; "--input"; "a.stl"; "-5x"],
   Usage);
  (["--foot"; "left"; "--input"; "a.stl"; "--5"],
   Usage);
  (["--foot"; "left"; "--input"; "a.stl"; "-1e5"],
   Usage);
  (["--foot"; "left"; "--input"; "a.stl"; "-TOE"],
   Usage);
  (["--foot"; "left"; "--input"; "a.stl"; "--TOE"],
   Usage);
  (["--foot"; "left"; "--input"; "a.stl"; "---"],
   Usage);
  (["--foot"; "left"; "--input"; "a.stl"; "--output x"],
   Parsed (mkArgs "left" "a.stl" None ["--output x"]));
  (["--foot"; "left"; "--input"; "a.stl"; "--=x"],
   Usage);
  (["--foot"; "left"; "--input"; "a.stl"; "--="],
   Usage);
  (["--foot"; "up"; "--input"; "a.stl"],
   Usage);
  (["--foot"; "LEFT"; "--input"; "a.stl"],
   Usage);
  (["--foot= left"; "--input"; "a.stl"],
   Usage);
  (["--foot"; "left"],
   Usage);
  (["--input"; "a.stl"],
   Usage);
  (["--foot"; "left"; "--input"; "a.stl"; "--output"],
   Usage);
  (["--foot"; "--input"; "a.stl"],
   Usage);
  (["--foot"; "--"; "left"; "--input"; "a.stl"],
   Usage);
  (["--foot"; "left"; "--input"; "-x"],
   Usage);
  (["--foot"; "left"; "--input"; "-3"],
   Parsed (mkArgs "left" "-3" None []));
  (["-h"],
   HelpPrinted);
  (["--foot"; "left"; "--input"; "a.stl"; "--help"],
   HelpPrinted);
  (["--foot"; "left"; "--input"; "a.stl"; "--he"],
   HelpPrinted);
  (["--input"; "a.stl"; "-h"],
   HelpPrinted);
  (["--foot"; "up"; "-h"],
   Usage);
  (["-h"; "--foot"; "up"],
   HelpPrinted);
  (["--foot"; "left"; "--input"; "a.stl"; "-TOE"; "-h"],
   HelpPrinted);
  (["--=x"; "--help"],
   Usage);
  (["--help"; "--=x"],
   Usage);
  (["-hh"],
   HelpPrinted);
  (["-hx"],
   Usage);
  (["-h="],
   Usage);
  (["-h=h"],
   HelpPrinted);
  (["--help=1"],
   Usage);
  (["-h x"],
   Usage);
  (["--foot=--"; "--input"; "a.stl"],
   ParsedList);
  (["--input=--"; "--foot"; "left"],
   ParsedList);
  (["--foot"; "left"; "--input"; "a.stl"; "--output=--"],
   Parsed (mkArgs "left" "a.stl" None []));
  (["--foot=--"; "--foot"; "left"; "--input"; "a.stl"],
   Parsed (mkArgs "left" "a.stl" None []))
].

Example parse_args_answers : Forall (λ c, parse_args c.1 = c.2) argparse_answers.
Proof. unfold argparse_answers. repeat (constructor; [reflexivity|]). constructor. Qed.

(** A last line feed does not keep an argument from being a number. *)
Example demo_line_feed :
  parse_args ["--foot"; "left"; "--input"; "a.stl"; String "-" (String "5" (String "010" ""))] =
  Parsed (mkArgs "left" "a.stl" None [String "-" (String "5" (String "010" ""))]).
Proof. reflexivity. Qed.
