(* ===== verification/Startup.v ===== *)
(** * The start and the end of the generator

    [generate_slippers.py] lines 11-51 and 249-259: the arguments, the
    names of the files the run reads and writes, the checks that end the
    run before any work is done, and the two exports.  The file system
    and the two loaders are outside the program: the record [files] holds
    what the script asks of them.  [generator_main] is the whole script,
    from the parsed arguments to the report or the reason of the exit,
    with the files it has written.

    The command line is parsed by [Cli.parse_args]; the command lines
    that [app.py] builds (lines 109-115) are read as the handler means
    them when no zone starts with a dash. *)

From stdpp Require Import gmap strings list.
From Stdlib Require Import QArith.
From S2P Require Import Prelude Numerics Mapper Sampler Bump Compositor Surface Zones Dicts.
From S2P Require Import Placement Metrics Pipeline WebApp Cli.
Local Close Scope Q_scope.
Local Open Scope string_scope.
Local Open Scope list_scope.

(** ** The arguments, lines 19-22 *)

(** Line 19. *)
Definition foot (a : args) : string := lower (args_foot a).

(** Line 20. *)
Definition input_stl (a : args) : string := args_input a.

(** Line 22: a missing or empty [--output] gives the name made from the
    foot. *)
Definition output_file (a : args) : string :=
  str_or (default "" (args_output a)) ("sole_with_spikes_" +:+ foot a +:+ ".ply").

(** Line 37. *)
Definition annotation_path (a : args) : string :=
  (if decide (foot a = "left") then "Left" else "Right") +:+ "_reflexology_zones.json".

(** [s.replace(old, new)] for an [old] that is not empty: every
    occurrence, from the left, without overlap.  [skip] counts the
    characters of an occurrence that are still to be passed over. *)
Fixpoint replace_from (skip : nat) (old new s : string) : string :=
  match s with
  | EmptyString => EmptyString
  | String c rest =>
      match skip with
      | S k => replace_from k old new rest
      | O =>
          if String.prefix old s
          then new +:+ replace_from (String.length old - 1) old new rest
          else String c (replace_from 0 old new rest)
      end
  end.

Definition str_replace (old new s : string) : string := replace_from 0 old new s.

(** Whether [old] occurs in [s]. *)
Fixpoint occurs (old s : string) : bool :=
  match s with
  | EmptyString => String.prefix old EmptyString
  | String _ rest => String.prefix old s || occurs old rest
  end.

(** Line 253. *)
Definition stl_output (a : args) : string := str_replace ".ply" ".stl" (output_file a).

(** ** The files, lines 24-51 and 249-259 *)

(** What is found at the path of the annotations: nothing, a file that
    cannot be read as JSON, a document without the size of a first image,
    or the data. *)
Inductive annotation_source : Type :=
| AnnotationsMissing
| AnnotationsUnreadable
| AnnotationsNoImage
| AnnotationsData (data : coco).

Record files : Type := mkFiles {
  (** [os.path.exists(input_stl)] *)
  input_exists : string → bool;
  (** [trimesh.load_mesh]; [None] when it raises *)
  load_mesh : string → option SoleMesh;
  (** the annotation file at a path *)
  read_annotations : string → annotation_source;
  (** whether [combined.export] to a path succeeds *)
  can_export : string → bool
}.

(** Why the script ends without a report. *)
Inductive exit_reason : Type :=
| InputNotFound (path : string)           (* lines 25-27 *)
| MeshLoadFailed (path : string)          (* lines 32-34 *)
| AnnotationNotFound (path : string)      (* lines 38-40 *)
| AnnotationLoadFailed (path : string)    (* lines 45-47 *)
| AnnotationParseError                    (* lines 49-51, not caught *)
| Fatal (e : fatal).                      (* lines 66-68 and 257-259 *)

(** The end of a run: the report or the reason of the exit, and the files
    written, in the order written. *)
Record main_result : Type := mkResult {
  outcome : exit_reason + run_output;
  written : list string
}.

Section Main.
Context {sq : SqrtOp} {tr : TrigOps}.

(** Lines 250-259: the two exports of the joined mesh. *)
Definition export (w : files) (a : args) (out : run_output) : main_result :=
  if can_export w (output_file a) then
    if can_export w (stl_output a) then mkResult (inr out) [output_file a; stl_output a]
    else mkResult (inl (Fatal ExportFailure)) [output_file a]
  else mkResult (inl (Fatal ExportFailure)) [].

(** The script, from the parsed arguments on. *)
Definition generator_main (w : files) (a : args) : main_result :=
  if negb (input_exists w (input_stl a)) then mkResult (inl (InputNotFound (input_stl a))) []
  else
    match load_mesh w (input_stl a) with
    | None => mkResult (inl (MeshLoadFailed (input_stl a))) []
    | Some sole_model =>
        match read_annotations w (annotation_path a) with
        | AnnotationsMissing => mkResult (inl (AnnotationNotFound (annotation_path a))) []
        | AnnotationsUnreadable => mkResult (inl (AnnotationLoadFailed (annotation_path a))) []
        | AnnotationsNoImage => mkResult (inl AnnotationParseError) []
        | AnnotationsData coco_data =>
            match @run_generator sq tr sole_model true coco_data (args_zones a) with
            | inl e => mkResult (inl (Fatal e)) []
            | inr out => export w a out
            end
        end
    end.

End Main.

(** * Theorems *)

(** ** Names of files *)

(** Replacing what does not occur changes nothing. *)
Lemma str_replace_absent (old new s : string) :
  occurs old s = false → str_replace old new s = s.
Proof.
  unfold str_replace. induction s as [|c rest IH]; [done|].
  intros [Hp Ho]%orb_false_elim. cbn [replace_from]. rewrite Hp. by rewrite IH.
Qed.

Lemma foot_cases (a : args) :
  args_foot a ∈ ["left"; "right"] → foot a = args_foot a ∧ (foot a = "left" ∨ foot a = "right").
Proof.
  unfold foot. intros [->|[->|[]%elem_of_nil]%elem_of_cons]%elem_of_cons; by vm_compute; auto.
Qed.

Section Names.
Context (a : args) (Hfoot : args_foot a ∈ ["left"; "right"]).

(** The names of a run without [--output], or with an empty one. *)
Lemma default_names :
  default "" (args_output a) = "" →
  output_file a = "sole_with_spikes_" +:+ foot a +:+ ".ply" ∧
  stl_output a = "sole_with_spikes_" +:+ foot a +:+ ".stl".
Proof.
  intros Ho. unfold stl_output, output_file. rewrite Ho.
  destruct (foot_cases a Hfoot) as [_ [-> | ->]]; by vm_compute.
Qed.

(** The annotation file is the one of the foot. *)
Lemma annotation_path_cases :
  annotation_path a =
  if decide (args_foot a = "left") then "Left_reflexology_zones.json"
  else "Right_reflexology_zones.json".
Proof.
  unfold annotation_path. destruct (foot_cases a Hfoot) as [-> _].
  by destruct (decide (args_foot a = "left")).
Qed.

End Names.

(** ** The checks before the run and the exports after it *)

Section MainFacts.
Context {sq : SqrtOp} {tr : TrigOps} (w : files) (a : args).

Lemma export_cases (out : run_output) :
  let r := export w a out in
  (outcome r = inr out ∧ written r = [output_file a; stl_output a] ∧
   can_export w (output_file a) = true ∧ can_export w (stl_output a) = true) ∨
  (outcome r = inl (Fatal ExportFailure) ∧ written r = [output_file a] ∧
   can_export w (output_file a) = true ∧ can_export w (stl_output a) = false) ∨
  (outcome r = inl (Fatal ExportFailure) ∧ written r = [] ∧
   can_export w (output_file a) = false).
Proof.
  unfold export.
  destruct (can_export w (output_file a)), (can_export w (stl_output a)); naive_solver.
Qed.

(** The script with its inputs loaded is the run of [Pipeline] followed
    by the exports. *)
Lemma generator_main_loaded (sole_model : SoleMesh) (coco_data : coco) :
  input_exists w (input_stl a) = true →
  load_mesh w (input_stl a) = Some sole_model →
  read_annotations w (annotation_path a) = AnnotationsData coco_data →
  generator_main w a =
  match @run_generator sq tr sole_model true coco_data (args_zones a) with
  | inl e => mkResult (inl (Fatal e)) []
  | inr out => export w a out
  end.
Proof. intros Hi Hm Ha. unfold generator_main. by rewrite Hi, Hm, Ha. Qed.

(** The script either ends before the exports with nothing written, or
    it has loaded its inputs, run to the end and reached the exports. *)
Lemma generator_main_cases :
  (∃ e, generator_main w a = mkResult (inl e) []) ∨
  (∃ sole_model coco_data out,
     input_exists w (input_stl a) = true ∧
     load_mesh w (input_stl a) = Some sole_model ∧
     read_annotations w (annotation_path a) = AnnotationsData coco_data ∧
     @run_generator sq tr sole_model true coco_data (args_zones a) = inr out ∧
     generator_main w a = export w a out).
Proof.
  unfold generator_main. destruct (input_exists w (input_stl a)); [|by eauto]. cbn [negb].
  destruct (load_mesh w (input_stl a)) as [sole_model|]; [|by eauto].
  destruct (read_annotations w (annotation_path a)) as [| | |coco_data]; try (by eauto).
  destruct (run_generator true coco_data (args_zones a)) as [e|out] eqn:E; [by eauto|].
  right. by exists sole_model, coco_data, out.
Qed.

(** What the exports write is among the two names, in their order. *)
Lemma export_written (out : run_output) :
  written (export w a out) ⊆ [output_file a; stl_output a].
Proof.
  destruct (export_cases out) as [(_ & -> & _)|[(_ & -> & _)|(_ & -> & _)]]; set_solver.
Qed.

End MainFacts.

(** The script asks its files for the input, the annotations of the foot
    and the two output names, and for nothing else. *)
Lemma generator_main_ext {sq : SqrtOp} {tr : TrigOps} (w w' : files) (a : args) :
  input_exists w (input_stl a) = input_exists w' (input_stl a) →
  load_mesh w (input_stl a) = load_mesh w' (input_stl a) →
  read_annotations w (annotation_path a) = read_annotations w' (annotation_path a) →
  can_export w (output_file a) = can_export w' (output_file a) →
  can_export w (stl_output a) = can_export w' (stl_output a) →
  generator_main w a = generator_main w' a.
Proof. intros Hi Hm Ha Ho Hs. unfold generator_main, export. by rewrite Hi, Hm, Ha, Ho, Hs. Qed.

(** * The properties *)

Section MainProperties.
Context {sq : SqrtOp} {tr : TrigOps} (w : files) (a : args).

(** The run of [Pipeline] with a failing export is the run with a good
    one, cut at the export. *)
Lemma run_generator_export {mesh : SoleMesh} (export_ok : bool) (data : coco)
    (zones : list string) :
  run_generator export_ok data zones =
  match run_generator true data zones with
  | inl e => inl e
  | inr out => if export_ok then inr out else inl ExportFailure
  end.
Proof. unfold run_generator. destruct (resolve _ _) as [e|[ids ws]]; [done|]. by destruct export_ok. Qed.


(** C37. What a run leaves on disk.  A run that reports has written the
    two files, the PLY first.  A run that ends early has written nothing,
    with one exception: when the second export fails the first file is
    already there. *)
Theorem generator_main_written :
  let r := generator_main w a in
  match outcome r with
  | inr _ => written r = [output_file a; stl_output a]
  | inl (Fatal ExportFailure) =>
      written r = [] ∨
      (written r = [output_file a] ∧ can_export w (stl_output a) = false)
  | inl _ => written r = []
  end.
Proof.
  unfold generator_main. destruct (input_exists w (input_stl a)); [|done]. cbn [negb].
  destruct (load_mesh w (input_stl a)) as [sole_model|]; [|done].
  destruct (read_annotations w (annotation_path a)) as [| | |coco_data]; try done.
  destruct (run_generator true coco_data (args_zones a)) as [[]|out]; cbn; auto.
  destruct (export_cases w a out) as [(-> & -> & _)|[(-> & -> & _ & ?)|(-> & -> & _)]]; auto.
Qed.

End MainProperties.

(** The two names of the output.  Without [--output] they are the names
    made from the foot, with the extensions [.ply] and [.stl].  An output
    name in which [.ply] does not occur is the name of both files: the
    second export replaces the first. *)
Theorem output_names (a : args) :
  args_foot a ∈ ["left"; "right"] →
  (default "" (args_output a) = "" →
   output_file a = "sole_with_spikes_" +:+ foot a +:+ ".ply" ∧
   stl_output a = "sole_with_spikes_" +:+ foot a +:+ ".stl") ∧
  (occurs ".ply" (output_file a) = false → stl_output a = output_file a).
Proof.
  intros Hfoot. split; [by apply default_names|]. apply str_replace_absent.
Qed.

(** ** The command line of the handler *)

(** The arguments read from a command line of the handler are the
    values the handler put there, when none of them starts with a dash.
    The generator reads [sys.argv[1:]]: the command line without the
    interpreter and the script. *)
Lemma command_line_args (w : world) (f i o : string) (zones : list string) :
  f ∈ choices → plain i → plain o → Forall plain zones →
  parse_args (drop 2 (command_line w f i o zones)) = Parsed (mkArgs f i (Some o) zones).
Proof. apply parse_args_command. Qed.

(** ** The handler and the generator *)

Section HandlerAndGenerator.
Context (w : world) (keys_left keys_right : option (gset string)).
Context (Hkeys : ∀ keys z, keys_left = Some keys ∨ keys_right = Some keys → z ∈ keys → plain z).

(** C33. The generator reads the command line of the handler the way the
    handler means it.  The arguments are the foot of the request, the
    sole of that foot and the accepted zones; the file the generator
    writes first is the file whose existence the handler tests after the
    run, the annotation file it loads is the one of the foot, and its
    second output is the STL file beside the first. *)
Theorem handler_generator_agree (req : request) (command : list string) :
  (generate_slippers keys_left keys_right w req).2 = Some command →
  ∃ a, parse_args (drop 2 command) = Parsed a ∧
    form_foot req = Some (foot a) ∧ (foot a = "left" ∨ foot a = "right") ∧
    (generate_slippers keys_left keys_right w req).1 =
      run_script w (foot a) (output_file a) (args_zones a) command ∧
    input_stl a = (if decide (foot a = "left") then LEFT_FOOT_STL else RIGHT_FOOT_STL) ∧
    annotation_path a =
      (if decide (foot a = "left") then "Left_reflexology_zones.json"
       else "Right_reflexology_zones.json") ∧
    stl_output a = "sole_with_spikes_" +:+ foot a +:+ ".stl" ∧
    args_zones a ≠ [].
Proof.
  destruct (generate_slippers_cases w keys_left keys_right req)
    as [[E _]|(vl & vr & f & -> & -> & Hf & Hlr & Hz & E)]; [by rewrite E|].
  rewrite E. intros [= <-]. cbn [fst].
  set (zones := (map_areas (if decide (f = "left") then vl else vr) (form_areas req)).1) in *.
  assert (Hzones : Forall plain zones).
  { apply Forall_forall. intros z [?%elem_of_nil|[Hin _]]%foldl_map_area_zones; [done|].
    destruct (decide (f = "left")); [apply (Hkeys vl) | apply (Hkeys vr)]; auto. }
  exists (mkArgs f (if decide (f = "left") then LEFT_FOOT_STL else RIGHT_FOOT_STL)
                 (Some (GENERATED_STL_BASE_FILENAME +:+ "_" +:+ f +:+ ".ply")) zones).
  destruct Hlr as [-> | ->]; (split; [apply command_line_args; auto; unfold choices; set_solver|]).
  all: split_and!; try done; try (by vm_compute); vm_compute; auto.
Qed.

End HandlerAndGenerator.

(** * Concrete runs *)

(** The command line of the request of [WebApp.demo_run]. *)
Definition demo_command : list string :=
  ["python3"; "generate_slippers.py"; "--foot"; "left"; "--input";
   "Shoe_Sole_UK_8_Left.stl"; "--output"; "sole_with_spikes_left.ply"; "HEART"].

Definition demo_args : args :=
  mkArgs "left" "Shoe_Sole_UK_8_Left.stl" (Some "sole_with_spikes_left.ply") ["HEART"].

Example demo_command_args : parse_args (drop 2 demo_command) = Parsed demo_args.
Proof. reflexivity. Qed.

(** A disk with the slab of the scenarios as the left sole and the
    annotations of the fourth scenario, on which every export succeeds. *)
Definition demo_files : files :=
  mkFiles (λ path, bool_decide (path = "Shoe_Sole_UK_8_Left.stl"))
          (λ _, Some slab100_mesh)
          (λ path, if decide (path = "Left_reflexology_zones.json")
                   then AnnotationsData scenario_outside else AnnotationsMissing)
          (λ _, true).

(** The run of the generator on the command line of the handler: it
    reports, and the two files are written under the names of the foot. *)
Example demo_generator_run :
  @generator_main sqrt_fixed_op bhaskara_trig demo_files demo_args =
  mkResult (inr outside_output) ["sole_with_spikes_left.ply"; "sole_with_spikes_left.stl"].
Proof.
  rewrite (generator_main_loaded demo_files demo_args slab100_mesh scenario_outside);
    [|done..].
  change (args_zones demo_args) with ["HEART"]. by rewrite outside_runs.
Qed.

(** With the right foot the annotations are looked for under the other
    name and the run ends before any work. *)
Example demo_generator_right :
  outcome (@generator_main sqrt_fixed_op bhaskara_trig demo_files
             (mkArgs "right" "Shoe_Sole_UK_8_Left.stl" None [])) =
  inl (AnnotationNotFound "Right_reflexology_zones.json").
Proof. reflexivity. Qed.

(** An output name without [.ply]: both exports write the same file. *)
Example same_file_twice :
  let a := mkArgs "left" "Shoe_Sole_UK_8_Left.stl" (Some "sole.stl") ["HEART"] in
  written (@generator_main sqrt_fixed_op bhaskara_trig demo_files a)
  = ["sole.stl"; "sole.stl"].
Proof.
  intros a.
  rewrite (generator_main_loaded demo_files a slab100_mesh scenario_outside); [|done..].
  change (args_zones a) with ["HEART"]. by rewrite outside_runs.
Qed.

(** [.ply] is replaced wherever it occurs, not only at the end. *)
Example replace_everywhere :
  str_replace ".ply" ".stl" "runs.ply.d/left.ply" = "runs.stl.d/left.stl".
Proof. reflexivity. Qed.

Lemma output_names_witness :
  (default "" (args_output (mkArgs "left" "sole.stl" None [])) = "" →
   output_file (mkArgs "left" "sole.stl" None []) =
     "sole_with_spikes_" +:+ foot (mkArgs "left" "sole.stl" None []) +:+ ".ply" ∧
   stl_output (mkArgs "left" "sole.stl" None []) =
     "sole_with_spikes_" +:+ foot (mkArgs "left" "sole.stl" None []) +:+ ".stl") ∧
  (occurs ".ply" (output_file (mkArgs "left" "sole.stl" None [])) = false →
   stl_output (mkArgs "left" "sole.stl" None []) =
   output_file (mkArgs "left" "sole.stl" None [])).
Proof. apply (output_names (mkArgs "left" "sole.stl" None [])). set_solver. Defined.

Lemma demo_keys_no_dash (keys : gset string) (z : string) :
  Some demo_keys = Some keys ∨ Some demo_keys = Some keys → z ∈ keys → plain z.
Proof.
  intros [[= <-]|[= <-]] Hz; apply elem_of_union in Hz as [Hz|Hz];
    apply elem_of_singleton in Hz as ->; reflexivity.
Qed.

Lemma handler_generator_agree_witness :
  ∃ a, parse_args (drop 2 demo_command) = Parsed a ∧
    form_foot demo_request = Some (foot a) ∧ (foot a = "left" ∨ foot a = "right") ∧
    (generate_slippers (Some demo_keys) (Some demo_keys) demo_world demo_request).1 =
      run_script demo_world (foot a) (output_file a) (args_zones a) demo_command ∧
    input_stl a = (if decide (foot a = "left") then LEFT_FOOT_STL else RIGHT_FOOT_STL) ∧
    annotation_path a =
      (if decide (foot a = "left") then "Left_reflexology_zones.json"
       else "Right_reflexology_zones.json") ∧
    stl_output a = "sole_with_spikes_" +:+ foot a +:+ ".stl" ∧
    args_zones a ≠ [].
Proof.
  apply (handler_generator_agree demo_world (Some demo_keys) (Some demo_keys)
           demo_keys_no_dash demo_request demo_command).
  by vm_compute.
Defined.
