(* ===== verification/System.v ===== *)
(** * The application and the generator on one disk

    [app.py] starts [generate_slippers.py] as a process (line 119); the
    two programs share the directory of the application: the handler
    tests that the sole is there before the run and that the output is
    there after it, the generator reads the sole and the annotations and
    writes the two files, and [/get_stl] sends what the generator wrote.
    The zone configuration the application reads when it starts is the
    annotation file the generator reads in every run.

    Here the disk is a finite map from the names of the files of that
    directory to their contents, and the [world] of [WebApp] and the
    [files] of [Startup], which are parameters there, are both made from
    it.  [serve] is one request from its arrival to the reply, with the
    disk it leaves; requests are served one after the other.

    Reading and writing file formats is outside the two programs: the
    class [Codec] holds [trimesh.load_mesh], [json.load] and
    [Trimesh.export] as functions on contents.  What the generator prints
    is not modelled; [printed] stands for the two streams the handler
    captures, [early_output] for those of a process that ends before the
    script does any work.  The
    theorems on requests assume [plain_keys]: no zone key starts with a
    dash, so that the generator reads the zones of the command line as
    the handler means them ([Cli.parse_args]).  Disks that differ only
    in the four generated files are related by [same_inputs]; what a
    request asks for, the keys read at start-up and being an
    installation are [Proper] for it, so the frame of a request is used
    by rewriting. *)

From stdpp Require Import gmap strings list.
From Stdlib Require Import QArith.
From S2P Require Import Prelude Numerics Mapper Sampler Bump Compositor Surface Zones Dicts.
From S2P Require Import Placement Metrics Pipeline WebApp Server Cli Startup.
Local Close Scope Q_scope.
Local Open Scope string_scope.
Local Open Scope list_scope.

(** ** File formats *)

Class Codec (content : Type) : Type := {
  (** [trimesh.load_mesh] on a file; [None] when it raises *)
  decode_mesh : content → option SoleMesh;
  (** [json.load] and lines 49-51 of the generator on a file *)
  decode_annotations : content → annotation_source;
  (** [json.load] and lines 31-37 of the application on a file *)
  decode_config : content → config_file;
  (** [combined.export(path)]: the format follows the name *)
  encode_mesh : string → trimesh → content
}.

(** The two readings of one JSON document agree: a document the
    generator reads as annotations is read by the application as the
    configuration with the names of its categories. *)
Class CodecOk (content : Type) `{Codec content} : Prop := {
  decode_config_annotations (c : content) (data : coco) :
    decode_annotations c = AnnotationsData data →
    decode_config c = config_of (categories data)
}.

(** What the two programs find around them: the interpreter
    ([sys.executable]), the address of the server, the names that can be
    written, and the two streams of a run. *)
Class Machine : Type := {
  python : string;
  host : string;
  writable : string → bool;
  printed : main_result → string * string;
  early_output : list string → string * string
}.

(** ** The disk

    The directory of the application is a [gmap string content]: the
    files by name. *)

Section System.
Context {content : Type} `{Codec content} {sq : SqrtOp} {tr : TrigOps} {env : Machine}.

Implicit Types (d : gmap string content) (a : args) (q : http_request) (k : app_keys).

(** The disk as the generator sees it. *)
Definition files_of d : files :=
  mkFiles (λ path, bool_decide (is_Some (d !! path)))
          (λ path, d !! path ≫= decode_mesh)
          (λ path, from_option decode_annotations AnnotationsMissing (d !! path))
          writable.

(** The mesh of line 250 of the generator: what a run that reaches the
    export has joined. *)
Definition combined_of d a : option trimesh :=
  sole_model ← d !! input_stl a ≫= decode_mesh;
  match from_option decode_annotations AnnotationsMissing (d !! annotation_path a) with
  | AnnotationsData coco_data =>
      match @run_generator sq tr sole_model true coco_data (args_zones a) with
      | inr out => Some (out_combined out)
      | inl _ => None
      end
  | _ => None
  end.

(** Lines 251 and 254: each export replaces the file of that name. *)
Definition write_files d (combined : trimesh) (paths : list string) : gmap string content :=
  foldl (λ d path, <[path := encode_mesh path combined]> d) d paths.

(** A run of the generator: its end and the disk it leaves. *)
Definition run_on d a : main_result * gmap string content :=
  let r := generator_main (files_of d) a in
  (r, from_option (λ combined, write_files d combined (written r)) d (combined_of d a)).

(** ** The process, [app.py] line 119 *)

(** The outcome of [subprocess.run] for a command line.  The generator
    reads the command line without the interpreter and the script; it
    ends with status 0 after its report and with status 1 otherwise.  A
    command line the parser refuses ends with status 2 after the
    message of the parser, one that asks for the help with status 0
    after the help, and a namespace with a list for a string with
    status 1 after the exception of line 19 or 25; none of these
    touches the disk. *)
Definition run_command d (command : list string) : script_outcome * gmap string content :=
  let argv := drop 2 command in
  match parse_args argv with
  | Parsed a =>
      let r := run_on d a in
      (match outcome r.1 with
       | inr _ => ScriptDone (printed r.1).1 (printed r.1).2
       | inl _ => ScriptFailed 1 (printed r.1).1 (printed r.1).2
       end, r.2)
  | ParsedList => (ScriptFailed 1 (early_output argv).1 (early_output argv).2, d)
  | Usage => (ScriptFailed 2 (early_output argv).1 (early_output argv).2, d)
  | HelpPrinted => (ScriptDone (early_output argv).1 (early_output argv).2, d)
  end.

(** Line 135 of [app.py], with [_external=True]. *)
Definition url_for_get_stl (filename : string) : string := host +:+ "/get_stl/" +:+ filename.

(** The disk as the handler sees it. *)
Definition world_of d : world :=
  mkWorld python
          (λ path, bool_decide (is_Some (d !! path)))
          (λ command, (run_command d command).1)
          (λ command path, bool_decide (is_Some ((run_command d command).2 !! path)))
          url_for_get_stl.

(** [send_from_directory] on the directory of the application. *)
Definition send_from_directory d (filename : string) : send_result content :=
  match d !! filename with
  | Some c => Sent c
  | None => RaisesNotFound
  end.

(** ** The application *)

(** Lines 43-44 of [app.py] on a disk. *)
Definition boot d : app_keys :=
  load_keys (λ path, from_option decode_config ConfigMissing (d !! path)).

(** One request: the reply and the disk after it. *)
Definition serve k d q : reply content * gmap string content :=
  let r := handle k (world_of d) (send_from_directory d) q in
  (r.1, from_option (λ command, (run_command d command).2) d r.2).

(** Requests served one after the other. *)
Fixpoint serve_all k d (qs : list http_request) : list (reply content) * gmap string content :=
  match qs with
  | [] => ([], d)
  | q :: qs =>
      let r := serve k d q in
      let rs := serve_all k r.2 qs in
      (r.1 :: rs.1, rs.2)
  end.

(** The names the application makes the generator write. *)
Definition generated_names : list string :=
  ["sole_with_spikes_left.ply"; "sole_with_spikes_left.stl";
   "sole_with_spikes_right.ply"; "sole_with_spikes_right.stl"].

(** ** What a request asks for

    The specification of the route of the generator, without processes,
    command lines and files written: the foot of the request and the run
    of [Pipeline] on the sole and the annotations of that foot, for the
    submitted areas that are keys of the foot.  Nothing is asked for
    when the keys are not loaded, when the size or the foot is missing,
    when no submitted area is a key, when the sole or the annotations
    cannot be read and when the run is refused. *)
Definition sole_of (f : string) : string :=
  if decide (f = "left") then LEFT_FOOT_STL else RIGHT_FOOT_STL.

Definition annotations_of (f : string) : string :=
  (if decide (f = "left") then "Left" else "Right") +:+ "_reflexology_zones.json".

Definition ply_of (f : string) : string := "sole_with_spikes_" +:+ f +:+ ".ply".
Definition stl_of (f : string) : string := "sole_with_spikes_" +:+ f +:+ ".stl".

Definition zones_of k q (f : string) : list string :=
  (map_areas (default ∅ (if decide (f = "left") then VALID_INTERNAL_ZONE_KEYS_LEFT k
                         else VALID_INTERNAL_ZONE_KEYS_RIGHT k))
             (http_areas q)).1.

Definition requested k d q : option (string * run_output) :=
  if keys_missing k || falsy (http_size q) then None
  else
    f ← http_foot q;
    if decide ((f = "left" ∨ f = "right") ∧ zones_of k q f ≠ []) then
      sole_model ← d !! sole_of f ≫= decode_mesh;
      c ← d !! annotations_of f;
      match decode_annotations c with
      | AnnotationsData coco_data =>
          match @run_generator sq tr sole_model true coco_data (zones_of k q f) with
          | inr out => Some (f, out)
          | inl _ => None
          end
      | _ => None
      end
    else None.

(** The reply to a request that is granted: lines 136-141. *)
Definition success_reply k q (f : string) : reply content :=
  Json (mkResponse 200
          (SuccessBody ("Generation successful for " +:+ f +:+ " foot. Processed zones: "
                        +:+ join ", " (zones_of k q f))
                       (ply_of f) (url_for_get_stl (ply_of f)))).

(** The disk with the two files of a foot holding a mesh. *)
Definition with_outputs d (f : string) (combined : trimesh) : gmap string content :=
  <[stl_of f := encode_mesh (stl_of f) combined]>
    (<[ply_of f := encode_mesh (ply_of f) combined]> d).

(** The command line of lines 109-115 for a foot and its zones. *)
Definition command_of d (f : string) (zones : list string) : list string :=
  command_line (world_of d) f (sole_of f) (ply_of f) zones.

(** Two disks with the same inputs: they differ at most in the files
    the generator is made to write. *)
Definition same_inputs d d' : Prop :=
  ∀ path, path ∉ generated_names → d !! path = d' !! path.

(** ** Assumptions on an installation *)

(** No zone key starts with a dash, so the parser of the generator reads
    every key as a zone. *)
Definition plain_keys k : Prop :=
  ∀ keys z, VALID_INTERNAL_ZONE_KEYS_LEFT k = Some keys ∨
            VALID_INTERNAL_ZONE_KEYS_RIGHT k = Some keys →
            z ∈ keys → plain z.

(** The four output files can be written. *)
Definition outputs_writable : Prop := ∀ path, path ∈ generated_names → writable path = true.

(** The soles and the annotations of both feet are on the disk and can
    be read, and the keys of the application are the keys of the
    annotations on the disk. *)
Definition installed k d : Prop :=
  ∀ f, f = "left" ∨ f = "right" →
    is_Some (d !! sole_of f ≫= decode_mesh) ∧
    ∃ c coco_data,
      d !! annotations_of f = Some c ∧ decode_annotations c = AnnotationsData coco_data ∧
      (if decide (f = "left") then VALID_INTERNAL_ZONE_KEYS_LEFT k
       else VALID_INTERNAL_ZONE_KEYS_RIGHT k)
      = load_valid_zone_keys (config_of (categories coco_data)).

(** A request of the page: a POST to the route of the generator with a
    foot, a size and at least one area that is a key of the foot. *)
Definition wanted k q : Prop :=
  url_map (http_method q) (http_path q) = Handler GenerateSlippers ∧
  falsy (http_size q) = false ∧
  ∃ f, http_foot q = Some f ∧ (f = "left" ∨ f = "right") ∧ zones_of k q f ≠ [].

(** A request for a file. *)
Definition get_file (filename : string) : http_request :=
  mkHttp "GET" ("/get_stl/" +:+ filename) [] None None.

End System.

(** * Theorems *)

Section SystemFacts.
Context {content : Type} `{Codec content} {sq : SqrtOp} {tr : TrigOps} {env : Machine}.
Implicit Types (d : gmap string content) (a : args) (q : http_request) (k : app_keys).

(** ** Writing *)

Lemma write_files_lookup_ne d (combined : trimesh) (paths : list string) (path : string) :
  path ∉ paths → write_files d combined paths !! path = d !! path.
Proof.
  unfold write_files. revert d. induction paths as [|p paths IH]; intros d Hp; [done|].
  apply not_elem_of_cons in Hp as [Hne Hp]. cbn. rewrite IH by done.
  by rewrite lookup_insert_ne.
Qed.

(** ** A run on the disk *)

(** A run either ends before the exports and leaves the disk as it was,
    or it has read a sole and annotations from the disk, run to the end
    and written what the exports wrote. *)
Lemma run_on_cases d a :
  (∃ e, run_on d a = (mkResult (inl e) [], d)) ∨
  (∃ sole_model c coco_data out,
     d !! input_stl a ≫= decode_mesh = Some sole_model ∧
     d !! annotation_path a = Some c ∧ decode_annotations c = AnnotationsData coco_data ∧
     @run_generator sq tr sole_model true coco_data (args_zones a) = inr out ∧
     run_on d a = (export (files_of d) a out,
                   write_files d (out_combined out)
                     (written (export (files_of d) a out)))).
Proof.
  unfold run_on.
  destruct (generator_main_cases (files_of d) a)
    as [[e ->]|(sole_model & coco_data & out & _ & Hm & Ha & Hrun & ->)].
  - left. exists e. by destruct (combined_of d a).
  - right. cbn in Hm, Ha. destruct (d !! annotation_path a) as [c|] eqn:Hc; [|done].
    exists sole_model, c, coco_data, out. unfold combined_of.
    rewrite Hm, Hc. cbn in *. by rewrite Ha, Hrun.
Qed.

(** A run reports exactly when the sole and the annotations are on the
    disk and can be read, the run on them is not refused, and both output
    names can be written. *)
Lemma run_on_done d a (out : run_output) :
  outcome (run_on d a).1 = inr out ↔
  ∃ sole_model c coco_data,
    d !! input_stl a ≫= decode_mesh = Some sole_model ∧
    d !! annotation_path a = Some c ∧ decode_annotations c = AnnotationsData coco_data ∧
    @run_generator sq tr sole_model true coco_data (args_zones a) = inr out ∧
    writable (output_file a) = true ∧ writable (stl_output a) = true.
Proof.
  split.
  - destruct (run_on_cases d a)
      as [[e ->]|(sole_model & c & coco_data & out' & Hm & Hc & Ha & Hrun & ->)]; [done|].
    cbn [fst]. destruct (export_cases (files_of d) a out')
      as [(-> & _ & Hw1 & Hw2)|[(-> & _)|(-> & _)]]; [|done..].
    intros [= ->]. by exists sole_model, c, coco_data.
  - intros (sole_model & c & coco_data & Hm & Hc & Ha & Hrun & Hw1 & Hw2).
    unfold run_on. cbn [fst].
    rewrite (generator_main_loaded _ _ sole_model coco_data); cbn.
    + rewrite Hrun. unfold export. cbn. by rewrite Hw1, Hw2.
    + destruct (d !! input_stl a); [by rewrite bool_decide_eq_true | done].
    + done.
    + by rewrite Hc.
Qed.

(** The disk after a run that reports: the two files hold the joined
    mesh, the second written last. *)
Lemma run_on_done_disk d a (out : run_output) :
  outcome (run_on d a).1 = inr out →
  (run_on d a).2 =
  <[stl_output a := encode_mesh (stl_output a) (out_combined out)]>
    (<[output_file a := encode_mesh (output_file a) (out_combined out)]> d).
Proof.
  destruct (run_on_cases d a)
    as [[e ->]|(sole_model & c & coco_data & out' & Hm & Hc & Ha & Hrun & ->)]; [done|].
  cbn [fst snd]. destruct (export_cases (files_of d) a out')
    as [(-> & -> & _)|[(-> & _)|(-> & _)]]; [|done..].
  by intros [= ->].
Qed.

(** What a run that reports has written, and the mesh it wrote. *)
Lemma run_on_done_written d a (out : run_output) :
  outcome (run_on d a).1 = inr out →
  written (run_on d a).1 = [output_file a; stl_output a] ∧
  combined_of d a = Some (out_combined out).
Proof.
  intros Hout. pose proof (proj1 (run_on_done d a out) Hout)
    as (sole_model & c & coco_data & Hm & Hc & Ha & Hrun & _).
  split; [|unfold combined_of; rewrite Hm, Hc; cbn; by rewrite Ha, Hrun].
  revert Hout. destruct (run_on_cases d a)
    as [[e ->]|(? & ? & ? & out' & _ & _ & _ & _ & ->)]; [done|].
  cbn [fst]. by destruct (export_cases (files_of d) a out')
    as [(-> & -> & _)|[(-> & _)|(-> & _)]].
Qed.

(** The mesh of a run started by the handler is the mesh of what the
    request asked for. *)
Lemma combined_of_requested k d q (f : string) (combined : trimesh) :
  keys_missing k = false → falsy (http_size q) = false → http_foot q = Some f →
  f = "left" ∨ f = "right" → zones_of k q f ≠ [] →
  combined_of d (mkArgs f (sole_of f) (Some (ply_of f)) (zones_of k q f)) = Some combined →
  ∃ out, requested k d q = Some (f, out) ∧ combined = out_combined out.
Proof.
  intros Hk Hs Hfoot Hf Hz. unfold combined_of, requested. rewrite Hk, Hs, Hfoot. cbn.
  rewrite decide_True by done.
  assert (annotation_path (mkArgs f (sole_of f) (Some (ply_of f)) (zones_of k q f))
          = annotations_of f) as -> by (by destruct Hf as [-> | ->]).
  destruct (d !! sole_of f ≫= decode_mesh) as [sole_model|]; [|done]. cbn.
  destruct (d !! annotations_of f) as [c|]; [|done]. cbn.
  destruct (decode_annotations c); try done.
  destruct (run_generator true _ _) as [e|out]; [done|]. intros [= <-]. by exists out.
Qed.

(** A run never touches a file under another name than its two outputs. *)
Lemma run_on_lookup_ne d a (path : string) :
  path ≠ output_file a → path ≠ stl_output a → (run_on d a).2 !! path = d !! path.
Proof.
  intros Hp Hs. destruct (run_on_cases d a) as [[e ->]|(? & ? & ? & out & _ & _ & _ & _ & ->)];
    [done|].
  cbn [snd]. apply write_files_lookup_ne. intros Hin%export_written. set_solver.
Qed.

(** A run that ends with an error although both names can be written
    has written nothing. *)
Lemma run_on_failed d a (e : exit_reason) :
  writable (output_file a) = true → writable (stl_output a) = true →
  outcome (run_on d a).1 = inl e → (run_on d a).2 = d.
Proof.
  intros Hw1 Hw2.
  destruct (run_on_cases d a) as [[e' ->]|(? & ? & ? & out & _ & _ & _ & _ & ->)]; [done|].
  cbn [fst snd]. unfold export. cbn [can_export files_of]. by rewrite Hw1, Hw2.
Qed.

(** ** A command of the handler *)

Section HandlerCommand.
Context d (f : string) (zones : list string) (Hf : f = "left" ∨ f = "right").
Context (Hzones : Forall plain zones).

(** The names of the files of a run started by the handler. *)
Lemma command_of_names :
  let a := mkArgs f (sole_of f) (Some (ply_of f)) zones in
  input_stl a = sole_of f ∧ annotation_path a = annotations_of f ∧
  output_file a = ply_of f ∧ stl_output a = stl_of f.
Proof. destruct Hf as [-> | ->]; by vm_compute. Qed.

(** The generator reads the command line the way the handler means
    it. *)
Lemma command_of_args :
  parse_args (drop 2 (command_of d f zones)) =
  Parsed (mkArgs f (sole_of f) (Some (ply_of f)) zones).
Proof. apply command_line_args; destruct Hf as [-> | ->]; try done; set_solver. Qed.

(** The process ends with status 0 only when the parser accepts the
    command line and the run on the files of the foot reports. *)
Lemma run_command_done (stdout stderr : string) :
  (run_command d (command_of d f zones)).1 = ScriptDone stdout stderr →
  ∃ sole_model c coco_data out,
    d !! sole_of f ≫= decode_mesh = Some sole_model ∧
    d !! annotations_of f = Some c ∧ decode_annotations c = AnnotationsData coco_data ∧
    @run_generator sq tr sole_model true coco_data zones = inr out ∧
    (run_command d (command_of d f zones)).2 = with_outputs d f (out_combined out).
Proof.
  unfold run_command. rewrite command_of_args. cbn [fst snd].
  destruct command_of_names as (Hi & Hj & Ho & Hs). cbv zeta in Hi, Hj, Ho, Hs.
  destruct (outcome (run_on d _).1) as [e|out] eqn:Hout; [done|]. intros _.
  rewrite (run_on_done_disk d _ out Hout). apply run_on_done in Hout
    as (sole_model & c & coco_data & Hm & Hc & Hd & Hrun & _).
  rewrite Ho, Hs. rewrite Hi in Hm. rewrite Hj in Hc.
  by exists sole_model, c, coco_data, out.
Qed.

(** A command of the handler leaves every other file as it was. *)
Lemma run_command_lookup_ne (path : string) :
  path ∉ generated_names → (run_command d (command_of d f zones)).2 !! path = d !! path.
Proof.
  intros Hp. unfold run_command. rewrite command_of_args. cbn [snd].
  destruct command_of_names as (_ & _ & Ho & Hs). cbv zeta in Ho, Hs.
  apply run_on_lookup_ne; rewrite ?Ho, ?Hs; intros ->; apply Hp;
    destruct Hf as [-> | ->]; unfold generated_names; set_solver.
Qed.

End HandlerCommand.

(** ** The handler on the disk *)

Section Handler.
Context k d q.

Lemma keys_loaded :
  keys_missing k = false ↔
  ∃ vl vr, VALID_INTERNAL_ZONE_KEYS_LEFT k = Some vl ∧ VALID_INTERNAL_ZONE_KEYS_RIGHT k = Some vr.
Proof.
  unfold keys_missing. rewrite bool_decide_eq_false.
  destruct (VALID_INTERNAL_ZONE_KEYS_LEFT k), (VALID_INTERNAL_ZONE_KEYS_RIGHT k); naive_solver.
Qed.

(** The zones of the command line are the zones of the specification. *)
Lemma zones_of_keys (vl vr : gset string) (f : string) :
  VALID_INTERNAL_ZONE_KEYS_LEFT k = Some vl → VALID_INTERNAL_ZONE_KEYS_RIGHT k = Some vr →
  (map_areas (if decide (f = "left") then vl else vr) (form_areas (form_of q))).1
  = zones_of k q f.
Proof. unfold zones_of. intros -> ->. by destruct (decide (f = "left")). Qed.

(** When the handler starts the generator, the request has passed every
    test and the command line is the one of its foot and zones. *)
Lemma handler_started (command : list string) :
  (generate_slippers (VALID_INTERNAL_ZONE_KEYS_LEFT k) (VALID_INTERNAL_ZONE_KEYS_RIGHT k)
     (world_of d) (form_of q)).2 = Some command →
  ∃ f, keys_missing k = false ∧ falsy (http_size q) = false ∧
       http_foot q = Some f ∧ (f = "left" ∨ f = "right") ∧ zones_of k q f ≠ [] ∧
       command = command_of d f (zones_of k q f) ∧
       (generate_slippers (VALID_INTERNAL_ZONE_KEYS_LEFT k) (VALID_INTERNAL_ZONE_KEYS_RIGHT k)
          (world_of d) (form_of q)).1
       = run_script (world_of d) f (ply_of f) (zones_of k q f) command.
Proof.
  intros Hc.
  destruct (generate_slippers_cases (world_of d) (VALID_INTERNAL_ZONE_KEYS_LEFT k)
              (VALID_INTERNAL_ZONE_KEYS_RIGHT k) (form_of q))
    as [[E _]|(vl & vr & f & Hl & Hr & Hfoot & Hf & Hz & E)]; [congruence|].
  cbv zeta in Hz, E. rewrite (zones_of_keys vl vr f Hl Hr) in Hz, E.
  rewrite E in Hc |- *. injection Hc as <-. exists f. split_and!; try done.
  - apply keys_loaded. eauto.
  - destruct (falsy (http_size q)) eqn:Hs; [|done].
    destruct (generate_slippers_refused (world_of d) (VALID_INTERNAL_ZONE_KEYS_LEFT k)
                (VALID_INTERNAL_ZONE_KEYS_RIGHT k) (form_of q)) as [E' _]; [by auto 10|].
    by rewrite E in E'.
Qed.

(** A request that passes every test starts the generator when the sole
    of its foot is on the disk. *)
Lemma handler_starts (f : string) :
  req_method (form_of q) = "POST" → keys_missing k = false → falsy (http_size q) = false →
  http_foot q = Some f → f = "left" ∨ f = "right" → zones_of k q f ≠ [] →
  is_Some (d !! sole_of f) →
  generate_slippers (VALID_INTERNAL_ZONE_KEYS_LEFT k) (VALID_INTERNAL_ZONE_KEYS_RIGHT k)
    (world_of d) (form_of q)
  = (run_script (world_of d) f (ply_of f) (zones_of k q f)
               (command_of d f (zones_of k q f)),
             Some (command_of d f (zones_of k q f))).
Proof.
  intros Hm (vl & vr & Hl & Hr)%keys_loaded Hs Hfoot Hf Hz Hsole.
  rewrite Hl, Hr.
  rewrite (generate_slippers_valid (world_of d) vl vr (form_of q) f); try done.
  - cbv zeta. rewrite (zones_of_keys vl vr f Hl Hr). rewrite decide_False by done.
    change (file_exists (world_of d) _) with (bool_decide (is_Some (d !! sole_of f))).
    by rewrite bool_decide_eq_true_2.
  - intros Ha. apply Hz. unfold zones_of.
    change (http_areas q) with (form_areas (form_of q)). by rewrite Ha.
Qed.

End Handler.

(** ** One request *)

(** The zones the handler accepts are keys, and so plain. *)
Lemma zones_of_plain k q (f : string) : plain_keys k → Forall plain (zones_of k q f).
Proof.
  intros Hk. apply Forall_forall. intros z. unfold zones_of, map_areas.
  intros [?%elem_of_nil|[Hin _]]%foldl_map_area_zones; [done|]. revert Hin.
  destruct (decide (f = "left")).
  - destruct (VALID_INTERNAL_ZONE_KEYS_LEFT k) eqn:E; cbn; [eauto using Hk|set_solver].
  - destruct (VALID_INTERNAL_ZONE_KEYS_RIGHT k) eqn:E; cbn; [eauto using Hk|set_solver].
Qed.

(** Having the same inputs is an equivalence of disks. *)
#[export] Instance same_inputs_equivalence : Equivalence (same_inputs (content:=content)).
Proof.
  split; [by intros d path | by intros d d' Hd path Hp; rewrite Hd |].
  intros d1 d2 d3 H12 H23 path Hp. by rewrite H12, H23.
Qed.

(** No request changes a file under another name than the four the
    generator is made to write. *)
Lemma serve_same_inputs k d q : plain_keys k → same_inputs (serve k d q).2 d.
Proof.
  intros Hk path Hp. unfold serve.
  destruct (handle k (world_of d) (send_from_directory d) q).2 as [command|] eqn:Hc; [|done].
  apply handle_command in Hc as [_ Hc]. cbn.
  destruct (handler_started k d q command Hc) as (f & _ & _ & _ & Hf & _ & -> & _).
  by apply run_command_lookup_ne; [|apply zones_of_plain|].
Qed.

(** ** One request for the generator *)

Lemma stl_ply_ne (f : string) : stl_of f ≠ ply_of f.
Proof. unfold ply_of, stl_of. intros E. by repeat apply (inj (String.app _)) in E. Qed.

Lemma with_outputs_lookup_ply d (f : string) (combined : trimesh) :
  with_outputs d f combined !! ply_of f = Some (encode_mesh (ply_of f) combined).
Proof.
  unfold with_outputs. rewrite lookup_insert_ne by apply stl_ply_ne.
  by rewrite lookup_insert_eq.
Qed.

Lemma with_outputs_lookup_ne d (f : string) (combined : trimesh) (path : string) :
  path ≠ ply_of f → path ≠ stl_of f → with_outputs d f combined !! path = d !! path.
Proof. intros Hp Hs. unfold with_outputs. by rewrite !lookup_insert_ne. Qed.

(** A request for the generator that is answered with 200 has run what
    it asked for, left the mesh in the two files of the foot and named
    the first of them in the reply. *)
Lemma serve_generate_inv k d q :
  plain_keys k →
  url_map (http_method q) (http_path q) = Handler GenerateSlippers →
  reply_status (serve k d q).1 = 200 →
  ∃ f out,
    requested k d q = Some (f, out) ∧
    (serve k d q).2 = with_outputs d f (out_combined out) ∧
    (serve k d q).1 = success_reply k q f.
Proof.
  intros Hplain Hroute. unfold serve. rewrite (handle_generate _ _ _ _ Hroute). cbn [fst snd].
  destruct (generate_slippers _ _ _ _).2 as [command|] eqn:Hc.
  - destruct (handler_started k d q command Hc) as (f & Hk & Hsz & Hfoot & Hf & Hz & -> & ->).
    cbn [from_option reply_status].
    destruct (run_script_status (world_of d) f (ply_of f) (zones_of k q f)
                (command_of d f (zones_of k q f)))
      as [(_ & (stdout & stderr & Hrun) & _ & message & url & Hbody)|[-> _]]; [|done].
    intros Hs. cbn [run world_of] in Hrun.
    destruct (run_command_done d f _ Hf (zones_of_plain k q f Hplain) stdout stderr Hrun)
      as (sole_model & c & coco_data & out & Hm & Hd & Ha & Hgen & ->).
    exists f, out. split_and!; [|done|].
    + unfold requested. rewrite Hk, Hsz, Hfoot. cbn. rewrite decide_True by done.
      rewrite Hm, Hd. cbn. by rewrite Ha, Hgen.
    + unfold run_script in Hs |- *. cbn [run world_of] in Hs |- *. rewrite Hrun in Hs |- *.
      by destruct (file_exists_after _ _ _).
  - destruct (generate_slippers_cases (world_of d) (VALID_INTERNAL_ZONE_KEYS_LEFT k)
                (VALID_INTERNAL_ZONE_KEYS_RIGHT k) (form_of q))
      as [[_ Hst]|(? & ? & ? & _ & _ & _ & _ & _ & E)]; [|by rewrite E in Hc].
    cbn. intros Hs. rewrite Hs in Hst. set_solver.
Qed.

(** The parser accepts the command line of the handler when no key
    starts with a dash. *)
Lemma command_of_parsed k d q (f : string) :
  plain_keys k → f = "left" ∨ f = "right" →
  parse_args (drop 2 (command_of d f (zones_of k q f)))
  = Parsed (mkArgs f (sole_of f) (Some (ply_of f)) (zones_of k q f)).
Proof. intros Hplain Hf. by apply command_of_args, zones_of_plain. Qed.

(** What it means that a request asks for a run. *)
Lemma requested_Some k d q (f : string) (out : run_output) :
  requested k d q = Some (f, out) →
  keys_missing k = false ∧ falsy (http_size q) = false ∧ http_foot q = Some f ∧
  (f = "left" ∨ f = "right") ∧ zones_of k q f ≠ [] ∧
  ∃ sole_model c coco_data,
    d !! sole_of f ≫= decode_mesh = Some sole_model ∧
    d !! annotations_of f = Some c ∧ decode_annotations c = AnnotationsData coco_data ∧
    @run_generator sq tr sole_model true coco_data (zones_of k q f) = inr out.
Proof.
  unfold requested.
  destruct (keys_missing k) eqn:Hk; [done|]. destruct (falsy (http_size q)) eqn:Hsz; [done|].
  destruct (http_foot q) as [f'|] eqn:Hfoot; [|done]. cbn.
  case_decide as Hfz; [|done]. destruct Hfz as [Hf Hz].
  destruct (d !! sole_of f' ≫= decode_mesh) as [sole_model|] eqn:Hm; [|done].
  destruct (d !! annotations_of f') as [c|] eqn:Hc; [|done]. cbn.
  destruct (decode_annotations c) as [| | |coco_data] eqn:Ha; try done.
  destruct (run_generator true coco_data (zones_of k q f')) as [e|out'] eqn:Hgen; [done|].
  intros [= -> ->]. split_and!; try done. by exists sole_model, c, coco_data.
Qed.

(** The run a request asks for reports when the outputs can be written. *)
Lemma run_on_requested k d q (f : string) (out : run_output) :
  outputs_writable → requested k d q = Some (f, out) →
  outcome (run_on d (mkArgs f (sole_of f) (Some (ply_of f)) (zones_of k q f))).1 = inr out.
Proof.
  intros Hw (_ & _ & _ & Hf & _ & sole_model & c & coco_data & Hm & Hc & Ha & Hgen)
    %requested_Some.
  destruct (command_of_names f (zones_of k q f) Hf) as (Hi & Hj & Ho & Hs).
  cbv zeta in Hi, Hj, Ho, Hs.
  apply run_on_done. exists sole_model, c, coco_data. rewrite Hi, Hj, Ho, Hs.
  split_and!; try done; apply Hw; destruct Hf as [-> | ->]; unfold generated_names; set_solver.
Qed.

(** The process of a request that asks for a run ends well and leaves
    the mesh in the two files of the foot. *)
Lemma run_command_requested k d q (f : string) (out : run_output) :
  plain_keys k → outputs_writable → requested k d q = Some (f, out) →
  ∃ stdout stderr,
    run_command d (command_of d f (zones_of k q f))
    = (ScriptDone stdout stderr, with_outputs d f (out_combined out)).
Proof.
  intros Hplain Hw Hreq. pose proof (run_on_requested k d q f out Hw Hreq) as Hout.
  apply requested_Some in Hreq as (Hk & _ & _ & Hf & _).
  destruct (command_of_names f (zones_of k q f) Hf) as (_ & _ & Ho & Hs). cbv zeta in Ho, Hs.
  unfold run_command. rewrite (command_of_parsed k d q f Hplain Hf). cbn [fst snd].
  rewrite Hout, (run_on_done_disk _ _ out Hout), Ho, Hs. by eexists _, _.
Qed.

(** A request that asks for something is answered with 200 and leaves
    the mesh in the two files of its foot. *)
Lemma serve_requested k d q (f : string) (out : run_output) :
  url_map (http_method q) (http_path q) = Handler GenerateSlippers →
  plain_keys k → outputs_writable →
  requested k d q = Some (f, out) →
  serve k d q = (success_reply k q f, with_outputs d f (out_combined out)).
Proof.
  intros Hroute Hplain Hw Hreq.
  destruct (run_command_requested k d q f out Hplain Hw Hreq) as (stdout & stderr & Hrun).
  apply requested_Some in Hreq as (Hk & Hsz & Hfoot & Hf & Hz & sole_model & _ & _ & Hm & _).
  pose proof (proj1 (url_map_generate _ _) Hroute) as [_ Hpost].
  unfold serve. rewrite (handle_generate _ _ _ _ Hroute). cbn [fst snd].
  rewrite (handler_starts k d q f); try done;
    [|destruct (d !! sole_of f); [by eexists | done]].
  cbn [fst snd from_option]. rewrite Hrun. cbn [snd]. unfold run_script.
  cbn [run file_exists_after world_of]. rewrite Hrun. cbn [fst snd].
  rewrite with_outputs_lookup_ply. by rewrite bool_decide_eq_true_2 by by eexists.
Qed.

(** A request that is not answered with 200 leaves the disk as it was,
    when the output files can be written. *)
Lemma serve_failed_disk k d q :
  plain_keys k → outputs_writable → reply_status (serve k d q).1 ≠ 200 → (serve k d q).2 = d.
Proof.
  intros Hplain Hw. unfold serve.
  destruct (handle k (world_of d) (send_from_directory d) q).2 as [command|] eqn:Hc; [|done].
  destruct (handle_command _ _ _ _ _ Hc) as [Hroute Hh].
  rewrite (handle_generate _ _ _ _ Hroute). cbn [fst snd from_option reply_status].
  destruct (handler_started k d q command Hh) as (f & _ & _ & _ & Hf & _ & -> & ->).
  destruct (command_of_names f (zones_of k q f) Hf) as (_ & _ & Ho & Hs). cbv zeta in Ho, Hs.
  unfold run_script. cbn [run file_exists_after world_of]. unfold run_command.
  rewrite (command_of_parsed k d q f Hplain Hf). cbn [fst snd].
  destruct (outcome (run_on d _).1) as [e|out] eqn:Hout.
  - intros _. apply (run_on_failed _ _ e); [| |done]; rewrite ?Ho, ?Hs; apply Hw;
      destruct Hf as [-> | ->]; unfold generated_names; set_solver.
  - rewrite (run_on_done_disk _ _ out Hout), Ho, Hs.
    change (<[stl_of f:=_]> _) with (with_outputs d f (out_combined out)).
    rewrite with_outputs_lookup_ply, bool_decide_eq_true_2 by (by eexists). done.
Qed.

(** ** Files that are sent *)

Lemma serve_get_file k d (filename : string) (c : content) :
  filename ≠ "" → d !! filename = Some c → serve k d (get_file filename) = (FileBody c, d).
Proof.
  intros Hne Hc. unfold serve.
  rewrite (handle_get_stl _ _ _ _ filename) by (apply url_map_get_stl; [done | set_solver]).
  cbn. unfold get_stl, send_from_directory. by rewrite Hc.
Qed.

Lemma ply_of_ne (f : string) : ply_of f ≠ "".
Proof. done. Qed.

(** ** The specification depends on the inputs only *)

Lemma input_names (f : string) :
  f = "left" ∨ f = "right" →
  (sole_of f ∉ generated_names) ∧ (annotations_of f ∉ generated_names).
Proof.
  intros [-> | ->]; split; apply (bool_decide_unpack _); by vm_compute.
Qed.

(** What a request asks for depends on the inputs only. *)
#[export] Instance requested_proper k : Proper (same_inputs ==> eq ==> eq) (requested k).
Proof.
  intros d' d Hd q ? <-. unfold requested. destruct (_ || _); [done|].
  destruct (http_foot q) as [f|]; [|done]. cbn. case_decide as Hf; [|done].
  destruct (input_names f (proj1 Hf)) as [Hs Ha]. by rewrite !Hd.
Qed.

Lemma with_outputs_idemp d (f : string) (combined : trimesh) :
  with_outputs (with_outputs d f combined) f combined = with_outputs d f combined.
Proof.
  apply map_eq. intros path. unfold with_outputs.
  destruct (decide (path = stl_of f)) as [->|Hs]; [by simplify_map_eq|].
  destruct (decide (path = ply_of f)) as [->|Hp]; by simplify_map_eq.
Qed.

(** ** An installation *)

#[export] Instance installed_proper k : Proper (same_inputs ==> iff) (installed k).
Proof.
  assert (∀ d d', same_inputs d d' → installed k d → installed k d') as Hin.
  { intros d d' Hd Hi f Hf. destruct (input_names f Hf) as [Hs Ha].
    rewrite <- !Hd by done. by apply Hi. }
  intros d d' Hd. split; apply Hin; [done | by symmetry].
Qed.

(** On an installation a request of the page asks for a run that is not
    refused. *)
Lemma installed_requested k d q :
  installed k d → wanted k q → ∃ f out, requested k d q = Some (f, out).
Proof.
  intros Hi (_ & Hsz & f & Hfoot & Hf & Hz).
  destruct (Hi f Hf) as [[sole_model Hm] (c & coco_data & Hc & Ha & Hk)].
  assert (Hkeys : keys_missing k = false).
  { apply keys_loaded. destruct (Hi "left") as [_ (? & ? & _ & _ & Hl)]; [by left|].
    destruct (Hi "right") as [_ (? & ? & _ & _ & Hr)]; [by right|].
    rewrite decide_True in Hl by done. rewrite decide_False in Hr by done.
    rewrite Hl, Hr. by eauto. }
  destruct (keys_resolve (categories coco_data)
              (list_to_set (filter (λ name, name ∉ reserved_names)
                 (upper <$> omap id ((λ c, Some (cat_name c)) <$> categories coco_data))))
              (zones_of k q f) eq_refl Hz) as (ids & Hres & _).
  { intros z. unfold zones_of, map_areas.
    intros [?%elem_of_nil|[Hin _]]%foldl_map_area_zones; [done|]. revert Hin.
    destruct (decide (f = "left")); by rewrite Hk. }
  exists f. unfold requested. rewrite Hkeys, Hsz, Hfoot. cbn. rewrite decide_True by done.
  rewrite Hm, Hc. cbn. rewrite Ha. unfold run_generator. rewrite Hres. by eexists.
Qed.

(** ** Replies depend on the inputs only *)

Lemma run_on_ext d d' a :
  d' !! input_stl a = d !! input_stl a → d' !! annotation_path a = d !! annotation_path a →
  (run_on d' a).1 = (run_on d a).1.
Proof.
  intros Hi Ha. unfold run_on. cbn [fst]. apply generator_main_ext; cbn; by rewrite ?Hi, ?Ha.
Qed.

(** The outcome of a command of the handler. *)
Lemma run_command_ext d d' (f : string) (zones : list string) :
  f = "left" ∨ f = "right" → Forall plain zones →
  same_inputs d' d →
  (run_command d' (command_of d' f zones)).1 = (run_command d (command_of d f zones)).1.
Proof.
  intros Hf Hz Hd. change (command_of d' f zones) with (command_of d f zones).
  unfold run_command. rewrite (command_of_args d f zones Hf Hz). cbn [fst].
  destruct (command_of_names f zones Hf) as (Hi & Hj & _). cbv zeta in Hi, Hj.
  destruct (input_names f Hf) as [Hs Hn].
  rewrite (run_on_ext d d'); [done|..]; [rewrite Hi | rewrite Hj]; by apply Hd.
Qed.

(** What the first part of the handler leaves for the second. *)
Lemma prepare_inr k d q (f output : string) (zones command : list string) :
  prepare (VALID_INTERNAL_ZONE_KEYS_LEFT k) (VALID_INTERNAL_ZONE_KEYS_RIGHT k)
          (world_of d) (form_of q) = inr (f, output, zones, command) →
  keys_missing k = false ∧ falsy (http_size q) = false ∧ http_foot q = Some f ∧
  (f = "left" ∨ f = "right") ∧ zones = zones_of k q f ∧ zones ≠ [] ∧
  output = ply_of f ∧ command = command_of d f zones.
Proof.
  intros Hp.
  pose proof (generate_slippers_prepare (world_of d) (VALID_INTERNAL_ZONE_KEYS_LEFT k)
                (VALID_INTERNAL_ZONE_KEYS_RIGHT k) (form_of q)) as Hg. rewrite Hp in Hg.
  destruct (handler_started k d q command) as (f' & Hk & Hs & Hfoot & Hf & Hz & Hc & _);
    [by rewrite Hg|].
  clear Hg. revert Hp. unfold prepare.
  destruct (proj1 (keys_loaded k) Hk) as (vl & vr & Hl & Hr). rewrite Hl, Hr.
  pose proof (zones_of_keys k q vl vr f' Hl Hr) as Hzs.
  change (form_foot (form_of q)) with (http_foot q). rewrite Hfoot.
  destruct (map_areas _ _) as [zs us] eqn:Hm. cbn [fst] in Hzs. subst zs.
  assert (lower (default "" (Some f')) = f') as -> by (by destruct Hf as [-> | ->]).
  repeat (case_decide || destruct (_ || _) || destruct (falsy _) || destruct (file_exists _ _));
    try done.
  all: intros [= <- <- <- <-]; split_and!; try done.
Qed.

(** The reply to a request for the generator does not depend on the
    files the generator writes. *)
Lemma serve_reply_ext k d d' q :
  plain_keys k →
  url_map (http_method q) (http_path q) = Handler GenerateSlippers →
  same_inputs d' d →
  (serve k d' q).1 = (serve k d q).1.
Proof.
  intros Hplain Hroute Hd. unfold serve. rewrite !(handle_generate _ _ _ _ Hroute). cbn [fst].
  rewrite !generate_slippers_prepare.
  rewrite (prepare_ext _ _ (world_of d') (world_of d)); [|done|].
  2: { intros path Hp. cbn. rewrite Hd; [done|].
       apply (bool_decide_unpack _). set_unfold. by destruct Hp as [-> | [-> | []]]. }
  destruct (prepare _ _ _ _) as [r|[[[f output] zones] command]] eqn:Hp; [done|]. cbn [fst].
  apply prepare_inr in Hp as (_ & _ & _ & Hf & Hz & _ & -> & ->). f_equal.
  assert (Hzones : Forall plain zones) by (rewrite Hz; by apply zones_of_plain).
  apply run_script_ext; cbn [run file_exists_after url_for_get_stl world_of]; [|
    |done].
  - exact (run_command_ext d d' f zones Hf Hzones Hd).
  - intros stdout stderr Hrun. change (command_of d f zones) with (command_of d' f zones) in Hrun.
    assert (Hrun' : (run_command d (command_of d f zones)).1 = ScriptDone stdout stderr)
      by (by rewrite <- (run_command_ext d d' f zones Hf Hzones Hd)).
    destruct (run_command_done d f zones Hf Hzones _ _ Hrun')
      as (? & ? & ? & out & _ & _ & _ & _ & E).
    destruct (run_command_done d' f zones Hf Hzones _ _ Hrun)
      as (? & ? & ? & out' & _ & _ & _ & _ & E').
    change (command_of d' f zones) with (command_of d f zones) in E'.
    by rewrite E, E', !with_outputs_lookup_ply.
Qed.

(** ** What a request does to the disk *)

(** A request leaves the disk as it was, or it is a request for the
    generator that asks for a run and is granted. *)
Lemma serve_cases k d q :
  plain_keys k → outputs_writable →
  (serve k d q).2 = d ∨
  ∃ f out, url_map (http_method q) (http_path q) = Handler GenerateSlippers ∧
           requested k d q = Some (f, out) ∧
           serve k d q = (success_reply k q f, with_outputs d f (out_combined out)).
Proof.
  intros Hplain Hw.
  destruct (handle k (world_of d) (send_from_directory d) q).2 as [command|] eqn:Hc;
    [|left; unfold serve; by rewrite Hc].
  apply handle_command in Hc as [Hroute _].
  destruct (decide (reply_status (serve k d q).1 = 200)) as [Hs|Hs];
    [|left; by apply serve_failed_disk].
  destruct (serve_generate_inv k d q Hplain Hroute Hs) as (f & out & Hreq & _). right.
  exists f, out. split_and!; [done..|]. by apply serve_requested.
Qed.

(** On an installation every request of the page is granted, and the
    installation stays one. *)
Lemma installed_serve k d q :
  installed k d → plain_keys k → outputs_writable →
  installed k (serve k d q).2 ∧ (wanted k q → reply_status (serve k d q).1 = 200).
Proof.
  intros Hi Hplain Hw. split.
  - by rewrite serve_same_inputs.
  - intros Hq. destruct (installed_requested k d q Hi Hq) as (f & out & Hreq).
    by rewrite (serve_requested k d q f out (proj1 Hq) Hplain Hw Hreq).
Qed.

Lemma serve_all_same_inputs k d (qs : list http_request) :
  plain_keys k → same_inputs (serve_all k d qs).2 d.
Proof.
  intros Hplain. revert d. induction qs as [|q qs IH]; intros d; [done|].
  change (serve_all k d (q :: qs)).2 with (serve_all k (serve k d q).2 qs).2.
  by rewrite IH, serve_same_inputs.
Qed.

End SystemFacts.

(** ** Starting the application on a disk *)

Section Boot.
Context {content : Type} `{!Codec content} `{!CodecOk content}.
Context {sq : SqrtOp} {tr : TrigOps} {env : Machine}.
Implicit Types (d : gmap string content).

(** The keys loaded when the application starts on a disk whose soles
    and annotations can be read make it an installation. *)
Lemma boot_installed d :
  (∀ f, f = "left" ∨ f = "right" →
     is_Some (d !! sole_of f ≫= decode_mesh) ∧
     ∃ c coco_data,
       d !! annotations_of f = Some c ∧ decode_annotations c = AnnotationsData coco_data) →
  installed (boot d) d.
Proof.
  intros Hd f Hf. destruct (Hd f Hf) as [Hm (c & coco_data & Hc & Ha)].
  split; [done|]. exists c, coco_data. split_and!; [done..|].
  rewrite <- (decode_config_annotations c coco_data Ha). unfold boot, load_keys.
  destruct Hf as [-> | ->]; cbn [VALID_INTERNAL_ZONE_KEYS_LEFT VALID_INTERNAL_ZONE_KEYS_RIGHT];
    [rewrite decide_True by done; change LEFT_ZONE_CONFIG_FILE with (annotations_of "left")
    |rewrite decide_False by done; change RIGHT_ZONE_CONFIG_FILE with (annotations_of "right")];
    by rewrite Hc.
Qed.

(** The keys depend on the two annotation files only. *)
#[export] Instance boot_proper : Proper (same_inputs ==> eq) boot.
Proof.
  intros d' d Hd. unfold boot, load_keys.
  by rewrite !Hd by (apply (bool_decide_unpack _); by vm_compute).
Qed.

End Boot.

(** * The properties *)

Section SystemProperties.
Context {content : Type} `{Codec content} {sq : SqrtOp} {tr : TrigOps} {env : Machine}.
Implicit Types (d : gmap string content) (a : args) (q : http_request) (k : app_keys).

(** C16. The route of the generator implements its specification.  When
    no key starts with a dash and the output files can be written, a
    POST to [/generate_slippers] that asks for a run is answered with
    200, names the PLY file of its foot, and leaves the joined mesh of
    the run of [Pipeline] in the two files of the foot; every other POST
    is answered with 400, 404 or 500 and leaves the disk as it was. *)
Theorem serve_refines k d q :
  url_map (http_method q) (http_path q) = Handler GenerateSlippers →
  plain_keys k → outputs_writable →
  match requested k d q with
  | Some (f, out) => serve k d q = (success_reply k q f, with_outputs d f (out_combined out))
  | None => (serve k d q).2 = d ∧
            ∃ r, (serve k d q).1 = Json r ∧ status r ∈ [400; 404; 500]
  end.
Proof.
  intros Hroute Hplain Hw. destruct (requested k d q) as [[f out]|] eqn:Hreq;
    [by apply serve_requested|].
  assert (Hs : reply_status (serve k d q).1 ≠ 200).
  { intros Hs. destruct (serve_generate_inv k d q Hplain Hroute Hs) as (? & ? & ? & _).
    congruence. }
  split; [by apply serve_failed_disk|]. revert Hs. unfold serve.
  rewrite (handle_generate _ _ _ _ Hroute). cbn [fst reply_status]. intros Hs.
  eexists. split; [done|].
  pose proof (generate_slippers_post_status (world_of d) (VALID_INTERNAL_ZONE_KEYS_LEFT k)
                (VALID_INTERNAL_ZONE_KEYS_RIGHT k) (form_of q)
                (proj2 (proj1 (url_map_generate _ _) Hroute))).
  set_solver.
Qed.

(** C22. The address in a reply leads to the mesh that was asked for.
    When no key starts with a dash and a POST to [/generate_slippers] is
    answered with a file name and an address, the address is the one of
    [/get_stl] for that name on this server, and the next GET of it is
    answered with the joined mesh of the run the request asked for, as
    exported under that name. *)
Theorem generate_then_get_stl k d q (message filename url : string) :
  plain_keys k →
  url_map (http_method q) (http_path q) = Handler GenerateSlippers →
  (serve k d q).1 = Json (mkResponse 200 (SuccessBody message filename url)) →
  url = host +:+ http_path (get_file filename) ∧
  ∃ f out, requested k d q = Some (f, out) ∧
    serve k (serve k d q).2 (get_file filename)
    = (FileBody (encode_mesh filename (out_combined out)), (serve k d q).2).
Proof.
  intros Hplain Hroute Hreply.
  destruct (serve_generate_inv k d q Hplain Hroute) as (f & out & Hreq & Hd & Hr);
    [by rewrite Hreply|].
  rewrite Hr in Hreply. injection Hreply as _ <- <-. split; [done|].
  exists f, out. split; [done|]. rewrite Hd.
  apply serve_get_file; [apply ply_of_ne | apply with_outputs_lookup_ply].
Qed.

(** C25. Requests change nothing but the four files the generator is made
    to write.  When no key starts with a dash, after any sequence of
    requests every other file is as it was, the application would start
    again with the same keys, and what a request asks for is what it
    asked for before. *)
Theorem serve_all_frame k d (qs : list http_request) :
  plain_keys k →
  let d' := (serve_all k d qs).2 in
  same_inputs d' d ∧
  boot d' = boot d ∧
  ∀ q, requested k d' q = requested k d q.
Proof.
  intros Hplain d'.
  assert (Hd : same_inputs d' d) by by apply serve_all_same_inputs.
  split_and!; [done | by rewrite Hd | intros q; by rewrite Hd].
Qed.

(** C17. An installation serves.  When the soles and the annotations of
    both feet can be read, the keys of the application are those of the
    annotations, no key starts with a dash and the output files can be
    written, then in every sequence of requests every POST to
    [/generate_slippers] with a foot, a size and a known area is
    answered with 200, whatever was served before it. *)
Theorem installed_serves_all k d (qs : list http_request) :
  installed k d → plain_keys k → outputs_writable →
  installed k (serve_all k d qs).2 ∧
  Forall2 (λ q r, wanted k q → reply_status r = 200) qs (serve_all k d qs).1.
Proof.
  intros Hi Hplain Hw. revert d Hi. induction qs as [|q qs IH]; intros d Hi; [by split|].
  destruct (installed_serve k d q Hi Hplain Hw) as [Hi' Hq].
  destruct (IH _ Hi') as [Hi'' Hqs]. split; [done|]. by constructor.
Qed.

(** C24. A later request for the same foot replaces the mesh of an earlier
    one.  After two granted requests for one foot the address given in
    the first reply leads to the mesh of the second request. *)
Theorem later_request_overwrites k d q1 q2 (f : string) (out1 out2 : run_output) :
  url_map (http_method q1) (http_path q1) = Handler GenerateSlippers →
  url_map (http_method q2) (http_path q2) = Handler GenerateSlippers →
  plain_keys k → outputs_writable →
  requested k d q1 = Some (f, out1) → requested k d q2 = Some (f, out2) →
  let d1 := (serve k d q1).2 in
  let d2 := (serve k d1 q2).2 in
  (serve k d1 (get_file (ply_of f))).1
    = FileBody (encode_mesh (ply_of f) (out_combined out1)) ∧
  (serve k d2 (get_file (ply_of f))).1
    = FileBody (encode_mesh (ply_of f) (out_combined out2)).
Proof.
  intros Hr1 Hr2 Hplain Hw Hq1 Hq2 d1 d2.
  assert (Hq2' : requested k d1 q2 = Some (f, out2)).
  { rewrite <- Hq2. unfold d1. by rewrite serve_same_inputs. }
  subst d2 d1. rewrite (serve_requested k _ q2 f out2 Hr2 Hplain Hw Hq2').
  rewrite (serve_requested k d q1 f out1 Hr1 Hplain Hw Hq1). cbn [snd].
  split; (erewrite serve_get_file; [done | apply ply_of_ne | apply with_outputs_lookup_ply]).
Qed.

(** Serving a request a second time gives the same reply and leaves
    the disk as the first time left it. *)
Theorem serve_idempotent k d q :
  plain_keys k → outputs_writable → serve k (serve k d q).2 q = serve k d q.
Proof.
  intros Hplain Hw. destruct (serve_cases k d q Hplain Hw)
    as [->|(f & out & Hroute & Hreq & E)]; [done|].
  rewrite E. cbn [snd]. rewrite (serve_requested k _ q f out Hroute Hplain Hw).
  - by rewrite with_outputs_idemp.
  - pose proof (serve_same_inputs k d q Hplain) as Hd. rewrite E in Hd.
    by rewrite <- Hreq, Hd.
Qed.

End SystemProperties.

(** * A concrete installation *)

(** Files that hold what they were made from: a sole, the annotations,
    or a mesh exported under a name. *)
Inductive demo_content : Type :=
| SoleFile (sole_model : SoleMesh)
| AnnotationFile (coco_data : coco)
| ExportedMesh (path : string) (combined : trimesh).

#[export] Instance demo_codec : Codec demo_content := {|
  decode_mesh c := match c with SoleFile sole_model => Some sole_model | _ => None end;
  decode_annotations c :=
    match c with AnnotationFile coco_data => AnnotationsData coco_data
            | _ => AnnotationsUnreadable end;
  decode_config c :=
    match c with AnnotationFile coco_data => config_of (categories coco_data)
            | _ => ConfigUnreadable end;
  encode_mesh := ExportedMesh
|}.

#[export] Instance demo_codec_ok : CodecOk demo_content.
Proof. split. intros [| data |] coco_data; try done. by intros [= ->]. Qed.

#[local] Existing Instance bhaskara_trig.

#[local] Instance demo_machine : Machine := {|
  python := "python3";
  host := "http://localhost:5000";
  writable := λ _, true;
  printed := λ _, ("", "");
  early_output := λ _, ("", "")
|}.

(** The slab of the scenarios as the sole of both feet, and the
    annotations of the fourth scenario for both. *)
Definition demo_disk : gmap string demo_content :=
  <["Shoe_Sole_UK_8_Left.stl" := SoleFile slab100_mesh]>
    (<["Shoe_Sole_UK_8_Right.stl" := SoleFile slab100_mesh]>
       (<["Left_reflexology_zones.json" := AnnotationFile scenario_outside]>
          (<["Right_reflexology_zones.json" := AnnotationFile scenario_outside]> ∅))).

Definition demo_app : app_keys := boot demo_disk.

Definition demo_post : http_request :=
  mkHttp "POST" "/generate_slippers" ["heart"; "toe"] (Some "left") (Some "8").

Definition demo_post_again : http_request :=
  mkHttp "POST" "/generate_slippers" ["HEART"] (Some "left") (Some "9").

Lemma demo_app_keys : demo_app = mkKeys (Some {["HEART"]}) (Some {["HEART"]}).
Proof. by vm_compute. Qed.

Lemma demo_plain_keys : plain_keys demo_app.
Proof.
  rewrite demo_app_keys. intros keys z [[= <-]|[= <-]] ->%elem_of_singleton; reflexivity.
Qed.

Lemma demo_writable : outputs_writable.
Proof. by intros path _. Qed.

Lemma demo_installed : installed demo_app demo_disk.
Proof.
  apply boot_installed. intros f [-> | ->]; (split; [by eexists|]);
    by exists (AnnotationFile scenario_outside), scenario_outside.
Qed.

(** What the two requests ask for: the run of the fourth scenario. *)
Lemma demo_requested q :
  q = demo_post ∨ q = demo_post_again →
  requested demo_app demo_disk q = Some ("left", outside_output).
Proof.
  intros Hq. unfold requested.
  replace (keys_missing demo_app || falsy (http_size q)) with false
    by (by destruct Hq as [-> | ->]; vm_compute).
  replace (http_foot q) with (Some "left") by (by destruct Hq as [-> | ->]).
  cbn [mbind option_bind].
  replace (zones_of demo_app q "left") with ["HEART"] by (by destruct Hq as [-> | ->]; vm_compute).
  rewrite decide_True by (split; [by left | done]).
  change (demo_disk !! sole_of "left" ≫= decode_mesh) with (Some slab100_mesh).
  change (demo_disk !! annotations_of "left") with (Some (AnnotationFile scenario_outside)).
  cbn [mbind option_bind decode_annotations demo_codec]. by rewrite outside_runs.
Qed.

(** The first request is granted: the reply names the file of the left
    foot and the address below [/get_stl]. *)
Example demo_serve :
  (serve demo_app demo_disk demo_post).1 =
  Json (mkResponse 200
          (SuccessBody "Generation successful for left foot. Processed zones: HEART"
             "sole_with_spikes_left.ply"
             "http://localhost:5000/get_stl/sole_with_spikes_left.ply")).
Proof.
  rewrite (serve_requested demo_app demo_disk demo_post "left" outside_output);
    [by vm_compute | by vm_compute | apply demo_plain_keys | apply demo_writable
    | apply demo_requested; by left].
Qed.

(** A GET on the route of the generator is answered by the framework. *)
Example demo_get_generate :
  serve demo_app demo_disk (mkHttp "GET" "/generate_slippers" [] None None)
  = (Framework 405, demo_disk).
Proof. reflexivity. Qed.

(** A file that is not there: the framework answers, not the handler. *)
Example demo_get_missing :
  serve demo_app demo_disk (get_file "sole_with_spikes_left.ply") = (Framework 404, demo_disk).
Proof. reflexivity. Qed.

(** Any file of the directory is sent, the annotations included. *)
Example demo_get_annotations :
  (serve demo_app demo_disk (get_file "Left_reflexology_zones.json")).1
  = FileBody (AnnotationFile scenario_outside).
Proof. reflexivity. Qed.

(** A key that starts with a dash: the generator takes it for an
    option it does not know and ends with the message of its parser,
    so the request is answered with 500 and nothing is written. *)
Definition dash_app : app_keys := mkKeys (Some {["-TOE"]}) (Some {["-TOE"]}).

Definition post_dash : http_request :=
  mkHttp "POST" "/generate_slippers" ["-toe"] (Some "left") (Some "8").

Example dash_key_refused :
  (handle dash_app (world_of demo_disk) (send_from_directory demo_disk) post_dash).2 =
    Some (command_of demo_disk "left" ["-TOE"]) ∧
  run_command demo_disk (command_of demo_disk "left" ["-TOE"]) =
    (ScriptFailed 2 "" "", demo_disk) ∧
  (serve dash_app demo_disk post_dash).1 =
    Json (error 500 "Error during generation: Unknown script error").
Proof. split_and!; reflexivity. Qed.

Lemma serve_refines_witness :
  match requested demo_app demo_disk demo_post with
  | Some (f, out) =>
      serve demo_app demo_disk demo_post
      = (success_reply demo_app demo_post f, with_outputs demo_disk f (out_combined out))
  | None => (serve demo_app demo_disk demo_post).2 = demo_disk ∧
            ∃ r, (serve demo_app demo_disk demo_post).1 = Json r ∧ status r ∈ [400; 404; 500]
  end.
Proof.
  apply (serve_refines demo_app demo_disk demo_post);
    [by vm_compute | apply demo_plain_keys | apply demo_writable].
Defined.

Lemma generate_then_get_stl_witness :
  "http://localhost:5000/get_stl/sole_with_spikes_left.ply"
  = host +:+ http_path (get_file "sole_with_spikes_left.ply") ∧
  ∃ f out, requested demo_app demo_disk demo_post = Some (f, out) ∧
    serve demo_app (serve demo_app demo_disk demo_post).2
      (get_file "sole_with_spikes_left.ply")
    = (FileBody (encode_mesh "sole_with_spikes_left.ply" (out_combined out)),
       (serve demo_app demo_disk demo_post).2).
Proof.
  apply (generate_then_get_stl demo_app demo_disk demo_post
           "Generation successful for left foot. Processed zones: HEART");
    [apply demo_plain_keys | by vm_compute | apply demo_serve].
Defined.

Lemma serve_all_frame_witness :
  let d' := (serve_all demo_app demo_disk [demo_post; demo_post_again]).2 in
  same_inputs d' demo_disk ∧
  boot d' = boot demo_disk ∧
  ∀ q, requested demo_app d' q = requested demo_app demo_disk q.
Proof.
  apply (serve_all_frame demo_app demo_disk [demo_post; demo_post_again]), demo_plain_keys.
Defined.

Lemma installed_serves_all_witness :
  installed demo_app
    (serve_all demo_app demo_disk
       [demo_post; get_file "sole_with_spikes_left.ply"; demo_post_again]).2 ∧
  Forall2 (λ q r, wanted demo_app q → reply_status r = 200)
    [demo_post; get_file "sole_with_spikes_left.ply"; demo_post_again]
    (serve_all demo_app demo_disk
       [demo_post; get_file "sole_with_spikes_left.ply"; demo_post_again]).1.
Proof.
  apply (installed_serves_all demo_app demo_disk);
    [apply demo_installed | apply demo_plain_keys | apply demo_writable].
Defined.

Lemma later_request_overwrites_witness :
  let d1 := (serve demo_app demo_disk demo_post).2 in
  let d2 := (serve demo_app d1 demo_post_again).2 in
  (serve demo_app d1 (get_file (ply_of "left"))).1
    = FileBody (encode_mesh (ply_of "left") (out_combined outside_output)) ∧
  (serve demo_app d2 (get_file (ply_of "left"))).1
    = FileBody (encode_mesh (ply_of "left") (out_combined outside_output)).
Proof.
  apply (later_request_overwrites demo_app demo_disk demo_post demo_post_again "left"
           outside_output outside_output);
    [by vm_compute | by vm_compute | apply demo_plain_keys | apply demo_writable
    | apply demo_requested; by left | apply demo_requested; by right].
Defined.

Lemma serve_idempotent_witness :
  serve demo_app (serve demo_app demo_disk demo_post).2 demo_post
  = serve demo_app demo_disk demo_post.
Proof.
  apply (serve_idempotent demo_app demo_disk demo_post);
    [apply demo_plain_keys | apply demo_writable].
Defined.

(** ** Two requests for one foot

    The annotations of the first scenario for the left foot: a request
    for the heart places 80 bumps, a request for the liver 30.  After
    both, the address given to the first client leads to the mesh with
    the 30 bumps of the second. *)
Definition scenario_disk : gmap string demo_content :=
  <["Left_reflexology_zones.json" := AnnotationFile scenario_data]> demo_disk.

Definition scenario_app : app_keys := boot scenario_disk.

Definition post_heart : http_request :=
  mkHttp "POST" "/generate_slippers" ["heart"] (Some "left") (Some "8").

Definition post_liver : http_request :=
  mkHttp "POST" "/generate_slippers" ["liver"] (Some "left") (Some "8").

Definition scenario_output (id : Z) : run_output :=
  let st := scenario_run [id] in
  mkOutput st ([] ++ messages st) (concatenate (spikes st))
           (@make_report sqrt_fixed_op (@run_frame slab100_mesh scenario_data) st).

Lemma scenario_plain_keys : plain_keys scenario_app.
Proof.
  assert (scenario_app = mkKeys (Some {["HEART"; "LIVER"]}) (Some {["HEART"]})) as ->
    by (by vm_compute).
  intros keys z [[= <-]|[= <-]] Hz; set_unfold; destruct_or?; by subst.
Qed.

Lemma scenario_requested q (zone : string) (id : Z) :
  q = post_heart ∧ zone = "HEART" ∧ id = 1%Z ∨ q = post_liver ∧ zone = "LIVER" ∧ id = 2%Z →
  requested scenario_app scenario_disk q = Some ("left", scenario_output id).
Proof.
  intros Hq. unfold requested.
  replace (keys_missing scenario_app || falsy (http_size q)) with false
    by (by destruct Hq as [(-> & _)|(-> & _)]; vm_compute).
  replace (http_foot q) with (Some "left") by (by destruct Hq as [(-> & _)|(-> & _)]).
  cbn [mbind option_bind].
  replace (zones_of scenario_app q "left") with [zone]
    by (by destruct Hq as [(-> & -> & _)|(-> & -> & _)]; vm_compute).
  rewrite decide_True by (split; [by left | done]).
  change (scenario_disk !! sole_of "left" ≫= decode_mesh) with (Some slab100_mesh).
  change (scenario_disk !! annotations_of "left") with (Some (AnnotationFile scenario_data)).
  cbn [mbind option_bind decode_annotations demo_codec]. unfold run_generator.
  assert (resolve (categories scenario_data) [zone] = inr ([id], [])) as ->
    by (by destruct Hq as [(_ & -> & ->)|(_ & -> & ->)]; vm_compute).
  reflexivity.
Qed.

Lemma post_route q :
  q = post_heart ∨ q = post_liver →
  url_map (http_method q) (http_path q) = Handler GenerateSlippers.
Proof. by intros [-> | ->]; vm_compute. Qed.

Lemma heart_requested :
  requested scenario_app scenario_disk post_heart = Some ("left", scenario_output 1).
Proof. apply (scenario_requested post_heart "HEART"). by left. Qed.

Lemma liver_requested (d : gmap string demo_content) :
  same_inputs d scenario_disk →
  requested scenario_app d post_liver = Some ("left", scenario_output 2).
Proof.
  intros Hd. rewrite Hd.
  apply (scenario_requested post_liver "LIVER"). by right.
Qed.

Example demo_overwrite :
  let d1 := (serve scenario_app scenario_disk post_heart).2 in
  let d2 := (serve scenario_app d1 post_liver).2 in
  (serve scenario_app scenario_disk post_heart).1 = success_reply scenario_app post_heart "left" ∧
  (serve scenario_app d2 (get_file (ply_of "left"))).1
  = FileBody (ExportedMesh (ply_of "left") (out_combined (scenario_output 2))) ∧
  spike_count (out_state (scenario_output 1)) = 80 ∧
  spike_count (out_state (scenario_output 2)) = 30.
Proof.
  intros d1 d2. split; [|split; [|split]].
  - rewrite (serve_requested scenario_app scenario_disk post_heart "left" (scenario_output 1)
               (post_route _ (or_introl eq_refl)) scenario_plain_keys demo_writable
               heart_requested).
    reflexivity.
  - subst d2.
    rewrite (serve_requested scenario_app d1 post_liver "left" (scenario_output 2)
               (post_route _ (or_intror eq_refl)) scenario_plain_keys demo_writable
               (liver_requested d1 (serve_same_inputs _ _ _ scenario_plain_keys))).
    cbn [snd].
    rewrite (serve_get_file _ _ _ _ (ply_of_ne "left") (with_outputs_lookup_ply _ _ _)).
    reflexivity.
  - exact (proj1 (proj2 (proj2 scenario_heart_counts))).
  - exact scenario_liver_count.
Qed.
