(* ===== verification/Concurrent.v ===== *)
(** * Requests served at the same time

    [app.run] of line 173 of [app.py] starts the development server of
    Flask, which serves every request in a thread of its own.  A request
    for the generator then has three parts that other requests can come
    between: the handler up to line 115 ([WebApp.prepare]), the process
    of line 119 with its two exports, and the handler from line 122 on
    ([WebApp.run_script]), which looks for the output file in the
    directory as it is by then.

    A [thread] is a request whose process has been started; it holds the
    local variables of the handler, the outcome the process will have
    and the files it has still to write.  [cstep] is one step of the
    server: a request arrives, a process writes a file, or a handler
    answers.  The process reads the sole and the annotations when it
    starts.  A file is written in one step; what a reader sees of a file
    that is being written is not modelled. *)

From stdpp Require Import gmap strings list.
From Stdlib Require Import QArith.
From S2P Require Import Prelude Numerics Mapper Sampler Bump Compositor Surface Zones Dicts.
From S2P Require Import Placement Metrics Pipeline WebApp Server Cli Startup System.
Local Close Scope Q_scope.
Local Open Scope string_scope.
Local Open Scope list_scope.

Section Concurrent.
Context {content : Type} `{Codec content} {sq : SqrtOp} {tr : TrigOps} {env : Machine}.
Context (k : app_keys).
Implicit Types (d : gmap string content) (q : http_request).

(** ** Threads *)

Record thread : Type := mkThread {
  th_request : http_request;
  (** [target_foot], [expected_output_filename],
      [zones_to_process_internal_keys], [command] *)
  th_foot : string;
  th_output : string;
  th_zones : list string;
  th_command : list string;
  (** what [subprocess.run] will return or raise *)
  th_outcome : script_outcome;
  (** the exports the process has still to do *)
  th_left : list (string * content)
}.

(** The exports of the process started for a command line on a disk, in
    their order, with what they write. *)
Definition writes_of d (command : list string) : list (string * content) :=
  match parse_args (drop 2 command) with
  | Parsed a =>
      from_option
        (λ combined, (λ path, (path, encode_mesh path combined))
                       <$> written (generator_main (files_of d) a))
        [] (combined_of d a)
  | ParsedList | Usage | HelpPrinted => []
  end.

(** The world of the second part of the handler: the outcome is the one
    of its process, the output is looked for on the disk as it is now. *)
Definition world_after (t : thread) d : world :=
  mkWorld python (λ path, bool_decide (is_Some (d !! path)))
          (λ _, th_outcome t)
          (λ _ path, bool_decide (is_Some (d !! path)))
          url_for_get_stl.

(** Lines 122-146 for a thread whose process has ended. *)
Definition answer (t : thread) d : reply content :=
  Json (run_script (world_after t d) (th_foot t) (th_output t) (th_zones t) (th_command t)).

(** A request arrives: it is answered at once when no process is
    started for it, otherwise its process is started. *)
Definition arrive d q : reply content + thread :=
  match url_map (http_method q) (http_path q) with
  | Handler GenerateSlippers =>
      match prepare (VALID_INTERNAL_ZONE_KEYS_LEFT k) (VALID_INTERNAL_ZONE_KEYS_RIGHT k)
                    (world_of d) (form_of q) with
      | inl r => inl (Json r)
      | inr (target_foot, output, zones, command) =>
          inr (mkThread q target_foot output zones command
                        (run_command d command).1 (writes_of d command))
      end
  | _ => inl (handle k (world_of d) (send_from_directory d) q).1
  end.

(** ** Steps *)

(** The server: the disk and the requests in progress. *)
Record server : Type := mkServer {
  sv_disk : gmap string content;
  sv_threads : list thread
}.

Inductive label : Type :=
| Starts (q : http_request)
| Writes (path : string)
| Replies (q : http_request) (r : reply content).

(** What the scheduler chooses: to take a new request, or to let the
    request at a position go one step on. *)
Inductive choice : Type :=
| Arrive (q : http_request)
| Advance (i : nat).

Definition with_left (t : thread) (ws : list (string * content)) : thread :=
  mkThread (th_request t) (th_foot t) (th_output t) (th_zones t) (th_command t)
           (th_outcome t) ws.

Definition advance (s : server) (i : nat) : option (label * server) :=
  t ← sv_threads s !! i;
  match th_left t with
  | (path, c) :: ws =>
      Some (Writes path,
            mkServer (<[path := c]> (sv_disk s)) (<[i := with_left t ws]> (sv_threads s)))
  | [] =>
      Some (Replies (th_request t) (answer t (sv_disk s)),
            mkServer (sv_disk s) (delete i (sv_threads s)))
  end.

Definition step_of (s : server) (ch : choice) : option (label * server) :=
  match ch with
  | Arrive q =>
      match arrive (sv_disk s) q with
      | inl r => Some (Replies q r, s)
      | inr t => Some (Starts q, mkServer (sv_disk s) (sv_threads s ++ [t]))
      end
  | Advance i => advance s i
  end.

(** A schedule, run; a choice that cannot be taken is passed over. *)
Fixpoint run_schedule (s : server) (chs : list choice) : list label * server :=
  match chs with
  | [] => ([], s)
  | ch :: chs =>
      match step_of s ch with
      | Some (l, s') => let r := run_schedule s' chs in (l :: r.1, r.2)
      | None => run_schedule s chs
      end
  end.

(** The steps as a relation. *)
Inductive cstep : server → label → server → Prop :=
| step_reply d ts q r :
    arrive d q = inl r →
    cstep (mkServer d ts) (Replies q r) (mkServer d ts)
| step_start d ts q t :
    arrive d q = inr t →
    cstep (mkServer d ts) (Starts q) (mkServer d (ts ++ [t]))
| step_write d ts i t path c ws :
    ts !! i = Some t → th_left t = (path, c) :: ws →
    cstep (mkServer d ts) (Writes path) (mkServer (<[path := c]> d) (<[i := with_left t ws]> ts))
| step_answer d ts i t :
    ts !! i = Some t → th_left t = [] →
    cstep (mkServer d ts) (Replies (th_request t) (answer t d)) (mkServer d (delete i ts)).

Inductive csteps : server → list label → server → Prop :=
| csteps_nil s : csteps s [] s
| csteps_cons s l s' ls s'' : cstep s l s' → csteps s' ls s'' → csteps s (l :: ls) s''.

(** The disk after a list of exports. *)
Definition write_all d (ws : list (string * content)) : gmap string content :=
  foldl (λ d pc, <[pc.1 := pc.2]> d) d ws.

(** The schedule that lets the first thread go on until it has answered. *)
Definition finish (t : thread) : list choice := replicate (S (length (th_left t))) (Advance 0).

(** The schedule that lets every thread finish, in the order of arrival. *)
Definition drain (ts : list thread) : list choice := ts ≫= finish.

(** ** The invariant *)

(** A file written by a run that some request asked for on the disk the
    server started with. *)
Definition generated_file (d0 : gmap string content) (path : string) (c : content) : Prop :=
  ∃ q f out, requested k d0 q = Some (f, out) ∧ (path = ply_of f ∨ path = stl_of f) ∧
             c = encode_mesh path (out_combined out).

(** A request in progress: it is a request for the generator; its
    answer is the one of the sequential server as soon as the output is
    there; what it has still to write are files of runs that were asked
    for; and when its process ends well the output is written or still
    to write. *)
Definition thread_ok (d0 d : gmap string content) (t : thread) : Prop :=
  url_map (http_method (th_request t)) (http_path (th_request t)) = Handler GenerateSlippers ∧
  (∀ d', (∀ stdout stderr, th_outcome t = ScriptDone stdout stderr →
            is_Some (d' !! th_output t)) →
         answer t d' = (serve k d0 (th_request t)).1) ∧
  Forall (λ pc, generated_file d0 pc.1 pc.2) (th_left t) ∧
  (∀ stdout stderr, th_outcome t = ScriptDone stdout stderr →
     th_output t ∈ (th_left t).*1 ∨ is_Some (d !! th_output t)).

(** The server: every file is as it was at the start or was written by
    a run that was asked for, and every thread is in order. *)
Definition server_ok (d0 : gmap string content) (s : server) : Prop :=
  (∀ path, sv_disk s !! path = d0 !! path ∨
           ∃ c, sv_disk s !! path = Some c ∧ generated_file d0 path c) ∧
  Forall (thread_ok d0 (sv_disk s)) (sv_threads s).

End Concurrent.

Arguments thread : clear implicits.
Arguments server : clear implicits.
Arguments label : clear implicits.

(** * Theorems *)

Section ConcurrentFacts.
Context {content : Type} `{Codec content} {sq : SqrtOp} {tr : TrigOps} {env : Machine}.
Context (k : app_keys) (d0 : gmap string content) (Hplain : plain_keys k).
Implicit Types (d : gmap string content) (q : http_request).
Implicit Types (t : thread content) (s : server content).

(** ** The relation and the function *)

Lemma step_of_cstep s (ch : choice) (l : label content) s' :
  step_of k s ch = Some (l, s') → cstep k s l s'.
Proof.
  destruct s as [d ts]. destruct ch as [q|i]; cbn.
  - destruct (arrive k d q) as [r|t] eqn:E; intros [= <- <-]; by constructor.
  - unfold advance. cbn. destruct (ts !! i) as [t|] eqn:Ht; [|done]. cbn.
    destruct (th_left t) as [|[path c] ws] eqn:Hl; intros [= <- <-]; by econstructor.
Qed.

Lemma cstep_step_of s (l : label content) s' :
  cstep k s l s' → ∃ ch, step_of k s ch = Some (l, s').
Proof.
  intros [d ts q r E|d ts q t E|d ts i t path c ws Ht Hl|d ts i t Ht Hl].
  - exists (Arrive q). cbn. by rewrite E.
  - exists (Arrive q). cbn. by rewrite E.
  - exists (Advance i). cbn. unfold advance. cbn. by rewrite Ht; cbn; rewrite Hl.
  - exists (Advance i). cbn. unfold advance. cbn. by rewrite Ht; cbn; rewrite Hl.
Qed.

Lemma run_schedule_csteps s (chs : list choice) :
  csteps k s (run_schedule k s chs).1 (run_schedule k s chs).2.
Proof.
  revert s. induction chs as [|ch chs IH]; intros s; cbn; [constructor|].
  destruct (step_of k s ch) as [[l s']|] eqn:E; [|apply IH].
  cbn. econstructor; [exact (step_of_cstep _ _ _ _ E) | apply IH].
Qed.

(** ** Files *)

Lemma generated_file_name (path : string) (c : content) :
  generated_file k d0 path c → path ∈ generated_names.
Proof.
  intros (q & f & out & (_ & _ & _ & Hf & _)%requested_Some & Hp & _).
  unfold generated_names. destruct Hf as [-> | ->], Hp as [-> | ->]; set_solver.
Qed.

Lemma server_ok_frame s : server_ok k d0 s → same_inputs (sv_disk s) d0.
Proof. intros [Hd _] path Hp. destruct (Hd path) as [?|(c & _ & ?%generated_file_name)]; done. Qed.

(** ** The exports of a process *)

Lemma writes_of_disk d (command : list string) :
  write_all d (writes_of d command) = (run_command d command).2.
Proof.
  unfold write_all, writes_of, run_command.
  cbv zeta. destruct (parse_args (drop 2 command)) as [a| | |]; [|done..]. cbn [snd]. unfold run_on. cbn [snd]. destruct (combined_of d a) as [combined|]; [|done].
  cbn. by rewrite foldl_fmap.
Qed.

Section Command.
Context d (f : string) (zones : list string) (Hf : f = "left" ∨ f = "right").
Context (Hzones : Forall plain zones).

(** A process that ends well writes the two files of the foot. *)
Lemma writes_of_done (stdout stderr : string) :
  (run_command d (command_of d f zones)).1 = ScriptDone stdout stderr →
  ∃ combined,
    writes_of d (command_of d f zones)
    = [(ply_of f, encode_mesh (ply_of f) combined); (stl_of f, encode_mesh (stl_of f) combined)].
Proof.
  unfold run_command, writes_of. rewrite (command_of_args d f zones Hf Hzones).
  set (a := mkArgs _ _ _ _).
  cbn [fst]. destruct (outcome (run_on d a).1) as [e|out] eqn:Hout; [done|]. intros _.
  destruct (run_on_done_written d a out Hout) as [Hw ->]. cbn [from_option].
  change (generator_main (files_of d) a) with (run_on d a).1. rewrite Hw. subst a.
  destruct (command_of_names f zones Hf) as (_ & _ & -> & ->). by eexists.
Qed.

(** Whatever a process writes is under one of the two names. *)
Lemma writes_of_names (path : string) (c : content) :
  (path, c) ∈ writes_of d (command_of d f zones) →
  (path = ply_of f ∨ path = stl_of f) ∧
  ∃ combined, combined_of d (mkArgs f (sole_of f) (Some (ply_of f)) zones) = Some combined ∧
              c = encode_mesh path combined.
Proof.
  unfold writes_of. rewrite (command_of_args d f zones Hf Hzones).
  destruct (combined_of d _) as [combined|]; [|by intros ?%elem_of_nil]. cbn.
  intros (p & [= -> ->] & Hp)%list_elem_of_fmap. split; [|by eexists].
  destruct (command_of_names f zones Hf) as (_ & _ & Ho & Hs). cbv zeta in Ho, Hs.
  destruct (generator_main_cases (files_of d) (mkArgs f (sole_of f) (Some (ply_of f)) zones))
    as [[e E]|(? & ? & out & _ & _ & _ & _ & E)]; rewrite E in Hp; [by apply elem_of_nil in Hp|].
  apply export_written in Hp. rewrite Ho, Hs in Hp. set_solver.
Qed.

End Command.

(** ** Arrivals *)

Section Arrival.
Context d q (Hd : same_inputs d d0).

(** A request for the generator that is refused at once is refused as
    by the sequential server. *)
Lemma arrive_reply (r : reply content) :
  url_map (http_method q) (http_path q) = Handler GenerateSlippers →
  arrive k d q = inl r → r = (serve k d0 q).1.
Proof.
  intros Hroute. unfold arrive. rewrite Hroute.
  destruct (prepare _ _ _ _) as [r'|[[[f output] zones] command]] eqn:Hp; [|done].
  intros [= <-]. rewrite <- (serve_reply_ext k d0 d q Hplain Hroute Hd). unfold serve.
  rewrite (handle_generate _ _ _ _ Hroute). cbn [fst]. by rewrite generate_slippers_prepare, Hp.
Qed.

(** A thread is in order when it starts. *)
Lemma arrive_thread_ok t : arrive k d q = inr t → thread_ok k d0 d t.
Proof.
  unfold arrive. destruct (url_map _ _) as [[| |?|]| | |] eqn:Hroute; try done.
  destruct (prepare _ _ _ _) as [r|[[[f output] zones] command]] eqn:Hp; [done|].
  intros [= <-]. unfold thread_ok. cbn [th_request th_outcome th_output th_left].
  pose proof (prepare_inr k d q f output zones command Hp)
    as (Hk & Hs & Hfoot & Hf & -> & Hz & -> & ->).
  split_and!; [done| | |].
  - intros d' Hd'. unfold answer. cbn [th_foot th_output th_zones th_command].
    rewrite <- (serve_reply_ext k d0 d q Hplain Hroute Hd). unfold serve.
    rewrite (handle_generate _ _ _ _ Hroute). cbn [fst]. rewrite generate_slippers_prepare, Hp.
    cbn [fst]. f_equal.
    apply run_script_ext;
      cbn [run file_exists_after WebApp.url_for_get_stl world_of world_after th_outcome];
      [done| |done].
    intros stdout stderr Hrun. rewrite bool_decide_eq_true_2 by eauto.
    destruct (run_command_done d f _ Hf (zones_of_plain k q f Hplain) _ _ Hrun)
      as (? & ? & ? & out & _ & _ & _ & _ & ->).
    by rewrite with_outputs_lookup_ply, bool_decide_eq_true_2 by eauto.
  - apply Forall_forall. intros [path c] Hin.
    apply (writes_of_names d f _ Hf (zones_of_plain k q f Hplain)) in Hin
      as [Hpath (combined & Hc & ->)].
    destruct (combined_of_requested k d q f combined Hk Hs Hfoot Hf Hz Hc) as (out & Hreq & ->).
    exists q, f, out. split_and!; [|done..].
    by rewrite <- Hreq, Hd.
  - intros stdout stderr Hrun. left.
    destruct (writes_of_done d f _ Hf (zones_of_plain k q f Hplain) _ _ Hrun) as [combined ->].
    set_solver.
Qed.

End Arrival.

(** ** Steps keep the invariant *)

Lemma thread_ok_insert d t (path : string) (c : content) :
  thread_ok k d0 d t → thread_ok k d0 (<[path := c]> d) t.
Proof.
  intros (Hroute & Hr & Hw & Ho). split_and!; [done..|].
  intros stdout stderr Hd. destruct (Ho _ _ Hd) as [?|Hs]; [by left|right].
  destruct (decide (th_output t = path)) as [->|?]; [by rewrite lookup_insert_eq|].
  by rewrite lookup_insert_ne.
Qed.

Lemma thread_ok_write d t (path : string) (c : content) (ws : list (string * content)) :
  thread_ok k d0 d t → th_left t = (path, c) :: ws →
  generated_file k d0 path c ∧ thread_ok k d0 (<[path := c]> d) (with_left t ws).
Proof.
  intros (Hroute & Hr & Hw & Ho) Hl. rewrite Hl in Hw, Ho.
  apply Forall_cons in Hw as [Hg Hw]. split; [done|]. split_and!; [done..|].
  cbn [with_left th_outcome th_output th_left]. intros stdout stderr Hd.
  destruct (Ho _ _ Hd) as [[->|?]%elem_of_cons|Hs]; cbn [fst].
  - right. by rewrite lookup_insert_eq.
  - by left.
  - right. destruct (decide (th_output t = path)) as [->|?]; [by rewrite lookup_insert_eq|].
    by rewrite lookup_insert_ne.
Qed.

Lemma cstep_ok s (l : label content) s' : server_ok k d0 s → cstep k s l s' → server_ok k d0 s'.
Proof.
  intros Hok Hstep. pose proof (server_ok_frame s Hok) as Hframe.
  unfold server_ok in *.
  destruct Hok as [Hd Hts].
  destruct Hstep as [d ts q r E|d ts q t E|d ts i t path c ws Ht Hl|d ts i t Ht Hl];
    cbn [sv_disk sv_threads] in *.
  - by split.
  - split; [done|]. apply Forall_app. split; [done|]. apply Forall_singleton.
    by apply (arrive_thread_ok d q).
  - destruct (thread_ok_write d t path c ws (Forall_lookup_1 _ _ _ _ Hts Ht) Hl) as [Hg Ht'].
    split.
    + intros p. destruct (decide (p = path)) as [->|Hne].
      * right. exists c. by rewrite lookup_insert_eq.
      * rewrite lookup_insert_ne by done. apply Hd.
    + apply Forall_insert; [|done]. eapply Forall_impl; [done|].
      intros t'. apply thread_ok_insert.
  - split; [done|]. by apply Forall_delete.
Qed.

Lemma csteps_ok s (ls : list (label content)) s' :
  server_ok k d0 s → csteps k s ls s' → server_ok k d0 s'.
Proof. intros Hok Hsteps. induction Hsteps; eauto using cstep_ok. Qed.

Lemma server_start_ok : server_ok k d0 (mkServer d0 []).
Proof. split; [by left | constructor]. Qed.

(** The reply of a step is the reply of the sequential server. *)
Lemma cstep_reply s q (r : reply content) s' :
  server_ok k d0 s → cstep k s (Replies q r) s' →
  url_map (http_method q) (http_path q) = Handler GenerateSlippers →
  r = (serve k d0 q).1.
Proof.
  intros Hok Hstep Hroute. pose proof (server_ok_frame s Hok) as Hframe.
  destruct Hok as [Hd Hts].
  inversion Hstep as [d ts q' r' E| | |d ts i t Ht Hl]; subst; cbn [sv_disk sv_threads] in *.
  - by apply (arrive_reply d q).
  - destruct (Forall_lookup_1 _ _ _ _ Hts Ht) as (_ & Hr & _ & Ho). apply Hr.
    intros stdout stderr Hdone. destruct (Ho _ _ Hdone) as [Hin|?]; [|done].
    rewrite Hl in Hin. by apply elem_of_nil in Hin.
Qed.

(** ** Schedules *)

Lemma run_schedule_app s (chs1 chs2 : list choice) :
  run_schedule k s (chs1 ++ chs2) =
  ((run_schedule k s chs1).1 ++ (run_schedule k (run_schedule k s chs1).2 chs2).1,
   (run_schedule k (run_schedule k s chs1).2 chs2).2).
Proof.
  revert s. induction chs1 as [|ch chs1 IH]; intros s; cbn; [by destruct (run_schedule _ _ _)|].
  destruct (step_of k s ch) as [[l s']|]; [|apply IH]. cbn. by rewrite IH.
Qed.

Lemma run_schedule_cons s (ch : choice) (chs : list choice) :
  run_schedule k s (ch :: chs) =
  match step_of k s ch with
  | Some (l, s') => (l :: (run_schedule k s' chs).1, (run_schedule k s' chs).2)
  | None => run_schedule k s chs
  end.
Proof. done. Qed.

Lemma step_of_first d t (ts : list (thread content)) :
  step_of k (mkServer d (t :: ts)) (Advance 0) =
  match th_left t with
  | (path, c) :: ws => Some (Writes path, mkServer (<[path := c]> d) (with_left t ws :: ts))
  | [] => Some (Replies (th_request t) (answer t d), mkServer d ts)
  end.
Proof. done. Qed.

(** The first thread, left to itself: it writes what it has to write and
    answers. *)
Lemma run_finish d t (ts : list (thread content)) :
  run_schedule k (mkServer d (t :: ts)) (finish t) =
  ((Writes <$> (th_left t).*1) ++ [Replies (th_request t) (answer t (write_all d (th_left t)))],
   mkServer (write_all d (th_left t)) ts).
Proof.
  unfold finish. remember (th_left t) as ws eqn:Hws. revert d t Hws.
  induction ws as [|[path c] ws IH]; intros d t Hws;
    change (replicate (S ?n) (Advance 0)) with (Advance 0 :: replicate n (Advance 0));
    rewrite run_schedule_cons, step_of_first, <- Hws; [done|].
  by rewrite (IH (<[path := c]> d) (with_left t ws) eq_refl).
Qed.

(** The disk only gains files. *)
Lemma write_all_is_Some d (ws : list (string * content)) (path : string) :
  path ∈ ws.*1 ∨ is_Some (d !! path) → is_Some (write_all d ws !! path).
Proof.
  unfold write_all. revert d. induction ws as [|[p c] ws IH]; intros d; cbn.
  - by intros [?%elem_of_nil|?].
  - intros Hp. apply IH. destruct (decide (path = p)) as [->|Hne];
      [right; by rewrite lookup_insert_eq|].
    rewrite lookup_insert_ne by done. set_solver.
Qed.

(** Every thread of a pool answers when the pool is drained. *)
Lemma run_drain d (ts : list (thread content)) :
  sv_threads (run_schedule k (mkServer d ts) (drain ts)).2 = [] ∧
  ∀ t, t ∈ ts → ∃ r, Replies (th_request t) r ∈ (run_schedule k (mkServer d ts) (drain ts)).1.
Proof.
  revert d. induction ts as [|t ts IH]; intros d; [split; [done | by intros t ?%elem_of_nil]|].
  change (drain (t :: ts)) with (finish t ++ drain ts).
  rewrite run_schedule_app, run_finish. cbn [fst snd]. destruct (IH (write_all d (th_left t)))
    as [Hnil Hall]. split; [done|].
  intros t' [->|Hin]%elem_of_cons.
  - eexists. apply elem_of_app. left. apply elem_of_app. right. by apply list_elem_of_singleton.
  - destruct (Hall t' Hin) as [r Hr]. exists r. apply elem_of_app. by right.
Qed.

(** ** Executions *)

Lemma csteps_reply s (ls : list (label content)) s' q (r : reply content) :
  server_ok k d0 s → csteps k s ls s' → Replies q r ∈ ls →
  url_map (http_method q) (http_path q) = Handler GenerateSlippers →
  r = (serve k d0 q).1.
Proof.
  intros Hok Hsteps Hin Hroute. induction Hsteps as [|s l s' ls s'' Hstep _ IH];
    [by apply elem_of_nil in Hin|].
  apply elem_of_cons in Hin as [<-|Hin]; [by eapply cstep_reply|].
  apply IH; [by eapply cstep_ok | done].
Qed.

(** The outcome a thread holds is the outcome of its process. *)
Lemma arrive_outcome d q t :
  arrive k d q = inr t → th_outcome t = (run_command d (th_command t)).1.
Proof.
  unfold arrive. destruct (url_map _ _) as [[| |?|]| | |]; try done.
  by destruct (prepare _ _ _ _) as [?|[[[f output] zones] command]]; intros [= <-].
Qed.

(** ** A request that asks for a run, arriving *)

Lemma arrive_requested d q (f : string) (out : run_output) :
  url_map (http_method q) (http_path q) = Handler GenerateSlippers →
  outputs_writable → requested k d q = Some (f, out) →
  ∃ stdout stderr,
    arrive k d q =
    inr (mkThread q f (ply_of f) (zones_of k q f) (command_of d f (zones_of k q f))
           (ScriptDone stdout stderr)
           [(ply_of f, encode_mesh (ply_of f) (out_combined out));
            (stl_of f, encode_mesh (stl_of f) (out_combined out))]).
Proof.
  intros Hroute Hw Hreq.
  destruct (run_command_requested k d q f out Hplain Hw Hreq) as (stdout & stderr & Hrun).
  pose proof (run_on_requested k d q f out Hw Hreq) as Hout.
  apply requested_Some in Hreq as (Hk & Hsz & Hfoot & Hf & Hz & sole_model & _ & _ & Hm & _).
  exists stdout, stderr. unfold arrive. rewrite Hroute.
  assert (Hsole : is_Some (d !! sole_of f)) by (destruct (d !! sole_of f); [by eexists | done]).
  pose proof (handler_starts k d q f (proj2 (proj1 (url_map_generate _ _) Hroute)) Hk Hsz
                Hfoot Hf Hz Hsole) as Hs.
  rewrite generate_slippers_prepare in Hs.
  destruct (prepare _ _ _ _) as [r|[[[f' output] zones] command]] eqn:Hp; [done|].
  apply prepare_inr in Hp as (_ & _ & Hfoot' & _ & -> & _ & -> & ->).
  assert (f' = f) as -> by congruence. rewrite Hrun. cbn [fst]. do 2 f_equal.
  unfold writes_of. rewrite (command_of_parsed k d q f Hplain Hf).
  destruct (run_on_done_written d _ out Hout) as [Hwr ->]. cbn [from_option].
  change (generator_main (files_of d) ?a) with (run_on d a).1. rewrite Hwr.
  by destruct (command_of_names f (zones_of k q f) Hf) as (_ & _ & -> & ->).
Qed.

End ConcurrentFacts.

(** * The properties *)

Section ConcurrentProperties.
Context {content : Type} `{Codec content} {sq : SqrtOp} {tr : TrigOps} {env : Machine}.
Context (k : app_keys) (d0 : gmap string content) (Hplain : plain_keys k).
Implicit Types (d : gmap string content) (q : http_request).
Implicit Types (t : thread content) (s : server content).

(** C18. Replies do not depend on the schedule.  When no key starts with
    a dash, in every execution of the server, however the requests in
    progress come between each other, a request for the generator is
    answered as the sequential server answers it on the disk the server
    started with. *)
Theorem concurrent_replies (ls : list (label content)) s q (r : reply content) :
  csteps k (mkServer d0 []) ls s → Replies q r ∈ ls →
  url_map (http_method q) (http_path q) = Handler GenerateSlippers →
  r = (serve k d0 q).1.
Proof. by apply csteps_reply, server_start_ok. Qed.

(** C19. What is on the disk.  When no key starts with a dash, in every
    execution every file is as it was when the server started, or it is
    one of the two files of a foot and holds the mesh of a run that some
    request for that foot asked for; the files of the installation are
    never written. *)
Theorem concurrent_disk (ls : list (label content)) s (path : string) :
  csteps k (mkServer d0 []) ls s →
  (path ∉ generated_names → sv_disk s !! path = d0 !! path) ∧
  (sv_disk s !! path = d0 !! path ∨
   ∃ q f out, requested k d0 q = Some (f, out) ∧ (path = ply_of f ∨ path = stl_of f) ∧
              sv_disk s !! path = Some (encode_mesh path (out_combined out))).
Proof.
  intros Hsteps. pose proof (csteps_ok k d0 Hplain _ _ _ (server_start_ok k d0) Hsteps) as Hok.
  split; [exact (server_ok_frame k d0 Hplain s Hok path)|].
  destruct (proj1 Hok path) as [?|(c & Hc & q & f & out & Hreq & Hp & ->)]; [by left|].
  right. by exists q, f, out.
Qed.


(** C27. The two files of a foot can come from different requests.  When
    two requests for one foot are in progress and the second process
    writes both its files between the two exports of the first, both
    requests are answered with 200, the PLY file holds the mesh of the
    second request and the STL file the mesh of the first. *)
Theorem mixed_files q1 q2 (f : string) (out1 out2 : run_output) :
  url_map (http_method q1) (http_path q1) = Handler GenerateSlippers →
  url_map (http_method q2) (http_path q2) = Handler GenerateSlippers →
  outputs_writable →
  requested k d0 q1 = Some (f, out1) → requested k d0 q2 = Some (f, out2) →
  let r := run_schedule k (mkServer d0 [])
             [Arrive q1; Arrive q2; Advance 0; Advance 1; Advance 1; Advance 0;
              Advance 0; Advance 0] in
  r.1 = [Starts q1; Starts q2; Writes (ply_of f); Writes (ply_of f); Writes (stl_of f);
         Writes (stl_of f); Replies q1 (success_reply k q1 f); Replies q2 (success_reply k q2 f)] ∧
  sv_threads r.2 = [] ∧
  sv_disk r.2 !! ply_of f = Some (encode_mesh (ply_of f) (out_combined out2)) ∧
  sv_disk r.2 !! stl_of f = Some (encode_mesh (stl_of f) (out_combined out1)).
Proof.
  intros Hr1 Hr2 Hw Hq1 Hq2.
  destruct (arrive_requested k Hplain d0 q1 f out1 Hr1 Hw Hq1) as (so1 & se1 & E1).
  destruct (arrive_requested k Hplain d0 q2 f out2 Hr2 Hw Hq2) as (so2 & se2 & E2).
  pose proof (stl_ply_ne f) as Hne.
  cbn [run_schedule step_of sv_disk sv_threads]. rewrite E1. cbn [sv_disk sv_threads app].
  rewrite E2. cbn -[ply_of stl_of success_reply]. unfold answer, run_script. cbn -[ply_of stl_of].
  rewrite !bool_decide_eq_true_2 by (by simplify_map_eq). cbn -[ply_of stl_of].
  split_and!; [done | done | by simplify_map_eq..].
Qed.

(** The sequential server is one of the schedules: a request that
    arrives at an idle server and is left to finish is answered as by
    [serve] and leaves the disk that [serve] leaves. *)
Theorem sequential_schedule d q :
  ∃ ls, run_schedule k (mkServer d [])
          (Arrive q :: drain (match arrive k d q with inl _ => [] | inr t => [t] end))
        = (ls ++ [Replies q (serve k d q).1], mkServer (serve k d q).2 []).
Proof.
  rewrite run_schedule_cons. cbn [step_of sv_disk sv_threads app].
  destruct (arrive k d q) as [r|t] eqn:E.
  - exists []. cbn. revert E. unfold arrive, serve, handle.
    destruct (url_map _ _) as [[| |?|]| | |]; try (by intros [= <-]).
    rewrite generate_slippers_prepare. by destruct (prepare _ _ _ _) as [?|[[[??]?]?]]; intros [= <-].
  - change (drain [t]) with (finish t ++ []). rewrite app_nil_r, run_finish. cbn [fst snd].
    exists (Starts q :: (Writes <$> (th_left t).*1)). revert E. unfold arrive, serve, handle.
    destruct (url_map _ _) as [[| |?|]| | |]; try done.
    rewrite generate_slippers_prepare.
    destruct (prepare _ _ _ _) as [?|[[[f output] zones] command]]; [done|]. intros [= <-].
    cbn [th_left th_request fst snd from_option]. by rewrite writes_of_disk.
Qed.

End ConcurrentProperties.

(** * A concrete execution

    The installation of [System] with the annotations of the first
    scenario: a request for the heart (80 bumps, [scenario_heart_counts])
    and a request for the liver (30 bumps, [scenario_liver_count]), both
    for the left foot. *)

#[local] Existing Instance bhaskara_trig.
#[local] Existing Instance demo_machine.

(** A request without an area, refused at once. *)
Definition post_nothing : http_request :=
  mkHttp "POST" "/generate_slippers" [] (Some "left") (Some "8").

Example post_nothing_refused :
  arrive scenario_app scenario_disk post_nothing
  = inl (Json (error 400 "Please select at least one reflexology area.")).
Proof. by vm_compute. Qed.

(** The thread of the request for the heart. *)
Definition heart_thread : thread demo_content :=
  mkThread post_heart "left" (ply_of "left") (zones_of scenario_app post_heart "left")
    (command_of scenario_disk "left" (zones_of scenario_app post_heart "left"))
    (ScriptDone "" "")
    [(ply_of "left", encode_mesh (ply_of "left") (out_combined (scenario_output 1)));
     (stl_of "left", encode_mesh (stl_of "left") (out_combined (scenario_output 1)))].

(** What the generator prints is left out of the example. *)
Lemma demo_quiet (d : gmap string demo_content) (command : list string) (stdout stderr : string) :
  (run_command d command).1 = ScriptDone stdout stderr → stdout = "" ∧ stderr = "".
Proof.
  unfold run_command. cbv zeta.
  destruct (parse_args _); [|by intros [=]|by intros [=]|by intros [= <- <-]].
  cbn [fst]. by destruct (outcome _); intros [= <- <-].
Qed.

Lemma heart_arrives : arrive scenario_app scenario_disk post_heart = inr heart_thread.
Proof.
  destruct (arrive_requested scenario_app scenario_plain_keys scenario_disk post_heart "left"
              (scenario_output 1) (post_route _ (or_introl eq_refl)) demo_writable
              heart_requested) as (stdout & stderr & E).
  pose proof (arrive_outcome _ _ _ _ E) as Ho. cbn [th_outcome th_command] in Ho.
  symmetry in Ho. apply demo_quiet in Ho as [-> ->]. exact E.
Qed.

(** The server with the request for the heart in progress. *)
Lemma heart_started :
  csteps scenario_app (mkServer scenario_disk []) [Starts post_heart]
         (mkServer scenario_disk [heart_thread]).
Proof. econstructor; [apply step_start, heart_arrives | constructor]. Qed.

Lemma concurrent_replies_witness :
  Json (error 400 "Please select at least one reflexology area.")
  = (serve scenario_app scenario_disk post_nothing).1.
Proof.
  apply (concurrent_replies scenario_app scenario_disk scenario_plain_keys
           [Replies post_nothing (Json (error 400 "Please select at least one reflexology area."))]
           (mkServer scenario_disk []) post_nothing).
  - econstructor; [apply step_reply, post_nothing_refused | constructor].
  - apply list_elem_of_here.
  - by vm_compute.
Defined.

Lemma concurrent_disk_witness :
  ("Left_reflexology_zones.json" ∉ generated_names →
   sv_disk (mkServer scenario_disk [heart_thread]) !! "Left_reflexology_zones.json"
   = scenario_disk !! "Left_reflexology_zones.json") ∧
  (sv_disk (mkServer scenario_disk [heart_thread]) !! "Left_reflexology_zones.json"
   = scenario_disk !! "Left_reflexology_zones.json" ∨
   ∃ q f out, requested scenario_app scenario_disk q = Some (f, out) ∧
              ("Left_reflexology_zones.json" = ply_of f ∨
               "Left_reflexology_zones.json" = stl_of f) ∧
              sv_disk (mkServer scenario_disk [heart_thread]) !! "Left_reflexology_zones.json"
              = Some (encode_mesh "Left_reflexology_zones.json" (out_combined out))).
Proof.
  apply (concurrent_disk scenario_app scenario_disk scenario_plain_keys [Starts post_heart]
           (mkServer scenario_disk [heart_thread]) "Left_reflexology_zones.json").
  apply heart_started.
Defined.


Lemma mixed_files_witness :
  let r := run_schedule scenario_app (mkServer scenario_disk [])
             [Arrive post_heart; Arrive post_liver; Advance 0; Advance 1; Advance 1; Advance 0;
              Advance 0; Advance 0] in
  r.1 = [Starts post_heart; Starts post_liver; Writes (ply_of "left"); Writes (ply_of "left");
         Writes (stl_of "left"); Writes (stl_of "left");
         Replies post_heart (success_reply scenario_app post_heart "left");
         Replies post_liver (success_reply scenario_app post_liver "left")] ∧
  sv_threads r.2 = [] ∧
  sv_disk r.2 !! ply_of "left"
    = Some (encode_mesh (ply_of "left") (out_combined (scenario_output 2))) ∧
  sv_disk r.2 !! stl_of "left"
    = Some (encode_mesh (stl_of "left") (out_combined (scenario_output 1))).
Proof.
  apply (mixed_files scenario_app scenario_disk scenario_plain_keys post_heart post_liver "left"
           (scenario_output 1) (scenario_output 2)
           (post_route _ (or_introl eq_refl)) (post_route _ (or_intror eq_refl))
           demo_writable heart_requested
           (liver_requested scenario_disk (λ _ _, eq_refl))).
Defined.
